(* ===== verification/_CoqProject ===== *)
-Q . S2P
Prelude.v
SwiftNumbers.v
Interfaces.v
Client.v
Concrete.v
Labels.v
Config.v
Media.v
AvEvents.v
UserState.v
Reporting.v
Lifecycle.v
Machine.v
Safety.v
Startup.v
Playback.v
Messages.v
Brokers.v
MediaFlags.v
MediaLabels.v
Program.v
ObjCInterface.v
ObjCScope.v
ObjCImport.v
TrackerHeader.v
TrackerArmv7Header.v
TvOSTrackerHeader.v
Swift4TrackerHeader.v
Swift4TvOSTrackerHeader.v
ComScoreHeader.v
ComScoreFiles.v
SpringHeader.v
TvOSSpringHeader.v
ObjCHelper.v
Headers.v
HeaderScope.v
Swift4.v
