(* ===== verification/Prelude.v ===== *)
(** * A verification library for the Echo analytics client

    Echo is the client library with which an app reports what its user sees and
    plays.  The repository holds the client itself, [src/Echo/EchoClient.swift];
    an Objective-C helper for it, [src/Echo/ObjCHelper.h] and [.m]; and the
    headers of the three analytics libraries that its delegates call, under
    [src/Libraries].  The other classes of Echo (media, users, brokers, label
    cleansing, configuration keys) are not in the repository, and its delegates
    are empty there.  This library models the client, the helper and the headers.

    ** How the program works

    An [EchoClient] owns a list of delegates, one for each analytics library.
    Every public operation checks its arguments and the state of the client,
    sanitises labels, and passes a message to every delegate.  The client also
    owns the current media object and a broker for it, which keeps the position:
    for live media the broker says where playback is, and calls the client back
    when the media is enriched; until then a play can be suppressed, to be
    released later.  The client keeps the user and the device identifier up to
    date with the user promise helper, which can postpone the event of a change
    of user, and it runs a timer for the expiry of a token.

    ** The files

    - Prelude: a state monad whose computations return, trap or throw; relations
      kept by computations ([keeps]); computations that always return; lists and
      strings; the hint databases [keeps], [returns] and [run].
    - SwiftNumbers: [UInt64] as integers in range with trapping subtraction, and
      [TimeInterval] as a binary64 number, with the correctly rounded product and
      the trapping conversion.
    - Interfaces: the classes that are not in the repository, as typeclasses of
      types and operations, with their documented behaviour as classes of laws.
    - Client: the record [EchoClient] of the instance variables
      ([EchoClient.swift], top of the class); [DelegateMsg] and [Call], one
      constructor for each call on another object; the program state [St] (client,
      store of media objects, trace of calls); the class [Oracle] of what other
      objects answer; the primitive actions.
    - Concrete: an instance of all the interfaces, on which the witnesses run.
    - Labels, Config, Media, AvEvents, UserState, Reporting, Lifecycle: the
      operations of [EchoClient.swift] by component, each a definition with the
      name of the Swift method, the lemmas that say what it does, and its theorems.
      The two methods called [sanitiseLabels] are [sanitiseLabels], for
      dictionaries, and [sanitiseKeys], for arrays; [setProducer(name:)] is
      [setProducer_name].
    - Machine: all the operations as one type [Op], their execution, reachability,
      and two interfaces for invariants: a relation between states that is an
      instance of [Frame], because every primitive action has been checked for it,
      and of [StoreFrame], for the writes to the store, is kept by every operation.
      Its theorems, and those of the next files, hold for all sequences of operations.
    - Safety: a logic of total executions; no operation traps.
    - Startup: construction, and the life cycle of delegates and of the pending
      user.
    - Playback: an abstract specification, a protocol that says which messages a
      delegate may get, and the refinement theorem.
    - Messages: what the arguments of the delegates' messages have gone through.
    - Brokers: the running brokers, computed from the trace.
    - MediaFlags: the flags of the media objects in the store.
    - MediaLabels: an abstract delegate that keeps labels, and what it holds when it
      gets a media.
    - Program: the composition: from the construction of a client through any
      operations, all of these invariants together.
    - ObjCInterface: the syntax of Objective-C declarations and their meaning:
      selectors, accessors, conditional compilation, the resolution of a message
      along the superclasses, the values of enumerators.
    - ObjCScope: the names that declarations use, and the rule that they are
      declared before, with a checker that decides it.
    - ObjCImport: what [#import] makes of a set of files, with its termination and
      the files that it includes.
    - TrackerHeader, TrackerArmv7Header, TvOSTrackerHeader, Swift4TrackerHeader,
      Swift4TvOSTrackerHeader, ComScoreHeader, SpringHeader, TvOSSpringHeader: the
      declarations of the headers of [src/Libraries], one definition for each
      interface, protocol and enumeration.  The long member lists are split in parts.
    - ComScoreFiles: the files of the ComScore SDK, with their imports.
    - ObjCHelper: [catchException:error:] and the throwing call that Swift makes
      of it.
    - Headers, HeaderScope, Swift4: the theorems about the declarations, about
      their names and imports, and about the two versions of the trackers.

    ** What the theorems show

    Of the whole program, from the construction on: its invariants hold together
    ([program_correct]).

    Of whole executions: no operation crashes, but for one live timestamp
    conversion ([operations_never_trap]); every delegate gets a sequence of
    messages that the protocol accepts ([client_refines_protocol]); a disabled
    client reports nothing ([disabled_sends_no_event]); all delegates get the same
    messages ([delegates_get_same_messages]) and are started once
    ([delegates_started_once]); the labels and names they get are cleaned, the volumes
    and media lengths checked ([delegates_get_clean_messages]); one broker runs at a time
    ([running_broker_is_current]) and there is one token timer ([one_token_timer]); no
    media is playing and buffering ([never_playing_and_buffering]); no label of a
    media is left for the next ([new_media_inherits_no_label]); the configuration
    is constant ([configuration_is_constant]).

    Of playback: the result of every handler, branch by branch
    ([avPlayEvent_correct], [av_navigation_events_correct],
    [avUserActionEvent_correct], [av_events_without_media], [setMedia_correct]);
    positions do not pass the end of the media ([av_positions_bounded],
    [positionExceedsMediaLength_correct]); a suppressed play is released once
    ([suppressed_then_released], [releaseSuppressedPlay_once]).

    Of users: what an update does on every branch ([setBBCUser_correct],
    [setBBCUser_postponed], [setBBCUser_gate], [setBBCUser_event],
    [setBBCUser_sends_or_postpones]) and that a user who is set while the client
    is disabled is applied when it is enabled and has started ([pending_user_applied]).

    Of configuration and labels: the priority of the layers
    ([collateConfig_priority]), what is valid ([isValidConfig_iff],
    [getDefaultConfig_valid]), construction ([init_correct]), and sanitising
    ([sanitiseLabels_correct]).

    Of the declarations: resolution ends and is right ([resolve_correct]),
    declarations of a message agree along the hierarchy ([declarations_agree]), the
    trackers for the two targets offer the same messages but for one property
    ([trackers_have_same_api]), a client that was compiled against the headers for
    Swift 4 finds its messages in the newer ones ([swift4_compatible]), names are
    declared before use ([declared_before_use]), imports end, include each file once,
    and make self-contained units but for ten files ([comscore_files_self_contained]),
    the Swift classes that can be made with [init] ([tracker_init_available]), and
    enumerators round-trip ([enum_round_trip]).

    Some theorems record behaviour that a reader of the code might not expect:
    [comscore_query_breaks_protocol], [getComScoreDeviceID_correct],
    [disable_leaves_media_active], [suppression_survives_setMedia],
    [empty_key_added_never_removed], [catchException_outcome].

    ** How the model relates to the code

    - A method is a computation of the monad [M St]; [return] in a guard is the
      branch that does nothing; [for delegate in delegates] is [toDelegates], or a
      Fixpoint when the loop carries a variable.  A call on another object is
      appended to the trace, in order; its answer comes from the [Oracle], a
      function of all the calls before it, so that other objects may answer
      differently each time.
    - Media objects are shared: they live in the store [heap], the client and the
      messages hold references, and an assignment to a property writes the store.
      What other objects do to a media object between operations is not modelled,
      nor do they call the client back while an operation runs; callbacks are
      operations of their own, in any order.
    - Dictionaries are finite maps; the order in which Swift visits one is a
      parameter, any permutation of its entries ([dict_order], [config_order]).
    - Swift's [lowercased()] is ASCII here; strings are UTF-8 bytes; the white
      space of the regular expression [\s] is the class that ICU documents,
      given byte by byte.
    - Logging is a call as any other, with the text of its message.
    - In the headers, nullability is kept in the syntax and ignored when types are
      compared; the text of deprecation messages, [warn_unused_result] and the
      preamble that the Swift compiler generates are left out.

    ** Bounds

    No operation of the client needs fuel: all loops are over lists.  Resolution
    of messages takes fuel; one unit for each class of the header and one more are
    enough in every header in which classes are declared once and after their
    superclass ([resolve_correct]).  Imports take fuel; one unit for each file and one
    more are enough, since a file is imported once ([unit_of_correct]).  Positions are [UInt64]; the only subtraction
    on them is guarded, which is part of [operations_never_trap].

    ** What is not modelled

    The empty Swift files (the delegates under [src/Echo/Delegates], and
    [src/Echo/Client/EchoClient.swift]) and [EchoTimestamp], a record without
    operations; the binaries, the project files and the two umbrella headers of the
    framework; the preambles of macros in the generated headers.  Later work: the
    tests' expectations as executions of the machine, the interplay of the delegates'
    declared protocols with the Swift types, and callbacks that arrive while an
    operation runs. *)

From stdpp Require Export base tactics strings list gmap fin_maps pretty.
From Stdlib Require Export ZArith Lia.
#[global] Open Scope string_scope.
#[global] Open Scope list_scope.
#[global] Open Scope Z_scope.

Declare Scope echo_scope.
Delimit Scope echo_scope with echo.
#[global] Open Scope echo_scope.

(** ** Outcomes

    A Swift call can return, stop the process with a runtime trap (an
    arithmetic or conversion precondition that fails), or throw. *)
Inductive Outcome (A : Type) : Type :=
| Ret (a : A)
| Trap
| Throw (reason : string).
Arguments Ret {A} a.
Arguments Trap {A}.
Arguments Throw {A} reason.

(** ** The state monad with outcomes

    The state is kept when the computation traps or throws, so that what was
    done before can be observed. *)
Definition M (St A : Type) : Type := St → Outcome A * St.

Section monad.
Context {St : Type}.

#[global] Instance M_ret : MRet (M St) := λ A a s, (Ret a, s).

#[global] Instance M_bind : MBind (M St) := λ A B f m s,
match m s with
| (Ret a, s') => f a s'
| (Trap, s') => (Trap, s')
| (Throw e, s') => (Throw e, s')
end.

Definition trap {A} : M St A := λ s, (Trap, s).
Definition throw {A} (e : string) : M St A := λ s, (Throw e, s).

(** [for x in l { f x }] *)
Fixpoint forM_ {A} (l : list A) (f : A → M St unit) : M St unit :=
match l with
| [] => mret tt
| x :: l' => f x ;; forM_ l' f
end.

Lemma run_ret {A} (a : A) s : (mret a : M St A) s = (Ret a, s).
Proof. done. Qed.

Lemma run_bind {A B} (m : M St A) (f : A → M St B) s a s' :
m s = (Ret a, s') → (m ≫= f) s = f a s'.
Proof. intros H. unfold mbind, M_bind. by rewrite H. Qed.

Lemma bind_Ret_inv {A B} (m : M St A) (f : A → M St B) s b s'' :
(m ≫= f) s = (Ret b, s'') → ∃ a s', m s = (Ret a, s') ∧ f a s' = (Ret b, s'').
Proof.
unfold mbind, M_bind. intros H. destruct (m s) as [[a| |e] s']; naive_solver.
Qed.

(** *** Monad laws, pointwise *)
Lemma bind_ret_l {A B} (a : A) (f : A → M St B) s : (mret a ≫= f) s = f a s.
Proof. done. Qed.

Lemma bind_ret_r {A} (m : M St A) s : (m ≫= mret) s = m s.
Proof. unfold mbind, M_bind. destruct (m s) as [[| |] ?]; done. Qed.

Lemma bind_assoc {A B C} (m : M St A) (f : A → M St B) (g : B → M St C) s :
((m ≫= f) ≫= g) s = (m ≫= λ a, f a ≫= g) s.
Proof. unfold mbind, M_bind. destruct (m s) as [[| |] ?]; done. Qed.

Lemma run_if {A} (b : bool) (m1 m2 : M St A) s :
(if b then m1 else m2) s = if b then m1 s else m2 s.
Proof. by destruct b. Qed.

(** *** Predicates kept by a computation

  [keeps R m]: whatever the outcome, the state after [m] is related to the
  state before by [R].  With [R] a preorder this is compositional, and it
  is how the frame and invariant theorems of the library are proved. *)
Definition keeps (R : St → St → Prop) {A} (m : M St A) : Prop :=
∀ s, R s (m s).2.

Section keeps.
Context (R : St → St → Prop) `{!PreOrder R}.

Lemma keeps_ret {A} (a : A) : keeps R (mret a).
Proof. intros s. simpl. reflexivity. Qed.

Lemma keeps_trap {A} : keeps R (trap (A:=A)).
Proof. intros s. simpl. reflexivity. Qed.

Lemma keeps_throw {A} e : keeps R (throw (A:=A) e).
Proof. intros s. simpl. reflexivity. Qed.

Lemma keeps_bind {A B} (m : M St A) (f : A → M St B) :
keeps R m → (∀ a, keeps R (f a)) → keeps R (m ≫= f).
Proof.
intros Hm Hf s. specialize (Hm s). unfold mbind, M_bind.
destruct (m s) as [[a| |e] s'] eqn:E; simpl in *; try done.
etrans; [exact Hm|]. apply Hf.
Qed.

Lemma keeps_forM {A} (l : list A) (f : A → M St unit) :
(∀ x, keeps R (f x)) → keeps R (forM_ l f).
Proof.
intros Hf. induction l as [|x l IH]; simpl.
- apply keeps_ret.
- apply keeps_bind; [apply Hf | intros _; exact IH].
Qed.

Lemma keeps_if {A} (b : bool) (m1 m2 : M St A) :
keeps R m1 → keeps R m2 → keeps R (if b then m1 else m2).
Proof. by destruct b. Qed.
End keeps.

(** *** Computations that always return *)
Definition returns {A} (P : St → Prop) (m : M St A) : Prop :=
∀ s, P s → ∃ a s', m s = (Ret a, s') ∧ P s'.

Lemma returns_ret {A} P (a : A) : returns P (mret a).
Proof. intros s Hs. eauto. Qed.

Lemma returns_bind {A B} P (m : M St A) (f : A → M St B) :
returns P m → (∀ a, returns P (f a)) → returns P (m ≫= f).
Proof.
intros Hm Hf s Hs. destruct (Hm s Hs) as (a & s' & E & Hs').
destruct (Hf a s' Hs') as (b & s'' & E' & Hs'').
exists b, s''. split; [|done]. by rewrite (run_bind _ _ _ _ _ E).
Qed.

Lemma returns_forM {A} P (l : list A) (f : A → M St unit) :
(∀ x, returns P (f x)) → returns P (forM_ l f).
Proof.
intros Hf. induction l as [|x l IH]; simpl.
- apply returns_ret.
- apply returns_bind; [apply Hf | intros _; exact IH].
Qed.

Lemma returns_if {A} P (b : bool) (m1 m2 : M St A) :
returns P m1 → returns P m2 → returns P (if b then m1 else m2).
Proof. by destruct b. Qed.
End monad.

Arguments M_bind _ _ _ _ _ _ / : assert.
Arguments M_ret _ _ _ _ / : assert.

Create HintDb keeps.
#[export] Hint Resolve keeps_ret keeps_trap keeps_throw keeps_bind keeps_forM keeps_if : keeps.
Create HintDb returns.
#[export] Hint Resolve returns_ret returns_bind returns_forM returns_if : returns.
Create Rewrite HintDb run.

(** Unfold the binds and evaluate the computation at the head. *)
Ltac run_step := simpl; unfold mbind, M_bind, mret, M_ret; simpl.
Ltac run := repeat (progress (run_step; autorewrite with run)).

(** ** Lists *)
Lemma filter_map_const {A B} (P : B → Prop) `{!∀ b, Decision (P b)} (f : A → B) (l : list A) :
  (∀ a, a ∈ l → ¬ P (f a)) → filter P (map f l) = [].
Proof.
  induction l as [|a l IH]; intros Hno; [done|]. simpl.
  rewrite filter_cons_False; [apply IH; set_solver|]. apply Hno. set_solver.
Qed.

Lemma length_filter_impl {A} (P Q : A → Prop) `{!∀ x, Decision (P x), !∀ x, Decision (Q x)}
  (l : list A) : (∀ x, P x → Q x) → (length (filter P l) ≤ length (filter Q l))%nat.
Proof.
  intros Himp. induction l as [|x l IH]; [done|]. rewrite !filter_cons.
  destruct (decide (P x)) as [Hx|_]; [rewrite decide_True by auto; simpl; lia|].
  destruct (decide (Q x)); simpl; lia.
Qed.

(** ** Swift string helpers

    Strings are sequences of UTF-8 bytes. *)

(** ASCII case mapping of one byte, and of a string, byte by byte. *)
Definition ascii_lower (c : Ascii.ascii) : Ascii.ascii :=
  let n := Ascii.nat_of_ascii c in
  if ((65 <=? n) && (n <=? 90))%nat then Ascii.ascii_of_nat (n + 32) else c.

Fixpoint lowercased (s : string) : string :=
  match s with
  | EmptyString => EmptyString
  | String c s' => String (ascii_lower c) (lowercased s')
  end.

Definition string_isEmpty (s : string) : bool :=
  match s with EmptyString => true | _ => false end.

Lemma string_isEmpty_spec s : string_isEmpty s = true ↔ s = EmptyString.
Proof. by destruct s. Qed.

(** The decimal rendering of an unsigned integer in an interpolated string. *)
Definition decimal (z : Z) : string := pretty (Z.to_N z).
