(* ===== verification/SwiftNumbers.v ===== *)
(** * SwiftNumbers: the machine numbers the client computes with.

    [UInt64] values are integers in [0, 2^64); an operation whose result leaves
    the range traps, as Swift's checked operators do.  [TimeInterval] is a
    binary64 number, represented by Stdlib's [spec_float]; the multiplication
    and the comparison are the correctly rounded ones of [SpecFloat]. *)

From S2P Require Import Prelude.
From Stdlib Require Import SpecFloat.

(** ** UInt64 *)
Definition u64_limit : Z := 2 ^ 64.
Definition in_u64 (z : Z) : Prop := 0 ≤ z < u64_limit.

#[export] Instance in_u64_dec z : Decision (in_u64 z).
Proof. unfold in_u64. apply _. Defined.

(** Swift's checked subtraction on [UInt64]. *)
Definition u64_sub {St} (a b : Z) : M St Z :=
  if b <=? a then mret (a - b) else trap.

Lemma u64_sub_run {St} a b (s : St) : b ≤ a → u64_sub a b s = (Ret (a - b), s).
Proof. intros H. unfold u64_sub. by rewrite (proj2 (Z.leb_le b a)). Qed.

Lemma u64_sub_traps {St} a b (s : St) : a < b → u64_sub a b s = (Trap, s).
Proof. intros H. unfold u64_sub. by rewrite (proj2 (Z.leb_gt b a)). Qed.

(** ** TimeInterval *)
Abbreviation TimeInterval := spec_float.

Definition double_prec : Z := 53.
Definition double_emax : Z := 1024.

Definition double_mul (x y : TimeInterval) : TimeInterval := SFmul double_prec double_emax x y.

(** [1000.0] as a binary64 number: 8796093022208000 * 2^-43. *)
Definition double_1000 : TimeInterval := S754_finite false 8796093022208000 (-43).

(** [x > 0] on doubles; false for a NaN. *)
Definition double_positive (x : TimeInterval) : bool := SFltb (S754_zero false) x.

(** The integer part of a finite number [± m * 2^e], rounded toward zero. *)
Definition trunc_magnitude (m : positive) (e : Z) : Z :=
  if 0 <=? e then Z.shiftl (Zpos m) e else Z.shiftr (Zpos m) (- e).

(** [UInt64(x)]: truncation toward zero; traps on an infinite number, on a NaN
    and on a number whose truncation is not in range. *)
Definition u64_of_double (x : TimeInterval) : option Z :=
  match x with
  | S754_zero _ => Some 0
  | S754_infinity _ | S754_nan => None
  | S754_finite s m e =>
      let v := trunc_magnitude m e in
      if s then (if v =? 0 then Some 0 else None)
      else (if v <? u64_limit then Some v else None)
  end.

Lemma trunc_magnitude_nonneg m e : 0 ≤ trunc_magnitude m e.
Proof.
  unfold trunc_magnitude. destruct (0 <=? e).
  - apply Z.shiftl_nonneg. lia.
  - apply Z.shiftr_nonneg. lia.
Qed.

Lemma u64_of_double_range x v : u64_of_double x = Some v → in_u64 v.
Proof.
  unfold u64_of_double, in_u64. intros H.
  destruct x as [|?| |s m e]; simplify_eq; [unfold u64_limit; lia|].
  pose proof (trunc_magnitude_nonneg m e).
  destruct s; case_match; simplify_eq; [unfold u64_limit; lia|].
  rewrite Z.ltb_lt in *. lia.
Qed.

(** A negative number of magnitude at least one cannot be converted. *)
Lemma u64_of_double_negative m e :
  trunc_magnitude m e ≠ 0 → u64_of_double (S754_finite true m e) = None.
Proof. intros H. simpl. by rewrite (proj2 (Z.eqb_neq _ _)). Qed.

(** [v] is the finite number [x] rounded toward zero, for [x = ± m * 2^e]. *)
Definition rounds_to (x : TimeInterval) (v : Z) : Prop :=
  match x with
  | S754_zero _ => v = 0
  | S754_infinity _ | S754_nan => False
  | S754_finite s m e =>
      let a := if s then - v else v in
      0 ≤ a ∧ if decide (0 ≤ e) then a = Zpos m * 2 ^ e
              else a * 2 ^ (- e) ≤ Zpos m < (a + 1) * 2 ^ (- e)
  end.

Lemma trunc_magnitude_spec m e a :
  0 ≤ a →
  (if decide (0 ≤ e) then a = Zpos m * 2 ^ e
   else a * 2 ^ (- e) ≤ Zpos m < (a + 1) * 2 ^ (- e)) ↔ a = trunc_magnitude m e.
Proof.
  intros Ha. unfold trunc_magnitude. case_decide as He.
  - rewrite (proj2 (Z.leb_le 0 e)), Z.shiftl_mul_pow2 by done. done.
  - rewrite (proj2 (Z.leb_gt 0 e)), Z.shiftr_div_pow2 by lia.
    assert (Hp : 0 < 2 ^ (- e)) by (apply Z.pow_pos_nonneg; lia). split.
    + intros H. apply (Z.div_unique_pos _ _ _ (Zpos m - 2 ^ (- e) * a)); lia.
    + intros ->. pose proof (Z.div_mod (Zpos m) (2 ^ (- e))) as Hd.
      pose proof (Z.mod_pos_bound (Zpos m) (2 ^ (- e)) Hp). lia.
Qed.

(** The conversion answers the number rounded toward zero, when that is in
    range, and nothing otherwise. *)
Lemma u64_of_double_spec x v :
  u64_of_double x = Some v ↔ rounds_to x v ∧ in_u64 v.
Proof.
  unfold u64_of_double, rounds_to, in_u64.
  destruct x as [?|?| |s m e]; [|naive_solver..|].
  { unfold u64_limit. naive_solver lia. }
  pose proof (trunc_magnitude_nonneg m e) as Hn. cbv zeta. split.
  - destruct s; case_match eqn:E; intros; simplify_eq;
      rewrite ?Z.eqb_eq, ?Z.ltb_lt in E; (split; [split; [lia|]|unfold u64_limit in *; lia]);
      apply trunc_magnitude_spec; lia.
  - intros [[Ha H%trunc_magnitude_spec] Hr]; [|done]. destruct s.
    + replace v with 0 in * by lia. by rewrite <- H.
    + subst v. by rewrite (proj2 (Z.ltb_lt _ _)) by apply Hr.
Qed.

Example double_mul_example :
  u64_of_double (double_mul (S754_finite false 6473924464345088 (-49)) double_1000) = Some 11500.
Proof. vm_compute. reflexivity. Qed.
Arguments u64_sub : simpl never.
Arguments u64_of_double : simpl never.
Arguments double_mul : simpl never.
