(* ===== verification/Interfaces.v ===== *)
(** * Interfaces: what the client relies on from code outside the repository.

    [Echo/EchoClient.swift] uses classes whose sources are not in the
    repository: [Media], [BBCUser], [UserPromiseHelper], [LabelCleanser], the
    enumerations of labels, producers and configuration keys, the brokers and
    the delegates.  Each is an interface here: a typeclass of abstract types
    and operations.  Where a theorem needs a documented behaviour of such a
    class, the behaviour is a field of a separate class of laws. *)

From S2P Require Import Prelude SwiftNumbers.

(** ** Media

    [Media] is a class: the client, the broker and the delegates share one
    object, so objects live in a store and are named by references. *)
Class MediaIface := {
  Media : Type;
  media_isLive : Media → bool;
  media_isEnrichedWithESSData : Media → bool;
  (** [consumptionMode == .live] *)
  media_consumptionMode_is_live : Media → bool;
  media_length : Media → Z;
  media_isPlaying : Media → bool;
  media_isBuffering : Media → bool;
  media_set_length : Z → Media → Media;
  media_set_isPlaying : bool → Media → Media;
  media_set_isBuffering : bool → Media → Media;
  media_getClone : Media → Media;
}.

(** [length], [isPlaying] and [isBuffering] are stored properties: assigning
    one is seen by reading it and by no other property. *)
Class MediaLaws `{MediaIface} := {
  media_length_get_set l m : media_length (media_set_length l m) = l;
  media_isPlaying_get_set b m : media_isPlaying (media_set_isPlaying b m) = b;
  media_isBuffering_get_set b m : media_isBuffering (media_set_isBuffering b m) = b;
  media_isPlaying_set_isBuffering b m :
    media_isPlaying (media_set_isBuffering b m) = media_isPlaying m;
  media_isBuffering_set_isPlaying b m :
    media_isBuffering (media_set_isPlaying b m) = media_isBuffering m;
  media_isLive_set_length l m : media_isLive (media_set_length l m) = media_isLive m;
  media_isPlaying_set_length l m : media_isPlaying (media_set_length l m) = media_isPlaying m;
  media_isBuffering_set_length l m :
    media_isBuffering (media_set_length l m) = media_isBuffering m;
  media_length_set_isPlaying b m : media_length (media_set_isPlaying b m) = media_length m;
  media_length_set_isBuffering b m : media_length (media_set_isBuffering b m) = media_length m;
  media_isLive_set_isPlaying b m : media_isLive (media_set_isPlaying b m) = media_isLive m;
  media_isLive_set_isBuffering b m : media_isLive (media_set_isBuffering b m) = media_isLive m;
}.

(** ** Users *)
Class UserIface := {
  BBCUser : Type;
  Date : Type;
  user_tokenRefreshTimestamp : BBCUser → option Date;
  TokenState : Type;
  #[global] TokenState_eq_dec :: EqDecision TokenState;
  TokenState_valid : TokenState;
  TokenState_expired : TokenState;
  UserStateTransition : Type;
  #[global] UserStateTransition_eq_dec :: EqDecision UserStateTransition;
  UserStateTransition_none : UserStateTransition;
  UserStateTransition_rawValue : UserStateTransition → string;
  DeviceIDResetReason : Type;
  #[global] DeviceIDResetReason_eq_dec :: EqDecision DeviceIDResetReason;
  DeviceIDResetReason_userStateChange : DeviceIDResetReason;
  DeviceIDResetReason_firstInstall : DeviceIDResetReason;
  DeviceIDResetReason_echoUpgrade : DeviceIDResetReason;
  DeviceIDResetReason_rawValue : DeviceIDResetReason → string;
  UserPromiseHelperResult : Type;
  result_deviceIDResetReason : UserPromiseHelperResult → option DeviceIDResetReason;
  result_userStateTransition : UserPromiseHelperResult → UserStateTransition;
  result_isPostponedUserStateChange : UserPromiseHelperResult → bool;
  (** The text of a [TimeInterval] in an interpolated string. *)
  TimeInterval_description : TimeInterval → string;
}.

(** The enumerations list distinct cases. *)
Class UserLaws `{UserIface} := {
  TokenState_valid_expired : TokenState_valid ≠ TokenState_expired;
}.

(** ** Labels *)
Class LabelIface := {
  (** [EchoLabelKeys.*.rawValue] *)
  key_MediaTimestamp : string;
  key_ESSEnabled : string;
  key_ESSSuccess : string;
  key_ESSError : string;
  key_ESSStatusCode : string;
  key_ESSEnriched : string;
  key_PlayerName : string;
  key_PlayerVersion : string;
  key_BBCApplicationName : string;
  key_IsBackground : string;
  (** [LabelCleanser] *)
  cleanLabelKey : string → string;
  cleanLabelValue : string → string → string;
  cleanCountername : string → string;
  (** The [String.trim()] extension. *)
  trim : string → string;
  ManagedLabel : Type;
  ManagedLabel_name : ManagedLabel → string;
  (** The order in which [for (key, value) in labels] visits a dictionary. *)
  dict_order : gmap string string → list (string * string);
}.

(** Iterating a dictionary visits each entry once, in an unspecified order. *)
Class LabelLaws `{LabelIface} := {
  dict_order_perm m : dict_order m ≡ₚ map_to_list m;
}.

(** ** Site, player and error enumerations *)
Class EnumIface := {
  Destination : Type;
  Producer : Type;
  Producer_producerFromName : string → option Producer;
  Masterbrand : Type;
  Masterbrand_MasterbrandFromName : string → option Masterbrand;
  Masterbrand_producer : Masterbrand → Producer;
  WindowState : Type;
  ApplicationType : Type;
  EssError : Type;
  #[global] EssError_eq_dec :: EqDecision EssError;
  EssError_StatusCode : EssError;
  EssError_rawValue : EssError → string;
  EchoCacheMode : Type;
  EchoCacheMode_offline : EchoCacheMode;
  EchoCacheMode_getEnum : string → EchoCacheMode;
  EchoCacheMode_name : EchoCacheMode → string;
}.

(** ** Configuration *)
Class ConfigIface := {
  EchoConfigKey : Type;
  #[global] EchoConfigKey_eq_dec :: EqDecision EchoConfigKey;
  #[global] EchoConfigKey_countable :: Countable EchoConfigKey;
  cfg_essURL : EchoConfigKey;
  cfg_useESS : EchoConfigKey;
  cfg_essHTTPSEnabled : EchoConfigKey;
  cfg_echoDebug : EchoConfigKey;
  cfg_idv5Enabled : EchoConfigKey;
  cfg_echoCacheMode : EchoConfigKey;
  cfg_echoEnabled : EchoConfigKey;
  cfg_echoAutoStart : EchoConfigKey;
  cfg_webviewCookiesEnabled : EchoConfigKey;
  cfg_echoDeviceID : EchoConfigKey;
  cfg_comscoreResetDataOnUserStateChange : EchoConfigKey;
  cfg_reportingProfile : EchoConfigKey;
  cfg_measurementLibName : EchoConfigKey;
  cfg_measurementLibVersion : EchoConfigKey;
  cfg_applicationName : EchoConfigKey;
  cfg_comScoreEnabled : EchoConfigKey;
  cfg_comScoreDebugMode : EchoConfigKey;
  cfg_testServiceEnabled : EchoConfigKey;
  cfg_barbEnabled : EchoConfigKey;
  (** The text of a key in an interpolated string. *)
  EchoConfigKey_description : EchoConfigKey → string;
  (** The [Dictionary.merge(_:)] extension. *)
  dict_merge : gmap EchoConfigKey string → gmap EchoConfigKey string → gmap EchoConfigKey string;
  (** The order in which a configuration dictionary is iterated. *)
  config_order : gmap EchoConfigKey string → list (EchoConfigKey * string);
  ComScoreDelegate_getDefaultConfig : gmap EchoConfigKey string;
  SpringDelegate_getDefaultConfig : gmap EchoConfigKey string;
  ATInternetDelegate_getDefaultConfig : gmap EchoConfigKey string;
  EchoProfile : Type;
  EchoProfile_init : string → option EchoProfile;
  EchoReportingProfiles_getConfigForProfile : EchoProfile → gmap EchoConfigKey string;
}.

Class ConfigLaws `{ConfigIface} := {
  (** The named keys are pairwise distinct. *)
  config_keys_NoDup : NoDup [cfg_essURL; cfg_useESS; cfg_essHTTPSEnabled; cfg_echoDebug;
    cfg_idv5Enabled; cfg_echoCacheMode; cfg_echoEnabled; cfg_echoAutoStart;
    cfg_webviewCookiesEnabled; cfg_echoDeviceID; cfg_comscoreResetDataOnUserStateChange;
    cfg_reportingProfile; cfg_measurementLibName; cfg_measurementLibVersion;
    cfg_applicationName; cfg_comScoreEnabled; cfg_comScoreDebugMode;
    cfg_testServiceEnabled; cfg_barbEnabled];
  (** Merging keeps the entries of the receiver that the argument does not have. *)
  dict_merge_lookup m1 m2 k :
    dict_merge m1 m2 !! k = match m2 !! k with Some v => Some v | None => m1 !! k end;
  config_order_perm m : config_order m ≡ₚ map_to_list m;
}.
