(* ===== verification/Client.v ===== *)
(** * Client: the client object, its calls to other objects, and its state.

    The instance variables of [EchoClient] are a record.  Everything the client
    does to another object is a [Call]; the calls made so far, in order, are the
    trace.  What another object answers is given by an [Oracle], a function of
    the calls made before: brokers, delegates, the user promise helper, the
    device and the clock can answer anything at any point, and the theorems hold
    for every such behaviour. *)

From S2P Require Import Prelude SwiftNumbers Interfaces.

Abbreviation MediaRef := positive.
Abbreviation BrokerRef := positive.
Abbreviation DelegateRef := positive.
Abbreviation PlayerRef := positive.
Abbreviation TimerRef := positive.
Abbreviation Labels := (gmap string string).

(** The levels of [EchoDebug] that the client names. *)
Inductive LogLevel := info | warn | error.

#[export] Instance LogLevel_eq_dec : EqDecision LogLevel.
Proof. solve_decision. Defined.

Section client.
Context `{MI : MediaIface, UI : UserIface, LI : LabelIface, EI : EnumIface, CI : ConfigIface}.

(** ** The instance variables of [EchoClient] *)
Record EchoClient := mkEchoClient {
echoEnabled : bool;
autoStart : bool;
hasStarted_ : bool;
playerDelegate : option PlayerRef;
broker : option BrokerRef;
essUrl : option string;
essEnabled : bool;
useHttps : bool;
delegates : list DelegateRef;
media : option MediaRef;
mediaActive : bool;
suppressingPlayEvent : bool;
suppressedPlayEventLabels : option (gmap string string);
cacheMode : EchoCacheMode;
counterNameSet : bool;
idv5Enabled : bool;
previousUser : option BBCUser;
bbcUserSetWhileDisabled : option BBCUser;
userForTimer : option BBCUser;
resetDataOnUserStateChangeEnabled : bool;
timer : option TimerRef
}.

(** Assignment of one instance variable. *)
Definition set_echoEnabled (v : bool) (c : EchoClient) : EchoClient :=
{|echoEnabled := v; autoStart := c.(autoStart); hasStarted_ := c.(hasStarted_);
   playerDelegate := c.(playerDelegate); broker := c.(broker); essUrl := c.(essUrl);
   essEnabled := c.(essEnabled); useHttps := c.(useHttps); delegates := c.(delegates);
   media := c.(media); mediaActive := c.(mediaActive); suppressingPlayEvent :=
   c.(suppressingPlayEvent); suppressedPlayEventLabels := c.(suppressedPlayEventLabels);
   cacheMode := c.(cacheMode); counterNameSet := c.(counterNameSet); idv5Enabled :=
   c.(idv5Enabled); previousUser := c.(previousUser); bbcUserSetWhileDisabled :=
   c.(bbcUserSetWhileDisabled); userForTimer := c.(userForTimer);
   resetDataOnUserStateChangeEnabled := c.(resetDataOnUserStateChangeEnabled); timer :=
   c.(timer) |}.
Definition set_hasStarted_ (v : bool) (c : EchoClient) : EchoClient :=
{|echoEnabled := c.(echoEnabled); autoStart := c.(autoStart); hasStarted_ := v;
   playerDelegate := c.(playerDelegate); broker := c.(broker); essUrl := c.(essUrl);
   essEnabled := c.(essEnabled); useHttps := c.(useHttps); delegates := c.(delegates);
   media := c.(media); mediaActive := c.(mediaActive); suppressingPlayEvent :=
   c.(suppressingPlayEvent); suppressedPlayEventLabels := c.(suppressedPlayEventLabels);
   cacheMode := c.(cacheMode); counterNameSet := c.(counterNameSet); idv5Enabled :=
   c.(idv5Enabled); previousUser := c.(previousUser); bbcUserSetWhileDisabled :=
   c.(bbcUserSetWhileDisabled); userForTimer := c.(userForTimer);
   resetDataOnUserStateChangeEnabled := c.(resetDataOnUserStateChangeEnabled); timer :=
   c.(timer) |}.
Definition set_playerDelegate (v : option PlayerRef) (c : EchoClient) : EchoClient :=
{|echoEnabled := c.(echoEnabled); autoStart := c.(autoStart); hasStarted_ :=
   c.(hasStarted_); playerDelegate := v; broker := c.(broker); essUrl := c.(essUrl);
   essEnabled := c.(essEnabled); useHttps := c.(useHttps); delegates := c.(delegates);
   media := c.(media); mediaActive := c.(mediaActive); suppressingPlayEvent :=
   c.(suppressingPlayEvent); suppressedPlayEventLabels := c.(suppressedPlayEventLabels);
   cacheMode := c.(cacheMode); counterNameSet := c.(counterNameSet); idv5Enabled :=
   c.(idv5Enabled); previousUser := c.(previousUser); bbcUserSetWhileDisabled :=
   c.(bbcUserSetWhileDisabled); userForTimer := c.(userForTimer);
   resetDataOnUserStateChangeEnabled := c.(resetDataOnUserStateChangeEnabled); timer :=
   c.(timer) |}.
Definition set_broker (v : option BrokerRef) (c : EchoClient) : EchoClient :=
{|echoEnabled := c.(echoEnabled); autoStart := c.(autoStart); hasStarted_ :=
   c.(hasStarted_); playerDelegate := c.(playerDelegate); broker := v; essUrl :=
   c.(essUrl); essEnabled := c.(essEnabled); useHttps := c.(useHttps); delegates :=
   c.(delegates); media := c.(media); mediaActive := c.(mediaActive);
   suppressingPlayEvent := c.(suppressingPlayEvent); suppressedPlayEventLabels :=
   c.(suppressedPlayEventLabels); cacheMode := c.(cacheMode); counterNameSet :=
   c.(counterNameSet); idv5Enabled := c.(idv5Enabled); previousUser := c.(previousUser);
   bbcUserSetWhileDisabled := c.(bbcUserSetWhileDisabled); userForTimer :=
   c.(userForTimer); resetDataOnUserStateChangeEnabled :=
   c.(resetDataOnUserStateChangeEnabled); timer := c.(timer) |}.
Definition set_media (v : option MediaRef) (c : EchoClient) : EchoClient :=
{|echoEnabled := c.(echoEnabled); autoStart := c.(autoStart); hasStarted_ :=
   c.(hasStarted_); playerDelegate := c.(playerDelegate); broker := c.(broker); essUrl
   := c.(essUrl); essEnabled := c.(essEnabled); useHttps := c.(useHttps); delegates :=
   c.(delegates); media := v; mediaActive := c.(mediaActive); suppressingPlayEvent :=
   c.(suppressingPlayEvent); suppressedPlayEventLabels := c.(suppressedPlayEventLabels);
   cacheMode := c.(cacheMode); counterNameSet := c.(counterNameSet); idv5Enabled :=
   c.(idv5Enabled); previousUser := c.(previousUser); bbcUserSetWhileDisabled :=
   c.(bbcUserSetWhileDisabled); userForTimer := c.(userForTimer);
   resetDataOnUserStateChangeEnabled := c.(resetDataOnUserStateChangeEnabled); timer :=
   c.(timer) |}.
Definition set_mediaActive (v : bool) (c : EchoClient) : EchoClient :=
{|echoEnabled := c.(echoEnabled); autoStart := c.(autoStart); hasStarted_ :=
   c.(hasStarted_); playerDelegate := c.(playerDelegate); broker := c.(broker); essUrl
   := c.(essUrl); essEnabled := c.(essEnabled); useHttps := c.(useHttps); delegates :=
   c.(delegates); media := c.(media); mediaActive := v; suppressingPlayEvent :=
   c.(suppressingPlayEvent); suppressedPlayEventLabels := c.(suppressedPlayEventLabels);
   cacheMode := c.(cacheMode); counterNameSet := c.(counterNameSet); idv5Enabled :=
   c.(idv5Enabled); previousUser := c.(previousUser); bbcUserSetWhileDisabled :=
   c.(bbcUserSetWhileDisabled); userForTimer := c.(userForTimer);
   resetDataOnUserStateChangeEnabled := c.(resetDataOnUserStateChangeEnabled); timer :=
   c.(timer) |}.
Definition set_suppressingPlayEvent (v : bool) (c : EchoClient) : EchoClient :=
{|echoEnabled := c.(echoEnabled); autoStart := c.(autoStart); hasStarted_ :=
   c.(hasStarted_); playerDelegate := c.(playerDelegate); broker := c.(broker); essUrl
   := c.(essUrl); essEnabled := c.(essEnabled); useHttps := c.(useHttps); delegates :=
   c.(delegates); media := c.(media); mediaActive := c.(mediaActive);
   suppressingPlayEvent := v; suppressedPlayEventLabels :=
   c.(suppressedPlayEventLabels); cacheMode := c.(cacheMode); counterNameSet :=
   c.(counterNameSet); idv5Enabled := c.(idv5Enabled); previousUser := c.(previousUser);
   bbcUserSetWhileDisabled := c.(bbcUserSetWhileDisabled); userForTimer :=
   c.(userForTimer); resetDataOnUserStateChangeEnabled :=
   c.(resetDataOnUserStateChangeEnabled); timer := c.(timer) |}.
Definition set_suppressedPlayEventLabels (v : option (gmap string string)) (c : EchoClient) : EchoClient :=
{|echoEnabled := c.(echoEnabled); autoStart := c.(autoStart); hasStarted_ :=
   c.(hasStarted_); playerDelegate := c.(playerDelegate); broker := c.(broker); essUrl
   := c.(essUrl); essEnabled := c.(essEnabled); useHttps := c.(useHttps); delegates :=
   c.(delegates); media := c.(media); mediaActive := c.(mediaActive);
   suppressingPlayEvent := c.(suppressingPlayEvent); suppressedPlayEventLabels := v;
   cacheMode := c.(cacheMode); counterNameSet := c.(counterNameSet); idv5Enabled :=
   c.(idv5Enabled); previousUser := c.(previousUser); bbcUserSetWhileDisabled :=
   c.(bbcUserSetWhileDisabled); userForTimer := c.(userForTimer);
   resetDataOnUserStateChangeEnabled := c.(resetDataOnUserStateChangeEnabled); timer :=
   c.(timer) |}.
Definition set_cacheMode (v : EchoCacheMode) (c : EchoClient) : EchoClient :=
{|echoEnabled := c.(echoEnabled); autoStart := c.(autoStart); hasStarted_ :=
   c.(hasStarted_); playerDelegate := c.(playerDelegate); broker := c.(broker); essUrl
   := c.(essUrl); essEnabled := c.(essEnabled); useHttps := c.(useHttps); delegates :=
   c.(delegates); media := c.(media); mediaActive := c.(mediaActive);
   suppressingPlayEvent := c.(suppressingPlayEvent); suppressedPlayEventLabels :=
   c.(suppressedPlayEventLabels); cacheMode := v; counterNameSet := c.(counterNameSet);
   idv5Enabled := c.(idv5Enabled); previousUser := c.(previousUser);
   bbcUserSetWhileDisabled := c.(bbcUserSetWhileDisabled); userForTimer :=
   c.(userForTimer); resetDataOnUserStateChangeEnabled :=
   c.(resetDataOnUserStateChangeEnabled); timer := c.(timer) |}.
Definition set_counterNameSet (v : bool) (c : EchoClient) : EchoClient :=
{|echoEnabled := c.(echoEnabled); autoStart := c.(autoStart); hasStarted_ :=
   c.(hasStarted_); playerDelegate := c.(playerDelegate); broker := c.(broker); essUrl
   := c.(essUrl); essEnabled := c.(essEnabled); useHttps := c.(useHttps); delegates :=
   c.(delegates); media := c.(media); mediaActive := c.(mediaActive);
   suppressingPlayEvent := c.(suppressingPlayEvent); suppressedPlayEventLabels :=
   c.(suppressedPlayEventLabels); cacheMode := c.(cacheMode); counterNameSet := v;
   idv5Enabled := c.(idv5Enabled); previousUser := c.(previousUser);
   bbcUserSetWhileDisabled := c.(bbcUserSetWhileDisabled); userForTimer :=
   c.(userForTimer); resetDataOnUserStateChangeEnabled :=
   c.(resetDataOnUserStateChangeEnabled); timer := c.(timer) |}.
Definition set_previousUser (v : option BBCUser) (c : EchoClient) : EchoClient :=
{|echoEnabled := c.(echoEnabled); autoStart := c.(autoStart); hasStarted_ :=
   c.(hasStarted_); playerDelegate := c.(playerDelegate); broker := c.(broker); essUrl
   := c.(essUrl); essEnabled := c.(essEnabled); useHttps := c.(useHttps); delegates :=
   c.(delegates); media := c.(media); mediaActive := c.(mediaActive);
   suppressingPlayEvent := c.(suppressingPlayEvent); suppressedPlayEventLabels :=
   c.(suppressedPlayEventLabels); cacheMode := c.(cacheMode); counterNameSet :=
   c.(counterNameSet); idv5Enabled := c.(idv5Enabled); previousUser := v;
   bbcUserSetWhileDisabled := c.(bbcUserSetWhileDisabled); userForTimer :=
   c.(userForTimer); resetDataOnUserStateChangeEnabled :=
   c.(resetDataOnUserStateChangeEnabled); timer := c.(timer) |}.
Definition set_bbcUserSetWhileDisabled (v : option BBCUser) (c : EchoClient) : EchoClient :=
{|echoEnabled := c.(echoEnabled); autoStart := c.(autoStart); hasStarted_ :=
   c.(hasStarted_); playerDelegate := c.(playerDelegate); broker := c.(broker); essUrl
   := c.(essUrl); essEnabled := c.(essEnabled); useHttps := c.(useHttps); delegates :=
   c.(delegates); media := c.(media); mediaActive := c.(mediaActive);
   suppressingPlayEvent := c.(suppressingPlayEvent); suppressedPlayEventLabels :=
   c.(suppressedPlayEventLabels); cacheMode := c.(cacheMode); counterNameSet :=
   c.(counterNameSet); idv5Enabled := c.(idv5Enabled); previousUser := c.(previousUser);
   bbcUserSetWhileDisabled := v; userForTimer := c.(userForTimer);
   resetDataOnUserStateChangeEnabled := c.(resetDataOnUserStateChangeEnabled); timer :=
   c.(timer) |}.
Definition set_userForTimer (v : option BBCUser) (c : EchoClient) : EchoClient :=
{|echoEnabled := c.(echoEnabled); autoStart := c.(autoStart); hasStarted_ :=
   c.(hasStarted_); playerDelegate := c.(playerDelegate); broker := c.(broker); essUrl
   := c.(essUrl); essEnabled := c.(essEnabled); useHttps := c.(useHttps); delegates :=
   c.(delegates); media := c.(media); mediaActive := c.(mediaActive);
   suppressingPlayEvent := c.(suppressingPlayEvent); suppressedPlayEventLabels :=
   c.(suppressedPlayEventLabels); cacheMode := c.(cacheMode); counterNameSet :=
   c.(counterNameSet); idv5Enabled := c.(idv5Enabled); previousUser := c.(previousUser);
   bbcUserSetWhileDisabled := c.(bbcUserSetWhileDisabled); userForTimer := v;
   resetDataOnUserStateChangeEnabled := c.(resetDataOnUserStateChangeEnabled); timer :=
   c.(timer) |}.
Definition set_timer (v : option TimerRef) (c : EchoClient) : EchoClient :=
{|echoEnabled := c.(echoEnabled); autoStart := c.(autoStart); hasStarted_ :=
   c.(hasStarted_); playerDelegate := c.(playerDelegate); broker := c.(broker); essUrl
   := c.(essUrl); essEnabled := c.(essEnabled); useHttps := c.(useHttps); delegates :=
   c.(delegates); media := c.(media); mediaActive := c.(mediaActive);
   suppressingPlayEvent := c.(suppressingPlayEvent); suppressedPlayEventLabels :=
   c.(suppressedPlayEventLabels); cacheMode := c.(cacheMode); counterNameSet :=
   c.(counterNameSet); idv5Enabled := c.(idv5Enabled); previousUser := c.(previousUser);
   bbcUserSetWhileDisabled := c.(bbcUserSetWhileDisabled); userForTimer :=
   c.(userForTimer); resetDataOnUserStateChangeEnabled :=
   c.(resetDataOnUserStateChangeEnabled); timer := v |}.

Lemma set_media_id c : set_media c.(media) c = c.
Proof. by destruct c. Qed.
Lemma set_broker_id c : set_broker c.(broker) c = c.
Proof. by destruct c. Qed.
Lemma set_suppressingPlayEvent_id c : set_suppressingPlayEvent c.(suppressingPlayEvent) c = c.
Proof. by destruct c. Qed.

(** ** Messages to a delegate, one constructor per method the client calls *)
Inductive DelegateMsg :=
| d_setBroker (b : BrokerRef)
| d_liveMediaUpdate (m : MediaRef) (newPosition oldPosition : Z)
| d_liveEnrichmentFailed
| d_clearMedia
| d_getDeviceID
| d_setDestination (site : Destination)
| d_setProducer (site : Producer)
| d_setPlayerName (name : string)
| d_setPlayerVersion (version : string)
| d_setPlayerIsPopped (popped : bool)
| d_setPlayerWindowState (state : WindowState)
| d_setPlayerVolume (volume : Z)
| d_setPlayerIsSubtitled (subtitled : bool)
| d_setMedia (m : MediaRef)
| d_setMediaLength (length : Z)
| d_avPlayEvent (position : Z) (eventLabels : option Labels)
| d_avPauseEvent (position : Z) (eventLabels : option Labels)
| d_avBufferEvent (position : Z) (eventLabels : option Labels)
| d_avEndEvent (position : Z) (eventLabels : option Labels)
| d_avRewindEvent (position rate : Z) (eventLabels : option Labels)
| d_avFastForwardEvent (position rate : Z) (eventLabels : option Labels)
| d_avSeekEvent (position : Z) (eventLabels : option Labels)
| d_avUserActionEvent (actionType actionName : string) (position : Z)
  (eventLabels : option Labels)
| d_setCacheMode (cacheMode : EchoCacheMode)
| d_flushCache
| d_clearCache
| d_setContentLanguage (language : string)
| d_setCounterName (counterName : string)
| d_updateDeviceID (deviceID : string)
| d_updateBBCUserLabels (user : BBCUser)
| d_userStateChange
| d_addManagedLabel (label : ManagedLabel) (value : string)
| d_addLabels (labels : Labels)
| d_removeLabels (labels : list string)
| d_setTraceID (trace : string)
| d_appForegrounded
| d_appBackgrounded
| d_viewEvent (counterName : string) (eventLabels : option Labels)
| d_userActionEvent (actionType actionName : string) (eventLabels : option Labels)
| d_errorEvent (error : string) (eventLabels : option Labels)
| d_enable
| d_disable
| d_start.

(** ** Calls to other objects, and writes of the [EchoDebug] globals *)
Inductive Call :=
| ToDelegate (d : DelegateRef) (msg : DelegateMsg)
| MakeLiveBroker (p : PlayerRef) (m : MediaRef) (url : string) (https ess : bool)
| MakeOnDemandBroker (p : PlayerRef) (m : MediaRef)
| BrokerStart (b : BrokerRef)
| BrokerStop (b : BrokerRef)
| BrokerSetPosition (b : BrokerRef) (position : Z)
| BrokerGetPosition (b : BrokerRef)
| MakeUserPromiseHelper (webviewCookiesEnabled : bool)
| HelperClearWebviewCookies
| HelperGetBBCUser
| HelperSetBBCUser (user : BBCUser)
| HelperGetDeviceID
| HelperSetPostponed (t : UserStateTransition)
| HelperClearPostponed
| UserTokenState (user : BBCUser)
| UserTimeUntilTokenExpiry (user : BBCUser)
| NewTimer (interval : TimeInterval)
| RunLoopAdd (t : TimerRef)
| TimerInvalidate (t : TimerRef)
| DeviceGetDeviceID
| FactoryGetDelegates (appName : string) (appType : ApplicationType)
  (startCounterName : string) (config : gmap EchoConfigKey string) (user : BBCUser)
| AddObserver (selector notification : string)
| SetDebugEnabled (b : bool)
| SetDebugLevel (level : LogLevel)
| Log (level : LogLevel) (message : string).

(** ** The program state *)
Record St := mkSt {
client : EchoClient;
heap : gmap MediaRef Media;
trace : list Call
}.
End client.

(** ** What the other objects answer, from the calls made before *)
Class Oracle `{MI : MediaIface, UI : UserIface, LI : LabelIface, EI : EnumIface, CI : ConfigIface} := {
  answer_makeBroker : list Call → BrokerRef;
  answer_getPosition : list Call → BrokerRef → Z;
  isComScoreDelegate : DelegateRef → bool;
  answer_delegate_getDeviceID : list Call → DelegateRef → option string;
  answer_helper_getBBCUser : list Call → option BBCUser;
  answer_helper_setBBCUser : list Call → BBCUser → UserPromiseHelperResult;
  answer_helper_getDeviceID : list Call → option string;
  answer_tokenState : list Call → BBCUser → TokenState;
  answer_timeUntilTokenExpiry : list Call → BBCUser → TimeInterval;
  answer_newTimer : list Call → TimerRef;
  answer_device_getDeviceID : list Call → string;
  answer_getDelegates : list Call → list DelegateRef;
}.

(** A broker's position is a [UInt64]. *)
Class OracleLaws `{Oracle} := {
  answer_getPosition_u64 h b : in_u64 (answer_getPosition h b);
}.

(** ** Primitive actions *)
Section actions.
Context `{O : Oracle}.

(** The state after the calls [cs]. *)
Definition push (cs : list Call) (s : St) : St := mkSt s.(client) s.(heap) (s.(trace) ++ cs).

Definition gets {A} (f : EchoClient → A) : M St A := λ s, (Ret (f s.(client)), s).

Definition modify (f : EchoClient → EchoClient) : M St unit :=
λ s, (Ret tt, mkSt (f s.(client)) s.(heap) s.(trace)).

(** A call whose result is not used. *)
Definition emit (c : Call) : M St unit := λ s, (Ret tt, push [c] s).

(** A call whose result is [answer], a function of the calls before it. *)
Definition ask {A} (c : Call) (answer : list Call → A) : M St A :=
λ s, (Ret (answer s.(trace)), push [c] s).

Definition log (level : LogLevel) (message : string) : M St unit := emit (Log level message).

(** Reading a [Media] object. A reference that is not in the store would be
  a dangling pointer; [Lifecycle] shows that the client never has one. *)
Definition deref (r : MediaRef) : M St Media := λ s,
match s.(heap) !! r with
| Some m => (Ret m, s)
| None => (Trap, s)
end.

(** Assigning a property of a [Media] object. *)
Definition update_media (r : MediaRef) (f : Media → Media) : M St unit := λ s,
match s.(heap) !! r with
| Some m => (Ret tt, mkSt s.(client) (<[r := f m]> s.(heap)) s.(trace))
| None => (Trap, s)
end.

(** Allocating a [Media] object. *)
Definition new_media (m : Media) : M St MediaRef := λ s,
let r := fresh (dom s.(heap)) in
(Ret r, mkSt s.(client) (<[r := m]> s.(heap)) s.(trace)).

(** [for delegate in delegates { delegate.msg }] *)
Definition toDelegates (msg : DelegateMsg) : M St unit :=
ds ← gets delegates;
forM_ ds (λ d, emit (ToDelegate d msg)).

(** [self.media?.x = v] *)
Definition update_self_media (f : Media → Media) : M St unit :=
mr ← gets media;
match mr with
| Some r => update_media r f
| None => mret tt
end.

(** ** Run lemmas *)
Lemma push_nil s : push [] s = s.
Proof. destruct s. unfold push. simpl. by rewrite app_nil_r. Qed.

Lemma push_push cs1 cs2 s : push cs2 (push cs1 s) = push (cs1 ++ cs2) s.
Proof. unfold push. simpl. by rewrite app_assoc. Qed.

Lemma client_push cs s : (push cs s).(client) = s.(client).
Proof. done. Qed.
Lemma heap_push cs s : (push cs s).(heap) = s.(heap).
Proof. done. Qed.
Lemma trace_push cs s : (push cs s).(trace) = s.(trace) ++ cs.
Proof. done. Qed.

Lemma forM_emit {A} (f : A → Call) l s :
forM_ l (λ x, emit (f x)) s = (Ret tt, push (map f l) s).
Proof.
revert s. induction l as [|x l IH]; intros s; run_step.
- by rewrite push_nil.
- rewrite IH. by rewrite push_push.
Qed.

(** The calls of a broadcast. *)
Definition broadcast (ds : list DelegateRef) (msg : DelegateMsg) : list Call :=
map (λ d, ToDelegate d msg) ds.

Lemma elem_of_broadcast c ds msg :
c ∈ broadcast ds msg ↔ ∃ d, c = ToDelegate d msg ∧ d ∈ ds.
Proof. exact (list_elem_of_fmap (λ d, ToDelegate d msg) ds c). Qed.

Lemma run_toDelegates msg s :
toDelegates msg s = (Ret tt, push (broadcast s.(client).(delegates) msg) s).
Proof. unfold toDelegates. run_step. by rewrite forM_emit. Qed.

Lemma run_deref r m s : s.(heap) !! r = Some m → deref r s = (Ret m, s).
Proof. intros E. unfold deref. by rewrite E. Qed.

Lemma run_update_media r m f s :
s.(heap) !! r = Some m →
update_media r f s = (Ret tt, mkSt s.(client) (<[r := f m]> s.(heap)) s.(trace)).
Proof. intros E. unfold update_media. by rewrite E. Qed.
End actions.

Arguments push : simpl never.
Arguments toDelegates : simpl never.
Arguments deref : simpl never.
Arguments update_media : simpl never.
Arguments broadcast : simpl never.

#[export] Hint Rewrite @push_nil @push_push @client_push @heap_push @trace_push
  @forM_emit @run_toDelegates : run.
