(* ===== verification/Concrete.v ===== *)
(** * Concrete: small executable instances of the interfaces.

    They are used by the witnesses, to evaluate the client on concrete inputs;
    no theorem about the client depends on them.  The objects behave like the
    mocks of [EchoTests/Mocks]: a broker answers a fixed position, the user
    promise helper a fixed result. *)

From S2P Require Import Prelude SwiftNumbers Interfaces Client.
From Stdlib Require Import SpecFloat.

(** ** Media *)
Record CMedia := mkCMedia {
  cm_live : bool; cm_enriched : bool; cm_length : Z; cm_playing : bool; cm_buffering : bool }.

Definition cMediaI : MediaIface := {|
  Media := CMedia;
  media_isLive := cm_live;
  media_isEnrichedWithESSData := cm_enriched;
  media_consumptionMode_is_live := cm_live;
  media_length := cm_length;
  media_isPlaying := cm_playing;
  media_isBuffering := cm_buffering;
  media_set_length l m := mkCMedia (cm_live m) (cm_enriched m) l (cm_playing m) (cm_buffering m);
  media_set_isPlaying b m := mkCMedia (cm_live m) (cm_enriched m) (cm_length m) b (cm_buffering m);
  media_set_isBuffering b m := mkCMedia (cm_live m) (cm_enriched m) (cm_length m) (cm_playing m) b;
  media_getClone m := m |}.

Lemma cMediaL : @MediaLaws cMediaI.
Proof. split; reflexivity. Qed.

(** ** Users *)
Inductive CTokenState := cts_valid | cts_expired | cts_validNoTimestamp.
Inductive CTransition :=
| ct_none | ct_signIn | ct_signOut | ct_enablePersonalisation | ct_disablePersonalisation.
Inductive CReason := cr_userStateChange | cr_firstInstall | cr_echoUpgrade | cr_deviceIDExpired.
Record CUser := mkCUser { cu_hashedID : string; cu_timestamp : option Z }.
Record CResult := mkCResult {
  cres_reason : option CReason; cres_transition : CTransition; cres_postponed : bool }.

#[export] Instance CTokenState_eq_dec : EqDecision CTokenState.
Proof. solve_decision. Defined.
#[export] Instance CTransition_eq_dec : EqDecision CTransition.
Proof. solve_decision. Defined.
#[export] Instance CReason_eq_dec : EqDecision CReason.
Proof. solve_decision. Defined.

Definition cUserI : UserIface := {|
  BBCUser := CUser; Date := Z;
  user_tokenRefreshTimestamp := cu_timestamp;
  TokenState := CTokenState; TokenState_eq_dec := _;
  TokenState_valid := cts_valid; TokenState_expired := cts_expired;
  UserStateTransition := CTransition; UserStateTransition_eq_dec := _;
  UserStateTransition_none := ct_none;
  UserStateTransition_rawValue t :=
    match t with
    | ct_none => "none" | ct_signIn => "sign_in" | ct_signOut => "sign_out"
    | ct_enablePersonalisation => "enable_personalisation"
    | ct_disablePersonalisation => "disable_personalisation"
    end;
  DeviceIDResetReason := CReason; DeviceIDResetReason_eq_dec := _;
  DeviceIDResetReason_userStateChange := cr_userStateChange;
  DeviceIDResetReason_firstInstall := cr_firstInstall;
  DeviceIDResetReason_echoUpgrade := cr_echoUpgrade;
  DeviceIDResetReason_rawValue r :=
    match r with
    | cr_userStateChange => "user_state_change" | cr_firstInstall => "first_install"
    | cr_echoUpgrade => "echo_upgrade" | cr_deviceIDExpired => "device_id_expired"
    end;
  UserPromiseHelperResult := CResult;
  result_deviceIDResetReason := cres_reason;
  result_userStateTransition := cres_transition;
  result_isPostponedUserStateChange := cres_postponed;
  TimeInterval_description _ := "0" |}.

Lemma cUserL : @UserLaws cUserI.
Proof. split. discriminate. Qed.

(** ** Labels *)
(** Drops the spaces. *)
Fixpoint c_trim (s : string) : string :=
  match s with
  | EmptyString => EmptyString
  | String c s' =>
      if bool_decide (c = Ascii.ascii_of_nat 32) then c_trim s' else String c (c_trim s')
  end.

Definition cLabelI : LabelIface := {|
  key_MediaTimestamp := "media_timestamp"; key_ESSEnabled := "ess_enabled";
  key_ESSSuccess := "ess_success"; key_ESSError := "ess_error";
  key_ESSStatusCode := "ess_status_code"; key_ESSEnriched := "ess_enriched";
  key_PlayerName := "player_name"; key_PlayerVersion := "player_version";
  key_BBCApplicationName := "app_name"; key_IsBackground := "is_background";
  cleanLabelKey k := lowercased (c_trim k);
  cleanLabelValue _ v := v;
  cleanCountername c := lowercased c;
  trim := c_trim;
  ManagedLabel := string; ManagedLabel_name l := l;
  dict_order m := map_to_list m |}.

Lemma cLabelL : @LabelLaws cLabelI.
Proof. split. done. Qed.

(** ** Enumerations *)
Inductive CEssError := ce_StatusCode | ce_Timeout.
#[export] Instance CEssError_eq_dec : EqDecision CEssError.
Proof. solve_decision. Defined.

Definition cEnumI : EnumIface := {|
  Destination := string;
  Producer := string;
  Producer_producerFromName n := if bool_decide (n = "bbc_one") then Some "BBCOne" else None;
  Masterbrand := string;
  Masterbrand_MasterbrandFromName n := if bool_decide (n = "bbc_one") then Some "BBC" else None;
  Masterbrand_producer m := m;
  WindowState := string; ApplicationType := string;
  EssError := CEssError; EssError_eq_dec := _;
  EssError_StatusCode := ce_StatusCode;
  EssError_rawValue e := match e with ce_StatusCode => "status_code" | ce_Timeout => "timeout" end;
  EchoCacheMode := string; EchoCacheMode_offline := "offline";
  EchoCacheMode_getEnum s := s; EchoCacheMode_name s := s |}.

(** ** Configuration *)
Definition cConfigI : ConfigIface := {|
  EchoConfigKey := string; EchoConfigKey_eq_dec := _; EchoConfigKey_countable := _;
  cfg_essURL := "ess_url"; cfg_useESS := "ess_enabled"; cfg_essHTTPSEnabled := "ess_https_enabled";
  cfg_echoDebug := "echo_debug"; cfg_idv5Enabled := "idv5_enabled";
  cfg_echoCacheMode := "echo_cache_mode"; cfg_echoEnabled := "echo_enabled";
  cfg_echoAutoStart := "echo_auto_start";
  cfg_webviewCookiesEnabled := "webview_cookies_enabled"; cfg_echoDeviceID := "echo_device_id";
  cfg_comscoreResetDataOnUserStateChange := "comscore_reset_data_on_user_state_change";
  cfg_reportingProfile := "reporting_profile"; cfg_measurementLibName := "measurement_lib_name";
  cfg_measurementLibVersion := "measurement_lib_version";
  cfg_applicationName := "application_name"; cfg_comScoreEnabled := "comscore_enabled";
  cfg_comScoreDebugMode := "comscore_debug_mode";
  cfg_testServiceEnabled := "test_service_enabled"; cfg_barbEnabled := "barb_enabled";
  EchoConfigKey_description k := k;
  dict_merge m1 m2 := m2 ∪ m1;
  config_order m := map_to_list m;
  ComScoreDelegate_getDefaultConfig := {[ "comscore_enabled" := "true" ]};
  SpringDelegate_getDefaultConfig := {[ "barb_enabled" := "false" ]};
  ATInternetDelegate_getDefaultConfig := ∅;
  EchoProfile := string;
  EchoProfile_init s := if bool_decide (s = "public_service") then Some s else None;
  EchoReportingProfiles_getConfigForProfile _ := {[ "barb_enabled" := "true" ]} |}.

Lemma lookup_union_match (m1 m2 : gmap string string) k :
  (m2 ∪ m1) !! k = match m2 !! k with Some v => Some v | None => m1 !! k end.
Proof. rewrite lookup_union. destruct (m2 !! k), (m1 !! k); reflexivity. Qed.

Lemma cConfigL : @ConfigLaws cConfigI.
Proof.
  split.
  - apply (bool_decide_unpack _). vm_compute. exact I.
  - exact lookup_union_match.
  - done.
Qed.

(** ** Answers of the other objects *)
Record CAnswers := mkCAnswers {
  ca_position : Z;
  ca_user : option CUser;
  ca_result : CResult;
  ca_tokenState : CTokenState;
  ca_untilExpiry : TimeInterval;
  ca_delegates : list DelegateRef }.

Definition cOracle (a : CAnswers) : @Oracle cMediaI cUserI cLabelI cEnumI cConfigI :=
  {| answer_makeBroker _ := 7%positive;
     answer_getPosition _ _ := ca_position a;
     isComScoreDelegate d := bool_decide (d = 1%positive);
     answer_delegate_getDeviceID _ _ := Some "testDevice";
     answer_helper_getBBCUser _ := ca_user a : option (@BBCUser cUserI);
     answer_helper_setBBCUser _ _ := ca_result a : @UserPromiseHelperResult cUserI;
     answer_helper_getDeviceID _ := Some "testDevice";
     answer_tokenState _ _ := ca_tokenState a : @TokenState cUserI;
     answer_timeUntilTokenExpiry _ _ := ca_untilExpiry a;
     answer_newTimer _ := 9%positive;
     answer_device_getDeviceID _ := "device";
     answer_getDelegates _ := ca_delegates a |}.

(** A broker at 42 seconds, no stored user, a sign-in, a valid token, two delegates. *)
Definition cAnswers : CAnswers :=
  mkCAnswers 42000 None (mkCResult None ct_signIn false) cts_valid (S754_zero false)
    [1%positive; 2%positive].

Definition cO := cOracle cAnswers.

Lemma cOL : @OracleLaws _ _ _ _ _ cO.
Proof. split. intros. split; done. Qed.

(** A client that is enabled and started, with two delegates and no media. *)
Definition cClient : @EchoClient cUserI cEnumI :=
  {| echoEnabled := true; autoStart := true; hasStarted_ := true;
     playerDelegate := Some 5%positive; broker := None; essUrl := Some "ess.api.bbci.co.uk";
     essEnabled := false; useHttps := true; delegates := [1%positive; 2%positive];
     media := None; mediaActive := false; suppressingPlayEvent := false;
     suppressedPlayEventLabels := None; cacheMode := "offline" : @EchoCacheMode cEnumI;
     counterNameSet := false; idv5Enabled := true; previousUser := None;
     bbcUserSetWhileDisabled := None; userForTimer := None;
     resetDataOnUserStateChangeEnabled := false; timer := None |}.

Definition cState (c : @EchoClient cUserI cEnumI) (h : gmap MediaRef CMedia)
  : @St cMediaI cUserI cLabelI cEnumI cConfigI :=
  mkSt c (h : gmap MediaRef (@Media cMediaI)) [].

(** On-demand media of ten seconds, and live media that the schedule service has
    enriched. *)
Definition cOnDemand : CMedia := mkCMedia false false 10000 true false.
Definition cLive : CMedia := mkCMedia true true 0 false false.

(** The client has the media [m] at reference 3, with broker 7. *)
Definition cWith (m : CMedia) (c : @EchoClient cUserI cEnumI)
  : @St cMediaI cUserI cLabelI cEnumI cConfigI :=
  cState (set_media (Some 3%positive) (set_broker (Some 7%positive) c)) {[3%positive := m]}.
