(* ===== verification/Labels.v ===== *)
(** * Labels: sanitising labels and passing them to the delegates.

    The label operations of [Echo/EchoClient.swift]: the two [sanitiseLabels],
    [addLabels], [addLabel], [removeLabels], [removeLabel] and
    [addManagedLabel]. *)

From S2P Require Import Prelude SwiftNumbers Interfaces Client Concrete.

Section definitions.
Context `{O : Oracle}.

(** One iteration of the loop of [sanitiseLabels(_: [String: String])]. *)
Definition sanitise_entry (acc : Labels) (kv : string * string) : Labels :=
let cleanKey := cleanLabelKey kv.1 in
let cleanValue := cleanLabelValue cleanKey kv.2 in
<[cleanKey := cleanValue]> acc.

(** The loop, over the entries in the order they are visited. *)
Definition sanitise_entries (l : list (string * string)) : Labels :=
foldl sanitise_entry ∅ l.

Definition sanitiseLabels (labels : Labels) : Labels := sanitise_entries (dict_order labels).

(** [if let eventLabels = eventLabels { sanitisedLabels = sanitiseLabels(eventLabels) }] *)
Definition sanitiseEventLabels (eventLabels : option Labels) : option Labels :=
match eventLabels with
| Some labels => Some (sanitiseLabels labels)
| None => None
end.

(** [sanitiseLabels(_: [String])] *)
Fixpoint sanitiseKeys_loop (cleanedKeys labels : list string) : list string :=
match labels with
| [] => cleanedKeys
| key :: labels' =>
    let cleanKey := cleanLabelKey key in
    if negb (string_isEmpty cleanKey)
    then sanitiseKeys_loop (cleanedKeys ++ [cleanKey]) labels'
    else sanitiseKeys_loop cleanedKeys labels'
end.

Definition sanitiseKeys (labels : list string) : list string := sanitiseKeys_loop [] labels.

Definition addLabels (labels : Labels) : M St unit :=
let sanitisedLabels := sanitiseLabels labels in
toDelegates (d_addLabels sanitisedLabels).

Definition addLabel (key value : string) : M St unit := addLabels {[key := value]}.

Definition removeLabels (labels : list string) : M St unit :=
let keys := sanitiseKeys labels in
match keys with
| [] => mret tt
| _ => toDelegates (d_removeLabels keys)
end.

Definition removeLabel (key : string) : M St unit := removeLabels [key].

Definition addManagedLabel (label : ManagedLabel) (value : string) : M St unit :=
if negb (string_isEmpty value) then
  let cleansedValue := cleanLabelValue (ManagedLabel_name label) value in
  toDelegates (d_addManagedLabel label cleansedValue)
else mret tt.
End definitions.

Arguments sanitiseLabels : simpl never.
Arguments sanitiseEventLabels : simpl never.
Arguments sanitiseKeys : simpl never.

Section lemmas.
Context `{O : Oracle}.
Implicit Types (l : list (string * string)) (labels : Labels) (s : St).

Lemma sanitise_entries_snoc l kv :
sanitise_entries (l ++ [kv]) = sanitise_entry (sanitise_entries l) kv.
Proof. unfold sanitise_entries. by rewrite foldl_app. Qed.

(** Every entry of the result comes from an entry that was visited. *)
Lemma sanitise_entries_sound l k' v' :
sanitise_entries l !! k' = Some v' →
∃ k v, (k, v) ∈ l ∧ cleanLabelKey k = k' ∧ v' = cleanLabelValue k' v.
Proof.
induction l as [|[k v] l IH] using rev_ind; [done|].
rewrite sanitise_entries_snoc. unfold sanitise_entry. simpl.
rewrite lookup_insert. case_decide; intros; simplify_eq.
- exists k, v. set_solver.
- destruct IH as (k0 & v0 & ? & ? & ?); [done|]. exists k0, v0. set_solver.
Qed.

(** The cleaned key of every visited entry is in the result. *)
Lemma sanitise_entries_complete l k v :
(k, v) ∈ l → is_Some (sanitise_entries l !! cleanLabelKey k).
Proof.
induction l as [|[k0 v0] l IH] using rev_ind; [set_solver|].
rewrite sanitise_entries_snoc. unfold sanitise_entry. simpl.
rewrite lookup_insert, elem_of_app, list_elem_of_singleton.
intros [Hin|?]; simplify_eq; case_decide; eauto; done.
Qed.

(** [k] does not share its cleaned key with another visited entry. *)
Definition no_collision l k : Prop :=
∀ k1 v1 v2, (k1, v1) ∈ l → (k, v2) ∈ l → cleanLabelKey k1 = cleanLabelKey k →
  k1 = k ∧ v1 = v2.

Lemma sanitise_entries_exact l k v :
(k, v) ∈ l → no_collision l k →
sanitise_entries l !! cleanLabelKey k = Some (cleanLabelValue (cleanLabelKey k) v).
Proof.
intros Hin Hnc. destruct (sanitise_entries_complete _ _ _ Hin) as [v' Hv'].
rewrite Hv'. destruct (sanitise_entries_sound _ _ _ Hv') as (k1 & v1 & Hin1 & E & ->).
destruct (Hnc k1 v1 v Hin1 Hin E) as [-> ->]. done.
Qed.

Lemma sanitiseKeys_loop_spec acc ks :
sanitiseKeys_loop acc ks =
  acc ++ filter (λ k, k ≠ EmptyString) (map cleanLabelKey ks).
Proof.
revert acc. induction ks as [|k ks IH]; intros acc; simpl; [by rewrite app_nil_r|].
destruct (cleanLabelKey k) eqn:E; simpl; rewrite IH.
- rewrite filter_cons_False; naive_solver.
- rewrite filter_cons_True by done. by rewrite <- app_assoc.
Qed.

Lemma sanitiseKeys_spec ks :
sanitiseKeys ks = filter (λ k, k ≠ EmptyString) (map cleanLabelKey ks).
Proof. unfold sanitiseKeys. by rewrite sanitiseKeys_loop_spec. Qed.

Lemma run_addLabels labels s :
addLabels labels s =
  (Ret tt, push (broadcast s.(client).(delegates) (d_addLabels (sanitiseLabels labels))) s).
Proof. unfold addLabels. by rewrite run_toDelegates. Qed.

(** The calls of [removeLabels]. *)
Definition removeLabels_calls (ds : list DelegateRef) (ks : list string) : list Call :=
match sanitiseKeys ks with [] => [] | keys => broadcast ds (d_removeLabels keys) end.

Lemma run_removeLabels ks s :
removeLabels ks s = (Ret tt, push (removeLabels_calls s.(client).(delegates) ks) s).
Proof.
unfold removeLabels, removeLabels_calls. destruct (sanitiseKeys ks) eqn:E.
- by rewrite push_nil.
- by rewrite run_toDelegates.
Qed.

Lemma run_removeLabel k s :
removeLabel k s = (Ret tt, push (removeLabels_calls s.(client).(delegates) [k]) s).
Proof. apply run_removeLabels. Qed.

Lemma run_addLabel k v s :
addLabel k v s =
  (Ret tt, push (broadcast s.(client).(delegates)
                   (d_addLabels (sanitiseLabels {[k := v]}))) s).
Proof. apply run_addLabels. Qed.

Context `{!LabelLaws}.

Lemma elem_of_dict_order labels k v : (k, v) ∈ dict_order labels ↔ labels !! k = Some v.
Proof. rewrite (dict_order_perm labels). apply elem_of_map_to_list. Qed.

Lemma sanitise_singleton k v :
sanitiseLabels {[k := v]} = {[cleanLabelKey k := cleanLabelValue (cleanLabelKey k) v]}.
Proof.
unfold sanitiseLabels. pose proof (dict_order_perm {[k := v]}) as Hp.
rewrite map_to_list_singleton in Hp.
apply Permutation_singleton_r in Hp as ->. done.
Qed.

(** No two keys of [labels] clean to the same key. *)
Definition clean_injective labels : Prop :=
∀ k1 k2, is_Some (labels !! k1) → is_Some (labels !! k2) →
  cleanLabelKey k1 = cleanLabelKey k2 → k1 = k2.

Lemma clean_injective_no_collision labels l k :
l ≡ₚ map_to_list labels → clean_injective labels → no_collision l k.
Proof.
intros Hp Hinj k1 v1 v2 H1 H2 E. rewrite Hp in H1, H2.
apply elem_of_map_to_list in H1, H2.
assert (k1 = k) as -> by (apply Hinj; eauto). by simplify_eq.
Qed.
End lemmas.

#[export] Hint Rewrite @run_addLabels @run_addLabel @run_removeLabels @run_removeLabel : run.
Arguments addLabels : simpl never.
Arguments addLabel : simpl never.
Arguments removeLabels : simpl never.
Arguments removeLabel : simpl never.

Section properties.
Context `{O : Oracle}.
Implicit Types (labels : Labels) (s : St).

(** C25. Sanitising a dictionary whose keys do not collide: the result holds, for
    every entry, the cleaned value under the cleaned key, and nothing else; it is the
    same for every order in which the entries are visited. *)
Theorem sanitiseLabels_correct `{!LabelLaws} labels :
clean_injective labels →
(∀ k' v', sanitiseLabels labels !! k' = Some v' ↔
   ∃ k v, labels !! k = Some v ∧ cleanLabelKey k = k' ∧ v' = cleanLabelValue k' v) ∧
(∀ l, l ≡ₚ map_to_list labels → sanitise_entries l = sanitiseLabels labels).
Proof.
intros Hinj.
assert (Hchar : ∀ l, l ≡ₚ map_to_list labels → ∀ k' v',
  sanitise_entries l !! k' = Some v' ↔
  ∃ k v, labels !! k = Some v ∧ cleanLabelKey k = k' ∧ v' = cleanLabelValue k' v).
{ intros l Hl k' v'.
  assert (Hin : ∀ k v, (k, v) ∈ l ↔ labels !! k = Some v)
    by (intros; rewrite Hl; apply elem_of_map_to_list).
  split.
  - intros (k & v & ? & ? & ?)%sanitise_entries_sound. exists k, v. by rewrite <- Hin.
  - intros (k & v & Hk%Hin & <- & ->). apply sanitise_entries_exact; [done|].
    by eapply clean_injective_no_collision. }
split; [exact (Hchar _ (dict_order_perm labels))|].
intros l Hl. apply map_eq. intros k'. apply option_eq. intros v'.
rewrite (Hchar l Hl). symmetry. exact (Hchar _ (dict_order_perm labels) k' v').
Qed.

(** C40. A label whose key cleans to the empty string is added, under the empty key,
    but never removed: [removeLabel] drops the key and calls no delegate. *)
Theorem empty_key_added_never_removed `{!LabelLaws} k v s :
cleanLabelKey k = EmptyString →
addLabel k v s =
  (Ret tt, push (broadcast s.(client).(delegates)
    (d_addLabels {[EmptyString := cleanLabelValue EmptyString v]})) s) ∧
removeLabel k s = (Ret tt, s).
Proof.
intros Hk. split.
- rewrite run_addLabel, sanitise_singleton. by rewrite Hk.
- rewrite run_removeLabel. unfold removeLabels_calls, sanitiseKeys.
  simpl. rewrite Hk. simpl. by rewrite push_nil.
Qed.
End properties.

(** ** Witnesses *)
Section witnesses.
#[local] Existing Instances cMediaI cUserI cLabelI cEnumI cConfigI cO cLabelL.

Lemma sanitiseLabels_correct_witness :
(∀ k' v', sanitiseLabels {["Foo" := "1"]} !! k' = Some v' ↔
   ∃ k v, ({["Foo" := "1"]} : Labels) !! k = Some v ∧ cleanLabelKey k = k' ∧
     v' = cleanLabelValue k' v) ∧
(∀ l, l ≡ₚ map_to_list ({["Foo" := "1"]} : Labels) →
   sanitise_entries l = sanitiseLabels {["Foo" := "1"]}).
Proof.
apply sanitiseLabels_correct.
intros k1 k2 [v1 H1] [v2 H2] _.
apply lookup_singleton_Some in H1 as [<- _]. by apply lookup_singleton_Some in H2 as [<- _].
Defined.

Lemma empty_key_added_never_removed_witness :
addLabel " " "v" (cState cClient ∅) =
  (Ret tt, push (broadcast [1%positive; 2%positive]
    (d_addLabels {[EmptyString := "v"]})) (cState cClient ∅)) ∧
removeLabel " " (cState cClient ∅) = (Ret tt, cState cClient ∅).
Proof.
apply (empty_key_added_never_removed " " "v" (cState cClient ∅)).
vm_compute. reflexivity.
Defined.
End witnesses.
