(* ===== verification/Config.v ===== *)
(** * Config: collating and validating the configuration.

    [EchoClient.getDefaultConfig], [collateConfig], [validateConfigField] and
    [isValidConfig] of [Echo/EchoClient.swift]. *)

From S2P Require Import Prelude SwiftNumbers Interfaces Client Concrete.

(** The validation options that [validateConfigField] looks for. *)
Inductive EchoConfigValidationOptions := opt_optional | opt_nonZeroLength | opt_noWhiteSpace.

#[export] Instance EchoConfigValidationOptions_eq_dec : EqDecision EchoConfigValidationOptions.
Proof. solve_decision. Defined.

(** The regular expression [\A\s*\z]: only white space, which is tab, line
    feed, form feed, carriage return and the characters of the Unicode
    category Z, here in their UTF-8 encodings. *)
Definition byte_in (c : Ascii.ascii) (l : list nat) : bool :=
  existsb (Nat.eqb (Ascii.nat_of_ascii c)) l.

Fixpoint only_whitespace (s : string) : bool :=
  match s with
  | EmptyString => true
  | String c1 s1 =>
      if byte_in c1 [9; 10; 12; 13; 32]%nat then only_whitespace s1
      else match s1 with
      | EmptyString => false
      | String c2 s2 =>
          if byte_in c1 [0xC2]%nat then byte_in c2 [0xA0]%nat && only_whitespace s2
          else match s2 with
          | EmptyString => false
          | String c3 s3 =>
              ((byte_in c1 [0xE1]%nat && byte_in c2 [0x9A]%nat && byte_in c3 [0x80]%nat)
               || (byte_in c1 [0xE2]%nat && byte_in c2 [0x80]%nat
                   && byte_in c3 [0x80; 0x81; 0x82; 0x83; 0x84; 0x85; 0x86; 0x87; 0x88; 0x89;
                                  0x8A; 0xA8; 0xA9; 0xAF]%nat)
               || (byte_in c1 [0xE2]%nat && byte_in c2 [0x81]%nat && byte_in c3 [0x9F]%nat)
               || (byte_in c1 [0xE3]%nat && byte_in c2 [0x80]%nat && byte_in c3 [0x80]%nat))
              && only_whitespace s3
          end
      end
  end.

(** The text of a [[String]] in an interpolated string. *)
Definition quoted (s : string) : string :=
  let q := String (Ascii.ascii_of_nat 34) EmptyString in q +:+ s +:+ q.

Fixpoint array_items (l : list string) : string :=
  match l with
  | [] => EmptyString
  | [x] => quoted x
  | x :: l' => quoted x +:+ ", " +:+ array_items l'
  end.

Definition array_description (l : list string) : string := "[" +:+ array_items l +:+ "]".

Section definitions.
Context `{O : Oracle}.
Abbreviation Config := (gmap EchoConfigKey string).

Definition LibraryName : string := "echo_ios_swift".
Definition LibraryVersion : string := "5.2.1".

Definition getDefaultConfig : Config :=
let config := ∅ in
let config := <[cfg_echoEnabled := "true"]> config in
let config := <[cfg_echoAutoStart := "true"]> config in
let config := <[cfg_echoDebug := "false"]> config in
let config := <[cfg_essURL := "ess.api.bbci.co.uk"]> config in
let config := <[cfg_useESS := "false"]> config in
let config := <[cfg_essHTTPSEnabled := "true"]> config in
let config := <[cfg_echoCacheMode := EchoCacheMode_name EchoCacheMode_offline]> config in
config.

(** One iteration of [for (key, value) in userConfig where !value.isEmpty]. *)
Definition override (config : Config) (kv : EchoConfigKey * string) : Config :=
if negb (string_isEmpty kv.2) then <[kv.1 := kv.2]> config else config.

Definition collateConfig (userConfig : option Config) : Config :=
let config := ∅ in
let config := dict_merge config getDefaultConfig in
let config := dict_merge config ComScoreDelegate_getDefaultConfig in
let config := dict_merge config SpringDelegate_getDefaultConfig in
let config := dict_merge config ATInternetDelegate_getDefaultConfig in
let config :=
  match userConfig with
  | Some userConfig =>
      let config :=
        match userConfig !! cfg_reportingProfile with
        | Some profile =>
            match EchoProfile_init (lowercased profile) with
            | Some echoProfile =>
                dict_merge config (EchoReportingProfiles_getConfigForProfile echoProfile)
            | None => config
            end
        | None => config
        end in
      foldl override config (config_order userConfig)
  | None => config
  end in
let config := <[cfg_measurementLibName := LibraryName]> config in
let config := <[cfg_measurementLibVersion := LibraryVersion]> config in
config.

Definition contains (options : list EchoConfigValidationOptions)
(o : EchoConfigValidationOptions) : bool := bool_decide (o ∈ options).

Definition validateConfigField (key : EchoConfigKey) (value : option string)
(valid : list string) (options : list EchoConfigValidationOptions) : M St bool :=
let name := EchoConfigKey_description key in
match value with
| None =>
    if contains options opt_optional then mret true
    else log error ("Missing Config Argument: " +:+ name) ;; mret false
| Some value =>
    let not_valid := name +:+ " cannot be empty. Not Valid: " +:+ value in
    if contains options opt_nonZeroLength && string_isEmpty value then
      log error not_valid ;; mret false
    else if contains options opt_noWhiteSpace && only_whitespace value then
      log error not_valid ;; mret false
    else if bool_decide (valid = []) || bool_decide (value ∈ valid) then mret true
    else
      log error (name +:+ " must equal one of " +:+ array_description valid
                 +:+ ". Not valid: " +:+ value) ;;
      mret false
end.

(** [guard c1, c2, ... else { return false }; return true] *)
Fixpoint guard_all (conditions : list (M St bool)) : M St bool :=
match conditions with
| [] => mret true
| c :: cs => b ← c; if (b : bool) then guard_all cs else mret false
end.

(** The fields that [isValidConfig] validates, in order. *)
Definition config_fields (appName : string) (config : Config)
: list (EchoConfigKey * option string * list string * list EchoConfigValidationOptions) :=
let boolValid := ["true"; "false"] in
[ (cfg_echoEnabled, config !! cfg_echoEnabled, boolValid, []);
  (cfg_echoAutoStart, config !! cfg_echoAutoStart, boolValid, []);
  (cfg_applicationName, Some appName, [], [opt_nonZeroLength; opt_noWhiteSpace]);
  (cfg_echoCacheMode, config !! cfg_echoCacheMode, ["offline"; "all"], []);
  (cfg_comScoreEnabled, config !! cfg_comScoreEnabled, boolValid, [opt_optional]);
  (cfg_comScoreDebugMode, config !! cfg_comScoreDebugMode, ["0"; "1"], [opt_optional]);
  (cfg_testServiceEnabled, config !! cfg_testServiceEnabled, boolValid, [opt_optional]);
  (cfg_useESS, config !! cfg_useESS, boolValid, []);
  (cfg_essHTTPSEnabled, config !! cfg_essHTTPSEnabled, boolValid, []);
  (cfg_idv5Enabled, config !! cfg_idv5Enabled, boolValid, [opt_optional]);
  (cfg_webviewCookiesEnabled, config !! cfg_webviewCookiesEnabled, boolValid, [opt_optional]);
  (cfg_barbEnabled, config !! cfg_barbEnabled, boolValid, [opt_optional]) ].

Definition isValidConfig (appName : string) (config : Config) : M St bool :=
guard_all (map (λ '(key, value, valid, options), validateConfigField key value valid options)
               (config_fields appName config)).
End definitions.

Section lemmas.
Context `{O : Oracle}.
Abbreviation Config := (gmap EchoConfigKey string).
Implicit Types (s : St) (valid : list string) (options : list EchoConfigValidationOptions).

(** ** Validation *)

(** What a field has to satisfy. *)
Definition field_ok (value : option string) valid options : Prop :=
match value with
| None => opt_optional ∈ options
| Some v =>
    (opt_nonZeroLength ∈ options → v ≠ EmptyString) ∧
    (opt_noWhiteSpace ∈ options → only_whitespace v = false) ∧
    (valid = [] ∨ v ∈ valid)
end.

#[export] Instance field_ok_dec value valid options : Decision (field_ok value valid options).
Proof. unfold field_ok. destruct value; apply _. Defined.

(** A validation step answers [b]; it logs one error when [b] is false and
  does nothing else. *)
Definition validates (m : M St bool) (b : bool) : Prop :=
∀ s, ∃ cs, m s = (Ret b, push cs s) ∧
  if b then cs = [] else ∃ msg, cs = [Log error msg].

Lemma validates_ok : validates (mret true) true.
Proof. intros s. exists []. by rewrite push_nil. Qed.

Lemma validates_ko msg : validates (log error msg ;; mret false) false.
Proof. intros s. exists [Log error msg]. eauto. Qed.

#[local] Hint Resolve validates_ok validates_ko : core.

Lemma validateConfigField_validates key value valid options :
validates (validateConfigField key value valid options)
          (bool_decide (field_ok value valid options)).
Proof.
unfold validateConfigField, contains, field_ok. destruct value as [v|].
- destruct (bool_decide (opt_nonZeroLength ∈ options) && string_isEmpty v) eqn:T1;
    [|destruct (bool_decide (opt_noWhiteSpace ∈ options) && only_whitespace v) eqn:T2;
    [|destruct (bool_decide (valid = []) || bool_decide (v ∈ valid)) eqn:T3]].
  all: rewrite ?andb_true_iff, ?andb_false_iff, ?orb_true_iff, ?orb_false_iff,
    ?bool_decide_eq_true, ?bool_decide_eq_false, ?string_isEmpty_spec in *.
  + rewrite bool_decide_eq_false_2 by naive_solver. auto.
  + rewrite bool_decide_eq_false_2; [auto|]. destruct T2, (only_whitespace v); naive_solver.
  + rewrite bool_decide_eq_true_2; [auto|]. split_and!; [|naive_solver|done].
    intros ? ->. destruct T1; [done|discriminate].
  + rewrite bool_decide_eq_false_2 by naive_solver. auto.
- destruct (bool_decide (opt_optional ∈ options)); auto.
Qed.

Lemma guard_all_validates ms bs :
Forall2 validates ms bs → validates (guard_all ms) (forallb id bs).
Proof.
induction 1 as [|m b ms bs Hm Hms IH]; [apply validates_ok|].
intros s. destruct (Hm s) as (cs & E & Hcs). run_step. rewrite E.
destruct b; simpl; [subst; rewrite push_nil; apply IH|].
exists cs. done.
Qed.

(** Every field satisfies its rules. *)
Definition config_valid appName (config : Config) : bool :=
forallb (λ '(_, value, valid, options), bool_decide (field_ok value valid options))
  (config_fields appName config).

Lemma isValidConfig_validates appName (config : Config) :
validates (isValidConfig appName config) (config_valid appName config).
Proof.
unfold isValidConfig, config_valid.
replace (forallb _ _) with
  (forallb id (map (λ '(_, value, valid, options),
                      bool_decide (field_ok value valid options))
                   (config_fields appName config))).
2:{ induction (config_fields appName config) as [|[[[? ?] ?] ?] l IH]; simpl; [done|].
    by rewrite IH. }
apply guard_all_validates. rewrite Forall2_fmap. apply Forall_Forall2_diag.
apply Forall_true. intros [[[key value] valid] options].
apply validateConfigField_validates.
Qed.

(** ** Collation *)

(** The value the user gives for a key; an empty value counts as none. *)
Definition user_layer (userConfig : option Config) (k : EchoConfigKey) : option string :=
u ← userConfig; v ← u !! k; if string_isEmpty v then None else Some v.

(** The value of the reporting profile the user names, if there is one. *)
Definition profile_layer (userConfig : option Config) (k : EchoConfigKey) : option string :=
u ← userConfig; name ← u !! cfg_reportingProfile;
p ← EchoProfile_init (lowercased name);
EchoReportingProfiles_getConfigForProfile p !! k.

(** The first layer that has a value. *)
Fixpoint first_value (layers : list (option string)) : option string :=
match layers with
| [] => None
| Some v :: _ => Some v
| None :: layers' => first_value layers'
end.

Lemma foldl_override_lookup (l : list (EchoConfigKey * string)) (c : Config) k :
NoDup l.*1 →
foldl override c l !! k =
  match (list_to_map l : Config) !! k with
  | Some v => if string_isEmpty v then c !! k else Some v
  | None => c !! k
  end.
Proof.
revert c. induction l as [|[k' v'] l IH]; intros c Hnd; simpl; [by rewrite lookup_empty|].
apply NoDup_cons in Hnd as [Hk' Hnd]. rewrite IH by done.
assert (Hnone : (list_to_map l : Config) !! k' = None) by (by apply not_elem_of_list_to_map).
unfold override. simpl. rewrite lookup_insert.
destruct (decide (k' = k)) as [->|Hne].
- rewrite Hnone. destruct (string_isEmpty v'); simpl; [done|by rewrite lookup_insert_eq].
- destruct (string_isEmpty v'); simpl; by rewrite ?lookup_insert_ne.
Qed.

Lemma collate_user_layer `{!ConfigLaws} (u c : Config) k :
foldl override c (config_order u) !! k =
  first_value [user_layer (Some u) k; c !! k].
Proof.
assert (Hnd : NoDup (config_order u).*1).
{ rewrite (config_order_perm u). apply NoDup_fst_map_to_list. }
rewrite foldl_override_lookup by done.
rewrite (list_to_map_proper (config_order u) (map_to_list u))
  by (done || apply config_order_perm).
rewrite list_to_map_to_list. unfold user_layer. simpl.
destruct (u !! k) as [v|]; simpl; [destruct (string_isEmpty v)|]; by destruct (c !! k).
Qed.
End lemmas.

#[export] Typeclasses Opaque field_ok.
Arguments validateConfigField : simpl never.
Arguments isValidConfig : simpl never.
Arguments collateConfig : simpl never.

(** The named keys are distinct: all the inequalities, in the context. *)
Ltac distinct_keys :=
  let ND := fresh "ND" in
  pose proof config_keys_NoDup as ND;
  rewrite !NoDup_cons, !not_elem_of_cons in ND; destruct_and? ND.

Section properties.
Context `{O : Oracle}.
Abbreviation Config := (gmap EchoConfigKey string).
Implicit Types (s : St) (config : Config).

(** C22. The value of a key is, in this order: the library's own for its name and
    version; the user's, if it is not empty; the reporting profile's; the defaults of
    the delegates, last one first; the default of the client. *)
Theorem collateConfig_priority `{!ConfigLaws} (u : option Config) k :
collateConfig u !! k =
  if decide (k = cfg_measurementLibVersion) then Some LibraryVersion
  else if decide (k = cfg_measurementLibName) then Some LibraryName
  else first_value [user_layer u k; profile_layer u k;
    ATInternetDelegate_getDefaultConfig !! k; SpringDelegate_getDefaultConfig !! k;
    ComScoreDelegate_getDefaultConfig !! k; getDefaultConfig !! k].
Proof.
unfold collateConfig. rewrite lookup_insert.
destruct (decide (cfg_measurementLibVersion = k)) as [->|H1].
{ by rewrite decide_True. }
rewrite decide_False by done. rewrite lookup_insert.
destruct (decide (cfg_measurementLibName = k)) as [->|H2].
{ by rewrite decide_True. }
rewrite decide_False by done.
destruct u as [u|].
- rewrite collate_user_layer. destruct (user_layer (Some u) k) as [v|]; [done|].
  unfold profile_layer. simpl.
  destruct (u !! cfg_reportingProfile) as [name|]; simpl;
    [destruct (EchoProfile_init (lowercased name)); simpl|];
    rewrite ?dict_merge_lookup, ?lookup_empty; by repeat case_match.
- simpl. rewrite ?dict_merge_lookup, ?lookup_empty. by repeat case_match.
Qed.

Definition required (v : option string) (valid : list string) : Prop :=
∃ x, v = Some x ∧ x ∈ valid.
Definition optional (v : option string) (valid : list string) : Prop :=
∀ x, v = Some x → x ∈ valid.

Lemma field_ok_required v y valid : field_ok v (y :: valid) [] ↔ required v (y :: valid).
Proof.
unfold field_ok, required. destruct v as [x|]; split.
- intros (_ & _ & [?|?]); [done|eauto].
- intros (? & [= <-] & ?). split_and!; [set_solver..|auto].
- set_solver.
- by intros (? & ? & _).
Qed.

Lemma field_ok_optional v y valid :
field_ok v (y :: valid) [opt_optional] ↔ optional v (y :: valid).
Proof.
unfold field_ok, optional. destruct v as [x|]; split.
- intros (_ & _ & [?|?]) ? [= <-]; done.
- intros H. split_and!; [by intros ?%list_elem_of_singleton..|auto].
- by intros _ ? ?.
- set_solver.
Qed.

Lemma field_ok_name v :
field_ok (Some v) [] [opt_nonZeroLength; opt_noWhiteSpace] ↔ only_whitespace v = false.
Proof.
unfold field_ok. split.
- intros (_ & H & _). apply H. set_solver.
- intros H. split_and!; [by intros _ ->|done|auto].
Qed.

(** C23. Validation accepts a configuration exactly when every required field has one
    of its values, every optional field that is present does, and the name of the app
    is not only white space; it logs exactly one error when it refuses and does
    nothing else. *)
Theorem isValidConfig_iff appName config s :
let boolValid := ["true"; "false"] in
∃ b cs, isValidConfig appName config s = (Ret b, push cs s) ∧
  (b = true ↔
    required (config !! cfg_echoEnabled) boolValid ∧
    required (config !! cfg_echoAutoStart) boolValid ∧
    only_whitespace appName = false ∧
    required (config !! cfg_echoCacheMode) ["offline"; "all"] ∧
    optional (config !! cfg_comScoreEnabled) boolValid ∧
    optional (config !! cfg_comScoreDebugMode) ["0"; "1"] ∧
    optional (config !! cfg_testServiceEnabled) boolValid ∧
    required (config !! cfg_useESS) boolValid ∧
    required (config !! cfg_essHTTPSEnabled) boolValid ∧
    optional (config !! cfg_idv5Enabled) boolValid ∧
    optional (config !! cfg_webviewCookiesEnabled) boolValid ∧
    optional (config !! cfg_barbEnabled) boolValid) ∧
  if b then cs = [] else ∃ msg, cs = [Log error msg].
Proof.
intros boolValid. destruct (isValidConfig_validates appName config s) as (cs & E & Hcs).
eexists _, cs. split; [exact E|]. split; [|exact Hcs].
unfold config_valid, config_fields. cbn [forallb]. rewrite !andb_true_iff, !bool_decide_eq_true.
rewrite !field_ok_required, !field_ok_optional, field_ok_name. tauto.
Qed.

(** The default configuration is valid for every app that has a name. *)
Theorem getDefaultConfig_valid `{!ConfigLaws} appName s :
EchoCacheMode_name EchoCacheMode_offline = "offline" →
only_whitespace appName = false →
isValidConfig appName getDefaultConfig s = (Ret true, s).
Proof.
intros Hmode Hname.
destruct (isValidConfig_validates appName getDefaultConfig s) as (cs & E & Hcs).
rewrite E. clear E.
assert (Hb : config_valid appName getDefaultConfig = true).
{ unfold config_valid, config_fields. cbn [forallb]. rewrite !andb_true_iff, !bool_decide_eq_true.
  rewrite !field_ok_required, !field_ok_optional, field_ok_name.
  unfold getDefaultConfig. distinct_keys.
  repeat (rewrite lookup_insert_eq || rewrite lookup_insert_ne by done).
  rewrite !lookup_empty, Hmode. unfold required, optional. clear -Hname.
  split_and!; try done; try (by intros ? [=]);
    first [intros ? [= <-] | eexists; split; [reflexivity|]]; set_solver. }
rewrite Hb in *. by rewrite Hcs, push_nil.
Qed.
End properties.

(** ** Witnesses *)
Section witnesses.
#[local] Existing Instances cMediaI cUserI cLabelI cEnumI cConfigI cO cConfigL.

Lemma collateConfig_priority_witness :
collateConfig (Some {["barb_enabled" := ""]}) !! "barb_enabled" = Some "false".
Proof. etrans; [apply collateConfig_priority | vm_compute; reflexivity]. Defined.

Lemma getDefaultConfig_valid_witness :
isValidConfig "App" getDefaultConfig (cState cClient ∅) = (Ret true, cState cClient ∅).
Proof.
apply (getDefaultConfig_valid "App" (cState cClient ∅)); vm_compute; reflexivity.
Defined.
End witnesses.
