(* ===== verification/Media.v ===== *)
(** * Media: media, brokers and positions.

    The part of [Echo/EchoClient.swift] that owns the current media and its
    broker: [setMedia], [clearMedia], [initBroker], [setMediaLength], the
    position checks, and the callbacks of the live broker other than
    [releaseSuppressedPlay] and [sendHeartbeat] (file AvEvents). *)

From S2P Require Import Prelude SwiftNumbers Interfaces Client Concrete Labels.
From Stdlib Require Import SpecFloat.

Section definitions.
Context `{O : Oracle}.

Definition initBroker : M St unit :=
pd ← gets playerDelegate;
mr ← gets media;
match pd, mr with
| Some playerDelegate, Some media =>
    url ← gets essUrl;
    m ← deref media;
    b ← match url, media_isLive m with
        | Some essUrl, true =>
            https ← gets useHttps;
            ess ← gets essEnabled;
            ask (MakeLiveBroker playerDelegate media essUrl https ess) answer_makeBroker
        | _, _ => ask (MakeOnDemandBroker playerDelegate media) answer_makeBroker
        end;
    modify (set_broker (Some b)) ;;
    toDelegates (d_setBroker b)
| _, _ => mret tt
end.

Definition liveMediaUpdate (media : MediaRef) (newPosition oldPosition : Z) : M St unit :=
modify (set_suppressingPlayEvent false) ;;
modify (set_media (Some media)) ;;
toDelegates (d_liveMediaUpdate media newPosition oldPosition).

Definition liveTimestampUpdate (timestamp : TimeInterval) : M St unit :=
match u64_of_double (double_mul timestamp double_1000) with
| Some timestamp => addLabel key_MediaTimestamp (decimal timestamp)
| None => trap
end.

Definition setEssError (error : EssError) (code : string) : M St unit :=
addLabel key_ESSError (EssError_rawValue error) ;;
(if bool_decide (error = EssError_StatusCode) then addLabel key_ESSStatusCode code
 else mret tt) ;;
toDelegates d_liveEnrichmentFailed.

Definition setEssSuccess (isSuccess : bool) : M St unit :=
addLabel key_ESSSuccess (if isSuccess then "true" else "false").

Definition clearMedia : M St unit :=
removeLabel key_MediaTimestamp ;;
removeLabel key_ESSEnabled ;;
removeLabel key_ESSSuccess ;;
removeLabel key_ESSError ;;
removeLabel key_ESSStatusCode ;;
removeLabel key_ESSEnriched ;;
mr ← gets media;
(if bool_decide (mr ≠ None) then modify (set_media None) else mret tt) ;;
br ← gets broker;
match br with
| Some b => emit (BrokerStop b) ;; modify (set_broker None)
| None => mret tt
end ;;
toDelegates d_clearMedia.

Definition setMedia (media_ : MediaRef) : M St unit :=
enabled ← gets echoEnabled;
if negb enabled then mret tt else
clearMedia ;;
m ← deref media_;
clonedMedia ← new_media (media_getClone m);
modify (set_media (Some clonedMedia)) ;;
ess ← gets essEnabled;
addLabel key_ESSEnabled (if (ess : bool) then "true" else "false") ;;
initBroker ;;
mr ← gets media;
match mr with
| Some media => toDelegates (d_setMedia media)
| None => mret tt
end.

Definition setMediaLength (length : Z) : M St unit :=
mr ← gets media;
match mr with
| None => log error "setMedia() must be called beforesetMediaLength(_:)"
| Some r =>
    m ← deref r;
    if media_consumptionMode_is_live m then
      log error "Length should be set to zero prior to passing the media object to Echo for live media"
    else
      (if 0 <? length then toDelegates (d_setMediaLength length) else mret tt) ;;
      update_self_media (media_set_length length)
end.

(** [setMediaBitrate], [setMediaCodec] and [setMediaCDN] have empty bodies. *)
Definition setMediaBitrate (bitrate : Z) : M St unit := mret tt.
Definition setMediaCodec (codec : string) : M St unit := mret tt.
Definition setMediaCDN (cdn : string) : M St unit := mret tt.

Definition positionExceedsMediaLength (position : Z) : M St bool :=
mr ← gets media;
match mr with
| Some r =>
    m ← deref r;
    within ← (if 1000 <=? media_length m
              then limit ← u64_sub (media_length m) 1000; mret (limit <=? position)
              else mret false);
    if (within : bool) then mret true
    else mret ((media_length m <? 1000) && negb (media_length m =? 0))
| None => mret false
end.

Definition preventPositionExceedingMediaLength (position : Z) : M St Z :=
mr ← gets media;
match mr with
| Some r =>
    exceeds ← positionExceedsMediaLength position;
    if (exceeds : bool) then m ← deref r; mret (media_length m) else mret position
| None => mret position
end.
End definitions.

Arguments positionExceedsMediaLength : simpl never.
Arguments preventPositionExceedingMediaLength : simpl never.
Arguments initBroker : simpl never.
Arguments clearMedia : simpl never.

(** ** Positions *)

(** What [positionExceedsMediaLength] decides for a media of length [len]. *)
Definition exceeds (len position : Z) : bool :=
  if 1000 <=? len then len - 1000 <=? position else negb (len =? 0).

Definition clamp (len position : Z) : Z := if exceeds len position then len else position.

Lemma exceeds_spec len position :
  0 ≤ len → exceeds len position = true ↔ len ≠ 0 ∧ (len < 1000 ∨ len ≤ position + 1000).
Proof. intros. unfold exceeds. repeat case_match; lia. Qed.

Lemma clamp_le len position : 0 < len → clamp len position ≤ len.
Proof. intros. unfold clamp, exceeds. repeat case_match; lia. Qed.

Section lemmas.
Context `{O : Oracle}.
Implicit Types (s : St) (r : MediaRef) (m : Media).

Lemma run_positionExceeds s r m p :
s.(client).(media) = Some r → s.(heap) !! r = Some m →
positionExceedsMediaLength p s = (Ret (exceeds (media_length m) p), s).
Proof.
intros E1 E2. unfold positionExceedsMediaLength, exceeds. run_step. rewrite E1.
rewrite (run_deref _ _ _ E2). destruct (1000 <=? media_length m) eqn:T; simpl.
- rewrite u64_sub_run by lia. destruct (media_length m - 1000 <=? p); [done|]. simpl.
  replace (media_length m <? 1000) with false by lia. done.
- by replace (media_length m <? 1000) with true by lia.
Qed.

Lemma run_preventPosition s r m p :
s.(client).(media) = Some r → s.(heap) !! r = Some m →
preventPositionExceedingMediaLength p s = (Ret (clamp (media_length m) p), s).
Proof.
intros E1 E2. unfold preventPositionExceedingMediaLength, clamp. run_step. rewrite E1.
rewrite (run_positionExceeds _ _ _ _ E1 E2).
destruct (exceeds (media_length m) p); [|done].
by rewrite (run_deref _ _ _ E2).
Qed.

(** The calls of [clearMedia]. *)
Definition clearMedia_calls (c : EchoClient) : list Call :=
let ds := c.(delegates) in
concat (map (λ k, removeLabels_calls ds [k])
          [key_MediaTimestamp; key_ESSEnabled; key_ESSSuccess; key_ESSError;
           key_ESSStatusCode; key_ESSEnriched]) ++
match c.(broker) with Some b => [BrokerStop b] | None => [] end ++
broadcast ds d_clearMedia.

Lemma run_clearMedia s :
clearMedia s =
  (Ret tt, mkSt (set_broker None (set_media None s.(client))) s.(heap)
                (s.(trace) ++ clearMedia_calls s.(client))).
Proof.
unfold clearMedia, clearMedia_calls. run. destruct s as [c h tr]. simpl.
pose proof (set_media_id c) as Em. pose proof (set_broker_id c) as Eb.
destruct (media c) as [r|], (broker c) as [b|] eqn:E; simpl; run; rewrite ?E; simpl; run.
all: unfold push; simpl; rewrite ?Em, ?Eb; do 2 f_equal;
  rewrite <- ?(app_assoc tr), ?app_nil_r; simpl;
  first [by rewrite <- ?app_assoc | destruct c; simpl in *; by subst].
Qed.

(** ** Setting the media *)

(** The factory call of [initBroker] for the media object [m] at [r]. *)
Definition make_broker_call (c : EchoClient) (p : PlayerRef) r m : Call :=
match c.(essUrl), media_isLive m with
| Some url, true => MakeLiveBroker p r url c.(useHttps) c.(essEnabled)
| _, _ => MakeOnDemandBroker p r
end.

(** The client and the calls after [initBroker], from the calls [tr]. *)
Definition init_broker (c : EchoClient) (tr : list Call) r m : EchoClient * list Call :=
match c.(playerDelegate) with
| Some p =>
    let b := answer_makeBroker tr in
    (set_broker (Some b) c,
     make_broker_call c p r m :: broadcast c.(delegates) (d_setBroker b))
| None => (c, [])
end.

Lemma run_initBroker s r m :
s.(client).(media) = Some r → s.(heap) !! r = Some m →
initBroker s =
  (Ret tt, mkSt (init_broker s.(client) s.(trace) r m).1 s.(heap)
                (s.(trace) ++ (init_broker s.(client) s.(trace) r m).2)).
Proof.
intros E1 E2. unfold initBroker, init_broker, make_broker_call. run_step. rewrite E1.
destruct (playerDelegate (client s)) as [p|]; simpl.
2:{ rewrite app_nil_r. by destruct s. }
rewrite (run_deref r m) by done.
destruct (essUrl (client s)) as [url|]; simpl; [destruct (media_isLive m); simpl|];
  rewrite run_toDelegates; unfold push; simpl; by rewrite <- app_assoc.
Qed.

(** The state after [setMedia] of an object equal to [m0]. *)
Definition setMedia_state s (m0 : Media) : St :=
let c := s.(client) in
let r := fresh (dom s.(heap)) in
let m := media_getClone m0 in
let c' := set_media (Some r) (set_broker None (set_media None c)) in
let tr := s.(trace) ++ clearMedia_calls c ++
  broadcast c.(delegates) (d_addLabels (sanitiseLabels
    {[key_ESSEnabled := if c.(essEnabled) then "true" else "false"]})) in
let b := init_broker c' tr r m in
mkSt b.1 (<[r := m]> s.(heap)) (tr ++ b.2 ++ broadcast c.(delegates) (d_setMedia r)).

Lemma init_broker_media c tr r m : (init_broker c tr r m).1.(media) = c.(media).
Proof. unfold init_broker. by destruct (playerDelegate c). Qed.
Lemma init_broker_delegates c tr r m : (init_broker c tr r m).1.(delegates) = c.(delegates).
Proof. unfold init_broker. by destruct (playerDelegate c). Qed.
Lemma init_broker_enabled c tr r m : (init_broker c tr r m).1.(echoEnabled) = c.(echoEnabled).
Proof. unfold init_broker. by destruct (playerDelegate c). Qed.
Lemma init_broker_suppressing c tr r m :
(init_broker c tr r m).1.(suppressingPlayEvent) = c.(suppressingPlayEvent).
Proof. unfold init_broker. by destruct (playerDelegate c). Qed.

Lemma run_setMedia s r0 m0 :
s.(client).(echoEnabled) = true → s.(heap) !! r0 = Some m0 →
setMedia r0 s = (Ret tt, setMedia_state s m0).
Proof.
intros He E0. unfold setMedia, setMedia_state. run_step. rewrite He. run_step.
rewrite run_clearMedia. simpl. rewrite (run_deref r0 m0) by done. simpl.
rewrite run_addLabel. unfold push. simpl.
rewrite (run_initBroker _ (fresh (dom (heap s))) (media_getClone m0))
  by (done || apply lookup_insert_eq).
simpl. rewrite init_broker_media. simpl. rewrite run_toDelegates. unfold push. simpl.
rewrite init_broker_delegates. simpl. by rewrite <- !app_assoc.
Qed.
End lemmas.

#[export] Hint Rewrite @run_clearMedia : run.
Arguments setMedia : simpl never.
Arguments init_broker : simpl never.

Section properties.
Context `{O : Oracle}.
Implicit Types (s : St) (r : MediaRef) (m : Media).

(** C26. The position check never underflows and decides whether the position is at
    most a second before the end of the media, or beyond it. *)
Theorem positionExceedsMediaLength_correct s r m p :
s.(client).(media) = Some r → s.(heap) !! r = Some m →
in_u64 (media_length m) → in_u64 p →
∃ b, positionExceedsMediaLength p s = (Ret b, s) ∧
  (b = true ↔ media_length m ≠ 0 ∧ (media_length m < 1000 ∨ media_length m ≤ p + 1000)).
Proof.
intros E1 E2 [Hl _] _. exists (exceeds (media_length m) p).
rewrite (run_positionExceeds _ r m) by done. split; [done|]. by apply exceeds_spec.
Qed.

(** C14. [setMedia] clears what was there, makes a new object that is a clone of the
    one it is given, makes the broker its kind asks for, and gives broker and media to
    every delegate. *)
Theorem setMedia_correct s r0 m0 :
s.(client).(echoEnabled) = true → s.(heap) !! r0 = Some m0 →
∃ r s', setMedia r0 s = (Ret tt, s') ∧
  s.(heap) !! r = None ∧ s'.(client).(media) = Some r ∧
  s'.(heap) = <[r := media_getClone m0]> s.(heap) ∧
  s'.(heap) !! r0 = Some m0 ∧
  ∃ cs, s'.(trace) = s.(trace) ++ clearMedia_calls s.(client) ++ cs ++
    broadcast s.(client).(delegates) (d_setMedia r) ∧
  match s.(client).(playerDelegate) with
  | None => s'.(client).(broker) = None ∧ ∀ c, c ∈ cs → ∃ d l, c = ToDelegate d (d_addLabels l)
  | Some p =>
      ∃ b, s'.(client).(broker) = Some b ∧
        make_broker_call s.(client) p r (media_getClone m0) ∈ cs ∧
        ∀ d, d ∈ s.(client).(delegates) → ToDelegate d (d_setBroker b) ∈ cs
  end.
Proof.
intros He E0. eexists _, _. split; [by apply run_setMedia|].
assert (Hfr : s.(heap) !! fresh (dom s.(heap)) = None)
  by (apply not_elem_of_dom, is_fresh).
unfold setMedia_state. simpl. split; [done|].
split; [by rewrite init_broker_media|]. split; [done|].
split; [rewrite lookup_insert_ne; congruence|].
match goal with |- ∃ cs, (_ ++ _ ++ ?labels) ++ ?ib ++ _ = _ ∧ _ =>
  exists (labels ++ ib); split; [by rewrite <- !app_assoc|] end.
unfold init_broker. simpl. destruct (playerDelegate (client s)) as [p|]; simpl.
- eexists. split; [reflexivity|]. split.
  + apply elem_of_app. right. apply list_elem_of_here.
  + intros d Hd. apply elem_of_app. right. apply list_elem_of_further.
    apply elem_of_broadcast. eauto.
- split; [done|]. intros c. rewrite app_nil_r.
  intros (d & -> & _)%elem_of_broadcast. eauto.
Qed.

(** C27. A live timestamp, in seconds, becomes a label in whole milliseconds, rounded
    toward zero. The conversion traps, before anything is sent, exactly when that
    number of milliseconds is not a [UInt64]: for a NaN, an infinity, a number at or
    below -1 and a number at or above 2^64. *)
Theorem liveTimestampUpdate_correct t s :
let product := double_mul t double_1000 in
(∀ v, rounds_to product v → in_u64 v →
   liveTimestampUpdate t s =
     (Ret tt, push (broadcast s.(client).(delegates)
       (d_addLabels (sanitiseLabels {[key_MediaTimestamp := decimal v]}))) s)) ∧
((∀ v, rounds_to product v → ¬ in_u64 v) → liveTimestampUpdate t s = (Trap, s)).
Proof.
intros product. unfold liveTimestampUpdate. fold product. split.
- intros v Hv Hr. rewrite (proj2 (u64_of_double_spec product v)) by done. apply run_addLabel.
- intros Hn. destruct (u64_of_double product) as [v|] eqn:E; [|done].
  apply u64_of_double_spec in E as [Hv Hr]. by destruct (Hn v).
Qed.
End properties.

(** ** Witnesses *)
Section witnesses.
#[local] Existing Instances cMediaI cUserI cLabelI cEnumI cConfigI cO.

Lemma positionExceedsMediaLength_correct_witness :
∃ b, positionExceedsMediaLength 9500 (cWith cOnDemand cClient) =
    (Ret b, cWith cOnDemand cClient) ∧
  (b = true ↔ media_length cOnDemand ≠ 0 ∧
    (media_length cOnDemand < 1000 ∨ media_length cOnDemand ≤ 9500 + 1000)).
Proof.
apply (positionExceedsMediaLength_correct _ 3%positive); try reflexivity;
  split; simpl; unfold u64_limit; lia.
Defined.

(** 11.5 seconds are 11500 milliseconds; minus one second traps. *)
Definition seconds_11_5 : TimeInterval := S754_finite false 6473924464345088 (-49).
Definition seconds_minus_1 : TimeInterval := S754_finite true 4503599627370496 (-52).

Lemma minus_1_has_no_u64 v :
rounds_to (double_mul seconds_minus_1 double_1000) v → ¬ in_u64 v.
Proof.
assert (E : double_mul seconds_minus_1 double_1000 =
  S754_finite true 8796093022208000 (-43)) by (vm_compute; reflexivity).
rewrite E. intros [Ha H] [Hr _]. rewrite decide_False in H by lia.
assert (v = 0) as -> by lia. vm_compute in H. destruct H. done.
Qed.

Lemma liveTimestampUpdate_correct_witness :
liveTimestampUpdate seconds_11_5 (cWith cLive cClient) =
  (Ret tt, push (broadcast (cWith cLive cClient).(client).(delegates)
    (d_addLabels (sanitiseLabels {[key_MediaTimestamp := decimal 11500]})))
    (cWith cLive cClient)) ∧
liveTimestampUpdate seconds_minus_1 (cWith cLive cClient) = (Trap, cWith cLive cClient).
Proof.
split.
- apply (liveTimestampUpdate_correct seconds_11_5 (cWith cLive cClient));
    vm_compute; repeat split; discriminate.
- apply (liveTimestampUpdate_correct seconds_minus_1 (cWith cLive cClient)).
  exact minus_1_has_no_u64.
Defined.

Lemma setMedia_correct_witness :
∃ r s', setMedia 3%positive (cWith cOnDemand cClient) = (Ret tt, s') ∧
  s'.(client).(media) = Some r ∧ s'.(heap) !! 3%positive = Some cOnDemand ∧
  s'.(heap) !! r = Some cOnDemand ∧ is_Some s'.(client).(broker).
Proof.
destruct (setMedia_correct (cWith cOnDemand cClient) 3%positive cOnDemand)
  as (r & s' & E & _ & Hr & Hh & H3 & _ & _ & b & Hb & _); [reflexivity..|].
exists r, s'. split_and!; [exact E|exact Hr|exact H3| |by exists b].
rewrite Hh. apply lookup_insert_eq.
Defined.
End witnesses.
