(* ===== verification/AvEvents.v ===== *)
(** * AvEvents: the audio and video events.

    [avPlayEvent] and the other [av*Event] handlers of [Echo/EchoClient.swift],
    [avNavigationEvent], and the two callbacks that send such events,
    [releaseSuppressedPlay] and [sendHeartbeat]. *)

From S2P Require Import Prelude SwiftNumbers Interfaces Client Concrete Labels Media.

Section definitions.
Context `{O : Oracle}.

(** [broker.getPosition()] *)
Definition getPosition (b : BrokerRef) : M St Z :=
ask (BrokerGetPosition b) (λ h, answer_getPosition h b).

(** The [if let broker = broker] block of [avPlayEvent] for the media at [r]:
  the position to report, [None] when the handler returns early. *)
Definition avPlayEvent_broker (r : MediaRef) (position : Z) : M St (option Z) :=
br ← gets broker;
match br with
| Some b =>
    m ← deref r;
    if media_isLive m then
      position ← getPosition b;
      emit (BrokerStart b) ;;
      mret (Some position)
    else
      exceeds ← positionExceedsMediaLength position;
      if (exceeds : bool) then mret None
      else
        emit (BrokerSetPosition b position) ;;
        emit (BrokerStart b) ;;
        mret (Some position)
| None => mret (Some position)
end.

(** The rest of [avPlayEvent]: the play is suppressed or sent. *)
Definition avPlayEvent_send (r : MediaRef) (position : Z) (sanitisedLabels : option Labels)
: M St unit :=
m ← deref r;
suppressing ← gets suppressingPlayEvent;
if media_isLive m && media_isEnrichedWithESSData m && suppressing then
  modify (set_suppressedPlayEventLabels sanitisedLabels)
else
  toDelegates (d_avPlayEvent position sanitisedLabels) ;;
  update_self_media (media_set_isPlaying true) ;;
  update_self_media (media_set_isBuffering false) ;;
  modify (set_mediaActive true).

Definition avPlayEvent (position : Z) (eventLabels : option Labels) : M St unit :=
enabled ← gets echoEnabled;
if negb enabled then mret tt else
log info ("avPlayEvent(at:eventLabels:) called with position: " +:+ decimal position) ;;
mr ← gets media;
match mr with
| None => log error "setMedia() must be called beforeavPlayEvent(at:eventLabels:)"
| Some r =>
    position ← avPlayEvent_broker r position;
    match position with
    | None => mret tt
    | Some position => avPlayEvent_send r position (sanitiseEventLabels eventLabels)
    end
end.

Definition avNavigationEvent (position : Z) : M St Z :=
mr ← gets media;
match mr with
| None => mret position
| Some r =>
    br ← gets broker;
    position ←
      match br with
      | Some b =>
          emit (BrokerStop b) ;;
          m ← deref r;
          if media_isLive m then getPosition b
          else preventPositionExceedingMediaLength position
      | None => mret position
      end;
    m ← deref r;
    suppressing ← gets suppressingPlayEvent;
    (if media_isLive m && media_isEnrichedWithESSData m && negb suppressing
     then modify (set_suppressingPlayEvent true) else mret tt) ;;
    mret position
end.

Definition avPauseEvent (position : Z) (eventLabels : option Labels) : M St unit :=
enabled ← gets echoEnabled;
if negb enabled then mret tt else
log info ("avPauseEvent(at:eventLabels:) called with position: " +:+ decimal position) ;;
mr ← gets media;
match mr with
| None => log error "setMedia() must be called beforeavPauseEvent(at:eventLabels:)"
| Some r =>
    let sanitisedLabels := sanitiseEventLabels eventLabels in
    position ← avNavigationEvent position;
    update_media r (media_set_isPlaying false) ;;
    toDelegates (d_avPauseEvent position sanitisedLabels)
end.

Definition avBufferEvent (position : Z) (eventLabels : option Labels) : M St unit :=
enabled ← gets echoEnabled;
if negb enabled then mret tt else
log info ("avBufferEvent(at:eventLabels:) called with position: " +:+ decimal position) ;;
mr ← gets media;
match mr with
| None => log error "setMedia() must be called beforeavBufferEvent(at:eventLabels:)"
| Some r =>
    let sanitisedLabels := sanitiseEventLabels eventLabels in
    position ← avNavigationEvent position;
    update_media r (media_set_isPlaying false) ;;
    toDelegates (d_avBufferEvent position sanitisedLabels) ;;
    update_media r (media_set_isBuffering true)
end.

Definition avEndEvent (position : Z) (eventLabels : option Labels) : M St unit :=
enabled ← gets echoEnabled;
if negb enabled then mret tt else
log info ("avEndEvent(at:eventLabels:) called with position: " +:+ decimal position) ;;
mr ← gets media;
match mr with
| None => log error "setMedia() must be called beforeavEndEvent(at:eventLabels:)"
| Some _ =>
    let sanitisedLabels := sanitiseEventLabels eventLabels in
    position ← avNavigationEvent position;
    update_self_media (media_set_isPlaying false) ;;
    toDelegates (d_avEndEvent position sanitisedLabels) ;;
    modify (set_media None) ;;
    modify (set_mediaActive false)
end.

Definition avRewindEvent (position rate : Z) (eventLabels : option Labels) : M St unit :=
enabled ← gets echoEnabled;
if negb enabled then mret tt else
log info ("avRewindEvent(at:rate:eventLabels:) called with position: " +:+ decimal position) ;;
mr ← gets media;
match mr with
| None => log error "setMedia() must be called beforeavRewindEvent(at:rate:eventLabels:)"
| Some _ =>
    let sanitisedLabels := sanitiseEventLabels eventLabels in
    position ← avNavigationEvent position;
    toDelegates (d_avRewindEvent position rate sanitisedLabels)
end.

Definition avFastForwardEvent (position rate : Z) (eventLabels : option Labels) : M St unit :=
enabled ← gets echoEnabled;
if negb enabled then mret tt else
log info ("avFastForwardEvent(at:rate:eventLabels:) called with position: " +:+ decimal position) ;;
mr ← gets media;
match mr with
| None => log error "setMedia() must be called beforeavFastForwardEvent(at:rate:eventLabels:)"
| Some _ =>
    let sanitisedLabels := sanitiseEventLabels eventLabels in
    position ← avNavigationEvent position;
    toDelegates (d_avFastForwardEvent position rate sanitisedLabels)
end.

Definition avSeekEvent (position : Z) (eventLabels : option Labels) : M St unit :=
enabled ← gets echoEnabled;
if negb enabled then mret tt else
log info ("avSeekEvent(at:eventLabels:) called with position: " +:+ decimal position) ;;
mr ← gets media;
match mr with
| None => log error "setMedia() must be called beforeavSeekEvent(at:eventLabels:)"
| Some _ =>
    let sanitisedLabels := sanitiseEventLabels eventLabels in
    position ← avNavigationEvent position;
    toDelegates (d_avSeekEvent position sanitisedLabels)
end.

Definition avUserActionEvent (actionType actionName : string) (position : Z)
(eventLabels : option Labels) : M St unit :=
enabled ← gets echoEnabled;
if negb enabled then mret tt else
log info ("avUserActionEvent(actionType:actionName:position:eventLabels:) called with position: "
          +:+ decimal position +:+ ", name: " +:+ actionName +:+ ", type: " +:+ actionType) ;;
mr ← gets media;
match mr with
| None =>
    log error "setMedia() must be called beforeavUserActionEvent(actionType:actionName:position:eventLabels:)"
| Some r =>
    let sanitisedLabels := sanitiseEventLabels eventLabels in
    br ← gets broker;
    position ←
      match br with
      | Some b =>
          m ← deref r;
          if media_isLive m then getPosition b
          else preventPositionExceedingMediaLength position
      | None => mret position
      end;
    toDelegates (d_avUserActionEvent actionType actionName position sanitisedLabels)
end.

Definition releaseSuppressedPlay : M St unit :=
enabled ← gets echoEnabled;
if negb enabled then mret tt else
br ← gets broker;
suppressing ← gets suppressingPlayEvent;
match br, (suppressing : bool) with
| Some b, true =>
    modify (set_suppressingPlayEvent false) ;;
    position ← getPosition b;
    labels ← gets suppressedPlayEventLabels;
    avPlayEvent position labels
| _, _ => mret tt
end.

Definition sendHeartbeat (name : string) (position : Z) : M St unit :=
avUserActionEvent "echo_hb" name position None.
End definitions.

Arguments avNavigationEvent : simpl never.
Arguments update_self_media : simpl never.
Arguments avPlayEvent : simpl never.
Arguments avPlayEvent_broker : simpl never.
Arguments avPlayEvent_send : simpl never.

(** ** What the handlers do

    The result of each handler is described by a pure function of the state, of
    the current media [m] and of the broker. *)
Section description.
Context `{O : Oracle}.
Implicit Types (tr : list Call) (br : option BrokerRef) (m : Media) (c : EchoClient).

(** The calls of [avNavigationEvent], the position it answers after the calls
  [tr], and its effect on the client. *)
Definition nav_calls br m : list Call :=
match br with
| Some b => BrokerStop b :: (if media_isLive m then [BrokerGetPosition b] else [])
| None => []
end.

Definition nav_position tr br m (position : Z) : Z :=
match br with
| Some b =>
    if media_isLive m then answer_getPosition (tr ++ [BrokerStop b]) b
    else clamp (media_length m) position
| None => position
end.

Definition enriched_live m : bool := media_isLive m && media_isEnrichedWithESSData m.

Definition nav_client m c : EchoClient :=
if enriched_live m then set_suppressingPlayEvent true c else c.

(** The position that [avPlayEvent] forwards, [None] when it returns early, and
  its calls to the broker. *)
Definition play_position tr br m (position : Z) : option Z :=
match br with
| Some b =>
    if media_isLive m then Some (answer_getPosition tr b)
    else if exceeds (media_length m) position then None else Some position
| None => Some position
end.

Definition play_calls br m (position : Z) : list Call :=
match br with
| Some b =>
    if media_isLive m then [BrokerGetPosition b; BrokerStart b]
    else [BrokerSetPosition b position; BrokerStart b]
| None => []
end.

(** The position of [avUserActionEvent]. *)
Definition action_position tr br m (position : Z) : Z :=
match br with
| Some b => if media_isLive m then answer_getPosition tr b
            else clamp (media_length m) position
| None => position
end.

Definition action_calls br m : list Call :=
match br with
| Some b => if media_isLive m then [BrokerGetPosition b] else []
| None => []
end.

Definition called fn (position : Z) : Call :=
Log info (fn +:+ " called with position: " +:+ decimal position).

(** The state has the current media object [m] at [r]. *)
Definition has_media (s : St) (r : MediaRef) m : Prop :=
s.(client).(media) = Some r ∧ s.(heap) !! r = Some m.
End description.

Section lemmas.
Context `{O : Oracle}.
Implicit Types (s : St) (r : MediaRef) (m : Media).

Lemma has_media_push s r m cs : has_media s r m → has_media (push cs s) r m.
Proof. done. Qed.

Lemma run_getPosition b s :
getPosition b s = (Ret (answer_getPosition s.(trace) b), push [BrokerGetPosition b] s).
Proof. done. Qed.

Lemma run_nav s r m p :
has_media s r m →
avNavigationEvent p s =
  (Ret (nav_position s.(trace) s.(client).(broker) m p),
   mkSt (nav_client m s.(client)) s.(heap)
        (s.(trace) ++ nav_calls s.(client).(broker) m)).
Proof.
intros [E1 E2]. unfold avNavigationEvent, nav_position, nav_calls, nav_client, enriched_live.
pose proof (set_suppressingPlayEvent_id s.(client)) as Es.
run_step. rewrite E1. destruct (broker (client s)) as [b|] eqn:Eb; simpl.
- unfold push. simpl. rewrite (run_deref r m) by done. destruct (media_isLive m) eqn:El; simpl.
  + unfold push. simpl. rewrite (run_deref r m) by done. rewrite <- app_assoc. simpl.
    destruct (media_isEnrichedWithESSData m), (suppressingPlayEvent (client s)) eqn:E;
      rewrite ?E in Es; rewrite ?El; simpl; rewrite ?Es; done.
  + rewrite (run_preventPosition _ r m) by done. rewrite (run_deref r m) by done.
    by rewrite El.
- rewrite (run_deref r m) by done. rewrite app_nil_r.
  destruct (media_isLive m), (media_isEnrichedWithESSData m),
    (suppressingPlayEvent (client s)) eqn:E; rewrite ?E in Es; simpl;
    rewrite ?Es; by destruct s.
Qed.

Lemma run_update_self s r m f :
has_media s r m →
update_self_media f s = (Ret tt, mkSt s.(client) (<[r := f m]> s.(heap)) s.(trace)).
Proof.
intros [E1 E2]. unfold update_self_media. run_step. rewrite E1.
by rewrite (run_update_media r m).
Qed.

Lemma nav_client_media m c : (nav_client m c).(media) = c.(media).
Proof. unfold nav_client. by destruct (enriched_live m). Qed.
Lemma nav_client_delegates m c : (nav_client m c).(delegates) = c.(delegates).
Proof. unfold nav_client. by destruct (enriched_live m). Qed.
Lemma nav_client_mediaActive m c : (nav_client m c).(mediaActive) = c.(mediaActive).
Proof. unfold nav_client. by destruct (enriched_live m). Qed.
End lemmas.

#[export] Hint Rewrite @nav_client_media @nav_client_delegates @run_getPosition : run.

(** Evaluates a handler up to its first event-specific action: uses the
    hypotheses that the client is enabled and has a media. *)
Ltac av_start :=
  match goal with
  | He : echoEnabled (client ?s) = true, Hm : has_media ?s ?r ?m |- _ =>
      run_step; rewrite He; run_step; unfold push; simpl; rewrite (proj1 Hm); simpl
  end.

Ltac av_finish :=
  repeat match goal with x := _ |- _ => subst x end; run; unfold push; simpl; rewrite ?nav_client_delegates, ?nav_client_media;
  rewrite <- ?app_assoc; try done.

Section outcomes.
Context `{O : Oracle}.
Implicit Types (s : St) (r : MediaRef) (m : Media).

(** What the handlers that report a navigation have in common: the client
  moves by [after], the media object by [upd], and every delegate gets the
  message [msg] with the position that [avNavigationEvent] answers. *)
Definition nav_outcome s r m fn p (upd : Media → Media) (after : EchoClient → EchoClient)
(msg : Z → DelegateMsg) : Outcome unit * St :=
let br := s.(client).(broker) in
let tr := s.(trace) ++ [called fn p] in
(Ret tt, mkSt (after (nav_client m s.(client))) (<[r := upd m]> s.(heap))
  (tr ++ nav_calls br m ++
   broadcast s.(client).(delegates) (msg (nav_position tr br m p)))).

Lemma run_avPauseEvent s r m p labels :
s.(client).(echoEnabled) = true → has_media s r m →
avPauseEvent p labels s =
  nav_outcome s r m "avPauseEvent(at:eventLabels:)" p (media_set_isPlaying false) id
    (λ q, d_avPauseEvent q (sanitiseEventLabels labels)).
Proof.
intros He Hm. unfold avPauseEvent, nav_outcome. av_start.
rewrite (run_nav _ r m) by exact Hm. simpl.
rewrite (run_update_media r m) by apply Hm. av_finish.
Qed.

Lemma run_avBufferEvent s r m p labels :
s.(client).(echoEnabled) = true → has_media s r m →
avBufferEvent p labels s =
  nav_outcome s r m "avBufferEvent(at:eventLabels:)" p
    (λ m, media_set_isBuffering true (media_set_isPlaying false m)) id
    (λ q, d_avBufferEvent q (sanitiseEventLabels labels)).
Proof.
intros He Hm. unfold avBufferEvent, nav_outcome. av_start.
rewrite (run_nav _ r m) by exact Hm. simpl.
rewrite (run_update_media r m) by apply Hm. run. unfold push. simpl.
rewrite (run_update_media r (media_set_isPlaying false m)) by apply lookup_insert_eq.
simpl. rewrite insert_insert_eq. av_finish.
Qed.

Lemma run_avEndEvent s r m p labels :
s.(client).(echoEnabled) = true → has_media s r m →
avEndEvent p labels s =
  nav_outcome s r m "avEndEvent(at:eventLabels:)" p (media_set_isPlaying false)
    (λ c, set_mediaActive false (set_media None c))
    (λ q, d_avEndEvent q (sanitiseEventLabels labels)).
Proof.
intros He Hm. unfold avEndEvent, nav_outcome. av_start.
rewrite (run_nav _ r m) by exact Hm. simpl.
rewrite (run_update_self _ r m) by (split; simpl; rewrite ?nav_client_media; apply Hm).
av_finish.
Qed.

(** Rewind, fast forward and seek do not write to the media object. *)
Ltac skip_event :=
match goal with Hm : has_media ?s ?r ?m |- _ =>
  unfold nav_outcome; rewrite (insert_id (heap s)) by apply Hm;
  av_start; rewrite (run_nav _ r m) by exact Hm; av_finish
end.

Lemma run_avRewindEvent s r m p rate labels :
s.(client).(echoEnabled) = true → has_media s r m →
avRewindEvent p rate labels s =
  nav_outcome s r m "avRewindEvent(at:rate:eventLabels:)" p id id
    (λ q, d_avRewindEvent q rate (sanitiseEventLabels labels)).
Proof. intros He Hm. unfold avRewindEvent. skip_event. Qed.

Lemma run_avFastForwardEvent s r m p rate labels :
s.(client).(echoEnabled) = true → has_media s r m →
avFastForwardEvent p rate labels s =
  nav_outcome s r m "avFastForwardEvent(at:rate:eventLabels:)" p id id
    (λ q, d_avFastForwardEvent q rate (sanitiseEventLabels labels)).
Proof. intros He Hm. unfold avFastForwardEvent. skip_event. Qed.

Lemma run_avSeekEvent s r m p labels :
s.(client).(echoEnabled) = true → has_media s r m →
avSeekEvent p labels s =
  nav_outcome s r m "avSeekEvent(at:eventLabels:)" p id id
    (λ q, d_avSeekEvent q (sanitiseEventLabels labels)).
Proof. intros He Hm. unfold avSeekEvent. skip_event. Qed.

(** The log line of [avUserActionEvent]. *)
Definition action_called ty name (p : Z) : Call :=
Log info ("avUserActionEvent(actionType:actionName:position:eventLabels:) called with position: "
  +:+ decimal p +:+ ", name: " +:+ name +:+ ", type: " +:+ ty).

Lemma run_avUserActionEvent s r m ty name p labels :
s.(client).(echoEnabled) = true → has_media s r m →
avUserActionEvent ty name p labels s =
  (Ret tt, mkSt s.(client) s.(heap)
    (s.(trace) ++ [action_called ty name p] ++ action_calls s.(client).(broker) m ++
     broadcast s.(client).(delegates)
       (d_avUserActionEvent ty name
          (action_position (s.(trace) ++ [action_called ty name p]) s.(client).(broker) m p)
          (sanitiseEventLabels labels)))).
Proof.
intros He Hm. unfold avUserActionEvent, action_calls, action_position, action_called. av_start.
destruct (broker (client s)) as [b|]; simpl; [|av_finish].
rewrite (run_deref r m) by apply Hm. destruct (media_isLive m); simpl; [av_finish|].
rewrite (run_preventPosition _ r m) by apply Hm. av_finish.
Qed.

(** What [avPlayEvent] does for the current media: the early return, the
  suppression, or the play. *)
Definition play_outcome s r m p labels : Outcome unit * St :=
let c := s.(client) in
let br := c.(broker) in
let tr := s.(trace) ++ [called "avPlayEvent(at:eventLabels:)" p] in
match play_position tr br m p with
| None => (Ret tt, mkSt c s.(heap) tr)
| Some position =>
    if enriched_live m && c.(suppressingPlayEvent) then
      (Ret tt, mkSt (set_suppressedPlayEventLabels (sanitiseEventLabels labels) c)
                    s.(heap) (tr ++ play_calls br m p))
    else
      (Ret tt, mkSt (set_mediaActive true c)
         (<[r := media_set_isBuffering false (media_set_isPlaying true m)]> s.(heap))
         (tr ++ play_calls br m p ++ broadcast c.(delegates)
            (d_avPlayEvent position (sanitiseEventLabels labels))))
end.

Lemma run_play_broker s r m p :
has_media s r m →
avPlayEvent_broker r p s =
  match play_position s.(trace) s.(client).(broker) m p with
  | None => (Ret None, s)
  | Some q => (Ret (Some q), push (play_calls s.(client).(broker) m p) s)
  end.
Proof.
intros Hm. unfold avPlayEvent_broker, play_position, play_calls. run_step.
destruct (broker (client s)) as [b|]; [|by rewrite push_nil].
rewrite (run_deref r m) by apply Hm. destruct (media_isLive m); simpl.
- by rewrite push_push.
- rewrite (run_positionExceeds _ r m) by apply Hm.
  destruct (exceeds (media_length m) p); simpl; by rewrite ?push_push.
Qed.

Lemma run_play_send s r m p labels :
has_media s r m →
avPlayEvent_send r p labels s =
if enriched_live m && s.(client).(suppressingPlayEvent) then
  (Ret tt, mkSt (set_suppressedPlayEventLabels labels s.(client)) s.(heap) s.(trace))
else
  (Ret tt, mkSt (set_mediaActive true s.(client))
     (<[r := media_set_isBuffering false (media_set_isPlaying true m)]> s.(heap))
     (s.(trace) ++ broadcast s.(client).(delegates) (d_avPlayEvent p labels))).
Proof.
intros Hm. unfold avPlayEvent_send, enriched_live. run_step.
rewrite (run_deref r m) by apply Hm.
destruct (media_isLive m && media_isEnrichedWithESSData m && suppressingPlayEvent (client s));
  [done|].
run. rewrite (run_update_self _ r m) by exact Hm. simpl.
rewrite (run_update_self _ r (media_set_isPlaying true m))
  by (split; simpl; [apply Hm | apply lookup_insert_eq]).
simpl. by rewrite insert_insert_eq.
Qed.

Lemma run_avPlayEvent s r m p labels :
s.(client).(echoEnabled) = true → has_media s r m →
avPlayEvent p labels s = play_outcome s r m p labels.
Proof.
intros He Hm. unfold avPlayEvent, play_outcome. av_start.
rewrite (run_play_broker _ r m) by exact Hm. simpl.
destruct (play_position _ _ _ _) as [q|]; simpl; [|done].
rewrite (run_play_send _ r m) by exact Hm. simpl. by rewrite <- !app_assoc.
Qed.

(** The play that a release sends: the position comes from the broker and the
  labels are the kept ones, sanitised (again). *)
Definition release_outcome s r m b : Outcome unit * St :=
let c := set_suppressingPlayEvent false s.(client) in
play_outcome (mkSt c s.(heap) (s.(trace) ++ [BrokerGetPosition b])) r m
  (answer_getPosition s.(trace) b) c.(suppressedPlayEventLabels).

Lemma run_releaseSuppressedPlay s r m b :
s.(client).(echoEnabled) = true → s.(client).(broker) = Some b →
s.(client).(suppressingPlayEvent) = true → has_media s r m →
releaseSuppressedPlay s = release_outcome s r m b.
Proof.
intros He Hb Hs Hm. unfold releaseSuppressedPlay. run_step.
rewrite He. run_step. rewrite Hb, Hs. run_step. unfold push. simpl.
by apply run_avPlayEvent.
Qed.

Lemma run_releaseSuppressedPlay_idle s :
s.(client).(echoEnabled) = false ∨ s.(client).(broker) = None ∨
s.(client).(suppressingPlayEvent) = false →
releaseSuppressedPlay s = (Ret tt, s).
Proof.
intros H. unfold releaseSuppressedPlay. run_step.
destruct (echoEnabled (client s)); [|done]. run_step.
destruct (broker (client s)) as [?|]; [|done].
by destruct H as [?|[?| ->]].
Qed.

(** ** Events without a media *)
Definition is_log (c : Call) : Prop := match c with Log _ _ => True | _ => False end.

(** The computation only writes to the log. *)
Definition only_logs (x : M St unit) s : Prop :=
∃ cs, x s = (Ret tt, push cs s) ∧ Forall is_log cs.

(** ** Positions *)

(** The position that a message reports. *)
Definition message_position (msg : DelegateMsg) : option Z :=
match msg with
| d_avPlayEvent p _ | d_avPauseEvent p _ | d_avBufferEvent p _ | d_avEndEvent p _
| d_avRewindEvent p _ _ | d_avFastForwardEvent p _ _ | d_avSeekEvent p _
| d_avUserActionEvent _ _ p _ => Some p
| _ => None
end.

(** The computation returns, and the positions it reports to delegates are at
  most [l]. *)
Definition reports_at_most (l : Z) (x : M St unit) s : Prop :=
∃ s' cs, x s = (Ret tt, s') ∧ s'.(trace) = s.(trace) ++ cs ∧
  ∀ d msg q, ToDelegate d msg ∈ cs → message_position msg = Some q → q ≤ l.

(** A computation that makes calls to other objects and then sends one message. *)
Lemma reports_at_most_intro l x s c' h' pre ds msg q :
x s = (Ret tt, mkSt c' h' (s.(trace) ++ pre ++ broadcast ds msg)) →
Forall (λ c, match c with ToDelegate _ _ => False | _ => True end) pre →
message_position msg = Some q → q ≤ l →
reports_at_most l x s.
Proof.
intros E Hpre Hq Hl. eexists _, (pre ++ broadcast ds msg). split; [exact E|]. split; [done|].
intros d msg' q' [Hin|(d' & ? & _)%elem_of_broadcast]%elem_of_app Hq'; [|simplify_eq; done].
rewrite Forall_forall in Hpre. by destruct (Hpre _ Hin).
Qed.

Lemma nav_outcome_bounded x s r m fn p upd after msg b :
x s = nav_outcome s r m fn p upd after msg →
(∀ q, message_position (msg q) = Some q) →
s.(client).(broker) = Some b → media_isLive m = false → 0 < media_length m →
reports_at_most (media_length m) x s.
Proof.
unfold nav_outcome, nav_position, nav_calls. intros E Hmsg Hb Hl Hlen.
rewrite Hb, Hl, <- app_assoc in E.
eapply reports_at_most_intro with (pre := [called fn p; BrokerStop b]); [exact E|..].
- by repeat constructor.
- apply Hmsg.
- by apply clamp_le.
Qed.

Lemma play_bounded s r m p labels b :
s.(client).(echoEnabled) = true → has_media s r m →
s.(client).(broker) = Some b → media_isLive m = false → 0 < media_length m →
reports_at_most (media_length m) (avPlayEvent p labels) s.
Proof.
intros He Hm Hb Hl Hlen. pose proof (run_avPlayEvent s r m p labels He Hm) as E.
unfold play_outcome, play_position, play_calls, enriched_live in E.
rewrite Hb, Hl in E. simpl in E. destruct (exceeds (media_length m) p) eqn:Ex.
- eexists _, _. split; [exact E|]. split; [reflexivity|]. set_solver.
- rewrite <- app_assoc in E. eapply reports_at_most_intro
    with (pre := [called _ p; BrokerSetPosition b p; BrokerStart b]); [exact E|..].
  + by repeat constructor.
  + reflexivity.
  + unfold exceeds in Ex. repeat case_match; lia.
Qed.

Lemma action_bounded s r m ty name p labels b :
s.(client).(echoEnabled) = true → has_media s r m →
s.(client).(broker) = Some b → media_isLive m = false → 0 < media_length m →
reports_at_most (media_length m) (avUserActionEvent ty name p labels) s.
Proof.
intros He Hm Hb Hl Hlen. pose proof (run_avUserActionEvent s r m ty name p labels He Hm) as E.
unfold action_calls, action_position in E. rewrite Hb, Hl in E.
eapply reports_at_most_intro with (pre := [action_called ty name p]); [exact E|..].
- by repeat constructor.
- reflexivity.
- by apply clamp_le.
Qed.
End outcomes.

Section properties.
Context `{O : Oracle}.
Implicit Types (s : St) (r : MediaRef) (m : Media).

(** C8. A play, branch by branch. *)
Theorem avPlayEvent_correct s r m p labels :
s.(client).(echoEnabled) = true → has_media s r m →
let c := s.(client) in
let br := c.(broker) in
let tr := s.(trace) ++ [called "avPlayEvent(at:eventLabels:)" p] in
match play_position tr br m p with
| None =>
    is_Some br ∧ media_isLive m = false ∧ exceeds (media_length m) p = true ∧
    avPlayEvent p labels s = (Ret tt, mkSt c s.(heap) tr)
| Some position =>
    (enriched_live m = true → c.(suppressingPlayEvent) = true →
     avPlayEvent p labels s =
       (Ret tt, mkSt (set_suppressedPlayEventLabels (sanitiseEventLabels labels) c)
                     s.(heap) (tr ++ play_calls br m p))) ∧
    (enriched_live m = false ∨ c.(suppressingPlayEvent) = false →
     avPlayEvent p labels s =
       (Ret tt, mkSt (set_mediaActive true c)
          (<[r := media_set_isBuffering false (media_set_isPlaying true m)]> s.(heap))
          (tr ++ play_calls br m p ++ broadcast c.(delegates)
             (d_avPlayEvent position (sanitiseEventLabels labels)))))
end.
Proof.
intros He Hm c br tr. rewrite (run_avPlayEvent _ r m) by done. unfold play_outcome.
fold c br tr. destruct (play_position tr br m p) as [q|] eqn:E.
- split; [by intros -> ->|]. by intros [-> | ->]; rewrite ?andb_false_r.
- unfold play_position in E. destruct br; [|done]. destruct (media_isLive m); [done|].
  destruct (exceeds (media_length m) p); naive_solver.
Qed.

(** C9. Pause, buffering, end, rewind, fast forward and seek. The broker, if there is
    one, is stopped; for live media the reported position is the broker's, and
    otherwise the given one, at most the length of the media; for enriched live media
    the next play will be suppressed; and every delegate gets the event with that
    position and the sanitised labels. A pause and an end mark the media as not
    playing, a buffering event also as buffering; after an end the client has no media
    and is not active; the other three leave the media as it is. *)
Theorem av_navigation_events_correct s r m p rate labels :
s.(client).(echoEnabled) = true → has_media s r m →
let br := s.(client).(broker) in
let labels' := sanitiseEventLabels labels in
let outcome fn c' m' (msg : Z → DelegateMsg) :=
  let tr := s.(trace) ++ [called fn p] in
  (Ret tt, mkSt c' (<[r := m']> s.(heap))
    (tr ++ nav_calls br m ++
     broadcast s.(client).(delegates) (msg (nav_position tr br m p)))) in
let stopped := media_set_isPlaying false m in
let c := nav_client m s.(client) in
avPauseEvent p labels s =
  outcome "avPauseEvent(at:eventLabels:)" c stopped (λ q, d_avPauseEvent q labels') ∧
avBufferEvent p labels s =
  outcome "avBufferEvent(at:eventLabels:)" c (media_set_isBuffering true stopped)
    (λ q, d_avBufferEvent q labels') ∧
avEndEvent p labels s =
  outcome "avEndEvent(at:eventLabels:)" (set_mediaActive false (set_media None c)) stopped
    (λ q, d_avEndEvent q labels') ∧
avRewindEvent p rate labels s =
  outcome "avRewindEvent(at:rate:eventLabels:)" c m (λ q, d_avRewindEvent q rate labels') ∧
avFastForwardEvent p rate labels s =
  outcome "avFastForwardEvent(at:rate:eventLabels:)" c m
    (λ q, d_avFastForwardEvent q rate labels') ∧
avSeekEvent p labels s =
  outcome "avSeekEvent(at:eventLabels:)" c m (λ q, d_avSeekEvent q labels').
Proof.
intros He Hm br labels' outcome stopped c.
rewrite (run_avPauseEvent s r m), (run_avBufferEvent s r m), (run_avEndEvent s r m),
  (run_avRewindEvent s r m), (run_avFastForwardEvent s r m), (run_avSeekEvent s r m) by done.
by repeat split.
Qed.

(** A user action: the position comes from the broker for live media and is
  clamped otherwise; neither the client nor the media changes. *)
Theorem avUserActionEvent_correct s r m ty name p labels :
s.(client).(echoEnabled) = true → has_media s r m →
let br := s.(client).(broker) in
let tr := s.(trace) ++ [action_called ty name p] in
avUserActionEvent ty name p labels s =
  (Ret tt, mkSt s.(client) s.(heap)
    (tr ++ action_calls br m ++ broadcast s.(client).(delegates)
       (d_avUserActionEvent ty name (action_position tr br m p) (sanitiseEventLabels labels)))).
Proof.
intros He Hm br tr. rewrite (run_avUserActionEvent s r m) by done.
unfold tr. by rewrite <- app_assoc.
Qed.

(** C11. A play of live, enriched media that is suppressed and then released: the
    first call sends nothing; the release sends exactly one play to every delegate, at
    the broker's position, with the labels sanitised twice; and a second release does
    nothing. *)
Theorem suppressed_then_released s r m b p labels :
s.(client).(echoEnabled) = true → has_media s r m →
s.(client).(broker) = Some b → enriched_live m = true →
s.(client).(suppressingPlayEvent) = true →
∃ s1 s2 q cs,
  avPlayEvent p labels s = (Ret tt, s1) ∧ releaseSuppressedPlay s1 = (Ret tt, s2) ∧
  s1.(trace) = s.(trace) ++
    [called "avPlayEvent(at:eventLabels:)" p; BrokerGetPosition b; BrokerStart b] ∧
  s2.(trace) = s1.(trace) ++
    [BrokerGetPosition b; called "avPlayEvent(at:eventLabels:)" q;
     BrokerGetPosition b; BrokerStart b] ++ cs ∧
  cs = broadcast s.(client).(delegates)
    (d_avPlayEvent
       (answer_getPosition
          (s1.(trace) ++ [BrokerGetPosition b; called "avPlayEvent(at:eventLabels:)" q]) b)
       (sanitiseEventLabels (sanitiseEventLabels labels))) ∧
  s2.(client).(suppressingPlayEvent) = false ∧ s2.(client).(mediaActive) = true ∧
  releaseSuppressedPlay s2 = (Ret tt, s2).
Proof.
intros He Hm Hb Hl Hs. pose proof Hl as El. unfold enriched_live in El.
apply andb_true_iff in El as [El _].
set (s1 := mkSt (set_suppressedPlayEventLabels (sanitiseEventLabels labels) s.(client))
  s.(heap) (s.(trace) ++ [called "avPlayEvent(at:eventLabels:)" p;
                          BrokerGetPosition b; BrokerStart b])).
assert (E1 : avPlayEvent p labels s = (Ret tt, s1)).
{ rewrite (run_avPlayEvent _ r m) by done.
  unfold play_outcome, play_position, play_calls. rewrite Hb, El, Hl, Hs. simpl.
  by rewrite <- app_assoc. }
eexists s1, _, (answer_getPosition s1.(trace) b), _.
split; [exact E1|]. split.
{ rewrite (run_releaseSuppressedPlay s1 r m b) by done.
  unfold release_outcome, play_outcome, play_position, play_calls. simpl.
  rewrite Hb, El, Hl. simpl. reflexivity. }
split; [done|]. split; [simpl; rewrite <- !app_assoc; reflexivity|].
split; [simpl; rewrite <- !app_assoc; reflexivity|]. split; [done|]. split; [done|].
apply run_releaseSuppressedPlay_idle. by right; right.
Qed.

(** A release is one-shot: it leaves the client not suppressing, so that a second
  release does nothing. *)
Theorem releaseSuppressedPlay_once s s' :
releaseSuppressedPlay s = (Ret tt, s') →
(∀ r, s.(client).(media) = Some r → is_Some (s.(heap) !! r)) →
releaseSuppressedPlay s' = (Ret tt, s').
Proof.
intros E Hwf.
destruct (decide (s.(client).(echoEnabled) = false ∨ s.(client).(broker) = None ∨
  s.(client).(suppressingPlayEvent) = false)) as [Hi|Hi].
{ rewrite (run_releaseSuppressedPlay_idle _ Hi) in E. simplify_eq.
  by apply run_releaseSuppressedPlay_idle. }
destruct (broker (client s)) as [b|] eqn:Hb; [|tauto].
assert (He : s.(client).(echoEnabled) = true).
{ destruct (echoEnabled (client s)); [done|]. exfalso. auto. }
assert (Hs : s.(client).(suppressingPlayEvent) = true).
{ destruct (suppressingPlayEvent (client s)); [done|]. exfalso. auto. }
destruct (media (client s)) as [r|] eqn:Hr.
2:{ unfold releaseSuppressedPlay, avPlayEvent in E. revert E. run_step. rewrite He. run_step.
    rewrite Hb, Hs. run_step. rewrite He. run_step. rewrite Hr. unfold log, emit. intros. simplify_eq.
    apply run_releaseSuppressedPlay_idle. by right; right. }
destruct (Hwf r eq_refl) as [m Hm].
rewrite (run_releaseSuppressedPlay s r m b) in E by done.
apply run_releaseSuppressedPlay_idle. right. right.
unfold release_outcome, play_outcome in E.
repeat case_match; by simplify_eq.
Qed.

(** C35. Without a media every audio or video event is refused: the handler logs an
    error and sends nothing. *)
Theorem av_events_without_media s p rate ty name labels :
s.(client).(media) = None →
Forall (λ x, only_logs x s)
  [avPlayEvent p labels; avPauseEvent p labels; avBufferEvent p labels;
   avEndEvent p labels; avRewindEvent p rate labels; avFastForwardEvent p rate labels;
   avSeekEvent p labels; avUserActionEvent ty name p labels; sendHeartbeat name p].
Proof.
intros Hm. unfold avPlayEvent, avPauseEvent, avBufferEvent, avEndEvent, avRewindEvent,
  avFastForwardEvent, avSeekEvent, sendHeartbeat, avUserActionEvent.
rewrite !Forall_cons. split_and!; [..|by apply Forall_nil]; unfold only_logs; run_step;
  (destruct (echoEnabled (client s)); run_step; [|exists []; by rewrite push_nil]);
  rewrite Hm; unfold log, emit; rewrite push_push; eexists; (split; [reflexivity|]);
  by repeat constructor.
Qed.
(** C10. On-demand media that has a broker and a known length: no handler reports a
    position beyond the length. *)
Theorem av_positions_bounded s r m b p rate ty name labels :
s.(client).(echoEnabled) = true → has_media s r m →
s.(client).(broker) = Some b → media_isLive m = false → 0 < media_length m →
Forall (λ x, reports_at_most (media_length m) x s)
  [avPlayEvent p labels; avPauseEvent p labels; avBufferEvent p labels;
   avEndEvent p labels; avRewindEvent p rate labels; avFastForwardEvent p rate labels;
   avSeekEvent p labels; avUserActionEvent ty name p labels; sendHeartbeat name p].
Proof.
intros He Hm Hb Hl Hlen. unfold sendHeartbeat.
assert (Hnav : ∀ x fn upd after msg, x s = nav_outcome s r m fn p upd after msg →
  (∀ q, message_position (msg q) = Some q) → reports_at_most (media_length m) x s)
  by (intros; by eapply nav_outcome_bounded).
rewrite !Forall_cons. split_and!; [..|by apply Forall_nil].
- by eapply play_bounded.
- eapply Hnav; [by apply run_avPauseEvent|done].
- eapply Hnav; [by apply run_avBufferEvent|done].
- eapply Hnav; [by apply run_avEndEvent|done].
- eapply Hnav; [by apply run_avRewindEvent|done].
- eapply Hnav; [by apply run_avFastForwardEvent|done].
- eapply Hnav; [by apply run_avSeekEvent|done].
- by eapply action_bounded.
- by eapply action_bounded.
Qed.

(** C39. Setting a new media does not end a suppression: when the client is
    suppressing, the first play of new live media that is already enriched is not
    sent, and stays suppressed until the broker releases it. *)
Theorem suppression_survives_setMedia s r0 m0 p labels :
s.(client).(echoEnabled) = true → s.(heap) !! r0 = Some m0 →
enriched_live (media_getClone m0) = true → s.(client).(suppressingPlayEvent) = true →
∃ s1 s2 cs, setMedia r0 s = (Ret tt, s1) ∧ avPlayEvent p labels s1 = (Ret tt, s2) ∧
  s2.(trace) = s1.(trace) ++ cs ∧ (∀ d msg, ToDelegate d msg ∉ cs) ∧
  s2.(client).(suppressingPlayEvent) = true ∧
  s2.(client).(mediaActive) = s1.(client).(mediaActive).
Proof.
intros He E0 Hl Hs. set (s1 := setMedia_state s m0).
assert (Hm : has_media s1 (fresh (dom s.(heap))) (media_getClone m0)).
{ split; [apply init_broker_media | apply lookup_insert_eq]. }
assert (He1 : s1.(client).(echoEnabled) = true) by (simpl; by rewrite init_broker_enabled).
assert (Hs1 : s1.(client).(suppressingPlayEvent) = true)
  by (simpl; by rewrite init_broker_suppressing).
assert (El : media_isLive (media_getClone m0) = true)
  by (unfold enriched_live in Hl; by apply andb_true_iff in Hl as [? _]).
exists s1. pose proof (run_avPlayEvent s1 _ _ p labels He1 Hm) as E.
unfold play_outcome, play_position, play_calls in E. rewrite Hl, Hs1, El in E.
destruct (broker (client s1)) as [b|]; simpl in E; rewrite <- app_assoc in E;
  (eexists _, _; split; [by apply run_setMedia|]; split; [exact E|]);
  (split; [reflexivity|]); (split; [set_solver|]); by split.
Qed.
End properties.

(** ** Witnesses *)
Section witnesses.
#[local] Existing Instances cMediaI cUserI cLabelI cEnumI cConfigI cO.

(** On-demand media with a broker; live enriched media, while the client
  suppresses plays. *)
Definition on_demand : St := cWith cOnDemand cClient.
Definition suppressing : St := cWith cLive (set_suppressingPlayEvent true cClient).

Lemma avPlayEvent_correct_witness :
avPlayEvent 4000 None on_demand =
  (Ret tt, mkSt (set_mediaActive true on_demand.(client))
    (<[3%positive := mkCMedia false false 10000 true false]> on_demand.(heap))
    ([called "avPlayEvent(at:eventLabels:)" 4000; BrokerSetPosition 7%positive 4000;
      BrokerStart 7%positive] ++
     broadcast [1%positive; 2%positive] (d_avPlayEvent 4000 None))).
Proof.
destruct (avPlayEvent_correct on_demand 3%positive cOnDemand 4000 None) as [_ H];
  [reflexivity|by split|]. rewrite H by (by left). reflexivity.
Defined.

Lemma av_navigation_events_correct_witness :
avPauseEvent 20000 None on_demand =
  (Ret tt, mkSt on_demand.(client)
    (<[3%positive := mkCMedia false false 10000 false false]> on_demand.(heap))
    ([called "avPauseEvent(at:eventLabels:)" 20000; BrokerStop 7%positive] ++
     broadcast [1%positive; 2%positive] (d_avPauseEvent 10000 None))) ∧
avEndEvent 20000 None on_demand =
  (Ret tt, mkSt (set_mediaActive false (set_media None on_demand.(client)))
    (<[3%positive := mkCMedia false false 10000 false false]> on_demand.(heap))
    ([called "avEndEvent(at:eventLabels:)" 20000; BrokerStop 7%positive] ++
     broadcast [1%positive; 2%positive] (d_avEndEvent 10000 None))) ∧
avSeekEvent 20000 None suppressing =
  (Ret tt, mkSt suppressing.(client) (<[3%positive := cLive]> suppressing.(heap))
    ([called "avSeekEvent(at:eventLabels:)" 20000; BrokerStop 7%positive;
      BrokerGetPosition 7%positive] ++
     broadcast [1%positive; 2%positive] (d_avSeekEvent 42000 None))).
Proof.
destruct (av_navigation_events_correct on_demand 3%positive cOnDemand 20000 2 None)
  as (Hp & _ & He & _); [by repeat split..|].
destruct (av_navigation_events_correct suppressing 3%positive cLive 20000 2 None)
  as (_ & _ & _ & _ & _ & Hs); [by repeat split..|].
split; [exact Hp|]. split; [exact He|exact Hs].
Defined.

Lemma avUserActionEvent_correct_witness :
avUserActionEvent "click" "like" 20000 None on_demand =
  (Ret tt, mkSt on_demand.(client) on_demand.(heap)
    ([action_called "click" "like" 20000] ++
     broadcast [1%positive; 2%positive] (d_avUserActionEvent "click" "like" 10000 None))).
Proof. apply (avUserActionEvent_correct on_demand 3%positive cOnDemand); by repeat split. Defined.

Lemma suppressed_then_released_witness :
∃ s1 s2, avPlayEvent 0 None suppressing = (Ret tt, s1) ∧
  releaseSuppressedPlay s1 = (Ret tt, s2) ∧ s2.(client).(mediaActive) = true.
Proof.
destruct (suppressed_then_released suppressing 3%positive cLive 7%positive 0 None)
  as (s1 & s2 & q & cs & E1 & E2 & _ & _ & _ & _ & Hm & _); [by repeat split..|].
by exists s1, s2.
Defined.

Lemma releaseSuppressedPlay_once_witness :
∃ s', releaseSuppressedPlay suppressing = (Ret tt, s') ∧
  releaseSuppressedPlay s' = (Ret tt, s').
Proof.
exists (release_outcome suppressing 3%positive cLive 7%positive).2.
assert (E : releaseSuppressedPlay suppressing =
  (Ret tt, (release_outcome suppressing 3%positive cLive 7%positive).2))
  by (rewrite (run_releaseSuppressedPlay suppressing 3%positive cLive 7%positive);
      by repeat split).
split; [exact E|]. apply (releaseSuppressedPlay_once suppressing); [exact E|].
intros r [= <-]. by exists cLive.
Defined.

Lemma av_events_without_media_witness :
only_logs (avPlayEvent 0 None) (cState cClient ∅).
Proof.
exact (Forall_inv (av_events_without_media (cState cClient ∅) 0 1 "click" "like" None
  eq_refl)).
Defined.

Lemma av_positions_bounded_witness :
reports_at_most 10000 (avPlayEvent 4000 None) on_demand.
Proof.
refine (Forall_inv (av_positions_bounded on_demand 3%positive cOnDemand 7%positive 4000 1
  "click" "like" None _ _ _ _ _)); by repeat split.
Defined.

Lemma suppression_survives_setMedia_witness :
∃ s1 s2, setMedia 3%positive suppressing = (Ret tt, s1) ∧
  avPlayEvent 0 None s1 = (Ret tt, s2) ∧ s2.(client).(suppressingPlayEvent) = true.
Proof.
destruct (suppression_survives_setMedia suppressing 3%positive cLive 0 None)
  as (s1 & s2 & cs & E1 & E2 & _ & _ & Hs & _); [by repeat split..|].
by exists s1, s2.
Defined.
End witnesses.
