(* ===== verification/UserState.v ===== *)
(** * UserState: the BBC user, device identifiers and token expiry.

    [setBBCUser] of [Echo/EchoClient.swift] with its helpers [userShouldUpdate],
    [resetUserData], [resetDeviceId] and [sendUserUpdateEvent], and the timer
    that expires a token: [scheduleTokenExpiry], [removeSchedule] and
    [expireToken]. *)

From S2P Require Import Prelude SwiftNumbers Interfaces Client Concrete Labels.
From Stdlib Require Import SpecFloat.

Section definitions.
Context `{O : Oracle}.

Definition EchoDeviceIDActionType : string := "echo_device_id".
Definition UserStateChangeAction : string := "user_state_change".

Definition hasStarted : M St bool := gets hasStarted_.

Definition eventsEnabled : M St bool :=
enabled ← gets echoEnabled;
started ← hasStarted;
mret ((enabled : bool) && started).

Definition clearCache : M St unit := toDelegates d_clearCache.

(** [user.tokenState()] *)
Definition tokenState (user : BBCUser) : M St TokenState :=
ask (UserTokenState user) (λ h, answer_tokenState h user).

Definition removeSchedule : M St unit :=
t ← gets timer;
match t with
| Some t => emit (TimerInvalidate t)
| None => mret tt
end.

Definition scheduleTokenExpiry (tokenRefreshTimestamp : Date) (user : BBCUser) : M St unit :=
removeSchedule ;;
timeUntilExpiry ← ask (UserTimeUntilTokenExpiry user)
                      (λ h, answer_timeUntilTokenExpiry h user);
modify (set_userForTimer (Some user)) ;;
if double_positive timeUntilExpiry then
  t ← ask (NewTimer timeUntilExpiry) answer_newTimer;
  modify (set_timer (Some t)) ;;
  emit (RunLoopAdd t) ;;
  log info ("Scheduler set to check token in " +:+ TimeInterval_description timeUntilExpiry
            +:+ " seconds")
else mret tt.

Definition expireToken : M St unit :=
u ← gets userForTimer;
match u with
| Some userForTimer => toDelegates (d_updateBBCUserLabels userForTimer)
| None => mret tt
end ;;
modify (set_userForTimer None).

Definition resetUserData (user : BBCUser) (reason : option DeviceIDResetReason) : M St unit :=
state ← tokenState user;
if bool_decide (state = TokenState_valid) then
  match reason with
  | Some _ =>
      log info "Clearing cache and internal data due to session and device id change" ;;
      clearCache
  | None => mret tt
  end ;;
  match user_tokenRefreshTimestamp user with
  | Some tokenRefreshTimestamp => scheduleTokenExpiry tokenRefreshTimestamp user
  | None => mret tt
  end
else
  state ← tokenState user;
  if bool_decide (state = TokenState_expired) then
    previous ← gets previousUser;
    previousState ← match previous with
                    | Some u => st ← tokenState u; mret (Some st)
                    | None => mret None
                    end;
    if bool_decide (previousState ≠ Some TokenState_expired) then
      log info "changing state from valid (or none) to expired" ;;
      removeSchedule
    else mret tt
  else mret tt.

Definition resetDeviceId (reason : DeviceIDResetReason) (result : UserPromiseHelperResult)
: M St unit :=
reset ← gets resetDataOnUserStateChangeEnabled;
if (reset : bool) && bool_decide (reason = DeviceIDResetReason_userStateChange) then
  toDelegates d_userStateChange ;;
  emit (HelperSetPostponed (result_userStateTransition result))
else mret tt.

(** The loop of [sendUserUpdateEvent], which writes to [eventLabels] at every
  iteration; it answers the final labels, an [inout] parameter. *)
Fixpoint sendUserUpdateEvent_loop (ds : list DelegateRef) (actionType actionName : string)
(eventLabels : Labels) : M St Labels :=
match ds with
| [] => mret eventLabels
| delegate :: ds' =>
    let eventLabels := <[key_IsBackground := "true"]> eventLabels in
    emit (ToDelegate delegate (d_userActionEvent actionType actionName (Some eventLabels))) ;;
    sendUserUpdateEvent_loop ds' actionType actionName eventLabels
end.

Definition sendUserUpdateEvent (actionType actionName : string) (eventLabels : Labels)
(result : UserPromiseHelperResult) : M St Labels :=
let eventLabels :=
  if result_isPostponedUserStateChange result then {[ "device_id_reset" := "1" ]}
  else eventLabels in
ds ← gets delegates;
eventLabels ← sendUserUpdateEvent_loop ds actionType actionName eventLabels;
(if result_isPostponedUserStateChange result then emit HelperClearPostponed else mret tt) ;;
mret eventLabels.

Definition userShouldUpdate (user : BBCUser) : M St bool :=
enabled ← eventsEnabled;
if negb enabled then modify (set_bbcUserSetWhileDisabled (Some user)) ;; mret false else
idv5 ← gets idv5Enabled;
if negb idv5 then modify (set_previousUser (Some user)) ;; mret false else
mret true.

(** The labels, type and name of the update event, from the reset reason. *)
Definition update_labels (reason : option DeviceIDResetReason) (postponed : bool) : Labels :=
match reason with
| Some reason =>
    if bool_decide (reason ≠ DeviceIDResetReason_firstInstall) || postponed
    then {[ "device_id_reset" := "1" ]} else ∅
| None => ∅
end.

Definition update_action (reason : option DeviceIDResetReason) (t : UserStateTransition)
: string * string :=
match reason with
| Some reason =>
    if bool_decide (t = UserStateTransition_none)
       || bool_decide (reason = DeviceIDResetReason_firstInstall)
       || bool_decide (reason = DeviceIDResetReason_echoUpgrade)
    then (EchoDeviceIDActionType, DeviceIDResetReason_rawValue reason)
    else (UserStateChangeAction, UserStateTransition_rawValue t)
| None => (UserStateChangeAction, UserStateTransition_rawValue t)
end.

Definition setBBCUser (user : BBCUser) : M St unit :=
should ← userShouldUpdate user;
if negb should then mret tt else
previous ← gets previousUser;
previous ← match previous with
           | Some u => mret (Some u)
           | None => ask HelperGetBBCUser answer_helper_getBBCUser
           end;
modify (set_previousUser previous) ;;
result ← ask (HelperSetBBCUser user) (λ h, answer_helper_setBBCUser h user);
let reason := result_deviceIDResetReason result in
let transition := result_userStateTransition result in
deviceID ← ask HelperGetDeviceID answer_helper_getDeviceID;
match deviceID with
| Some deviceID => toDelegates (d_updateDeviceID deviceID)
| None => mret tt
end ;;
reset ← gets resetDataOnUserStateChangeEnabled;
(if (reset : bool) then resetUserData user reason else mret tt) ;;
match reason with
| Some reason => resetDeviceId reason result
| None => mret tt
end ;;
reset ← gets resetDataOnUserStateChangeEnabled;
if (reset : bool) && bool_decide (reason = Some DeviceIDResetReason_userStateChange)
then mret tt else
let eventLabels := update_labels reason (result_isPostponedUserStateChange result) in
let '(actionType, actionName) := update_action reason transition in
toDelegates (d_updateBBCUserLabels user) ;;
(if bool_decide (transition ≠ UserStateTransition_none) || bool_decide (reason ≠ None)
 then sendUserUpdateEvent actionType actionName eventLabels result ;; mret tt
 else mret tt) ;;
modify (set_previousUser (Some user)) ;;
modify (set_bbcUserSetWhileDisabled None).
End definitions.

Arguments resetUserData : simpl never.
Arguments sendUserUpdateEvent : simpl never.
Arguments userShouldUpdate : simpl never.
Arguments scheduleTokenExpiry : simpl never.
Arguments removeSchedule : simpl never.
Arguments clearCache : simpl never.

Section lemmas.
Context `{O : Oracle}.
Implicit Types (s : St) (c : EchoClient) (user : BBCUser) (cs : list Call).

Lemma run_sendUserUpdateEvent_loop ds ty name l s :
sendUserUpdateEvent_loop ds ty name l s =
  (Ret (match ds with [] => l | _ => <[key_IsBackground := "true"]> l end),
   push (broadcast ds (d_userActionEvent ty name (Some (<[key_IsBackground := "true"]> l)))) s).
Proof.
unfold broadcast. revert l s.
induction ds as [|d ds IH]; intros l s; run_step; [by rewrite push_nil|].
rewrite IH, push_push, insert_insert_eq. by destruct ds.
Qed.

(** The labels and the calls of the update event. *)
Definition sent_labels (result : UserPromiseHelperResult) (l : Labels) : Labels :=
<[key_IsBackground := "true"]>
  (if result_isPostponedUserStateChange result then {[ "device_id_reset" := "1" ]} else l).

Definition sendUserUpdateEvent_calls ds ty name (l : Labels) (result : UserPromiseHelperResult)
: list Call :=
broadcast ds (d_userActionEvent ty name (Some (sent_labels result l))) ++
(if result_isPostponedUserStateChange result then [HelperClearPostponed] else []).

Lemma run_sendUserUpdateEvent ty name l result s :
∃ l', sendUserUpdateEvent ty name l result s =
  (Ret l', push (sendUserUpdateEvent_calls s.(client).(delegates) ty name l result) s).
Proof.
unfold sendUserUpdateEvent, sendUserUpdateEvent_calls, sent_labels. run_step.
destruct (result_isPostponedUserStateChange result); rewrite run_sendUserUpdateEvent_loop;
  simpl; eexists; rewrite ?push_push, ?app_nil_r; reflexivity.
Qed.

(** ** The token timer *)

(** [c'] is [c] up to the token timer and the user it is for. *)
Definition same_but_timer c c' : Prop :=
c' = set_timer c'.(timer) (set_userForTimer c'.(userForTimer) c).

Lemma same_but_timer_refl c : same_but_timer c c.
Proof. by destruct c. Qed.

Lemma same_but_timer_trans c1 c2 c3 :
same_but_timer c1 c2 → same_but_timer c2 c3 → same_but_timer c1 c3.
Proof. unfold same_but_timer. intros -> ->. by destruct c1. Qed.

(** The calls that managing the timer makes. *)
Definition is_timer_call (call : Call) : Prop :=
match call with
| TimerInvalidate _ | NewTimer _ | RunLoopAdd _ | UserTimeUntilTokenExpiry _
| UserTokenState _ | Log _ _ | ToDelegate _ d_clearCache => True
| _ => False
end.

#[export] Instance is_timer_call_dec call : Decision (is_timer_call call).
Proof. destruct call as [? []| | | | | | | | | | | | | | | | | | | | | | | |]; apply _. Defined.

(** The computation returns, changes at most the timer and the user it is for,
  and makes only such calls. *)
Definition timer_only (x : M St unit) : Prop :=
∀ s, ∃ c' cs, x s = (Ret tt, mkSt c' s.(heap) (s.(trace) ++ cs)) ∧
  same_but_timer s.(client) c' ∧ Forall is_timer_call cs.

Lemma timer_only_ret : timer_only (mret tt).
Proof.
intros [c h tr]. exists c, []. simpl. rewrite app_nil_r.
eauto using same_but_timer_refl.
Qed.

Lemma timer_only_emit call : is_timer_call call → timer_only (emit call).
Proof.
intros ? [c h tr]. exists c, [call]. split_and!; [done|apply same_but_timer_refl|].
by repeat constructor.
Qed.

Lemma timer_only_seq x y : timer_only x → timer_only y → timer_only (x ;; y).
Proof.
intros Hx Hy s. destruct (Hx s) as (c1 & cs1 & E1 & H1 & F1).
destruct (Hy (mkSt c1 s.(heap) (s.(trace) ++ cs1))) as (c2 & cs2 & E2 & H2 & F2).
exists c2, (cs1 ++ cs2). rewrite (run_bind _ _ _ _ _ E1), E2. simpl in *.
rewrite app_assoc. split_and!; [done|by eapply same_but_timer_trans|by apply Forall_app].
Qed.

Lemma timer_only_gets {A} (f : EchoClient → A) k :
(∀ a, timer_only (k a)) → timer_only (a ← gets f; k a).
Proof. intros Hk s. run_step. apply Hk. Qed.

Lemma timer_only_ask {A} call (f : list Call → A) k :
is_timer_call call → (∀ a, timer_only (k a)) → timer_only (a ← ask call f; k a).
Proof.
intros Hc Hk s. run_step. destruct (Hk (f s.(trace)) (push [call] s)) as (c & cs & E & ? & ?).
rewrite E. exists c, (call :: cs). simpl. rewrite <- app_assoc. eauto using Forall_cons_2.
Qed.

Lemma timer_only_modify f :
(∀ c, same_but_timer c (f c)) → timer_only (modify f).
Proof.
intros Hf [c h tr]. exists (f c), []. simpl. rewrite app_nil_r. eauto.
Qed.

Lemma timer_only_clearCache : timer_only clearCache.
Proof.
intros [c h tr]. unfold clearCache. rewrite run_toDelegates.
eexists c, _. split; [reflexivity|]. split; [apply same_but_timer_refl|].
unfold broadcast. apply Forall_fmap, Forall_true. done.
Qed.

Lemma timer_only_removeSchedule : timer_only removeSchedule.
Proof.
apply timer_only_gets. intros [t|]; [by apply timer_only_emit | apply timer_only_ret].
Qed.

Lemma timer_only_schedule d user : timer_only (scheduleTokenExpiry d user).
Proof.
apply timer_only_seq; [apply timer_only_removeSchedule|].
apply timer_only_ask; [done|]. intros t.
apply timer_only_seq; [apply timer_only_modify; by intros []|].
destruct (double_positive t); [|apply timer_only_ret].
apply timer_only_ask; [done|]. intros t'.
apply timer_only_seq; [apply timer_only_modify; by intros []|].
apply timer_only_seq; by apply timer_only_emit.
Qed.

Lemma timer_only_resetUserData user reason : timer_only (resetUserData user reason).
Proof.
unfold resetUserData. apply timer_only_ask; [done|]. intros st.
case_bool_decide.
- apply timer_only_seq.
  + destruct reason; [|apply timer_only_ret].
    apply timer_only_seq; [by apply timer_only_emit|apply timer_only_clearCache].
  + destruct (user_tokenRefreshTimestamp user);
      [apply timer_only_schedule | apply timer_only_ret].
- apply timer_only_ask; [done|]. intros st'. case_bool_decide; [|apply timer_only_ret].
  apply timer_only_gets. intros previous.
  assert (Hk : ∀ ps : option TokenState, timer_only
    (if bool_decide (ps ≠ Some TokenState_expired) then
       log info "changing state from valid (or none) to expired" ;; removeSchedule
     else mret tt)).
  { intros ps. case_bool_decide; [|apply timer_only_ret].
    apply timer_only_seq; [by apply timer_only_emit|apply timer_only_removeSchedule]. }
  destruct previous as [u|]; [|exact (Hk None)].
  intros s. run_step.
  destruct (timer_only_ask (UserTokenState u) (λ h, answer_tokenState h u) (λ st, _)
    I (λ st, Hk (Some st)) s) as (c & cs & E & ?).
  exists c, cs. split; [|done]. rewrite <- E. done.
Qed.
End lemmas.

(** ** What [setBBCUser] does *)
Section set_user.
Context `{O : Oracle}.
Implicit Types (s : St) (c : EchoClient) (user : BBCUser) (cs : list Call).

(** The client handles user updates. *)
Definition users_active c : bool := c.(echoEnabled) && c.(hasStarted_) && c.(idv5Enabled).

(** The user before the update, and the calls that find it. *)
Definition user_previous s : option BBCUser :=
match s.(client).(previousUser) with
| Some u => Some u
| None => answer_helper_getBBCUser s.(trace)
end.

Definition user_query s : list Call :=
match s.(client).(previousUser) with Some _ => [] | None => [HelperGetBBCUser] end.

(** What the user promise helper answers to the update. *)
Definition user_result s user : UserPromiseHelperResult :=
answer_helper_setBBCUser (s.(trace) ++ user_query s) user.

Definition user_device s user : option string :=
answer_helper_getDeviceID (s.(trace) ++ user_query s ++ [HelperSetBBCUser user]).

(** The calls up to the update of the device identifier. *)
Definition user_prefix s user : list Call :=
user_query s ++ [HelperSetBBCUser user; HelperGetDeviceID] ++
match user_device s user with
| Some id => broadcast s.(client).(delegates) (d_updateDeviceID id)
| None => []
end.

(** The update is postponed to the next start. *)
Definition postpones c (result : UserPromiseHelperResult) : bool :=
c.(resetDataOnUserStateChangeEnabled) &&
bool_decide (result_deviceIDResetReason result = Some DeviceIDResetReason_userStateChange).

(** An event is sent for the update. *)
Definition sends_event (result : UserPromiseHelperResult) : bool :=
bool_decide (result_userStateTransition result ≠ UserStateTransition_none)
|| bool_decide (result_deviceIDResetReason result ≠ None).

(** The calls of the update event. *)
Definition event_calls (ds : list DelegateRef) (result : UserPromiseHelperResult) : list Call :=
if sends_event result then
  let '(ty, name) := update_action (result_deviceIDResetReason result)
                                   (result_userStateTransition result) in
  sendUserUpdateEvent_calls ds ty name
    (update_labels (result_deviceIDResetReason result)
                   (result_isPostponedUserStateChange result)) result
else [].

(** The last part of the update, after the calls [cs] and with the client [c]. *)
Definition user_tail c user (result : UserPromiseHelperResult) : EchoClient * list Call :=
if postpones c result then
  (c, broadcast c.(delegates) d_userStateChange ++
      [HelperSetPostponed (result_userStateTransition result)])
else
  (set_bbcUserSetWhileDisabled None (set_previousUser (Some user) c),
   broadcast c.(delegates) (d_updateBBCUserLabels user) ++ event_calls c.(delegates) result).

Lemma run_userShouldUpdate user s :
userShouldUpdate user s =
  if s.(client).(echoEnabled) && s.(client).(hasStarted_) then
    if s.(client).(idv5Enabled) then (Ret true, s)
    else (Ret false, mkSt (set_previousUser (Some user) s.(client)) s.(heap) s.(trace))
  else (Ret false, mkSt (set_bbcUserSetWhileDisabled (Some user) s.(client)) s.(heap) s.(trace)).
Proof.
unfold userShouldUpdate, eventsEnabled, hasStarted. run_step.
destruct (echoEnabled (client s)), (hasStarted_ (client s)); simpl; try done.
by destruct (idv5Enabled (client s)).
Qed.

Lemma run_resetDeviceId reason result s :
resetDeviceId reason result s =
  (Ret tt, if s.(client).(resetDataOnUserStateChangeEnabled)
              && bool_decide (reason = DeviceIDResetReason_userStateChange)
           then push (broadcast s.(client).(delegates) d_userStateChange ++
                      [HelperSetPostponed (result_userStateTransition result)]) s
           else s).
Proof.
unfold resetDeviceId. run_step.
destruct (resetDataOnUserStateChangeEnabled (client s)); simpl; [|done].
case_bool_decide; [|done]. rewrite run_toDelegates. unfold emit. by rewrite push_push.
Qed.

(** The last part of [setBBCUser]: the labels and the event. *)
Definition setBBCUser_report user (result : UserPromiseHelperResult) : M St unit :=
let reason := result_deviceIDResetReason result in
let transition := result_userStateTransition result in
let eventLabels := update_labels reason (result_isPostponedUserStateChange result) in
let '(actionType, actionName) := update_action reason transition in
toDelegates (d_updateBBCUserLabels user) ;;
(if bool_decide (transition ≠ UserStateTransition_none) || bool_decide (reason ≠ None)
 then sendUserUpdateEvent actionType actionName eventLabels result ;; mret tt
 else mret tt) ;;
modify (set_previousUser (Some user)) ;;
modify (set_bbcUserSetWhileDisabled None).

Lemma run_setBBCUser_report user result s :
setBBCUser_report user result s =
  (Ret tt, mkSt (set_bbcUserSetWhileDisabled None (set_previousUser (Some user) s.(client)))
    s.(heap)
    (s.(trace) ++ broadcast s.(client).(delegates) (d_updateBBCUserLabels user) ++
     event_calls s.(client).(delegates) result)).
Proof.
unfold setBBCUser_report, event_calls, sends_event.
destruct (update_action _ _) as [ty name]. run.
destruct (bool_decide (result_userStateTransition result ≠ UserStateTransition_none) || _);
  simpl.
- match goal with |- context [sendUserUpdateEvent ?t ?n ?l ?r ?s'] =>
    destruct (run_sendUserUpdateEvent t n l r s') as [l' ->] end.
  simpl. by rewrite <- app_assoc.
- by rewrite app_nil_r.
Qed.

(** From the reset of the device identifier on. *)
Definition setBBCUser_tail user (result : UserPromiseHelperResult) : M St unit :=
let reason := result_deviceIDResetReason result in
match reason with
| Some reason => resetDeviceId reason result
| None => mret tt
end ;;
reset ← gets resetDataOnUserStateChangeEnabled;
if (reset : bool) && bool_decide (reason = Some DeviceIDResetReason_userStateChange)
then mret tt else setBBCUser_report user result.

Lemma run_setBBCUser_tail user result s :
setBBCUser_tail user result s =
  (Ret tt, mkSt (user_tail s.(client) user result).1 s.(heap)
                (s.(trace) ++ (user_tail s.(client) user result).2)).
Proof.
unfold setBBCUser_tail, user_tail, postpones.
destruct (result_deviceIDResetReason result) as [reason|] eqn:Er; run_step.
- rewrite run_resetDeviceId. simpl.
  rewrite (bool_decide_ext (Some reason = _) (reason = DeviceIDResetReason_userStateChange))
    by naive_solver.
  destruct (resetDataOnUserStateChangeEnabled (client s)
            && bool_decide (reason = DeviceIDResetReason_userStateChange)) eqn:E; simpl;
    rewrite E; [done|]. by rewrite run_setBBCUser_report.
- rewrite !andb_false_r.
  by rewrite run_setBBCUser_report.
Qed.

(** The whole update, for a client that handles user updates. The calls [cs]
  and the client [c1] come from [resetUserData]. *)
Lemma run_setBBCUser user s :
users_active s.(client) = true →
∃ c1 cs,
  same_but_timer (set_previousUser (user_previous s) s.(client)) c1 ∧
  Forall is_timer_call cs ∧
  (s.(client).(resetDataOnUserStateChangeEnabled) = false →
   c1 = set_previousUser (user_previous s) s.(client) ∧ cs = []) ∧
  setBBCUser user s =
    (Ret tt, mkSt (user_tail c1 user (user_result s user)).1 s.(heap)
      (s.(trace) ++ user_prefix s user ++ cs ++ (user_tail c1 user (user_result s user)).2)).
Proof.
unfold users_active. rewrite !andb_true_iff. intros [[He Hs] Hi].
set (s1 := mkSt (set_previousUser (user_previous s) s.(client)) s.(heap)
                (s.(trace) ++ user_prefix s user)).
set (result := user_result s user).
assert (E1 : setBBCUser user s =
  ((if s1.(client).(resetDataOnUserStateChangeEnabled)
    then resetUserData user (result_deviceIDResetReason result) else mret tt) ;;
   setBBCUser_tail user result) s1).
{ unfold setBBCUser. erewrite run_bind; [|by rewrite run_userShouldUpdate, He, Hs, Hi].
  unfold s1, result, user_prefix, user_device, user_result, user_previous, user_query.
  run_step. unfold push.
  destruct (previousUser (client s)) as [u|]; simpl; rewrite <- ?app_assoc, ?app_nil_r; simpl.
  - destruct (answer_helper_getDeviceID _); rewrite ?run_toDelegates; unfold push; simpl;
      rewrite <- ?app_assoc; reflexivity.
  - destruct (answer_helper_getDeviceID _); rewrite ?run_toDelegates; unfold push; simpl;
      rewrite <- ?app_assoc; reflexivity. }
rewrite E1. destruct (resetDataOnUserStateChangeEnabled (client s1)) eqn:Er.
- destruct (timer_only_resetUserData user (result_deviceIDResetReason result) s1)
    as (c1 & cs & E2 & Hc & Hcs).
  exists c1, cs. split_and!; [done|done| |].
  + intros Hf. simpl in Er. congruence.
  + rewrite (run_bind _ _ _ _ _ E2), run_setBBCUser_tail. simpl. by rewrite <- !app_assoc.
- exists s1.(client), []. split_and!; [apply same_but_timer_refl|done|done|].
  rewrite bind_ret_l, run_setBBCUser_tail. simpl. by rewrite <- !app_assoc.
Qed.
(** Calls that neither report a user nor keep a transition for later. *)
Definition user_silent (call : Call) : Prop :=
match call with
| HelperSetPostponed _ | ToDelegate _ (d_updateBBCUserLabels _)
| ToDelegate _ (d_userActionEvent _ _ _) => False
| _ => True
end.

Lemma timer_call_silent call : is_timer_call call → user_silent call.
Proof. by destruct call as [? []| | | | | | | | | | | | | | | | | | | | | | | |]. Qed.

Lemma user_prefix_silent s user : Forall user_silent (user_prefix s user).
Proof.
unfold user_prefix, user_query. rewrite !Forall_app. split_and!.
- destruct (previousUser (client s)); by repeat constructor.
- by repeat constructor.
- destruct (user_device s user); [|done]. unfold broadcast. by apply Forall_fmap, Forall_true.
Qed.

Lemma same_but_timer_delegates c u c1 :
same_but_timer (set_previousUser u c) c1 → c1.(delegates) = c.(delegates).
Proof. by intros ->. Qed.

Lemma same_but_timer_postpones c u c1 result :
same_but_timer (set_previousUser u c) c1 → postpones c1 result = postpones c result.
Proof. by unfold postpones; intros ->. Qed.

(** The update, with the calls before its last part only known to be silent. *)
Lemma run_setBBCUser_silent user s :
users_active s.(client) = true →
∃ c1 cs, same_but_timer (set_previousUser (user_previous s) s.(client)) c1 ∧
  Forall user_silent cs ∧
  setBBCUser user s =
    (Ret tt, mkSt (user_tail c1 user (user_result s user)).1 s.(heap)
      (s.(trace) ++ cs ++ (user_tail c1 user (user_result s user)).2)).
Proof.
intros Ha. destruct (run_setBBCUser user s Ha) as (c1 & cs & Hc & Hcs & _ & E).
exists c1, (user_prefix s user ++ cs). split; [done|]. split.
- apply Forall_app. split; [apply user_prefix_silent|].
  eapply Forall_impl; [exact Hcs|apply timer_call_silent].
- by rewrite E, <- !app_assoc.
Qed.

Lemma event_calls_no_postpone ds result t : HelperSetPostponed t ∉ event_calls ds result.
Proof.
unfold event_calls. destruct (sends_event result); [|set_solver].
destruct (update_action _ _) as [ty n]. unfold sendUserUpdateEvent_calls.
rewrite elem_of_app, elem_of_broadcast. intros [(? & ? & _)|H]; [done|].
destruct (result_isPostponedUserStateChange result); set_solver.
Qed.

Lemma event_calls_sends ds result d :
d ∈ ds →
(∃ ty n l, ToDelegate d (d_userActionEvent ty n l) ∈ event_calls ds result) ↔
sends_event result = true.
Proof.
intros Hd. unfold event_calls. destruct (sends_event result); [|set_solver].
destruct (update_action _ _) as [ty n]. unfold sendUserUpdateEvent_calls.
split; [done|]. intros _. eexists _, _, _. apply elem_of_app. left.
apply elem_of_broadcast. eauto.
Qed.

(** The user action events of a trace. *)
Definition is_user_event (call : Call) : Prop :=
match call with ToDelegate _ (d_userActionEvent _ _ _) => True | _ => False end.

#[export] Instance is_user_event_dec call : Decision (is_user_event call).
Proof. destruct call as [? []| | | | | | | | | | | | | | | | | | | | | | | |]; apply _. Defined.

Lemma filter_user_event_none cs :
Forall (λ call, ¬ is_user_event call) cs → filter is_user_event cs = [].
Proof. induction 1; [done|]. by rewrite filter_cons_False. Qed.

Lemma silent_no_event cs :
Forall user_silent cs → Forall (λ call, ¬ is_user_event call) cs.
Proof.
intros H. eapply Forall_impl; [exact H|].
intros [? []| | | | | | | | | | | | | | | | | | | | | | | |]; simpl; tauto.
Qed.

Lemma filter_event_calls ds result :
filter is_user_event (event_calls ds result) =
  if sends_event result then
    let '(ty, name) := update_action (result_deviceIDResetReason result)
                                     (result_userStateTransition result) in
    broadcast ds (d_userActionEvent ty name (Some (sent_labels result
      (update_labels (result_deviceIDResetReason result)
         (result_isPostponedUserStateChange result)))))
  else [].
Proof.
unfold event_calls. destruct (sends_event result); [|done].
destruct (update_action _ _) as [ty name]. unfold sendUserUpdateEvent_calls.
rewrite filter_app, (filter_user_event_none
  (if result_isPostponedUserStateChange result then [HelperClearPostponed] else [])).
- rewrite app_nil_r. unfold broadcast. induction ds as [|d ds IH]; [done|].
  simpl. rewrite filter_cons_True by done. by rewrite IH.
- destruct (result_isPostponedUserStateChange result);
    [apply Forall_cons; split; [by intros []|]|]; by apply Forall_nil.
Qed.

(** The events of an update: by reason, then by transition. *)
Lemma event_calls_events ds result :
let t := result_userStateTransition result in
let reset_label : Labels := {[ "device_id_reset" := "1" ]} in
let event ty name (labels : Labels) :=
  broadcast ds (d_userActionEvent ty name (Some (<[key_IsBackground := "true"]> labels))) in
let background : Labels :=
  if result_isPostponedUserStateChange result then reset_label else ∅ in
filter is_user_event (event_calls ds result) =
  match result_deviceIDResetReason result with
  | None =>
      if decide (t = UserStateTransition_none) then []
      else event "user_state_change" (UserStateTransition_rawValue t) background
  | Some reason =>
      if decide (reason = DeviceIDResetReason_firstInstall) then
        event "echo_device_id" (DeviceIDResetReason_rawValue reason) background
      else if decide (reason = DeviceIDResetReason_echoUpgrade ∨ t = UserStateTransition_none)
      then event "echo_device_id" (DeviceIDResetReason_rawValue reason) reset_label
      else event "user_state_change" (UserStateTransition_rawValue t) reset_label
  end.
Proof.
rewrite filter_event_calls. unfold sends_event, update_action, update_labels, sent_labels.
destruct (result_deviceIDResetReason result) as [reason|]; simpl.
- rewrite orb_true_r. repeat case_bool_decide; repeat case_decide; simpl;
    destruct (result_isPostponedUserStateChange result); simpl; tauto.
- rewrite orb_false_r. case_bool_decide; case_decide; done.
Qed.

Lemma filter_tail_event c user result :
filter is_user_event (user_tail c user result).2 =
  if postpones c result then []
  else filter is_user_event (event_calls c.(delegates) result).
Proof.
assert (Hb : ∀ ds m, (∀ d, ¬ is_user_event (ToDelegate d m)) →
  filter is_user_event (broadcast ds m) = []).
{ intros ds m Hm. apply filter_user_event_none. unfold broadcast.
  apply Forall_fmap, Forall_true. exact Hm. }
unfold user_tail. destruct (postpones c result); cbn [snd]; rewrite filter_app, Hb;
  first [done | by intros ? []].
Qed.
End set_user.

Section properties.
Context `{O : Oracle}.
Implicit Types (s : St) (c : EchoClient) (user : BBCUser) (cs : list Call).

(** C16. An update while the delegates are not reset on user changes: the previous
    user is the one that was kept or the helper's; the device identifier, the user
    labels and then the event go to every delegate; the new user becomes the previous
    one and nothing is left to set. *)
Theorem setBBCUser_correct s user :
users_active s.(client) = true →
s.(client).(resetDataOnUserStateChangeEnabled) = false →
let ds := s.(client).(delegates) in
setBBCUser user s =
  (Ret tt, mkSt (set_bbcUserSetWhileDisabled None (set_previousUser (Some user) s.(client)))
    s.(heap)
    (s.(trace) ++ user_prefix s user ++ broadcast ds (d_updateBBCUserLabels user) ++
     event_calls ds (user_result s user))).
Proof.
intros Ha Hr ds. destruct (run_setBBCUser user s Ha) as (c1 & cs & _ & _ & H & E).
destruct (H Hr) as [-> ->]. rewrite E. unfold user_tail, postpones. simpl. rewrite Hr. simpl.
by destruct (client s).
Qed.

(** C18. An update when the identifier of the device is reset because the user
    changed, and the client resets its data then: nothing is said about the new user.
    The delegates learn of the change, the transition is kept for the next start, and
    the new user does not become the previous one. *)
Theorem setBBCUser_postponed s user :
users_active s.(client) = true → postpones s.(client) (user_result s user) = true →
∃ c' cs, setBBCUser user s = (Ret tt, mkSt c' s.(heap) (s.(trace) ++ cs ++
    broadcast s.(client).(delegates) d_userStateChange ++
    [HelperSetPostponed (result_userStateTransition (user_result s user))])) ∧
  c'.(previousUser) = user_previous s ∧
  c'.(bbcUserSetWhileDisabled) = s.(client).(bbcUserSetWhileDisabled) ∧
  Forall user_silent cs.
Proof.
intros Ha Hp. destruct (run_setBBCUser_silent user s Ha) as (c1 & cs & Hc & Hcs & E).
unfold user_tail in E. rewrite (same_but_timer_postpones _ _ _ _ Hc), Hp in E. simpl in E.
exists c1, cs. split; [|by rewrite Hc].
rewrite E. by rewrite (same_but_timer_delegates _ _ _ Hc).
Qed.

(** The gate of [setBBCUser]: a client that is disabled or not started keeps the
  user for later, one that does not track users only remembers it; neither makes any
  call. *)
Theorem setBBCUser_gate s user :
users_active s.(client) = false →
setBBCUser user s =
  (Ret tt, mkSt
    (if s.(client).(echoEnabled) && s.(client).(hasStarted_)
     then set_previousUser (Some user) s.(client)
     else set_bbcUserSetWhileDisabled (Some user) s.(client)) s.(heap) s.(trace)).
Proof.
unfold users_active. intros Ha. unfold setBBCUser.
destruct (echoEnabled (client s) && hasStarted_ (client s)) eqn:E; simpl in Ha.
- erewrite run_bind; [|by rewrite run_userShouldUpdate, E, Ha]. done.
- erewrite run_bind; [|by rewrite run_userShouldUpdate, E]. done.
Qed.

(** C17. A user event is either sent or postponed, never both: the update keeps a
    transition for the next start exactly when it postpones, and it sends an event to
    a delegate exactly when it does not and there is one to send. *)
Theorem setBBCUser_sends_or_postpones s user d :
users_active s.(client) = true → d ∈ s.(client).(delegates) →
let result := user_result s user in
∃ s' cs, setBBCUser user s = (Ret tt, s') ∧ s'.(trace) = s.(trace) ++ cs ∧
  ((∃ t, HelperSetPostponed t ∈ cs) ↔ postpones s.(client) result = true) ∧
  ((∃ ty n l, ToDelegate d (d_userActionEvent ty n l) ∈ cs) ↔
   postpones s.(client) result = false ∧ sends_event result = true).
Proof.
intros Ha Hd result. destruct (run_setBBCUser_silent user s Ha) as (c1 & cs & Hc & Hcs & E).
eexists _, _. split; [exact E|]. split; [reflexivity|].
unfold user_tail. fold result.
rewrite (same_but_timer_postpones _ _ _ _ Hc), (same_but_timer_delegates _ _ _ Hc).
rewrite Forall_forall in Hcs. destruct (postpones (client s) result); simpl.
- split.
  + split; [done|]. intros _. exists (result_userStateTransition result). set_solver.
  + split; [|by intros [? _]]. intros (ty & n & l & H). exfalso.
    rewrite !elem_of_app, elem_of_broadcast in H. set_solver.
- split.
  + split; [|done]. intros (t & H). exfalso.
    rewrite !elem_of_app, elem_of_broadcast in H.
    destruct H as [H|[(? & ? & _)|H]]; [by apply Hcs in H|done|].
    by apply event_calls_no_postpone in H.
  + rewrite <- (event_calls_sends (delegates (client s)) result d Hd). split.
    * intros (ty & n & l & H). rewrite !elem_of_app, elem_of_broadcast in H.
      destruct H as [H|[(? & ? & _)|H]]; [by apply Hcs in H|done|eauto].
    * intros [_ (ty & n & l & H)]. exists ty, n, l. set_solver.
Qed.

(** C15. The event of an update by a client that is enabled, started and tracks users,
    with its type, name and labels, for every reason, every transition and both
    settings for the reset of the delegates: no event if the delegates are reset
    because the user changed; otherwise no event without a reason or a transition; the
    device event for a first install, an upgrade and a reason without a transition;
    the user event for the rest. The label of a reset is on every event with a reason
    other than a first install, and on every postponed one. *)
Theorem setBBCUser_event s user :
users_active s.(client) = true →
let result := user_result s user in
let t := result_userStateTransition result in
let reset_label : Labels := {[ "device_id_reset" := "1" ]} in
let event ty name (labels : Labels) :=
  broadcast s.(client).(delegates)
    (d_userActionEvent ty name (Some (<[key_IsBackground := "true"]> labels))) in
let background : Labels :=
  if result_isPostponedUserStateChange result then reset_label else ∅ in
∃ s' cs, setBBCUser user s = (Ret tt, s') ∧ s'.(trace) = s.(trace) ++ cs ∧
  filter is_user_event cs =
    if decide (s.(client).(resetDataOnUserStateChangeEnabled) = true ∧
               result_deviceIDResetReason result = Some DeviceIDResetReason_userStateChange)
    then [] else
    match result_deviceIDResetReason result with
    | None =>
        if decide (t = UserStateTransition_none) then []
        else event "user_state_change" (UserStateTransition_rawValue t) background
    | Some reason =>
        if decide (reason = DeviceIDResetReason_firstInstall) then
          event "echo_device_id" (DeviceIDResetReason_rawValue reason) background
        else if decide (reason = DeviceIDResetReason_echoUpgrade ∨ t = UserStateTransition_none)
        then event "echo_device_id" (DeviceIDResetReason_rawValue reason) reset_label
        else event "user_state_change" (UserStateTransition_rawValue t) reset_label
    end.
Proof.
intros Ha result t reset_label event background.
destruct (run_setBBCUser_silent user s Ha) as (c1 & cs & Hc & Hcs & E).
eexists _, _. split; [exact E|]. split; [reflexivity|]. fold result.
rewrite filter_app, (filter_user_event_none cs) by (by apply silent_no_event).
rewrite filter_tail_event.
rewrite (same_but_timer_postpones _ _ _ _ Hc), (same_but_timer_delegates _ _ _ Hc).
unfold postpones. case_decide as Hd; case_bool_decide as Hr.
- by rewrite (proj1 Hd).
- by destruct Hd.
- destruct (resetDataOnUserStateChangeEnabled (client s)); [by destruct Hd|apply event_calls_events].
- rewrite andb_false_r. apply event_calls_events.
Qed.
End properties.

(** ** Witnesses *)
Section witnesses.
#[local] Existing Instances cMediaI cUserI cLabelI cEnumI cConfigI cO.

Definition alice : CUser := mkCUser "alice" None.

(** A client that resets its delegates on a change of user, and a helper that
  reports such a change. *)
Definition resetting : EchoClient :=
{| echoEnabled := true; autoStart := true; hasStarted_ := true;
   playerDelegate := None; broker := None; essUrl := None;
   essEnabled := false; useHttps := true; delegates := [1%positive; 2%positive];
   media := None; mediaActive := false; suppressingPlayEvent := false;
   suppressedPlayEventLabels := None; cacheMode := "offline" : @EchoCacheMode cEnumI;
   counterNameSet := false; idv5Enabled := true; previousUser := None;
   bbcUserSetWhileDisabled := None; userForTimer := None;
   resetDataOnUserStateChangeEnabled := true; timer := None |}.

Definition cAnswersReset : CAnswers :=
mkCAnswers 0 None (mkCResult (Some cr_userStateChange) ct_signIn false) cts_valid
  (S754_zero false) [].

Lemma setBBCUser_correct_witness :
setBBCUser alice (cState cClient ∅) =
  (Ret tt, mkSt (set_previousUser (Some alice) cClient) ∅
    ([HelperGetBBCUser; HelperSetBBCUser alice; HelperGetDeviceID] ++
     broadcast [1%positive; 2%positive] (d_updateDeviceID "testDevice") ++
     broadcast [1%positive; 2%positive] (d_updateBBCUserLabels alice) ++
     broadcast [1%positive; 2%positive]
       (d_userActionEvent "user_state_change" "sign_in" (Some {["is_background" := "true"]})))).
Proof.
etrans; [apply (setBBCUser_correct (cState cClient ∅) alice); reflexivity|].
reflexivity.
Defined.

Lemma setBBCUser_gate_witness :
setBBCUser alice (cState (set_echoEnabled false cClient) ∅) =
  (Ret tt, cState (set_bbcUserSetWhileDisabled (Some alice) (set_echoEnabled false cClient)) ∅).
Proof. apply (setBBCUser_gate (cState (set_echoEnabled false cClient) ∅) alice). reflexivity. Defined.

Lemma setBBCUser_sends_or_postpones_witness :
∃ s' cs, setBBCUser alice (cState cClient ∅) = (Ret tt, s') ∧ s'.(trace) = cs ∧
  ∃ ty n l, ToDelegate 2%positive (d_userActionEvent ty n l) ∈ cs.
Proof.
destruct (setBBCUser_sends_or_postpones (cState cClient ∅) alice 2%positive)
  as (s' & cs & E & Ht & _ & H); [reflexivity|set_solver|].
exists s', cs. split; [exact E|]. split; [exact Ht|]. apply H. by split.
Defined.

Lemma setBBCUser_event_witness :
∃ s' cs, setBBCUser alice (cState cClient ∅) = (Ret tt, s') ∧ s'.(trace) = cs ∧
  filter is_user_event cs = broadcast [1%positive; 2%positive]
    (d_userActionEvent "user_state_change" "sign_in" (Some {["is_background" := "true"]})).
Proof.
destruct (setBBCUser_event (cState cClient ∅) alice) as (s' & cs & E & Ht & H);
  [reflexivity..|].
exists s', cs. split; [exact E|]. split; [exact Ht|]. rewrite H. reflexivity.
Defined.
End witnesses.

Section witness_reset.
#[local] Existing Instances cMediaI cUserI cLabelI cEnumI cConfigI.
#[local] Instance cOReset : Oracle := cOracle cAnswersReset.

Lemma setBBCUser_postponed_witness :
∃ c' cs, setBBCUser alice (cState resetting ∅) =
    (Ret tt, mkSt c' ∅ (cs ++ broadcast [1%positive; 2%positive] d_userStateChange ++
      [HelperSetPostponed ct_signIn])) ∧
  c'.(previousUser) = None ∧ Forall user_silent cs.
Proof.
destruct (setBBCUser_postponed (cState resetting ∅) alice)
  as (c' & cs & E & Hp & _ & H); [reflexivity..|].
exists c', cs. split_and!; [exact E|exact Hp|exact H].
Defined.
End witness_reset.
