(* ===== verification/Reporting.v ===== *)
(** * Reporting: events of the app, player and site settings, and the cache.

    The operations of [Echo/EchoClient.swift] that check and clean their
    arguments and pass them to every delegate. *)

From S2P Require Import Prelude SwiftNumbers Interfaces Client Concrete Labels Config UserState.

Section definitions.
Context `{O : Oracle}.

(** ** Identification *)
Definition getAPIVersion : M St string := mret LibraryVersion.
Definition getImplementationVersion : M St string := mret LibraryVersion.

(** The loop of [getComScoreDeviceID]; [deviceID] is its local variable. *)
Fixpoint getComScoreDeviceID_loop (ds : list DelegateRef) (deviceID : option string)
: M St (option string) :=
match ds with
| [] => mret deviceID
| delegate :: ds' =>
    emit (ToDelegate delegate d_clearMedia) ;;
    deviceID ←
      (if isComScoreDelegate delegate then
         answer ← ask (ToDelegate delegate d_getDeviceID)
                      (λ h, answer_delegate_getDeviceID h delegate);
         mret (match answer with Some id => Some id | None => deviceID end)
       else mret deviceID);
    getComScoreDeviceID_loop ds' deviceID
end.

Definition getComScoreDeviceID : M St (option string) :=
ds ← gets delegates;
getComScoreDeviceID_loop ds None.

(** ** Site *)
Definition setDestination (site : Destination) : M St unit := toDelegates (d_setDestination site).

Definition setProducer (site : Producer) : M St unit := toDelegates (d_setProducer site).

Definition setProducer_name (name : string) : M St unit :=
match Producer_producerFromName name with
| Some producer => toDelegates (d_setProducer producer)
| None => log warn "Producer name not recognised. Keeping current producer"
end.

Definition setProducerByMasterbrand (masterbrandName : string) : M St unit :=
match Masterbrand_MasterbrandFromName masterbrandName with
| Some masterbrand => toDelegates (d_setProducer (Masterbrand_producer masterbrand))
| None => log warn "Producer name not recognised. Keeping current producer"
end.

Definition setContentLanguage (language : string) : M St unit :=
toDelegates (d_setContentLanguage language).

Definition setTraceID (t : string) : M St unit := toDelegates (d_setTraceID t).

(** ** Player *)
Definition setPlayerName (name : string) : M St unit :=
if negb (string_isEmpty (trim name)) then
  let name := cleanLabelValue key_PlayerName name in
  toDelegates (d_setPlayerName name)
else mret tt.

Definition setPlayerVersion (version : string) : M St unit :=
if negb (string_isEmpty (trim version)) then
  let version := cleanLabelValue key_PlayerVersion version in
  toDelegates (d_setPlayerVersion version)
else mret tt.

Definition setPlayerDelegate (delegate : PlayerRef) : M St unit :=
modify (set_playerDelegate (Some delegate)).

Definition setPlayerIsPopped (popped : bool) : M St unit :=
toDelegates (d_setPlayerIsPopped popped).

Definition setPlayerWindowState (state : WindowState) : M St unit :=
toDelegates (d_setPlayerWindowState state).

Definition setPlayerVolume (volume : Z) : M St unit :=
if (0 <=? volume) && (volume <=? 100) then toDelegates (d_setPlayerVolume volume)
else log error ("Player volume must be between 1 and 100, supplied: " +:+ pretty volume).

Definition setPlayerIsSubtitled (subtitled : bool) : M St unit :=
toDelegates (d_setPlayerIsSubtitled subtitled).

(** ** Cache *)
Definition setCacheMode (mode : EchoCacheMode) : M St unit :=
active ← gets mediaActive;
if negb active then
  toDelegates (d_setCacheMode mode) ;;
  modify (set_cacheMode mode)
else log error "Cannot call setCacheMode() after avPlayEvent() and before avEndEvent()".

Definition getCacheMode : M St EchoCacheMode := gets cacheMode.

Definition flushCache : M St unit :=
enabled ← gets echoEnabled;
if negb enabled then mret tt else toDelegates d_flushCache.

(** ** Events of the app *)
Definition setCounterName (counterName : string) : M St unit :=
let counterName := cleanCountername counterName in
modify (set_counterNameSet true) ;;
toDelegates (d_setCounterName counterName).

Definition appForegrounded : M St unit := toDelegates d_appForegrounded.
Definition appBackgrounded : M St unit := toDelegates d_appBackgrounded.

Definition viewEvent (counterName : string) (eventLabels : option Labels) : M St unit :=
enabled ← gets echoEnabled;
if negb enabled then mret tt else
let cleansedCounterName := cleanCountername counterName in
let sanitisedLabels := sanitiseEventLabels eventLabels in
modify (set_counterNameSet true) ;;
toDelegates (d_viewEvent cleansedCounterName sanitisedLabels).

Definition userActionEvent (actionType actionName : string) (eventLabels : option Labels)
: M St unit :=
enabled ← gets echoEnabled;
if negb enabled then mret tt else
named ← gets counterNameSet;
if negb named then
  log error "userActionEvent not available before a call to viewEvent (to set counter name)."
else
  let sanitisedLabels := sanitiseEventLabels eventLabels in
  toDelegates (d_userActionEvent actionType actionName sanitisedLabels).

Definition errorEvent (error : string) (eventLabels : option Labels) : M St unit :=
enabled ← gets echoEnabled;
if negb enabled then mret tt else
let eventLabels := sanitiseEventLabels eventLabels in
toDelegates (d_errorEvent error eventLabels).
End definitions.

Section lemmas.
Context `{O : Oracle}.
Implicit Types (s : St) (ds : list DelegateRef).

(** The calls of the loop of [getComScoreDeviceID]. *)
Definition comscore_calls ds : list Call :=
ds ≫= λ d, ToDelegate d d_clearMedia ::
           (if isComScoreDelegate d then [ToDelegate d d_getDeviceID] else []).

Definition comscore_ids (f : DelegateRef → option string) ds : list string :=
omap (λ d, if isComScoreDelegate d then f d else None) ds.

Lemma last_app_cons {A} (x : A) l : last (x :: l) = Some (default x (last l)).
Proof. revert x. induction l as [|y l IH]; intros x; [done|]. by rewrite last_cons_cons, IH. Qed.

Lemma run_getComScoreDeviceID_loop f ds id s :
(∀ h d, d ∈ ds → answer_delegate_getDeviceID h d = f d) →
getComScoreDeviceID_loop ds id s =
  (Ret (match last (comscore_ids f ds) with Some i => Some i | None => id end),
   push (comscore_calls ds) s).
Proof.
revert id s. induction ds as [|d ds IH]; intros id s Hf; run_step; [by rewrite push_nil|].
assert (Hf' : ∀ h d, d ∈ ds → answer_delegate_getDeviceID h d = f d)
  by (intros; apply Hf; by apply list_elem_of_further).
unfold comscore_ids, comscore_calls. simpl.
destruct (isComScoreDelegate d); run_step; rewrite IH by done; unfold push; simpl;
  rewrite <- ?app_assoc; [|done].
rewrite (Hf _ d) by apply list_elem_of_here. destruct (f d) as [i|]; [|done].
rewrite last_app_cons. fold (comscore_ids f ds). by destruct (last (comscore_ids f ds)).
Qed.

(** Calls other than queries for a device identifier. *)
Definition not_query (c : Call) : Prop :=
match c with ToDelegate _ d_getDeviceID => False | _ => True end.

#[export] Instance not_query_dec c : Decision (not_query c).
Proof. destruct c as [? []| | | | | | | | | | | | | | | | | | | | | | | |]; apply _. Defined.

Lemma filter_comscore_calls ds :
filter not_query (comscore_calls ds) = broadcast ds d_clearMedia.
Proof.
unfold comscore_calls, broadcast. induction ds as [|d ds IH]; [done|].
rewrite bind_cons, filter_app, IH, filter_cons_True by done.
destruct (isComScoreDelegate d); [by rewrite filter_cons_False by by intros []|done].
Qed.
End lemmas.

Section properties.
Context `{O : Oracle}.
Implicit Types (s : St).

(** C36. The ComScore device identifier, when each delegate gives one answer to the
    query: it is the one of the last delegate that is a ComScore delegate and has one.
    The delegates are told to clear their media in order, each ComScore delegate is
    asked after that and no other delegate is; so the query has an effect on every
    delegate, while the client keeps its media. *)
Theorem getComScoreDeviceID_correct s f :
(∀ h d, d ∈ s.(client).(delegates) → answer_delegate_getDeviceID h d = f d) →
∃ cs, getComScoreDeviceID s =
    (Ret (last (omap (λ d, if isComScoreDelegate d then f d else None)
                     s.(client).(delegates))), push cs s) ∧
  filter not_query cs = broadcast s.(client).(delegates) d_clearMedia ∧
  cs = s.(client).(delegates) ≫= λ d, ToDelegate d d_clearMedia ::
         (if isComScoreDelegate d then [ToDelegate d d_getDeviceID] else []).
Proof.
intros Hf. exists (comscore_calls s.(client).(delegates)). split.
- unfold getComScoreDeviceID. run_step. rewrite (run_getComScoreDeviceID_loop f) by done.
  unfold comscore_ids. by destruct (last _).
- split; [apply filter_comscore_calls|done].
Qed.

(** The volume is passed on exactly when it is between 0 and 100; otherwise the
  client only logs an error. *)
Theorem setPlayerVolume_bounds s volume :
(0 ≤ volume ≤ 100 →
 setPlayerVolume volume s =
   (Ret tt, push (broadcast s.(client).(delegates) (d_setPlayerVolume volume)) s)) ∧
(¬ 0 ≤ volume ≤ 100 → ∃ msg, setPlayerVolume volume s = (Ret tt, push [Log error msg] s)).
Proof.
unfold setPlayerVolume. split.
- intros [H1 H2]. rewrite (proj2 (Z.leb_le 0 volume)), (proj2 (Z.leb_le volume 100)) by done.
  apply run_toDelegates.
- intros H. destruct ((0 <=? volume) && (volume <=? 100)) eqn:E; [lia|]. by eexists.
Qed.

(** A user action needs a counter name: before one is set it is refused with an
    error, and after a view it reaches every delegate, its type and name as they are
    and its labels sanitised. *)
Theorem userActionEvent_needs_counter_name s ty name labels view view_labels :
s.(client).(echoEnabled) = true → s.(client).(counterNameSet) = false →
let ds := s.(client).(delegates) in
(∃ msg, userActionEvent ty name labels s = (Ret tt, push [Log error msg] s)) ∧
∃ s1 s2, viewEvent view view_labels s = (Ret tt, s1) ∧
  userActionEvent ty name labels s1 = (Ret tt, s2) ∧
  s2.(trace) = s.(trace) ++
    broadcast ds (d_viewEvent (cleanCountername view) (sanitiseEventLabels view_labels)) ++
    broadcast ds (d_userActionEvent ty name (sanitiseEventLabels labels)).
Proof.
intros He Hc ds. split.
- unfold userActionEvent. run_step. rewrite He. run_step. rewrite Hc. by eexists.
- eexists _, _. split; [|split].
  + unfold viewEvent. run_step. rewrite He. run_step. by rewrite run_toDelegates.
  + unfold userActionEvent. run_step. rewrite He. run_step. by rewrite run_toDelegates.
  + simpl. by rewrite <- app_assoc.
Qed.
End properties.

(** ** Witnesses *)
Section witnesses.
#[local] Existing Instances cMediaI cUserI cLabelI cEnumI cConfigI cO.

Lemma getComScoreDeviceID_correct_witness :
∃ cs, getComScoreDeviceID (cState cClient ∅) = (Ret (Some "testDevice"), push cs (cState cClient ∅)) ∧
  filter not_query cs = broadcast [1%positive; 2%positive] d_clearMedia.
Proof.
destruct (getComScoreDeviceID_correct (cState cClient ∅) (λ _, Some "testDevice"))
  as (cs & E & H & _); [done|].
exists cs. split; [etrans; [exact E|reflexivity]|exact H].
Defined.

Lemma setPlayerVolume_bounds_witness :
setPlayerVolume 0 (cState cClient ∅) =
  (Ret tt, push (broadcast [1%positive; 2%positive] (d_setPlayerVolume 0)) (cState cClient ∅)).
Proof. apply (setPlayerVolume_bounds (cState cClient ∅) 0). lia. Defined.

Lemma userActionEvent_needs_counter_name_witness :
∃ msg, userActionEvent "click" "like" None (cState cClient ∅) =
  (Ret tt, push [Log error msg] (cState cClient ∅)).
Proof.
apply (userActionEvent_needs_counter_name (cState cClient ∅) "click" "like" None "home" None);
  reflexivity.
Defined.
End witnesses.
