(* ===== verification/Lifecycle.v ===== *)
(** * Lifecycle: construction, starting, enabling and disabling.

    [EchoClient.init], [start], [enable], [disable] and [isEnabled] of
    [Echo/EchoClient.swift]. *)

From S2P Require Import Prelude SwiftNumbers Interfaces Client Labels Config Media UserState.

Section definitions.
Context `{O : Oracle}.
Abbreviation Config := (gmap EchoConfigKey string).

Definition isEnabled : M St bool := gets echoEnabled.

Definition start : M St unit :=
enabled ← gets echoEnabled;
started ← hasStarted;
if negb enabled || started then mret tt else
toDelegates d_start ;;
modify (set_hasStarted_ true) ;;
u ← gets bbcUserSetWhileDisabled;
match u with
| Some user => setBBCUser user
| None => mret tt
end.

Definition enable : M St unit :=
enabled ← gets echoEnabled;
if (enabled : bool) then mret tt else
modify (set_echoEnabled true) ;;
toDelegates d_enable ;;
u ← gets bbcUserSetWhileDisabled;
started ← hasStarted;
match u, (started : bool) with
| Some user, true =>
    setBBCUser user ;;
    modify (set_bbcUserSetWhileDisabled None)
| _, _ => mret tt
end ;;
auto ← gets autoStart;
started ← hasStarted;
if (auto : bool) && negb started then start else mret tt.

Definition disable : M St unit :=
enabled ← gets echoEnabled;
if negb enabled then mret tt else
clearMedia ;;
modify (set_echoEnabled false) ;;
toDelegates d_disable.

(** The [switch collatedConfig[.echoDebug]] of [init]. *)
Definition setDebug (v : option string) : M St unit :=
let on level := emit (SetDebugEnabled true) ;; emit (SetDebugLevel level) in
match v with
| Some s =>
    if bool_decide (s = "true") then on warn
    else if bool_decide (s = "info") then on info
    else if bool_decide (s = "warn") then on warn
    else if bool_decide (s = "error") then on error
    else emit (SetDebugEnabled false)
| None => emit (SetDebugEnabled false)
end.

(** [config[key] == "true"] *)
Definition is_true (v : option string) : bool := bool_decide (v = Some "true").

(** The instance variables as [init] sets them, before [super.init()]. *)
Definition initial_client (config : Config) (bbcUser : BBCUser) (ds : list DelegateRef)
: EchoClient :=
let idv5 := is_true (config !! cfg_idv5Enabled) in
{| echoEnabled := is_true (config !! cfg_echoEnabled);
   autoStart := is_true (config !! cfg_echoAutoStart);
   hasStarted_ := false;
   playerDelegate := None;
   broker := None;
   essUrl := config !! cfg_essURL;
   essEnabled := is_true (config !! cfg_useESS);
   useHttps := true;
   delegates := ds;
   media := None;
   mediaActive := false;
   suppressingPlayEvent := false;
   suppressedPlayEventLabels := None;
   cacheMode := EchoCacheMode_getEnum (default "offline" (config !! cfg_echoCacheMode));
   counterNameSet := false;
   idv5Enabled := idv5;
   previousUser := None;
   bbcUserSetWhileDisabled := Some bbcUser;
   userForTimer := None;
   resetDataOnUserStateChangeEnabled :=
     if idv5 then is_true (config !! cfg_comscoreResetDataOnUserStateChange) else false;
   timer := None |}.

(** [init(appName:appType:startCounterName:config:...)]: the client that was
  in the state before is replaced. *)
Definition init (appName : string) (appType : ApplicationType) (startCounterName : string)
(config : option Config) (bbcUser : BBCUser) : M St unit :=
let collatedConfig := collateConfig config in
setDebug (collatedConfig !! cfg_echoDebug) ;;
let cleanAppName := cleanLabelValue key_BBCApplicationName appName in
let cleanStartCounterName := cleanCountername startCounterName in
emit (MakeUserPromiseHelper (is_true (collatedConfig !! cfg_webviewCookiesEnabled))) ;;
deviceId ← match collatedConfig !! cfg_echoDeviceID with
           | Some id => mret id
           | None => ask DeviceGetDeviceID answer_device_getDeviceID
           end;
(if string_isEmpty (trim deviceId)
 then ask DeviceGetDeviceID answer_device_getDeviceID ;; mret tt else mret tt) ;;
(if negb (is_true (collatedConfig !! cfg_idv5Enabled))
 then emit HelperClearWebviewCookies else mret tt) ;;
ds ← ask (FactoryGetDelegates cleanAppName appType cleanStartCounterName collatedConfig bbcUser)
         answer_getDelegates;
modify (λ _, initial_client collatedConfig bbcUser ds) ;;
valid ← isValidConfig appName collatedConfig;
if negb valid then throw "The provided configuration was invalid." else
enabled ← gets echoEnabled;
auto ← gets autoStart;
(if (enabled : bool) && auto then start else mret tt) ;;
log info "Library initialised" ;;
emit (AddObserver "appForegrounded" "willEnterForegroundNotification") ;;
emit (AddObserver "appBackgrounded" "didEnterBackgroundNotification").
End definitions.
