(* ===== verification/Machine.v ===== *)
(** * Machine: the client as a state machine.

    [Op] has one constructor per public operation and per callback of
    [Echo/EchoClient.swift]; [exec] runs it.  The executions of the client are
    the sequences of operations, in any order; the theorems of this file hold
    for all of them. *)

From S2P Require Import Prelude SwiftNumbers Interfaces Client Concrete Labels Config Media AvEvents UserState Reporting Lifecycle.
From Stdlib Require Import SpecFloat.

Section machine.
Context `{O : Oracle}.

Inductive Op :=
(* playback *)
| OpSetMedia (m : MediaRef)
| OpSetMediaLength (length : Z)
| OpAvPlay (position : Z) (labels : option Labels)
| OpAvPause (position : Z) (labels : option Labels)
| OpAvBuffer (position : Z) (labels : option Labels)
| OpAvEnd (position : Z) (labels : option Labels)
| OpAvRewind (position rate : Z) (labels : option Labels)
| OpAvFastForward (position rate : Z) (labels : option Labels)
| OpAvSeek (position : Z) (labels : option Labels)
| OpAvUserAction (actionType actionName : string) (position : Z) (labels : option Labels)
(* callbacks of the live broker *)
| OpLiveMediaUpdate (m : MediaRef) (newPosition oldPosition : Z)
| OpLiveTimestampUpdate (t : TimeInterval)
| OpSetEssError (e : EssError) (code : string)
| OpSetEssSuccess (b : bool)
| OpReleaseSuppressedPlay
| OpSendHeartbeat (name : string) (position : Z)
(* users *)
| OpSetBBCUser (user : BBCUser)
| OpExpireToken
(* events of the app *)
| OpViewEvent (counterName : string) (labels : option Labels)
| OpUserActionEvent (actionType actionName : string) (labels : option Labels)
| OpErrorEvent (error : string) (labels : option Labels)
| OpSetCounterName (counterName : string)
| OpAppForegrounded
| OpAppBackgrounded
(* labels *)
| OpAddManagedLabel (label : ManagedLabel) (value : string)
| OpAddLabels (labels : Labels)
| OpAddLabel (key value : string)
| OpRemoveLabels (keys : list string)
| OpRemoveLabel (key : string)
(* site, player and cache *)
| OpGetComScoreDeviceID
| OpSetDestination (site : Destination)
| OpSetProducer (site : Producer)
| OpSetProducerName (name : string)
| OpSetProducerByMasterbrand (name : string)
| OpSetContentLanguage (language : string)
| OpSetTraceID (t : string)
| OpSetPlayerName (name : string)
| OpSetPlayerVersion (version : string)
| OpSetPlayerDelegate (p : PlayerRef)
| OpSetPlayerIsPopped (b : bool)
| OpSetPlayerWindowState (st : WindowState)
| OpSetPlayerVolume (volume : Z)
| OpSetPlayerIsSubtitled (b : bool)
| OpSetCacheMode (mode : EchoCacheMode)
| OpFlushCache
| OpClearCache
(* lifecycle *)
| OpStart
| OpEnable
| OpDisable.

Definition exec (op : Op) : M St unit :=
match op with
| OpSetMedia m => setMedia m
| OpSetMediaLength l => setMediaLength l
| OpAvPlay p l => avPlayEvent p l
| OpAvPause p l => avPauseEvent p l
| OpAvBuffer p l => avBufferEvent p l
| OpAvEnd p l => avEndEvent p l
| OpAvRewind p r l => avRewindEvent p r l
| OpAvFastForward p r l => avFastForwardEvent p r l
| OpAvSeek p l => avSeekEvent p l
| OpAvUserAction t n p l => avUserActionEvent t n p l
| OpLiveMediaUpdate m n o => liveMediaUpdate m n o
| OpLiveTimestampUpdate t => liveTimestampUpdate t
| OpSetEssError e c => setEssError e c
| OpSetEssSuccess b => setEssSuccess b
| OpReleaseSuppressedPlay => releaseSuppressedPlay
| OpSendHeartbeat n p => sendHeartbeat n p
| OpSetBBCUser u => setBBCUser u
| OpExpireToken => expireToken
| OpViewEvent c l => viewEvent c l
| OpUserActionEvent t n l => userActionEvent t n l
| OpErrorEvent e l => errorEvent e l
| OpSetCounterName c => setCounterName c
| OpAppForegrounded => appForegrounded
| OpAppBackgrounded => appBackgrounded
| OpAddManagedLabel l v => addManagedLabel l v
| OpAddLabels l => addLabels l
| OpAddLabel k v => addLabel k v
| OpRemoveLabels ks => removeLabels ks
| OpRemoveLabel k => removeLabel k
| OpGetComScoreDeviceID => getComScoreDeviceID ;; mret tt
| OpSetDestination d => setDestination d
| OpSetProducer p => setProducer p
| OpSetProducerName n => setProducer_name n
| OpSetProducerByMasterbrand n => setProducerByMasterbrand n
| OpSetContentLanguage l => setContentLanguage l
| OpSetTraceID t => setTraceID t
| OpSetPlayerName n => setPlayerName n
| OpSetPlayerVersion v => setPlayerVersion v
| OpSetPlayerDelegate p => setPlayerDelegate p
| OpSetPlayerIsPopped b => setPlayerIsPopped b
| OpSetPlayerWindowState st => setPlayerWindowState st
| OpSetPlayerVolume v => setPlayerVolume v
| OpSetPlayerIsSubtitled b => setPlayerIsSubtitled b
| OpSetCacheMode m => setCacheMode m
| OpFlushCache => flushCache
| OpClearCache => clearCache
| OpStart => start
| OpEnable => enable
| OpDisable => disable
end.

(** A sequence of operations, one after the other. *)
Definition exec_all (ops : list Op) : M St unit := forM_ ops exec.

(** The media objects an operation is given exist. *)
Definition op_ok (op : Op) (s : St) : Prop :=
match op with
| OpSetMedia m | OpLiveMediaUpdate m _ _ => is_Some (s.(heap) !! m)
| _ => True
end.

(** One operation, whatever its outcome; the process does not survive a trap. *)
Inductive step : St → St → Prop :=
| step_exec op s s' : op_ok op s → exec op s = (Ret tt, s') → step s s'.

Lemma step_of op s : op_ok op s → (exec op s).1 = Ret tt → step s (exec op s).2.
Proof.
intros Hok E. apply (step_exec op); [done|]. rewrite <- E. apply surjective_pairing.
Qed.

Inductive steps : St → St → Prop :=
| steps_refl s : steps s s
| steps_step s1 s2 s3 : step s1 s2 → steps s2 s3 → steps s1 s3.

#[export] Instance steps_preorder : PreOrder steps.
Proof.
split; [exact steps_refl|].
intros s1 s2 s3 H. induction H; eauto using steps_step.
Qed.

Lemma steps_keeps (R : St → St → Prop) `{!PreOrder R} s s' :
(∀ op s, op_ok op s → R s (exec op s).2) → steps s s' → R s s'.
Proof.
intros HR. induction 1 as [s|s1 s2 s3 [op s s0 Hok E] _ IH]; [reflexivity|].
etrans; [|exact IH]. specialize (HR op s Hok). by rewrite E in HR.
Qed.
End machine.

(** A relation that every operation of a sequence keeps holds of the sequence,
    whether it runs to its end or not. *)
Lemma exec_all_keeps `{O : Oracle} (R : St → St → Prop) `{!PreOrder R} ops s :
  (∀ op s', op ∈ ops → R s s' → R s' (exec op s').2) → R s (exec_all ops s).2.
Proof.
  unfold exec_all. intros H.
  assert (G : ∀ s', R s s' → R s (forM_ ops exec s').2); [|by apply G].
  induction ops as [|op ops IH]; intros s' Hs'; [exact Hs'|].
  assert (Hop : R s (exec op s').2)
    by (etrans; [exact Hs'|]; apply H; [apply list_elem_of_here|done]).
  run_step. destruct (exec op s') as [[[]| |e] s1]; [|done..].
  apply IH; [|done]. intros op' s2 Hin. apply H. by apply list_elem_of_further.
Qed.

(** ** Frames

    A relation on states that is closed under the primitive effects: calls to
    objects other than delegates that satisfy [Pc], broadcasts of messages that
    satisfy [Pm], and assignments that satisfy [Pf]; and the relations that are also
    closed under changes of the store. *)
Section frame.
Context `{O : Oracle}.

Class Frame (R : St → St → Prop) (Pc : Call → Prop) (Pm : DelegateMsg → Prop)
(Pf : (EchoClient → EchoClient) → Prop) : Prop := {
#[global] frame_preorder :: PreOrder R;
frame_call s c : Pc c → R s (push [c] s);
frame_broadcast s m : Pm m → R s (push (broadcast s.(client).(delegates) m) s);
frame_client s f : Pf f → R s (mkSt (f s.(client)) s.(heap) s.(trace));
}.

Class StoreFrame (R : St → St → Prop) : Prop :=
frame_heap s h : R s (mkSt s.(client) h s.(trace)).

Context {R : St → St → Prop} {Pc : Call → Prop} {Pm : DelegateMsg → Prop}
{Pf : (EchoClient → EchoClient) → Prop} `{F : !Frame R Pc Pm Pf}.

Lemma keeps_gets {A} (f : EchoClient → A) : keeps R (gets f).
Proof. intros s. simpl. reflexivity. Qed.

Lemma keeps_modify f : Pf f → keeps R (modify f).
Proof. intros Hf s. by apply frame_client. Qed.

Lemma keeps_emit c : Pc c → keeps R (emit c).
Proof. intros Hc s. by apply frame_call. Qed.

Lemma keeps_ask {A} c (f : list Call → A) : Pc c → keeps R (ask c f).
Proof. intros Hc s. by apply frame_call. Qed.

Lemma keeps_toDelegates m : Pm m → keeps R (toDelegates m).
Proof. intros Hm s. rewrite run_toDelegates. by apply frame_broadcast. Qed.

Lemma keeps_deref r : keeps R (deref r).
Proof. intros s. unfold deref. destruct (heap s !! r); simpl; reflexivity. Qed.

Lemma keeps_update_media `{!StoreFrame R} r f : keeps R (update_media r f).
Proof.
intros s. unfold update_media. destruct (heap s !! r); simpl; [apply frame_heap|reflexivity].
Qed.

Lemma keeps_new_media `{!StoreFrame R} m : keeps R (new_media m).
Proof. intros s. apply frame_heap. Qed.

Lemma keeps_u64_sub a b : keeps R (u64_sub a b).
Proof. intros s. unfold u64_sub. destruct (b <=? a); simpl; reflexivity. Qed.

Lemma keeps_sendUserUpdateEvent ty name l result :
(∀ l, Pm (d_userActionEvent ty name l)) → Pc HelperClearPostponed →
keeps R (sendUserUpdateEvent ty name l result).
Proof.
intros Hm Hc s. destruct (run_sendUserUpdateEvent ty name l result s) as [l' ->]. simpl.
unfold sendUserUpdateEvent_calls.
rewrite <- push_push. etrans; [by apply frame_broadcast|].
destruct (result_isPostponedUserStateChange result); [by apply frame_call|].
rewrite push_nil. reflexivity.
Qed.

Lemma keeps_comscore_loop ds id :
(∀ d, Pc (ToDelegate d d_clearMedia)) → (∀ d, Pc (ToDelegate d d_getDeviceID)) →
keeps R (getComScoreDeviceID_loop ds id).
Proof.
intros H1 H2. revert id. induction ds as [|d ds IH]; intros id; simpl; [apply keeps_ret, _|].
apply keeps_bind; [apply _|by apply keeps_emit|intros _].
apply keeps_bind; [apply _| |intros ?; apply IH].
destruct (isComScoreDelegate d); [|apply keeps_ret, _].
apply keeps_bind; [apply _|by apply keeps_ask|intros ?; apply keeps_ret, _].
Qed.
End frame.

(** Decomposes a computation into its primitive effects; what remains are the
    conditions of the frame. *)
Ltac keeps_step :=
  lazymatch goal with
  | |- keeps _ (mret _) => apply keeps_ret, _
  | |- keeps _ trap => apply keeps_trap, _
  | |- keeps _ (throw _) => apply keeps_throw, _
  | |- keeps _ (_ ≫= _) => apply keeps_bind; [apply _| |intros ?]
  | |- keeps _ (gets _) => apply keeps_gets
  | |- keeps _ (modify _) => apply keeps_modify
  | |- keeps _ (emit _) => apply keeps_emit
  | |- keeps _ (log _ _) => unfold log; apply keeps_emit
  | |- keeps _ (ask _ _) => apply keeps_ask
  | |- keeps _ (toDelegates _) => apply keeps_toDelegates
  | |- keeps _ (deref _) => apply keeps_deref
  | |- keeps _ (update_media _ _) => apply keeps_update_media
  | |- keeps _ (new_media _) => apply keeps_new_media
  | |- keeps _ (u64_sub _ _) => apply keeps_u64_sub
  | |- keeps _ (sendUserUpdateEvent _ _ _ _) => apply keeps_sendUserUpdateEvent; [intros ?|]
  | |- keeps _ (getComScoreDeviceID_loop _ _) => apply keeps_comscore_loop; intros ?
  | |- keeps _ (match ?x with _ => _ end) => destruct x
  | |- keeps _ (let _ := _ in _) => cbv zeta
  | |- keeps _ ?m => let h := head_of m in unfold h
  end
with head_of m := lazymatch m with ?f _ => head_of f | ?f => f end.

(** ** Configuration, delegates and starting *)
Section constants.
Context `{O : Oracle}.

(** What no operation changes, and what only grows. *)
Definition same_config (c c' : EchoClient) : Prop :=
c'.(delegates) = c.(delegates) ∧ c'.(autoStart) = c.(autoStart) ∧
c'.(essUrl) = c.(essUrl) ∧ c'.(essEnabled) = c.(essEnabled) ∧
c'.(useHttps) = c.(useHttps) ∧ c'.(idv5Enabled) = c.(idv5Enabled) ∧
c'.(resetDataOnUserStateChangeEnabled) = c.(resetDataOnUserStateChangeEnabled) ∧
(c.(hasStarted_) = true → c'.(hasStarted_) = true).

Definition grows (s s' : St) : Prop :=
same_config s.(client) s'.(client) ∧ s.(trace) `prefix_of` s'.(trace).

#[export] Instance grows_preorder : PreOrder grows.
Proof.
split.
- intros s. split; [|done]. by repeat split.
- intros s1 s2 s3 [H1 P1] [H2 P2]. split; [|by etrans]. unfold same_config in *.
  intuition (try congruence; auto).
Qed.

#[export] Instance grows_frame :
Frame grows (λ _, True) (λ _, True) (λ f, ∀ c, same_config c (f c)).
Proof.
split; [apply _| | |intros s f Hf].
1,2: intros s ? _; split; [by repeat split | simpl; by apply prefix_app_r].
split; [apply Hf | simpl; reflexivity].
Qed.

#[export] Instance grows_store : StoreFrame grows.
Proof. intros s h. split; [by repeat split | simpl; reflexivity]. Qed.

Lemma exec_grows op s : grows s (exec op s).2.
Proof.
revert s. change (keeps grows (exec op)).
destruct op; unfold exec;
  repeat keeps_step; try exact I; try apply _; intros ?; by repeat split.
Qed.
End constants.

(** ** Delegates are treated alike *)
Section uniform.
Context `{O : Oracle}.

(** The messages that [d] gets in a trace, device identifier queries apart. *)
Definition msg_to (d : DelegateRef) (c : Call) : option DelegateMsg :=
match c with
| ToDelegate d' m =>
    if decide (d' = d) then match m with d_getDeviceID => None | _ => Some m end else None
| _ => None
end.

Definition messages (d : DelegateRef) (cs : list Call) : list DelegateMsg := omap (msg_to d) cs.

Lemma messages_app d cs1 cs2 : messages d (cs1 ++ cs2) = messages d cs1 ++ messages d cs2.
Proof. apply omap_app. Qed.

Lemma messages_cons d c cs :
messages d (c :: cs) =
  match msg_to d c with Some m => m :: messages d cs | None => messages d cs end.
Proof. done. Qed.

Lemma broadcast_cons d ds m : broadcast (d :: ds) m = ToDelegate d m :: broadcast ds m.
Proof. done. Qed.

Lemma messages_broadcast_other d ds m : d ∉ ds → messages d (broadcast ds m) = [].
Proof.
induction ds as [|d' ds IH]; intros Hd; [done|]. apply not_elem_of_cons in Hd as [? ?].
rewrite broadcast_cons, messages_cons. simpl. rewrite decide_False by done. auto.
Qed.

Lemma messages_broadcast d ds m :
NoDup ds → d ∈ ds → m ≠ d_getDeviceID → messages d (broadcast ds m) = [m].
Proof.
intros Hnd Hd Hm. induction Hnd as [|d' ds Hd' Hnd IH]; [set_solver|].
rewrite broadcast_cons, messages_cons. simpl. destruct (decide (d' = d)) as [->|Hne].
- rewrite messages_broadcast_other by done. by destruct m.
- apply IH. set_solver.
Qed.

(** The calls made between [s] and [s'] send every delegate the same messages
  in the same order. *)
Definition uniform (s s' : St) : Prop :=
s'.(client).(delegates) = s.(client).(delegates) ∧
∃ cs, s'.(trace) = s.(trace) ++ cs ∧
  (NoDup s.(client).(delegates) →
   ∃ ms, ∀ d, d ∈ s.(client).(delegates) → messages d cs = ms).

#[export] Instance uniform_preorder : PreOrder uniform.
Proof.
split.
- intros s. split; [done|]. exists []. rewrite app_nil_r. split; [done|]. by exists [].
- intros s1 s2 s3 [D1 (cs1 & E1 & U1)] [D2 (cs2 & E2 & U2)].
  split; [congruence|]. exists (cs1 ++ cs2). rewrite E2, E1, app_assoc. split; [done|].
  intros Hnd. destruct (U1 Hnd) as [ms1 M1]. rewrite D1 in U2.
  destruct (U2 Hnd) as [ms2 M2]. exists (ms1 ++ ms2). intros d Hd.
  by rewrite messages_app, M1, M2.
Qed.

Definition not_to_delegate (c : Call) : Prop := match c with ToDelegate _ _ => False | _ => True end.

#[export] Instance uniform_frame :
Frame uniform not_to_delegate (λ m, m ≠ d_getDeviceID) (λ f, ∀ c, (f c).(delegates) = c.(delegates)).
Proof.
split; [apply _|..].
- intros s c Hc. split; [done|]. exists [c]. split; [done|]. intros _. exists [].
  intros d _. by destruct c.
- intros s m Hm. split; [done|]. eexists. split; [reflexivity|]. intros Hnd. exists [m].
  intros d Hd. by apply messages_broadcast.
- intros s f Hf. split; [apply Hf|]. exists []. simpl. rewrite app_nil_r.
  split; [done|]. by exists [].
Qed.

#[export] Instance uniform_store : StoreFrame uniform.
Proof.
intros s h. split; [done|]. exists []. simpl. rewrite app_nil_r. split; [done|]. by exists [].
Qed.

Lemma run_comscore_loop ds id s :
∃ id' cs, getComScoreDeviceID_loop ds id s = (Ret id', push cs s) ∧
  ∀ d, messages d cs = messages d (broadcast ds d_clearMedia).
Proof.
revert id s. induction ds as [|d ds IH]; intros id s; run_step.
{ exists id, []. by rewrite push_nil. }
destruct (isComScoreDelegate d); run_step.
- match goal with |- context [getComScoreDeviceID_loop ds ?i ?s'] =>
    destruct (IH i s') as (id' & cs & -> & H) end.
  eexists id', _. rewrite !push_push. split; [reflexivity|]. intros d'.
  rewrite !messages_app, H. simpl. by destruct (decide (d = d')).
- destruct (IH id (push [ToDelegate d d_clearMedia] s)) as (id' & cs & -> & H).
  eexists id', _. rewrite !push_push. split; [reflexivity|]. intros d'.
  rewrite !messages_app, H. simpl. by destruct (decide (d = d')).
Qed.

Lemma keeps_uniform_comscore : keeps uniform getComScoreDeviceID.
Proof.
intros s. unfold getComScoreDeviceID. run_step.
destruct (run_comscore_loop s.(client).(delegates) None s) as (id' & cs & -> & H).
split; [done|]. exists cs. split; [done|]. intros Hnd. exists [d_clearMedia]. intros d Hd.
rewrite H. by apply messages_broadcast.
Qed.

Lemma exec_uniform op s : uniform s (exec op s).2.
Proof.
revert s. change (keeps uniform (exec op)).
destruct op; unfold exec;
  repeat lazymatch goal with
    | |- keeps _ getComScoreDeviceID => apply keeps_uniform_comscore
    | |- _ => keeps_step
    end; try exact I; try apply _; done.
Qed.
End uniform.

(** ** No events while disabled *)
Section disabled.
Context `{O : Oracle}.

(** The messages that report something to the analytics systems. *)
Definition is_event (m : DelegateMsg) : Prop :=
match m with
| d_avPlayEvent _ _ | d_avPauseEvent _ _ | d_avBufferEvent _ _ | d_avEndEvent _ _
| d_avRewindEvent _ _ _ | d_avFastForwardEvent _ _ _ | d_avSeekEvent _ _
| d_avUserActionEvent _ _ _ _ | d_viewEvent _ _ | d_userActionEvent _ _ _
| d_errorEvent _ _ => True
| _ => False
end.

Definition not_event (c : Call) : Prop :=
match c with ToDelegate _ m => ¬ is_event m | _ => True end.

(** The client stays enabled or disabled, and no event is sent. *)
Definition quiet (s s' : St) : Prop :=
s'.(client).(echoEnabled) = s.(client).(echoEnabled) ∧
∃ cs, s'.(trace) = s.(trace) ++ cs ∧ Forall not_event cs.

#[export] Instance quiet_preorder : PreOrder quiet.
Proof.
split.
- intros s. split; [done|]. exists []. by rewrite app_nil_r.
- intros s1 s2 s3 [D1 (cs1 & E1 & F1)] [D2 (cs2 & E2 & F2)].
  split; [congruence|]. exists (cs1 ++ cs2). rewrite E2, E1, app_assoc.
  split; [done|by apply Forall_app].
Qed.

#[export] Instance quiet_frame :
Frame quiet not_event (λ m, ¬ is_event m) (λ f, ∀ c, (f c).(echoEnabled) = c.(echoEnabled)).
Proof.
split; [apply _|..].
- intros s c Hc. split; [done|]. exists [c]. split; [done|]. by repeat constructor.
- intros s m Hm. split; [done|]. eexists. split; [reflexivity|].
  unfold broadcast. by apply Forall_fmap, Forall_true.
- intros s f Hf. split; [apply Hf|]. exists []. simpl. by rewrite app_nil_r.
Qed.

#[export] Instance quiet_store : StoreFrame quiet.
Proof. intros s h. split; [done|]. exists []. simpl. by rewrite app_nil_r. Qed.

Lemma quiet_unchanged (s : St) : quiet s s.
Proof. reflexivity. Qed.

Lemma exec_quiet op s :
s.(client).(echoEnabled) = false → op ≠ OpEnable → quiet s (exec op s).2.
Proof.
intros He Hop.
destruct op; try done; unfold exec;
  try (match goal with |- quiet _ (?m _).2 => let h := head_of m in unfold h end;
       try unfold avUserActionEvent; run_step; rewrite He; apply quiet_unchanged);
  try (revert s He; match goal with |- ∀ s, _ → quiet s (?m s).2 =>
         cut (keeps quiet m); [intros Hk s _; apply Hk|] end;
       repeat keeps_step;
       try apply _; first [done | by intros [] | by intros ?]).
unfold setBBCUser.
erewrite run_bind; [|by rewrite run_userShouldUpdate, He]. simpl.
split; [done|]. exists []. simpl. by rewrite app_nil_r.
Qed.
End disabled.

(** ** At most one token timer *)
Section timers.
Context `{O : Oracle}.

(** The timers that are on the run loop and valid after the calls of a trace. *)
Definition live_step (X : gset TimerRef) (c : Call) : gset TimerRef :=
match c with
| RunLoopAdd t => {[ t ]} ∪ X
| TimerInvalidate t => X ∖ {[ t ]}
| _ => X
end.

Definition live_timers (tr : list Call) : gset TimerRef := foldl live_step ∅ tr.

Definition current_timer (c : EchoClient) : gset TimerRef :=
match c.(timer) with Some t => {[ t ]} | None => ∅ end.

Definition timer_inv (s : St) : Prop := live_timers s.(trace) ⊆ current_timer s.(client).

Lemma live_timers_app tr cs : live_timers (tr ++ cs) = foldl live_step (live_timers tr) cs.
Proof. apply foldl_app. Qed.

Lemma live_timers_quiet X cs :
Forall (λ c, match c with RunLoopAdd _ | TimerInvalidate _ => False | _ => True end) cs →
foldl live_step X cs = X.
Proof. induction 1 as [|c cs Hc _ IH]; [done|]. destruct c; try done; exact IH. Qed.

Definition timer_kept (s s' : St) : Prop := timer_inv s → timer_inv s'.

#[export] Instance timer_kept_preorder : PreOrder timer_kept.
Proof. split; unfold timer_kept; [by intros ? ?|]. intros s1 s2 s3; auto. Qed.

#[export] Instance timer_frame :
Frame timer_kept
  (λ c, match c with RunLoopAdd _ | TimerInvalidate _ => False | _ => True end)
  (λ _, True) (λ f, ∀ c, (f c).(timer) = c.(timer)).
Proof.
split; [apply _|..]; unfold timer_kept, timer_inv, current_timer.
- intros s c Hc. rewrite trace_push, live_timers_app, live_timers_quiet;
    [done|by repeat constructor].
- intros s m Hm. rewrite trace_push, live_timers_app, live_timers_quiet; [done|].
  unfold broadcast. by apply Forall_fmap, Forall_true.
- intros s f Hf. simpl. by rewrite Hf.
Qed.

#[export] Instance timer_store : StoreFrame timer_kept.
Proof. intros s h Hs. exact Hs. Qed.

(** After [removeSchedule] no timer is left. *)
Lemma removeSchedule_clears s :
timer_inv s → ∃ s', removeSchedule s = (Ret tt, s') ∧ s'.(client) = s.(client) ∧
  live_timers s'.(trace) = ∅.
Proof.
unfold timer_inv, current_timer, removeSchedule. intros Hinv. run_step.
destruct (timer (client s)) as [t|].
- eexists. split; [reflexivity|]. split; [done|].
  rewrite trace_push, live_timers_app. simpl. clear -Hinv. set_solver.
- eexists. split; [reflexivity|]. split; [done|]. clear -Hinv. set_solver.
Qed.

Lemma keeps_timer_removeSchedule : keeps timer_kept removeSchedule.
Proof.
intros s Hinv. destruct (removeSchedule_clears s Hinv) as (s' & -> & _ & E).
unfold timer_inv. simpl. rewrite E. apply empty_subseteq.
Qed.

Lemma keeps_timer_schedule d user : keeps timer_kept (scheduleTokenExpiry d user).
Proof.
intros s Hinv. unfold scheduleTokenExpiry.
destruct (removeSchedule_clears s Hinv) as (s' & E & Ec & El).
rewrite (run_bind _ _ _ _ _ E). run_step. unfold push. simpl.
destruct (double_positive _); simpl; unfold push, timer_inv, current_timer; simpl;
  rewrite !live_timers_app, El; simpl; clear; [|apply empty_subseteq].
by rewrite union_empty_r_L.
Qed.

Lemma exec_timer op s : timer_kept s (exec op s).2.
Proof.
revert s. change (keeps timer_kept (exec op)).
destruct op; unfold exec;
  repeat lazymatch goal with
    | |- keeps _ (scheduleTokenExpiry _ _) => apply keeps_timer_schedule
    | |- keeps _ removeSchedule => apply keeps_timer_removeSchedule
    | |- _ => keeps_step
    end;
  try exact I; try apply _; done.
Qed.
End timers.

Section properties.
Context `{O : Oracle}.
Implicit Types (s : St).

(** C4. While it is disabled the client reports nothing: whatever operations other
    than [enable] are called on it, it stays disabled and no delegate gets an event.
    *)
Theorem disabled_sends_no_event ops s :
s.(client).(echoEnabled) = false → OpEnable ∉ ops →
let s' := (exec_all ops s).2 in
s'.(client).(echoEnabled) = false ∧
∃ cs, s'.(trace) = s.(trace) ++ cs ∧
  ∀ d m, ToDelegate d m ∈ cs → ¬ is_event m.
Proof.
intros He Hops s'. destruct (exec_all_keeps quiet ops s) as (He' & cs & Ht & Hcs).
- intros op s1 Hin [E1 _]. apply exec_quiet; [congruence|]. by intros ->.
- fold s' in He', Ht. split; [congruence|]. exists cs. split; [done|].
  intros d m Hin. rewrite Forall_forall in Hcs. exact (Hcs _ Hin).
Qed.

(** C5. All the delegates are treated alike: in any sequence of operations they get
    the same messages in the same order, queries for the device identifier apart. *)
Theorem delegates_get_same_messages ops s d1 d2 :
NoDup s.(client).(delegates) →
d1 ∈ s.(client).(delegates) → d2 ∈ s.(client).(delegates) →
∃ cs, (exec_all ops s).2.(trace) = s.(trace) ++ cs ∧ messages d1 cs = messages d2 cs.
Proof.
intros Hnd H1 H2. destruct (exec_all_keeps uniform ops s) as (_ & cs & Ht & Hu).
- intros op s1 _ _. apply exec_uniform.
- destruct (Hu Hnd) as [ms Hms]. exists cs. by rewrite !Hms.
Qed.

(** The configuration is read once: no sequence of operations changes the
  delegates or a setting that the configuration gave, a client that has started
  stays started, and the calls already made stay made. *)
Theorem configuration_is_constant ops s :
let s' := (exec_all ops s).2 in
same_config s.(client) s'.(client) ∧ s.(trace) `prefix_of` s'.(trace).
Proof. apply (exec_all_keeps grows). intros op s' _ _. apply exec_grows. Qed.

(** C24. There is at most one token timer: starting from a trace that leaves no timer
    on the run loop, every reachable trace leaves at most one, and it is the one the
    client holds. *)
Theorem one_token_timer s s' t1 t2 :
steps s s' → live_timers s.(trace) = ∅ →
t1 ∈ live_timers s'.(trace) → t2 ∈ live_timers s'.(trace) →
t1 = t2 ∧ s'.(client).(timer) = Some t1.
Proof.
intros Hsteps Hs H1 H2.
assert (Hinv : timer_inv s').
{ apply (steps_keeps timer_kept s s'); [intros op s0 _; apply exec_timer|done|].
  unfold timer_inv. rewrite Hs. apply empty_subseteq. }
apply Hinv in H1, H2. unfold current_timer in H1, H2.
destruct (timer (client s')) as [t|]; [|by apply elem_of_empty in H1].
apply elem_of_singleton in H1 as ->. by apply elem_of_singleton in H2 as ->.
Qed.
End properties.

(** ** Witnesses *)
Section witnesses.
#[local] Existing Instances cMediaI cUserI cLabelI cEnumI cConfigI cO.

Lemma disabled_sends_no_event_witness :
(exec_all [OpAvPlay 0 None; OpStart; OpViewEvent "home" None]
   (cState (set_echoEnabled false cClient) ∅)).2.(client).(echoEnabled) = false.
Proof.
apply (disabled_sends_no_event [OpAvPlay 0 None; OpStart; OpViewEvent "home" None]
  (cState (set_echoEnabled false cClient) ∅)); [reflexivity|].
rewrite !not_elem_of_cons. split_and!; [discriminate..|apply not_elem_of_nil].
Defined.

Lemma delegates_get_same_messages_witness :
∃ cs, (exec_all [OpViewEvent "home" None; OpGetComScoreDeviceID]
    (cState cClient ∅)).2.(trace) = cs ∧ messages 1%positive cs = messages 2%positive cs.
Proof.
apply (delegates_get_same_messages [OpViewEvent "home" None; OpGetComScoreDeviceID]
  (cState cClient ∅) 1%positive 2%positive); [|set_solver..].
apply (bool_decide_unpack _). reflexivity.
Defined.

End witnesses.

Section witness_timer.
#[local] Existing Instances cMediaI cUserI cLabelI cEnumI cConfigI.

(** A user whose token expires in five seconds. *)
Definition expiring : @BBCUser cUserI := mkCUser "bob" (Some 5).
#[local] Instance cOTimer : Oracle :=
cOracle (mkCAnswers 0 None (mkCResult None ct_signIn false) cts_valid
  (S754_finite false 5629499534213120 (-50)) []).

Lemma one_token_timer_witness :
let s' := (exec (OpSetBBCUser expiring) (cState resetting ∅)).2 in
9%positive ∈ live_timers s'.(trace) ∧ s'.(client).(timer) = Some 9%positive.
Proof.
set (s' := (exec (OpSetBBCUser expiring) (cState resetting ∅)).2).
assert (H : 9%positive ∈ live_timers s'.(trace)) by (apply (bool_decide_unpack _); reflexivity).
split; [exact H|].
apply (one_token_timer (cState resetting ∅) s' 9%positive 9%positive); [|done|exact H|exact H].
eapply steps_step; [|apply steps_refl].
apply step_of; [exact I|vm_compute; reflexivity].
Defined.
End witness_timer.
