(* ===== verification/Safety.v ===== *)
(** * Safety: no operation traps, and the media reference never dangles.

    A logic of total executions, [safe_run X m]: from a well-formed state in
    which the objects [X] exist, [m] returns, and the state it leaves is again
    well formed and still has the objects [X]. *)

From S2P Require Import Prelude SwiftNumbers Interfaces Client Concrete Labels Config Media AvEvents UserState Reporting Lifecycle Machine.
From Stdlib Require Import SpecFloat.

Section safety.
Context `{O : Oracle}.
Implicit Types (X : gset MediaRef) (s : St).

(** The current media object exists. *)
Definition well_formed s : Prop :=
∀ r, s.(client).(media) = Some r → is_Some (s.(heap) !! r).

Definition safe X s : Prop := well_formed s ∧ X ⊆ dom s.(heap).

Definition safe_run {A} X (m : M St A) : Prop :=
∀ s, safe X s → ∃ a s', m s = (Ret a, s') ∧ safe X s'.

Lemma safe_weaken X Y s : Y ⊆ X → safe X s → safe Y s.
Proof. intros ? [??]. split; [done|by etrans]. Qed.

Lemma safe_ret {A} X (a : A) : safe_run X (mret a).
Proof. intros s Hs. eauto. Qed.

Lemma safe_bind {A B} X (m : M St A) (k : A → M St B) :
safe_run X m → (∀ a, safe_run X (k a)) → safe_run X (m ≫= k).
Proof.
intros Hm Hk s Hs. destruct (Hm s Hs) as (a & s' & E & Hs').
destruct (Hk a s' Hs') as (b & s'' & E' & Hs''). exists b, s''.
by rewrite (run_bind _ _ _ _ _ E).
Qed.

Lemma safe_gets {A} X (f : EchoClient → A) : safe_run X (gets f).
Proof. intros s Hs. run_step. eauto. Qed.

(** After reading the media, its object is known to exist. *)
Lemma safe_gets_media {A} X (k : option MediaRef → M St A) :
safe_run X (k None) → (∀ r, safe_run ({[ r ]} ∪ X) (k (Some r))) →
safe_run X (mr ← gets media; k mr).
Proof.
intros Hn Hsome s Hs. run_step. destruct (media (client s)) as [r|] eqn:E.
- destruct (Hsome r s) as (a & s' & Ea & Hs').
  { destruct Hs as [Hwf HX]. split; [done|].
    apply union_subseteq. split; [|done]. apply singleton_subseteq_l, elem_of_dom. auto. }
  exists a, s'. split; [done|]. eapply safe_weaken; [|done]. apply union_subseteq_r.
- by apply Hn.
Qed.

Lemma safe_emit X c : safe_run X (emit c).
Proof. intros s Hs. exists tt, (push [c] s). eauto. Qed.

Lemma safe_ask {A} X c (f : list Call → A) : safe_run X (ask c f).
Proof. intros s Hs. exists (f s.(trace)), (push [c] s). eauto. Qed.

Lemma safe_toDelegates X m : safe_run X (toDelegates m).
Proof. intros s Hs. rewrite run_toDelegates. eexists tt, _. split; [reflexivity|]. done. Qed.

(** An assignment that does not set the media, or sets it to an existing object. *)
Lemma safe_modify X f :
(∀ c r, (f c).(media) = Some r → c.(media) = Some r ∨ r ∈ X) → safe_run X (modify f).
Proof.
intros Hf s [Hwf HX]. run_step. eexists tt, _. split; [reflexivity|].
split; [|done]. intros r Hr. simpl in *. destruct (Hf _ _ Hr) as [?|?]; [auto|].
apply elem_of_dom. set_solver.
Qed.

Lemma safe_deref X r : r ∈ X → safe_run X (deref r).
Proof.
intros Hr s Hs. assert (Hd : r ∈ dom s.(heap)) by by apply (proj2 Hs).
apply elem_of_dom in Hd as [m Hm]. exists m, s. by rewrite (run_deref r m).
Qed.

Lemma safe_update X r f : r ∈ X → safe_run X (update_media r f).
Proof.
intros Hr s [Hwf HX]. assert (Hd : r ∈ dom s.(heap)) by by apply HX.
apply elem_of_dom in Hd as [m Hm]. rewrite (run_update_media r m) by done.
eexists tt, _. split; [reflexivity|]. split; simpl.
- intros r' Hr'. apply lookup_insert_is_Some. destruct (decide (r = r')); eauto.
- rewrite dom_insert_L. by apply union_subseteq_r'.
Qed.

Lemma safe_new_media {A} X m (k : MediaRef → M St A) :
(∀ r, safe_run ({[ r ]} ∪ X) (k r)) → safe_run X (r ← new_media m; k r).
Proof.
intros Hk s [Hwf HX]. run_step. set (r := fresh (dom (heap s))).
edestruct (Hk r) as (a & s' & E & Hs'); [|exists a, s'; split; [exact E|]].
- split; simpl.
  + intros r' Hr'. apply lookup_insert_is_Some. destruct (decide (r = r')); eauto.
  + rewrite dom_insert_L. by apply union_mono_l.
- eapply safe_weaken; [|done]. apply union_subseteq_r.
Qed.

Lemma safe_update_self X f : safe_run X (update_self_media f).
Proof.
apply safe_gets_media; [apply safe_ret|]. intros r. apply safe_update. set_solver.
Qed.

Lemma safe_positionExceeds X p : safe_run X (positionExceedsMediaLength p).
Proof.
intros s Hs. destruct (media (client s)) as [r|] eqn:Er.
- destruct (proj1 Hs r Er) as [m Hm]. eexists _, s.
  by rewrite (run_positionExceeds s r m).
- eexists _, s. unfold positionExceedsMediaLength. run_step. by rewrite Er.
Qed.

Lemma safe_sendUserUpdateEvent X ty name l result :
safe_run X (sendUserUpdateEvent ty name l result).
Proof.
intros s Hs. destruct (run_sendUserUpdateEvent ty name l result s) as [l' ->].
eexists l', _. split; [reflexivity|]. done.
Qed.

Lemma safe_comscore X ds id : safe_run X (getComScoreDeviceID_loop ds id).
Proof.
intros s Hs. destruct (run_comscore_loop ds id s) as (id' & cs & -> & _).
eexists id', _. split; [reflexivity|]. done.
Qed.
End safety.

Ltac safe_side :=
  first [ set_solver | by intros [] ? ?; simpl in *; auto
        | intros [] ? ?; simpl in *; simplify_eq; set_solver ].

Ltac safe_step :=
  lazymatch goal with
  | |- safe_run _ (mret _) => apply safe_ret
  | |- safe_run _ (gets media ≫= _) => apply safe_gets_media; [|intros ?]
  | |- safe_run _ (new_media _ ≫= _) => apply safe_new_media; intros ?
  | |- safe_run _ (_ ≫= _) => apply safe_bind; [|intros ?]
  | |- safe_run _ (gets _) => apply safe_gets
  | |- safe_run _ (emit _) => apply safe_emit
  | |- safe_run _ (ask _ _) => apply safe_ask
  | |- safe_run _ (toDelegates _) => apply safe_toDelegates
  | |- safe_run _ (modify _) => apply safe_modify; safe_side
  | |- safe_run _ (deref _) => apply safe_deref; set_solver
  | |- safe_run _ (update_media _ _) => apply safe_update; set_solver
  | |- safe_run _ (update_self_media _) => apply safe_update_self
  | |- safe_run _ (positionExceedsMediaLength _) => apply safe_positionExceeds
  | |- safe_run _ (sendUserUpdateEvent _ _ _ _) => apply safe_sendUserUpdateEvent
  | |- safe_run _ (getComScoreDeviceID_loop _ _) => apply safe_comscore
  | |- safe_run _ (match ?x with _ => _ end) => destruct x
  | |- safe_run _ ?m => let h := head_of m in unfold h
  end.

Section exec_safe.
Context `{O : Oracle}.
Implicit Types (X : gset MediaRef) (s : St).

(** The timestamp of a live update can be converted to milliseconds. *)
Definition timestamp_ok (op : Op) : Prop :=
match op with
| OpLiveTimestampUpdate t => is_Some (u64_of_double (double_mul t double_1000))
| _ => True
end.

(** The objects an operation is given. *)
Definition op_refs (op : Op) : gset MediaRef :=
match op with
| OpSetMedia m | OpLiveMediaUpdate m _ _ => {[ m ]}
| _ => ∅
end.

Lemma exec_safe op : timestamp_ok op → safe_run (op_refs op) (exec op).
Proof.
intros Ht. destruct op; unfold exec, op_refs; try (repeat safe_step; done).
unfold liveTimestampUpdate. destruct Ht as [t' ->]. repeat safe_step.
Qed.

Lemma op_ok_refs op s : well_formed s → op_ok op s → safe (op_refs op) s.
Proof.
intros Hwf Hok. split; [done|].
destruct op; simpl in *; try apply empty_subseteq;
  apply singleton_subseteq_l, elem_of_dom; done.
Qed.

Lemma steps_well_formed s s' : steps s s' → well_formed s → well_formed s'.
Proof.
induction 1 as [|s1 s2 s3 [op s s0 Hok E] _ IH]; [done|]. intros Hwf. apply IH.
destruct (decide (is_Some (match op with
  | OpLiveTimestampUpdate t => u64_of_double (double_mul t double_1000)
  | _ => Some 0 end))) as [Ht|Ht].
- assert (Ht' : timestamp_ok op) by (by destruct op).
  destruct (exec_safe op Ht' s (op_ok_refs op s Hwf Hok)) as (a & s'' & E' & Hs').
  rewrite E in E'. simplify_eq. apply Hs'.
- destruct op; try (exfalso; apply Ht; by eexists). simpl in E.
  unfold liveTimestampUpdate in E.
  destruct (u64_of_double _); [exfalso; apply Ht; by eexists|]. discriminate.
Qed.
End exec_safe.

Section properties.
Context `{O : Oracle}.
Implicit Types (s : St).

(** C1. No operation crashes. In every state that is reachable from a well-formed one,
    an operation on existing objects returns normally and leaves a well-formed state:
    the positions never underflow and the client never uses a media object that does
    not exist. The one exception is a live timestamp that is no number of
    milliseconds, which traps before anything is sent. *)
Theorem operations_never_trap s0 s op :
well_formed s0 → steps s0 s → op_ok op s →
(timestamp_ok op → ∃ s', exec op s = (Ret tt, s') ∧ well_formed s') ∧
(¬ timestamp_ok op → exec op s = (Trap, s)).
Proof.
intros Hwf0 Hsteps Hok. assert (Hwf : well_formed s) by by eapply steps_well_formed.
split.
- intros Ht. destruct (exec_safe op Ht s (op_ok_refs op s Hwf Hok)) as ([] & s' & E & Hs').
  exists s'. split; [exact E|apply Hs'].
- intros Ht. destruct op; simpl in *; try (by destruct Ht).
  unfold liveTimestampUpdate. destruct (u64_of_double _); [|done]. destruct Ht. eauto.
Qed.
End properties.

(** ** Witnesses *)
Section witnesses.
#[local] Existing Instances cMediaI cUserI cLabelI cEnumI cConfigI cO.

Lemma operations_never_trap_witness :
(∃ s', exec (OpAvPlay 9999 None) (cWith cOnDemand cClient) = (Ret tt, s') ∧ well_formed s') ∧
exec (OpLiveTimestampUpdate S754_nan) (cWith cOnDemand cClient) =
  (Trap, cWith cOnDemand cClient).
Proof.
assert (Hwf : well_formed (cWith cOnDemand cClient))
  by (intros r [= <-]; by exists cOnDemand).
split.
- apply (operations_never_trap _ _ (OpAvPlay 9999 None) Hwf (steps_refl _) I). exact I.
- apply (operations_never_trap _ _ (OpLiveTimestampUpdate S754_nan) Hwf (steps_refl _) I).
  intros [v Hv]. discriminate.
Defined.
End witnesses.
