(* ===== verification/Startup.v ===== *)
(** * Startup: construction, starting, enabling and disabling, proved.

    The theorems about [Lifecycle.v]: what [init] does before and after it
    validates the configuration, that the delegates are started at most once,
    what [disable] leaves behind, and that a user who was set while the client
    was disabled is not lost. *)

From S2P Require Import Prelude SwiftNumbers Interfaces Client Concrete Labels Config Media AvEvents UserState Reporting Lifecycle Machine.

Section lemmas.
Context `{O : Oracle}.
Abbreviation Config := (gmap EchoConfigKey string).
Implicit Types (s : St) (c : EchoClient) (user : BBCUser) (cs : list Call).

(** ** Starting *)

(** The state in which [start] sets the user. *)
Definition started s : St :=
mkSt (set_hasStarted_ true s.(client)) s.(heap)
     (s.(trace) ++ broadcast s.(client).(delegates) d_start).

Lemma run_start s :
start s =
  if s.(client).(echoEnabled) && negb s.(client).(hasStarted_) then
    match s.(client).(bbcUserSetWhileDisabled) with
    | Some user => setBBCUser user (started s)
    | None => (Ret tt, started s)
    end
  else (Ret tt, s).
Proof.
unfold start, hasStarted. run_step.
destruct (echoEnabled (client s)), (hasStarted_ (client s)); simpl; try done. run.
by destruct (bbcUserSetWhileDisabled (client s)).
Qed.

(** Setting the user always returns, and its effects are those of any operation. *)
Lemma run_setBBCUser_total user s :
∃ s', setBBCUser user s = (Ret tt, s') ∧ grows s s' ∧
  s'.(client).(echoEnabled) = s.(client).(echoEnabled).
Proof.
pose proof (exec_grows (OpSetBBCUser user) s) as Hg. simpl in Hg.
destruct (users_active s.(client)) eqn:Ha.
- destruct (run_setBBCUser user s Ha) as (c1 & cs & Hc & _ & _ & E).
  rewrite E in *. eexists. split; [reflexivity|]. split; [exact Hg|]. simpl.
  unfold user_tail. destruct (postpones c1 _); simpl; by rewrite Hc.
- unfold users_active in Ha. unfold setBBCUser in *.
  destruct (echoEnabled (client s) && hasStarted_ (client s)) eqn:E; simpl in Ha;
    (erewrite run_bind; [|by rewrite run_userShouldUpdate, E, ?Ha]);
    (erewrite run_bind in Hg; [|by rewrite run_userShouldUpdate, E, ?Ha]);
    (eexists; split; [reflexivity|]; split; [exact Hg|done]).
Qed.

(** Setting the user on a client that handles users tells the helper. *)
Lemma run_setBBCUser_active user s :
users_active s.(client) = true →
∃ s' cs, setBBCUser user s = (Ret tt, s') ∧ s'.(trace) = s.(trace) ++ cs ∧
  HelperSetBBCUser user ∈ cs ∧ s'.(client).(hasStarted_) = s.(client).(hasStarted_).
Proof.
intros Ha. destruct (run_setBBCUser user s Ha) as (c1 & cs & Hc & _ & _ & E).
eexists _, _. split; [exact E|]. split; [reflexivity|]. split.
- unfold user_prefix. rewrite !elem_of_app. left. right. left. apply list_elem_of_here.
- simpl. unfold user_tail. destruct (postpones c1 _); simpl; by rewrite Hc.
Qed.

(** Starting always returns; it starts the client if it is enabled. *)
Lemma run_start_total s :
∃ s', start s = (Ret tt, s') ∧ grows s s' ∧
  s'.(client).(echoEnabled) = s.(client).(echoEnabled) ∧
  (s.(client).(echoEnabled) = true → s'.(client).(hasStarted_) = true).
Proof.
assert (Hst : grows s (started s)).
{ split; [by repeat split|]. by apply prefix_app_r. }
rewrite run_start. destruct (echoEnabled (client s)) eqn:He; simpl.
2:{ exists s. split_and!; [done|reflexivity|done|done]. }
destruct (hasStarted_ (client s)) eqn:Hs; simpl.
{ exists s. split_and!; [done|reflexivity|done|done]. }
destruct (bbcUserSetWhileDisabled (client s)) as [user|]; [|by eexists].
destruct (run_setBBCUser_total user (started s)) as (s' & E & Hg & He').
exists s'. split; [exact E|]. split; [by etrans|]. split; [by rewrite He'|].
intros _. apply Hg. done.
Qed.

(** A start that is due applies the user who was set before. *)
Lemma start_pending s user :
s.(client).(echoEnabled) = true → s.(client).(hasStarted_) = false →
s.(client).(idv5Enabled) = true → s.(client).(bbcUserSetWhileDisabled) = Some user →
∃ s' cs, start s = (Ret tt, s') ∧ s'.(trace) = s.(trace) ++ cs ∧
  s'.(client).(hasStarted_) = true ∧ HelperSetBBCUser user ∈ cs.
Proof.
intros He Hs Hi Hu. destruct (run_setBBCUser_active user (started s)) as (s' & cs & E & Ht & Hc & Hs');
  [by unfold users_active; simpl; rewrite He, Hi|].
exists s', (broadcast s.(client).(delegates) d_start ++ cs).
rewrite run_start, He, Hs, Hu, E, Ht, Hs'. simpl. rewrite <- app_assoc.
split_and!; [done..|]. apply elem_of_app. by right.
Qed.

(** What enabling does with that user. *)
Lemma enable_pending s user :
s.(client).(echoEnabled) = false → s.(client).(idv5Enabled) = true →
s.(client).(bbcUserSetWhileDisabled) = Some user →
∃ s' cs, enable s = (Ret tt, s') ∧ s'.(trace) = s.(trace) ++ cs ∧
  if s.(client).(hasStarted_) || s.(client).(autoStart)
  then s'.(client).(hasStarted_) = true ∧ HelperSetBBCUser user ∈ cs
  else HelperSetBBCUser user ∉ cs ∧
    ∃ s3 cs', start s' = (Ret tt, s3) ∧ s3.(trace) = s'.(trace) ++ cs' ∧
      s3.(client).(hasStarted_) = true ∧ HelperSetBBCUser user ∈ cs'.
Proof.
intros He Hi Hu.
set (s2 := mkSt (set_echoEnabled true s.(client)) s.(heap)
  (s.(trace) ++ broadcast s.(client).(delegates) d_enable)).
unfold enable, hasStarted. run_step. rewrite He. run_step.
rewrite run_toDelegates. unfold push. simpl. rewrite Hu. fold s2.
destruct (hasStarted_ (client s)) eqn:Hs; simpl.
- destruct (run_setBBCUser_active user s2) as (s3 & cs & E3 & Ht & Hc & Hs3);
    [by unfold users_active; simpl; rewrite Hs, Hi|].
  rewrite E3. run_step. rewrite Hs3. simpl. rewrite Hs, andb_false_r.
  eexists _, _. split; [reflexivity|]. simpl. rewrite Ht. simpl. rewrite <- app_assoc.
  split_and!; [done|by rewrite Hs3|]. apply elem_of_app. by right.
- rewrite Hs. destruct (autoStart (client s)) eqn:Ha; simpl.
  + destruct (start_pending s2 user) as (s3 & cs & E3 & Ht & Hs3 & Hc); [done..|].
    rewrite E3. eexists _, _. split; [reflexivity|]. rewrite Ht. simpl. rewrite <- app_assoc.
    split_and!; [done..|]. apply elem_of_app. by right.
  + eexists _, _. split; [reflexivity|]. split; [reflexivity|]. split.
    * by intros (? & ? & _)%elem_of_broadcast.
    * by apply start_pending.
Qed.
End lemmas.

(** ** How often a delegate is started *)
Section starts.
Context `{O : Oracle}.
Implicit Types (s : St).

Definition is_start (m : DelegateMsg) : Prop := match m with d_start => True | _ => False end.

#[export] Instance is_start_dec m : Decision (is_start m).
Proof. destruct m; apply _. Defined.

(** The number of times that [d] is started in a trace. *)
Definition starts (d : DelegateRef) cs : nat := length (filter is_start (messages d cs)).

Definition started_count (c : EchoClient) : nat := if c.(hasStarted_) then 1 else 0.

(** A delegate is started as often as the client becomes started. *)
Definition starts_once s s' : Prop :=
s'.(client).(delegates) = s.(client).(delegates) ∧
∃ cs, s'.(trace) = s.(trace) ++ cs ∧
  (NoDup s.(client).(delegates) → ∀ d, d ∈ s.(client).(delegates) →
   (started_count s.(client) + starts d cs = started_count s'.(client))%nat).

Lemma starts_app d cs1 cs2 : starts d (cs1 ++ cs2) = (starts d cs1 + starts d cs2)%nat.
Proof. unfold starts. by rewrite messages_app, filter_app, length_app. Qed.

#[export] Instance starts_once_preorder : PreOrder starts_once.
Proof.
split.
- intros s. split; [done|]. exists []. rewrite app_nil_r. split; [done|].
  intros _ d _. unfold starts. simpl. lia.
- intros s1 s2 s3 [D1 (cs1 & E1 & U1)] [D2 (cs2 & E2 & U2)].
  split; [congruence|]. exists (cs1 ++ cs2). rewrite E2, E1, app_assoc. split; [done|].
  intros Hnd d Hd. rewrite D1 in U2. specialize (U1 Hnd d Hd). specialize (U2 Hnd d Hd).
  rewrite starts_app. lia.
Qed.

Lemma starts_broadcast d ds m :
NoDup ds → d ∈ ds → m ≠ d_getDeviceID →
starts d (broadcast ds m) = if decide (is_start m) then 1%nat else 0%nat.
Proof.
intros Hnd Hd Hm. unfold starts. rewrite messages_broadcast by done. rewrite filter_cons.
by destruct (decide (is_start m)).
Qed.

#[export] Instance starts_frame :
Frame starts_once not_to_delegate (λ m, m ≠ d_getDeviceID ∧ ¬ is_start m)
  (λ f, ∀ c, (f c).(delegates) = c.(delegates) ∧ (f c).(hasStarted_) = c.(hasStarted_)).
Proof.
split; [apply _|..]; unfold starts_once, started_count.
- intros s c Hc. split; [done|]. exists [c]. split; [done|]. intros _ d _.
  destruct c; try done; unfold starts; simpl; lia.
- intros s m [Hm Hs]. split; [done|]. eexists. split; [reflexivity|]. intros Hnd d Hd.
  rewrite starts_broadcast, decide_False by done. simpl. lia.
- intros s f Hf. destruct (Hf s.(client)) as [E1 E2]. split; [done|]. exists [].
  simpl. rewrite app_nil_r, E2. split; [done|]. intros _ d _. unfold starts. simpl. lia.
Qed.

#[export] Instance starts_store : StoreFrame starts_once.
Proof.
intros s h. split; [done|]. exists []. simpl. rewrite app_nil_r. split; [done|].
intros _ d _. unfold starts. simpl. lia.
Qed.

Lemma keeps_starts_comscore : keeps starts_once getComScoreDeviceID.
Proof.
intros s. unfold getComScoreDeviceID. run_step.
destruct (run_comscore_loop s.(client).(delegates) None s) as (id' & cs & -> & H).
split; [done|]. exists cs. split; [done|]. intros Hnd d Hd. simpl.
unfold starts. rewrite H, messages_broadcast by done. simpl. lia.
Qed.

Ltac starts_side :=
first [ exact I | split; [discriminate|intros []] | intros ?; by split ].

Lemma keeps_starts_user user : keeps starts_once (setBBCUser user).
Proof. repeat keeps_step; try apply _; starts_side. Qed.

Lemma keeps_starts_start : keeps starts_once start.
Proof.
intros s. rewrite run_start. destruct (echoEnabled (client s)); simpl; [|reflexivity].
destruct (hasStarted_ (client s)) eqn:Hs; simpl; [reflexivity|].
assert (H : starts_once s (started s)).
{ split; [done|]. eexists. split; [reflexivity|]. intros Hnd d Hd.
  unfold started_count. rewrite Hs, starts_broadcast, decide_True by done. done. }
destruct (bbcUserSetWhileDisabled (client s)); [|exact H].
etrans; [exact H|]. apply keeps_starts_user.
Qed.

Lemma exec_starts op s : starts_once s (exec op s).2.
Proof.
revert s. change (keeps starts_once (exec op)).
destruct op; unfold exec;
  repeat lazymatch goal with
    | |- keeps _ getComScoreDeviceID => apply keeps_starts_comscore
    | |- keeps _ start => apply keeps_starts_start
    | |- _ => keeps_step
    end; try apply _; starts_side.
Qed.
End starts.

(** ** Construction *)
Section init.
Context `{O : Oracle}.
Abbreviation Config := (gmap EchoConfigKey string).
Implicit Types (s : St) (user : BBCUser) (cs : list Call) (config : Config).

(** The calls by which [init] sets up the debug output, the user promise helper and
  the device identifier. *)
Definition is_setup (c : Call) : Prop :=
match c with
| SetDebugEnabled _ | SetDebugLevel _ | MakeUserPromiseHelper _ | DeviceGetDeviceID => True
| _ => False
end.

Lemma run_setDebug v s :
∃ cs, setDebug v s = (Ret tt, push cs s) ∧ Forall is_setup cs.
Proof.
unfold setDebug. destruct v; repeat case_bool_decide; run_step; unfold emit;
  rewrite ?push_push;
  (eexists; split; [reflexivity|]; by repeat constructor).
Qed.

(** From the cookies to the validation. *)
Definition cookie_calls config : list Call :=
if is_true (config !! cfg_idv5Enabled) then [] else [HelperClearWebviewCookies].

(** What [init] does once the configuration is found valid. *)
Definition init_finish : M St unit :=
enabled ← gets echoEnabled;
auto ← gets autoStart;
(if (enabled : bool) && auto then start else mret tt) ;;
log info "Library initialised" ;;
emit (AddObserver "appForegrounded" "willEnterForegroundNotification") ;;
emit (AddObserver "appBackgrounded" "didEnterBackgroundNotification").

Lemma run_init appName appType name userConfig user s :
let config := collateConfig userConfig in
let factory := FactoryGetDelegates (cleanLabelValue key_BBCApplicationName appName) appType
  (cleanCountername name) config user in
∃ cs ds, Forall is_setup cs ∧
  let s1 := mkSt (initial_client config user ds) s.(heap)
                 (s.(trace) ++ cs ++ cookie_calls config ++ [factory]) in
  init appName appType name userConfig user s =
    (valid ← isValidConfig appName config;
     if negb valid then throw "The provided configuration was invalid." else init_finish) s1.
Proof.
intros config factory. destruct (run_setDebug (config !! cfg_echoDebug) s) as (cs & E & Hcs).
unfold init. cbv zeta. fold config factory. rewrite (run_bind _ _ _ _ _ E).
unfold cookie_calls. run_step.
set (helper := MakeUserPromiseHelper _).
assert (Hsetup : ∀ l, Forall is_setup l → Forall is_setup (cs ++ l))
  by (intros; by apply Forall_app).
destruct (config !! cfg_echoDeviceID) as [id|]; run_step;
  (destruct (string_isEmpty _); run_step);
  [ exists (cs ++ [helper; DeviceGetDeviceID])
  | exists (cs ++ [helper])
  | exists (cs ++ [helper; DeviceGetDeviceID; DeviceGetDeviceID])
  | exists (cs ++ [helper; DeviceGetDeviceID]) ];
  destruct (is_true (config !! cfg_idv5Enabled)); run_step; unfold push; simpl;
  rewrite <- !app_assoc; simpl;
  (eexists; split; [apply Hsetup; by repeat constructor | reflexivity]).
Qed.
End init.

(** Closes a goal from [H], which puts a call in a list that does not hold it. *)
Ltac no_elem H :=
  exfalso; repeat (apply elem_of_cons in H as [H|H]; [discriminate|]);
  by apply elem_of_nil in H.

Section properties.
Context `{O : Oracle}.
Abbreviation Config := (gmap EchoConfigKey string).
Implicit Types (s : St) (user : BBCUser) (cs : list Call).

(** C19. Construction. Before the configuration is validated, the delegates are made
    from the cleaned names, and the cookies are cleared unless the client tracks
    users; no delegate gets a message. Then an invalid configuration is thrown as an
    error, after one line in the log; with a valid one the client is started if it is
    enabled and starts automatically, and only then. *)
Theorem init_correct appName appType name userConfig user s :
let config := collateConfig userConfig in
let factory := FactoryGetDelegates (cleanLabelValue key_BBCApplicationName appName) appType
  (cleanCountername name) config user in
let autostarts := is_true (config !! cfg_echoEnabled) && is_true (config !! cfg_echoAutoStart) in
∃ cs ds,
  (∀ d m, ToDelegate d m ∉ cs) ∧ factory ∈ cs ∧
  (HelperClearWebviewCookies ∈ cs ↔ config !! cfg_idv5Enabled ≠ Some "true") ∧
  let s1 := mkSt (initial_client config user ds) s.(heap) (s.(trace) ++ cs) in
  match isValidConfig appName config s1 with
  | (Ret true, s2) =>
      s2 = s1 ∧
      ∃ s3 after, init appName appType name userConfig user s = (Ret tt, s3) ∧
        s3.(trace) = s1.(trace) ++ after ∧
        s3.(client).(hasStarted_) = autostarts ∧
        s3.(client).(echoEnabled) = is_true (config !! cfg_echoEnabled) ∧
        (autostarts = false → ∀ d m, ToDelegate d m ∉ after)
  | (Ret false, s2) =>
      init appName appType name userConfig user s =
        (Throw "The provided configuration was invalid.", s2) ∧
      s2.(client).(hasStarted_) = false ∧ ∃ msg, s2 = push [Log error msg] s1
  | _ => False
  end.
Proof.
intros config factory autostarts.
destruct (run_init appName appType name userConfig user s) as (cs & ds & Hcs & E).
fold config factory in E. exists (cs ++ cookie_calls config ++ [factory]), ds.
rewrite Forall_forall in Hcs. split; [|split; [|split]].
- intros d m. rewrite !elem_of_app. unfold cookie_calls.
  intros [H|[H|H]]; [by apply Hcs in H|destruct (is_true (config !! cfg_idv5Enabled))|]; no_elem H.
- rewrite !elem_of_app. right. right. apply list_elem_of_here.
- unfold cookie_calls, is_true. rewrite !elem_of_app. case_bool_decide as Hi; split.
  + intros [H|[H|H]]; [by apply Hcs in H|no_elem H..].
  + done.
  + done.
  + intros _. right. left. apply list_elem_of_here.
- intros s1. cbv zeta in E. fold s1 in E.
  destruct (isValidConfig_validates appName config s1) as (cs' & Ev & Hcs').
  rewrite (run_bind _ _ _ _ _ Ev) in E. rewrite Ev.
  destruct (config_valid appName config) eqn:Hv; simpl in E.
  + rewrite Hcs', push_nil in *. split; [done|]. revert E. unfold init_finish. run_step.
    fold autostarts. destruct autostarts eqn:Ha.
    * destruct (run_start_total s1) as (s2 & Es & [_ [after Hpre]] & He2 & Hst).
      rewrite Es. run_step. intros E. eexists _, _. split; [exact E|]. rewrite !push_push.
      split; [simpl; rewrite Hpre, <- app_assoc; reflexivity|].
      apply andb_true_iff in Ha as [He _]. simpl. split_and!; [by apply Hst|done|done].
    * run_step. intros E. eexists _, _. split; [exact E|]. rewrite !push_push.
      split; [reflexivity|]. simpl. split_and!; [done|done|]. intros _ d m H. no_elem H.
  + destruct Hcs' as [msg ->]. split; [exact E|]. split; [done|by eexists].
Qed.

(** C21. Every delegate is started exactly when the client becomes started: never
    twice, in any sequence of operations. *)
Theorem delegates_started_once ops s d :
NoDup s.(client).(delegates) → d ∈ s.(client).(delegates) →
let s' := (exec_all ops s).2 in
∃ cs, s'.(trace) = s.(trace) ++ cs ∧
  starts d cs = if s.(client).(hasStarted_) then 0%nat
                else if s'.(client).(hasStarted_) then 1%nat else 0%nat.
Proof.
intros Hnd Hd s'. destruct (exec_all_keeps starts_once ops s) as (_ & cs & Ht & H).
- intros op s0 _ _. apply exec_starts.
- fold s' in Ht, H. exists cs. split; [done|]. specialize (H Hnd d Hd).
  unfold started_count in H. repeat case_match; lia.
Qed.

(** C38. Disabling clears the media and the broker and tells every delegate, but the
    client still counts its media as active: after a disabling while media was
    playing, the cache mode cannot be changed although there is no media. *)
Theorem disable_leaves_media_active s mode :
s.(client).(echoEnabled) = true → s.(client).(mediaActive) = true →
∃ s1, disable s = (Ret tt, s1) ∧
  s1.(client).(echoEnabled) = false ∧ s1.(client).(media) = None ∧
  s1.(client).(broker) = None ∧
  s1.(trace) = s.(trace) ++ clearMedia_calls s.(client) ++
    broadcast s.(client).(delegates) d_disable ∧
  setCacheMode mode s1 =
    (Ret tt, push [Log error
       "Cannot call setCacheMode() after avPlayEvent() and before avEndEvent()"] s1).
Proof.
intros He Hm. unfold disable. run_step. rewrite He. simpl. run.
eexists. split; [reflexivity|]. simpl. split_and!; [done..| |].
- by rewrite <- app_assoc.
- unfold setCacheMode. run_step. by rewrite Hm.
Qed.

(** C20. A user who is set while a client that tracks users is disabled is not lost:
    nothing happens then. If the client has started before, or starts automatically,
    the user promise helper gets that user when the client is enabled, and the client
    has started; if not, enabling does not reach the helper, and the start that the
    app has to ask for does. *)
Theorem pending_user_applied s user :
s.(client).(echoEnabled) = false → s.(client).(idv5Enabled) = true →
∃ s1 s2 cs, setBBCUser user s = (Ret tt, s1) ∧ s1.(trace) = s.(trace) ∧
  enable s1 = (Ret tt, s2) ∧ s2.(trace) = s.(trace) ++ cs ∧
  if s.(client).(hasStarted_) || s.(client).(autoStart)
  then s2.(client).(hasStarted_) = true ∧ HelperSetBBCUser user ∈ cs
  else HelperSetBBCUser user ∉ cs ∧
    ∃ s3 cs', start s2 = (Ret tt, s3) ∧ s3.(trace) = s2.(trace) ++ cs' ∧
      s3.(client).(hasStarted_) = true ∧ HelperSetBBCUser user ∈ cs'.
Proof.
intros He Hi.
set (s1 := mkSt (set_bbcUserSetWhileDisabled (Some user) s.(client)) s.(heap) s.(trace)).
assert (E1 : setBBCUser user s = (Ret tt, s1)).
{ unfold setBBCUser. erewrite run_bind; [|by rewrite run_userShouldUpdate, He]. done. }
destruct (enable_pending s1 user He Hi eq_refl) as (s2 & cs & E2 & Ht & H).
exists s1, s2, cs. split_and!; [exact E1|done|exact E2|exact Ht|exact H].
Qed.
End properties.

(** ** Witnesses *)
Section witnesses.
#[local] Existing Instances cMediaI cUserI cLabelI cEnumI cConfigI cO.

(** A client that is disabled and has not started yet. *)
Definition dormant : EchoClient := set_hasStarted_ false (set_echoEnabled false cClient).

Lemma delegates_started_once_witness :
∃ cs, (exec_all [OpEnable; OpStart] (cState dormant ∅)).2.(trace) = cs ∧
  starts 2%positive cs = 1%nat.
Proof.
destruct (delegates_started_once [OpEnable; OpStart] (cState dormant ∅) 2%positive)
  as (cs & Ht & H); [apply (bool_decide_unpack _); reflexivity|set_solver|].
exists cs. split; [exact Ht|]. rewrite H. reflexivity.
Defined.

Lemma disable_leaves_media_active_witness :
∃ s1, disable (cWith cOnDemand (set_mediaActive true cClient)) = (Ret tt, s1) ∧
  s1.(client).(media) = None ∧ (setCacheMode "all" s1).2.(client) = s1.(client).
Proof.
destruct (disable_leaves_media_active (cWith cOnDemand (set_mediaActive true cClient)) "all")
  as (s1 & E & _ & Hm & _ & _ & Ec); [reflexivity..|].
exists s1. split; [exact E|]. split; [exact Hm|]. by rewrite Ec.
Defined.

Lemma pending_user_applied_witness :
∃ s1 s2 cs, setBBCUser alice (cState dormant ∅) = (Ret tt, s1) ∧
  enable s1 = (Ret tt, s2) ∧ s2.(trace) = cs ∧ HelperSetBBCUser alice ∈ cs.
Proof.
destruct (pending_user_applied (cState dormant ∅) alice)
  as (s1 & s2 & cs & E1 & _ & E2 & Ht & _ & H); [reflexivity..|].
by exists s1, s2, cs.
Defined.
End witnesses.
