(* ===== verification/Playback.v ===== *)
(** * Playback: what the client promises to a delegate, and that it keeps it.

    The abstract specification is a small protocol, [proto]: the messages that a
    delegate may get, depending on whether the client is enabled, has started,
    has given it a media object and is playing.  The refinement theorem says that
    every execution of the detailed client sends every delegate a sequence of
    messages that the protocol accepts, and that the state of the protocol is at
    any time the abstraction of the state of the client.  The one operation that
    does not respect it is the query of the ComScore device identifier. *)

From S2P Require Import Prelude SwiftNumbers Interfaces Client Concrete Labels Config Media AvEvents UserState Reporting Lifecycle Machine Safety Startup.

Section protocol.
Context `{O : Oracle}.
Implicit Types (s : St) (c : EchoClient).

(** ** The protocol *)

Record Session := mkSession {
a_enabled : bool; a_started : bool; a_loaded : bool; a_active : bool }.

Definition proto (a : Session) (m : DelegateMsg) : option Session :=
let allow (b : bool) (a' : Session) := if b then Some a' else None in
match m with
| d_enable => allow (negb (a_enabled a)) (mkSession true (a_started a) (a_loaded a) (a_active a))
| d_disable => allow (a_enabled a) (mkSession false (a_started a) (a_loaded a) (a_active a))
| d_start => allow (a_enabled a && negb (a_started a))
                   (mkSession (a_enabled a) true (a_loaded a) (a_active a))
| d_setMedia _ => allow (a_enabled a) (mkSession (a_enabled a) (a_started a) true (a_active a))
| d_liveMediaUpdate _ _ _ => Some (mkSession (a_enabled a) (a_started a) true (a_active a))
| d_clearMedia => Some (mkSession (a_enabled a) (a_started a) false (a_active a))
| d_setMediaLength _ => allow (a_loaded a) a
| d_avPlayEvent _ _ => allow (a_enabled a && a_loaded a)
                             (mkSession (a_enabled a) (a_started a) (a_loaded a) true)
| d_avEndEvent _ _ => allow (a_enabled a && a_loaded a)
                            (mkSession (a_enabled a) (a_started a) false false)
| d_avPauseEvent _ _ | d_avBufferEvent _ _ | d_avRewindEvent _ _ _
| d_avFastForwardEvent _ _ _ | d_avSeekEvent _ _ | d_avUserActionEvent _ _ _ _ =>
    allow (a_enabled a && a_loaded a) a
| d_viewEvent _ _ | d_userActionEvent _ _ _ | d_errorEvent _ _ | d_flushCache =>
    allow (a_enabled a) a
| d_setCacheMode _ => allow (negb (a_active a)) a
| _ => Some a
end.

(** The protocol accepts the messages [ms] from [a], and ends in the answer. *)
Fixpoint proto_run (a : Session) (ms : list DelegateMsg) : option Session :=
match ms with
| [] => Some a
| m :: ms' => match proto a m with Some a' => proto_run a' ms' | None => None end
end.

Lemma proto_run_app a ms1 ms2 a' :
proto_run a ms1 = Some a' → proto_run a (ms1 ++ ms2) = proto_run a' ms2.
Proof.
revert a. induction ms1 as [|m ms1 IH]; intros a; simpl; [by intros [= ->]|].
destruct (proto a m); [apply IH|done].
Qed.

(** The state of the protocol for a state of the client. *)
Definition session_of c : Session :=
mkSession c.(echoEnabled) c.(hasStarted_) (bool_decide (is_Some c.(media))) c.(mediaActive).

(** Between [s] and [s'] every delegate gets messages that the protocol accepts. *)
Definition refines s s' : Prop :=
s'.(client).(delegates) = s.(client).(delegates) ∧
∃ cs, s'.(trace) = s.(trace) ++ cs ∧
  (NoDup s.(client).(delegates) → ∀ d, d ∈ s.(client).(delegates) →
   proto_run (session_of s.(client)) (messages d cs) = Some (session_of s'.(client))).

#[export] Instance refines_preorder : PreOrder refines.
Proof.
split.
- intros s. split; [done|]. exists []. by rewrite app_nil_r.
- intros s1 s2 s3 [D1 (cs1 & E1 & U1)] [D2 (cs2 & E2 & U2)].
  split; [congruence|]. exists (cs1 ++ cs2). rewrite E2, E1, app_assoc. split; [done|].
  intros Hnd d Hd. rewrite D1 in U2. rewrite messages_app.
  erewrite proto_run_app by by apply U1. by apply U2.
Qed.

(** ** One step *)

(** A message that the protocol allows whenever the client is enabled, or always,
  and that does not change its state. *)
Definition harmless (enabled : bool) (m : DelegateMsg) : Prop :=
m ≠ d_getDeviceID ∧ ∀ a, a_enabled a = enabled → proto a m = Some a.

(** The operation keeps the client enabled or disabled, and the protocol accepts
  its messages, provided the client is in that state. *)
Definition refines_in (enabled : bool) s s' : Prop :=
s'.(client).(echoEnabled) = s.(client).(echoEnabled) ∧
(s.(client).(echoEnabled) = enabled → refines s s').

#[export] Instance refines_in_preorder enabled : PreOrder (refines_in enabled).
Proof.
split; [by split|]. intros s1 s2 s3 [E1 H1] [E2 H2]. split; [congruence|].
intros He. etrans; [by apply H1|]. apply H2. congruence.
Qed.

Lemma refines_intro s c' h' cs :
c'.(delegates) = s.(client).(delegates) →
(NoDup s.(client).(delegates) → ∀ d, d ∈ s.(client).(delegates) →
 proto_run (session_of s.(client)) (messages d cs) = Some (session_of c')) →
refines s (mkSt c' h' (s.(trace) ++ cs)).
Proof. intros Hd H. split; [done|]. by exists cs. Qed.

(** Calls to other objects, then one message to every delegate. *)
Lemma refines_message s c' h' pre m :
c'.(delegates) = s.(client).(delegates) → Forall not_to_delegate pre → m ≠ d_getDeviceID →
proto (session_of s.(client)) m = Some (session_of c') →
refines s (mkSt c' h' (s.(trace) ++ pre ++ broadcast s.(client).(delegates) m)).
Proof.
intros Hd Hpre Hm Hp. apply refines_intro; [done|]. intros Hnd d Hin.
rewrite messages_app, messages_broadcast by done.
replace (messages d pre) with (@nil DelegateMsg).
- simpl. by rewrite Hp.
- induction Hpre as [|c pre Hc _ IH]; [done|]. rewrite messages_cons. by destruct c.
Qed.

Lemma refines_no_message s c' h' pre :
c'.(delegates) = s.(client).(delegates) → Forall not_to_delegate pre →
session_of c' = session_of s.(client) →
refines s (mkSt c' h' (s.(trace) ++ pre)).
Proof.
intros Hd Hpre Hs. apply refines_intro; [done|]. intros Hnd d Hin.
replace (messages d pre) with (@nil DelegateMsg); [simpl; by rewrite Hs|].
induction Hpre as [|c pre Hc _ IH]; [done|]. rewrite messages_cons. by destruct c.
Qed.

#[export] Instance refines_frame enabled :
Frame (refines_in enabled) not_to_delegate (harmless enabled)
  (λ f, ∀ c, (f c).(delegates) = c.(delegates) ∧ session_of (f c) = session_of c).
Proof.
split; [apply _|..].
- intros s c Hc. split; [done|]. intros _. apply refines_no_message; [done| |done].
  by apply Forall_singleton.
- intros s m [Hm Hp]. split; [done|]. intros He.
  apply (refines_message s _ _ []); [done|done|done|]. by apply Hp.
- intros s f Hf. destruct (Hf s.(client)) as [Hd Hs].
  assert (He : (f s.(client)).(echoEnabled) = s.(client).(echoEnabled))
    by (by injection Hs).
  split; [done|]. intros _. rewrite <- (app_nil_r (trace s)).
  by apply refines_no_message.
Qed.

#[export] Instance refines_store : StoreFrame refines.
Proof. intros s h. rewrite <- (app_nil_r (trace s)). by apply refines_no_message. Qed.

#[export] Instance refines_in_store enabled : StoreFrame (refines_in enabled).
Proof. intros s h. split; [done|]. intros _. apply frame_heap. Qed.

#[export] Instance refines_frame_always :
Frame refines not_to_delegate (λ m, harmless true m ∧ harmless false m)
  (λ f, ∀ c, (f c).(delegates) = c.(delegates) ∧ session_of (f c) = session_of c).
Proof.
split; [apply _|..].
- intros s c Hc. by apply (proj2 (frame_call (Frame := refines_frame (echoEnabled (client s))) s c Hc)).
- intros s m [H1 H2]. destruct (echoEnabled (client s)) eqn:He;
    [apply (proj2 (frame_broadcast (Frame := refines_frame true) s m H1)) |
     apply (proj2 (frame_broadcast (Frame := refines_frame false) s m H2))]; exact He.
- intros s f Hf. by apply (proj2 (frame_client (Frame := refines_frame (echoEnabled (client s))) s f Hf)).
Qed.

Lemma keeps_refines enabled {A} (x : M St A) s :
keeps (refines_in enabled) x → s.(client).(echoEnabled) = enabled → refines s (x s).2.
Proof. intros Hk He. by apply Hk. Qed.
End protocol.

Ltac harmless_side :=
  first [ exact I
        | split; [discriminate|intros [] ?; simpl in *; subst; reflexivity]
        | intros ?; by split ].

Ltac refine_frame := repeat keeps_step; try apply _; harmless_side.

Section refinement.
Context `{O : Oracle}.
Implicit Types (s : St) (r : MediaRef) (m : Media).

Lemma session_of_nav m c : session_of (nav_client m c) = session_of c.
Proof. unfold nav_client. by destruct (enriched_live m). Qed.

(** A handler that reports a navigation. *)
Lemma refines_nav (x : M St unit) s r m fn p upd after msg :
x s = nav_outcome s r m fn p upd after msg →
(∀ c, (after c).(delegates) = c.(delegates)) →
(∀ q, msg q ≠ d_getDeviceID) →
(∀ q c, session_of c = session_of s.(client) →
   proto (session_of s.(client)) (msg q) = Some (session_of (after c))) →
refines s (x s).2.
Proof.
intros -> Hd Hm Hp. unfold nav_outcome. simpl. rewrite <- app_assoc, (app_assoc [called fn p]).
apply refines_message.
- by rewrite Hd, nav_client_delegates.
- apply Forall_app. split; [by repeat constructor|]. unfold nav_calls.
  destruct (broker (client s)); [|done]. destruct (media_isLive m); by repeat constructor.
- apply Hm.
- apply Hp, session_of_nav.
Qed.

Lemma session_of_media s r m :
s.(client).(echoEnabled) = true → has_media s r m →
session_of s.(client) = mkSession true s.(client).(hasStarted_) true s.(client).(mediaActive).
Proof. intros He [Hm _]. unfold session_of. by rewrite He, Hm. Qed.

Lemma refines_play s r m p labels :
s.(client).(echoEnabled) = true → has_media s r m → refines s (avPlayEvent p labels s).2.
Proof.
intros He Hm. rewrite (run_avPlayEvent s r m p labels He Hm). unfold play_outcome.
assert (Hpre : ∀ q, Forall not_to_delegate
  ([called "avPlayEvent(at:eventLabels:)" p] ++ play_calls (broker (client s)) m q)).
{ intros q. apply Forall_app. split; [by repeat constructor|]. unfold play_calls.
  destruct (broker (client s)); [|done]. destruct (media_isLive m); by repeat constructor. }
destruct (play_position _ _ _ _) as [q|]; [destruct (enriched_live m && _)|]; simpl.
- rewrite <- app_assoc. by apply refines_no_message.
- rewrite <- app_assoc, (app_assoc [_]). apply refines_message; [done|done|done|].
  rewrite (session_of_media s r m) by done. unfold session_of. simpl.
  by rewrite He, (proj1 Hm).
- apply refines_no_message; [done|by repeat constructor|done].
Qed.

Lemma refines_action s r m ty name p labels :
s.(client).(echoEnabled) = true → has_media s r m →
refines s (avUserActionEvent ty name p labels s).2.
Proof.
intros He Hm. rewrite (run_avUserActionEvent s r m) by done. simpl.
rewrite (app_comm_cons (action_calls _ _)), <- app_comm_cons.
apply (refines_message s _ _ (action_called ty name p :: action_calls _ m));
  [done| |done|].
- constructor; [exact I|]. unfold action_calls.
  destruct (broker (client s)); [|done]. destruct (media_isLive m); by repeat constructor.
- by rewrite (session_of_media s r m).
Qed.

(** Without a media object the handlers only write to the log. *)
Lemma refines_logs s cs : Forall not_to_delegate cs → refines s (push cs s).
Proof. intros H. by apply refines_no_message. Qed.

Ltac no_media :=
match goal with
| He : echoEnabled (client ?s) = true, Hm : media (client ?s) = None |- refines ?s (?x ?s).2 =>
    let h := head_of x in unfold h; try unfold avUserActionEvent; run_step;
    rewrite He; run_step; rewrite Hm; unfold log, emit; rewrite push_push; simpl;
    apply refines_logs; repeat constructor
end.

(** The messages of a run of calls that the protocol ignores. *)
Definition ignored cs : Prop :=
Forall (λ c, match c with
             | ToDelegate _ m => m ≠ d_getDeviceID ∧ ∀ a, proto a m = Some a
             | _ => True
             end) cs.

Lemma ignored_run d cs a : ignored cs → proto_run a (messages d cs) = Some a.
Proof.
induction 1 as [|c cs Hc _ IH]; [done|]. rewrite messages_cons.
destruct c as [d' m| | | | | | | | | | | | | | | | | | | | | | | |]; simpl; try exact IH.
destruct (decide (d' = d)); [|exact IH]. destruct Hc as [Hm Hp].
assert (E : match m with d_getDeviceID => None | _ => Some m end = Some m) by by destruct m.
rewrite E. simpl. by rewrite Hp.
Qed.

Lemma ignored_broadcast ds msg :
msg ≠ d_getDeviceID → (∀ a, proto a msg = Some a) → ignored (broadcast ds msg).
Proof. intros. unfold ignored, broadcast. by apply Forall_fmap, Forall_true. Qed.

Lemma ignored_app cs1 cs2 : ignored cs1 → ignored cs2 → ignored (cs1 ++ cs2).
Proof. intros. by apply Forall_app. Qed.

Lemma ignored_removeLabels ds k : ignored (removeLabels_calls ds [k]).
Proof.
unfold removeLabels_calls. destruct (sanitiseKeys [k]); [by constructor|].
by apply ignored_broadcast.
Qed.

(** What a delegate sees of [clearMedia]. *)
Lemma clearMedia_run c d a :
NoDup c.(delegates) → d ∈ c.(delegates) →
proto_run a (messages d (clearMedia_calls c)) =
  Some (mkSession (a_enabled a) (a_started a) false (a_active a)).
Proof.
intros Hnd Hd. unfold clearMedia_calls.
rewrite (messages_app d), (messages_app d (match broker c with Some _ => _ | None => _ end)).
rewrite (messages_broadcast _ _ d_clearMedia) by done.
erewrite proto_run_app; [|apply ignored_run].
- destruct (broker c); reflexivity.
- simpl. repeat apply ignored_app; try apply ignored_removeLabels. constructor.
Qed.

Lemma refines_setMedia s r m :
s.(client).(echoEnabled) = true → s.(heap) !! r = Some m → refines s (setMedia r s).2.
Proof.
intros He Hr. rewrite (run_setMedia s r m) by done. unfold setMedia_state. simpl.
rewrite <- !app_assoc. apply refines_intro.
- by rewrite init_broker_delegates.
- intros Hnd d Hd. rewrite messages_app. erewrite proto_run_app; [|by apply clearMedia_run].
  rewrite messages_app. erewrite proto_run_app.
  2:{ apply ignored_run. by apply ignored_broadcast. }
  rewrite messages_app. erewrite proto_run_app.
  2:{ apply ignored_run. unfold init_broker. simpl.
      destruct (playerDelegate (client s)); [|by constructor]. constructor.
      - unfold make_broker_call. simpl.
        destruct (essUrl (client s)), (media_isLive (media_getClone m)); exact I.
      - by apply ignored_broadcast. }
  rewrite messages_broadcast by done. simpl. rewrite He. unfold session_of. simpl.
  unfold init_broker. simpl. destruct (playerDelegate (client s)); simpl; by rewrite He.
Qed.

Lemma refines_liveMediaUpdate s r n o : refines s (liveMediaUpdate r n o s).2.
Proof.
unfold liveMediaUpdate. run_step. rewrite run_toDelegates. unfold push. simpl.
by apply (refines_message s _ _ []).
Qed.

Lemma refines_setMediaLength s l : well_formed s → refines s (setMediaLength l s).2.
Proof.
intros Hwf. unfold setMediaLength. run_step. destruct (media (client s)) as [r|] eqn:Hr.
2:{ apply refines_logs. by repeat constructor. }
destruct (Hwf r Hr) as [m Hm]. rewrite (run_deref r m) by done.
destruct (media_consumptionMode_is_live m); simpl.
{ apply refines_logs. by repeat constructor. }
destruct (0 <? l).
- rewrite run_toDelegates, (run_update_self _ r m) by done. unfold push. simpl.
  apply (refines_message s _ _ []); [done..|]. unfold session_of. by rewrite Hr.
- run_step. rewrite (run_update_self _ r m) by done. simpl.
  rewrite <- (app_nil_r (trace s)). by apply refines_no_message.
Qed.

Lemma refines_setCacheMode s mode : refines s (setCacheMode mode s).2.
Proof.
unfold setCacheMode. run_step. destruct (mediaActive (client s)) eqn:Ha; simpl.
- apply refines_logs. by repeat constructor.
- run_step. rewrite run_toDelegates. unfold push. simpl.
  apply (refines_message s _ _ []); [done..|]. unfold session_of. simpl. by rewrite Ha.
Qed.

Lemma refines_setBBCUser s user : refines s (setBBCUser user s).2.
Proof.
destruct (echoEnabled (client s)) eqn:He.
- eapply (keeps_refines true); [refine_frame|exact He].
- unfold setBBCUser. erewrite run_bind; [|by rewrite run_userShouldUpdate, He]. simpl.
  rewrite <- (app_nil_r (trace s)). by apply refines_no_message.
Qed.

Lemma refines_start s : refines s (start s).2.
Proof.
rewrite run_start. destruct (echoEnabled (client s)) eqn:He; simpl; [|reflexivity].
destruct (hasStarted_ (client s)) eqn:Hs; simpl; [reflexivity|].
assert (H : refines s (started s)).
{ apply (refines_message s _ _ []); [done..|]. unfold session_of. simpl. by rewrite He, Hs. }
destruct (bbcUserSetWhileDisabled (client s)); [|exact H].
etrans; [exact H|]. apply refines_setBBCUser.
Qed.

Lemma refines_disable s : refines s (disable s).2.
Proof.
unfold disable. run_step. destruct (echoEnabled (client s)) eqn:He; simpl; [|reflexivity].
run. unfold push. simpl. rewrite <- app_assoc. apply refines_intro; [done|].
intros Hnd d Hd. rewrite messages_app. erewrite proto_run_app; [|by apply clearMedia_run].
rewrite messages_broadcast by done. unfold session_of. simpl. by rewrite He.
Qed.

Lemma refines_enable s : refines s (enable s).2.
Proof.
destruct (echoEnabled (client s)) eqn:He.
{ unfold enable. run_step. by rewrite He. }
set (s1 := mkSt (set_echoEnabled true s.(client)) s.(heap)
  (s.(trace) ++ broadcast s.(client).(delegates) d_enable)).
assert (H : refines s s1).
{ apply (refines_message s _ _ []); [done..|]. unfold session_of. simpl. by rewrite He. }
assert (E1 : gets echoEnabled s = (Ret false, s)) by (unfold gets; by rewrite He).
unfold enable. rewrite (run_bind _ _ _ _ _ E1). cbn match.
erewrite (run_bind (modify (set_echoEnabled true))) by done.
erewrite (run_bind (toDelegates d_enable)) by apply run_toDelegates.
etrans; [exact H|].
match goal with |- refines _ (?x _).2 => cut (keeps refines x); [intros Hk; apply Hk|] end.
repeat lazymatch goal with
  | |- keeps _ (setBBCUser _) => intros ?; apply refines_setBBCUser
  | |- keeps _ start => intros ?; apply refines_start
  | |- _ => keeps_step
  end; try apply _; harmless_side.
Qed.

(** An audio or video handler: it returns at once while disabled, logs without a
  media object, and otherwise reports what [run] says. *)
Ltac av_handler run :=
intros Hwf;
match goal with
| |- refines ?s (?x ?s).2 =>
    destruct (echoEnabled (client s)) eqn:He;
      [|let h := head_of x in unfold h; run_step; rewrite He; simpl; reflexivity];
    destruct (media (client s)) as [r|] eqn:Hr; [|no_media];
    destruct (Hwf r Hr) as [m Hm];
    eapply refines_nav; [by apply (run s r m)|done|discriminate|];
    intros q c Hc; rewrite (session_of_media s r m) in * by done;
    unfold session_of in *; simpl in *; congruence
end.

Lemma refines_avPauseEvent s p l : well_formed s → refines s (avPauseEvent p l s).2.
Proof. av_handler run_avPauseEvent. Qed.
Lemma refines_avBufferEvent s p l : well_formed s → refines s (avBufferEvent p l s).2.
Proof. av_handler run_avBufferEvent. Qed.
Lemma refines_avEndEvent s p l : well_formed s → refines s (avEndEvent p l s).2.
Proof. av_handler run_avEndEvent. Qed.
Lemma refines_avRewindEvent s p x l : well_formed s → refines s (avRewindEvent p x l s).2.
Proof. av_handler run_avRewindEvent. Qed.
Lemma refines_avFastForwardEvent s p x l :
well_formed s → refines s (avFastForwardEvent p x l s).2.
Proof. av_handler run_avFastForwardEvent. Qed.
Lemma refines_avSeekEvent s p l : well_formed s → refines s (avSeekEvent p l s).2.
Proof. av_handler run_avSeekEvent. Qed.

Lemma refines_avPlayEvent s p l : well_formed s → refines s (avPlayEvent p l s).2.
Proof.
intros Hwf. destruct (echoEnabled (client s)) eqn:He;
  [|unfold avPlayEvent; run_step; rewrite He; simpl; reflexivity].
destruct (media (client s)) as [r|] eqn:Hr; [|no_media].
destruct (Hwf r Hr) as [m Hm]. by apply (refines_play s r m).
Qed.

Lemma refines_avUserActionEvent s ty name p l :
well_formed s → refines s (avUserActionEvent ty name p l s).2.
Proof.
intros Hwf. destruct (echoEnabled (client s)) eqn:He;
  [|unfold avUserActionEvent; run_step; rewrite He; simpl; reflexivity].
destruct (media (client s)) as [r|] eqn:Hr; [|no_media].
destruct (Hwf r Hr) as [m Hm]. by apply (refines_action s r m).
Qed.

Lemma refines_releaseSuppressedPlay s : well_formed s → refines s (releaseSuppressedPlay s).2.
Proof.
intros Hwf. unfold releaseSuppressedPlay. run_step.
destruct (echoEnabled (client s)); simpl; [|reflexivity]. run_step.
destruct (broker (client s)) as [b|]; [|reflexivity].
destruct (suppressingPlayEvent (client s)); simpl; [|reflexivity].
unfold push. simpl. etrans; [|by apply refines_avPlayEvent].
by apply refines_no_message; [|repeat constructor|].
Qed.

(** An operation that changes nothing the protocol knows of, with messages that
  an enabled client may send at any time, and that does nothing when disabled. *)
Ltac when_enabled :=
match goal with
| |- refines ?s (?x ?s).2 =>
    destruct (echoEnabled (client s)) eqn:He;
      [ eapply (keeps_refines true); [refine_frame|exact He]
      | let h := head_of x in unfold h; run_step; rewrite He; simpl; reflexivity ]
end.

(** An operation whose messages may be sent at any time. *)
Ltac always :=
match goal with
| |- refines ?s (?x ?s).2 =>
    cut (keeps refines x); [intros Hk; apply Hk|];
    repeat keeps_step; try apply _;
    first [ exact I
          | split; (split; [discriminate|reflexivity])
          | intros ?; by split ]
end.

(** Every operation other than the query of the ComScore device identifier. *)
Lemma exec_refines op s :
well_formed s → op_ok op s → op ≠ OpGetComScoreDeviceID → refines s (exec op s).2.
Proof.
intros Hwf Hok Hop. destruct op; try done; unfold exec;
  lazymatch goal with
  | |- refines _ (setMedia ?r _).2 =>
      destruct (echoEnabled (client s)) eqn:He;
        [destruct Hok as [? ?]; by eapply refines_setMedia
        |unfold setMedia; run_step; rewrite He; simpl; reflexivity]
  | |- refines _ (setMediaLength _ _).2 => by apply refines_setMediaLength
  | |- refines _ (avPlayEvent _ _ _).2 => by apply refines_avPlayEvent
  | |- refines _ (avPauseEvent _ _ _).2 => by apply refines_avPauseEvent
  | |- refines _ (avBufferEvent _ _ _).2 => by apply refines_avBufferEvent
  | |- refines _ (avEndEvent _ _ _).2 => by apply refines_avEndEvent
  | |- refines _ (avRewindEvent _ _ _ _).2 => by apply refines_avRewindEvent
  | |- refines _ (avFastForwardEvent _ _ _ _).2 => by apply refines_avFastForwardEvent
  | |- refines _ (avSeekEvent _ _ _).2 => by apply refines_avSeekEvent
  | |- refines _ (avUserActionEvent _ _ _ _ _).2 => by apply refines_avUserActionEvent
  | |- refines _ (sendHeartbeat _ _ _).2 => by apply refines_avUserActionEvent
  | |- refines _ (liveMediaUpdate _ _ _ _).2 => apply refines_liveMediaUpdate
  | |- refines _ (releaseSuppressedPlay _).2 => by apply refines_releaseSuppressedPlay
  | |- refines _ (setBBCUser _ _).2 => apply refines_setBBCUser
  | |- refines _ (setCacheMode _ _).2 => apply refines_setCacheMode
  | |- refines _ (start _).2 => apply refines_start
  | |- refines _ (enable _).2 => apply refines_enable
  | |- refines _ (disable _).2 => apply refines_disable
  | |- refines _ (viewEvent _ _ _).2 => when_enabled
  | |- refines _ (userActionEvent _ _ _ _).2 => when_enabled
  | |- refines _ (errorEvent _ _ _).2 => when_enabled
  | |- refines _ (flushCache _).2 => when_enabled
  | |- _ => always
  end.
Qed.
End refinement.

Section properties.
Context `{O : Oracle}.
Implicit Types (s : St) (r : MediaRef) (m : Media).

(** Executions without the query of the ComScore device identifier. *)
Inductive playback_steps : St → St → Prop :=
| playback_refl s : playback_steps s s
| playback_step op s1 s2 s3 :
  op_ok op s1 → op ≠ OpGetComScoreDeviceID → exec op s1 = (Ret tt, s2) →
  playback_steps s2 s3 → playback_steps s1 s3.

(** C2. The refinement. In every execution, of any operations in any order other than
    the query of the ComScore device identifier, every delegate gets a sequence of
    messages that the protocol accepts: it is enabled, disabled and started in turn,
    it gets events only while the client is enabled, playback events only between a
    media and its end or clearing, and no change of the cache mode while playing. The
    protocol ends in the abstraction of the state of the client. *)
Theorem client_refines_protocol s s' :
well_formed s → playback_steps s s' → NoDup s.(client).(delegates) →
∃ cs, s'.(trace) = s.(trace) ++ cs ∧
  ∀ d, d ∈ s.(client).(delegates) →
    proto_run (session_of s.(client)) (messages d cs) = Some (session_of s'.(client)).
Proof.
intros Hwf Hsteps Hnd. enough (refines s s') as (_ & cs & Ht & H) by eauto.
clear Hnd. induction Hsteps as [s|op s1 s2 s3 Hok Hop E _ IH]; [reflexivity|].
assert (Hs2 : s2 = (exec op s1).2) by by rewrite E.
etrans; [|apply IH].
- rewrite Hs2. by apply exec_refines.
- apply (steps_well_formed s1 s2); [|done].
  eapply steps_step; [|apply steps_refl]. by apply (step_exec op).
Qed.

(** C37. The query of the ComScore device identifier breaks the protocol: it takes the
    media away from every delegate while the client keeps its own, so that the next
    pause reaches delegates that have no media. *)
Theorem comscore_query_breaks_protocol s r m p labels d :
s.(client).(echoEnabled) = true → has_media s r m →
NoDup s.(client).(delegates) → d ∈ s.(client).(delegates) →
∃ id s1 s2 cs, getComScoreDeviceID s = (Ret id, s1) ∧ has_media s1 r m ∧
  avPauseEvent p labels s1 = (Ret tt, s2) ∧ s2.(trace) = s.(trace) ++ cs ∧
  proto_run (session_of s.(client)) (messages d cs) = None.
Proof.
intros He Hm Hnd Hd. unfold getComScoreDeviceID. run_step.
destruct (run_comscore_loop s.(client).(delegates) None s) as (id & cs & -> & Hcs).
pose proof (run_avPauseEvent (push cs s) r m p labels He Hm) as E.
unfold nav_outcome in E. simpl in E.
eexists id, (push cs s), _, _. split; [done|]. split; [exact Hm|]. split; [exact E|].
split; [simpl; rewrite <- !app_assoc; reflexivity|].
rewrite messages_app, Hcs, messages_broadcast by done.
rewrite !messages_app, (messages_broadcast _ _ (d_avPauseEvent _ _)) by done.
simpl. unfold nav_calls. destruct (broker (client s)); [destruct (media_isLive m)|]; simpl;
  by rewrite He.
Qed.
End properties.

(** ** Witnesses *)
Section witnesses.
#[local] Existing Instances cMediaI cUserI cLabelI cEnumI cConfigI cO.

Lemma client_refines_protocol_witness :
∃ cs, (exec (OpAvPlay 4000 None) on_demand).2.(trace) = cs ∧
  proto_run (mkSession true true true false) (messages 2%positive cs) =
    Some (mkSession true true true true).
Proof.
assert (Hwf : well_formed on_demand) by (intros r [= <-]; by exists cOnDemand).
destruct (client_refines_protocol on_demand (exec (OpAvPlay 4000 None) on_demand).2 Hwf)
  as (cs & Ht & H).
- eapply (playback_step (OpAvPlay 4000 None)); [exact I|discriminate| |apply playback_refl].
  reflexivity.
- apply (bool_decide_unpack _). reflexivity.
- exists cs. split; [exact Ht|]. apply (H 2%positive). set_solver.
Defined.

Lemma comscore_query_breaks_protocol_witness :
∃ id s1 s2 cs, getComScoreDeviceID on_demand = (Ret id, s1) ∧
  avPauseEvent 4000 None s1 = (Ret tt, s2) ∧ s2.(trace) = cs ∧
  proto_run (mkSession true true true false) (messages 2%positive cs) = None.
Proof.
destruct (comscore_query_breaks_protocol on_demand 3%positive cOnDemand 4000 None 2%positive)
  as (id & s1 & s2 & cs & E1 & _ & E2 & Ht & H);
  [reflexivity|by split|apply (bool_decide_unpack _); reflexivity|set_solver|].
by exists id, s1, s2, cs.
Defined.
End witnesses.
