(* ===== verification/Messages.v ===== *)
(** * Messages: what can reach a delegate.

    An invariant of some of the data that the client passes on.  Whatever the
    arguments of the operations, the labels of events and the labels to add, the
    counter names, the values of managed labels and the player's name and version
    went through the label cleanser; labels to remove are cleaned keys that are not
    empty, a volume is between 0 and 100 and a media length is positive; the labels
    of the client's own user events are the only ones it makes itself.  Other
    arguments are passed on as they are given, such as the types and names of actions, the texts of
    errors, positions, rates, the content language and the trace identifier. *)

From S2P Require Import Prelude SwiftNumbers Interfaces Client Concrete Labels Config Media AvEvents UserState Reporting Lifecycle Machine.
From Stdlib Require Import SpecFloat.

Section messages.
Context `{O : Oracle}.
Implicit Types (s : St) (labels : Labels).

(** ** Clean data *)

(** Every entry comes out of the cleanser. *)
Definition clean_labels labels : Prop :=
∀ k v, labels !! k = Some v → ∃ k0 v0, k = cleanLabelKey k0 ∧ v = cleanLabelValue k v0.

Definition clean_event_labels (labels : option Labels) : Prop :=
match labels with Some l => clean_labels l | None => True end.

(** The labels that the client makes for its own user events. *)
Definition own_labels labels : Prop :=
labels = {[ key_IsBackground := "true" ]} ∨
labels = <[ key_IsBackground := "true" ]> {[ "device_id_reset" := "1" ]}.

Definition clean_user_labels (labels : option Labels) : Prop :=
clean_event_labels labels ∨ ∃ l, labels = Some l ∧ own_labels l.

(** What holds of a message that a delegate gets. *)
Definition clean_message (m : DelegateMsg) : Prop :=
match m with
| d_avPlayEvent _ l | d_avPauseEvent _ l | d_avBufferEvent _ l | d_avEndEvent _ l
| d_avRewindEvent _ _ l | d_avFastForwardEvent _ _ l | d_avSeekEvent _ l
| d_avUserActionEvent _ _ _ l | d_errorEvent _ l => clean_event_labels l
| d_viewEvent name l => (∃ n, name = cleanCountername n) ∧ clean_event_labels l
| d_userActionEvent _ _ l => clean_user_labels l
| d_addLabels l => clean_labels l
| d_addManagedLabel label v =>
    ∃ v0, v0 ≠ EmptyString ∧ v = cleanLabelValue (ManagedLabel_name label) v0
| d_removeLabels ks =>
    ks ≠ [] ∧ Forall (λ k, k ≠ EmptyString ∧ ∃ k0, k = cleanLabelKey k0) ks
| d_setCounterName name => ∃ n, name = cleanCountername n
| d_setPlayerName name =>
    ∃ n, trim n ≠ EmptyString ∧ name = cleanLabelValue key_PlayerName n
| d_setPlayerVersion v =>
    ∃ n, trim n ≠ EmptyString ∧ v = cleanLabelValue key_PlayerVersion n
| d_setPlayerVolume v => 0 ≤ v ≤ 100
| d_setMediaLength l => 0 < l
| _ => True
end.

Definition clean_call (c : Call) : Prop :=
match c with ToDelegate _ m => clean_message m | _ => True end.

(** ** Sanitising cleans *)

Lemma clean_sanitiseLabels labels : clean_labels (sanitiseLabels labels).
Proof.
intros k v H. apply sanitise_entries_sound in H as (k0 & v0 & _ & <- & ->). eauto.
Qed.

Lemma clean_sanitiseEventLabels l : clean_event_labels (sanitiseEventLabels l).
Proof. destruct l; [apply clean_sanitiseLabels|exact I]. Qed.

Lemma clean_sanitiseKeys ks :
Forall (λ k, k ≠ EmptyString ∧ ∃ k0, k = cleanLabelKey k0) (sanitiseKeys ks).
Proof.
rewrite sanitiseKeys_spec. apply Forall_forall. intros k Hk.
apply list_elem_of_filter in Hk as [Hne Hk]. apply list_elem_of_fmap in Hk as (k0 & -> & _).
split; [done|eauto].
Qed.

Lemma own_sent_labels reason postponed result :
result_isPostponedUserStateChange result = postponed →
own_labels (sent_labels result (update_labels reason postponed)).
Proof.
unfold sent_labels, update_labels, own_labels. intros ->.
destruct postponed; [by right|]. destruct reason as [r|]; [|by left].
destruct (bool_decide (r ≠ _)); simpl; auto.
Qed.

(** ** The frame *)

(** The calls made between two states satisfy a predicate. *)
Definition calls_are (P : Call → Prop) s s' : Prop :=
s'.(client).(delegates) = s.(client).(delegates) ∧
∃ cs, s'.(trace) = s.(trace) ++ cs ∧ Forall P cs.

#[export] Instance calls_are_preorder P : PreOrder (calls_are P).
Proof.
split.
- intros s. split; [done|]. exists []. by rewrite app_nil_r.
- intros s1 s2 s3 [D1 (cs1 & E1 & F1)] [D2 (cs2 & E2 & F2)].
  split; [congruence|]. exists (cs1 ++ cs2). rewrite E2, E1, app_assoc.
  split; [done|by apply Forall_app].
Qed.

Lemma calls_are_push P s cs : Forall P cs → calls_are P s (push cs s).
Proof. intros H. split; [done|]. by exists cs. Qed.

#[export] Instance clean_frame :
Frame (calls_are clean_call) clean_call clean_message
  (λ f, ∀ c, (f c).(delegates) = c.(delegates)).
Proof.
split; [apply _|..].
- intros s c Hc. apply calls_are_push. by apply Forall_singleton.
- intros s m Hm. apply calls_are_push. unfold broadcast. by apply Forall_fmap, Forall_true.
- intros s f Hf. split; [apply Hf|]. exists []. simpl. by rewrite app_nil_r.
Qed.

#[export] Instance calls_are_store P : StoreFrame (calls_are P).
Proof. intros s h. split; [done|]. exists []. simpl. by rewrite app_nil_r. Qed.

Lemma keeps_clean_userEvent ty name reason result :
keeps (calls_are clean_call)
  (sendUserUpdateEvent ty name
     (update_labels reason (result_isPostponedUserStateChange result)) result).
Proof.
intros s.
destruct (run_sendUserUpdateEvent ty name
  (update_labels reason (result_isPostponedUserStateChange result)) result s) as [l' ->].
apply calls_are_push. unfold sendUserUpdateEvent_calls. apply Forall_app. split.
- unfold broadcast. apply Forall_fmap, Forall_true. intros d. right.
  eexists. split; [reflexivity|]. by apply own_sent_labels.
- destruct (result_isPostponedUserStateChange result); by repeat constructor.
Qed.

Lemma keeps_clean_removeLabels ks : keeps (calls_are clean_call) (removeLabels ks).
Proof.
unfold removeLabels. pose proof (clean_sanitiseKeys ks) as H.
destruct (sanitiseKeys ks); [apply keeps_ret, _|]. by apply keeps_toDelegates.
Qed.
End messages.

#[export] Hint Resolve clean_sanitiseLabels clean_sanitiseEventLabels : core.

(** The conditions of the frame: the guards of the operations are in the context. *)
Ltac clean_side :=
  repeat match goal with
  | H : negb _ = true |- _ => apply negb_true_iff in H
  | H : (_ && _) = true |- _ => apply andb_true_iff in H as [? ?]
  | H : string_isEmpty ?x = false |- _ =>
      assert (x ≠ EmptyString) by (rewrite <- string_isEmpty_spec; congruence); clear H
  end;
  first [ exact I | by intros ? | by eauto | simpl; lia
        | by split; eauto | by left; simpl; eauto | simpl; eauto ].

Section clean.
Context `{O : Oracle}.

Lemma exec_clean op s : calls_are clean_call s (exec op s).2.
Proof.
revert s. change (keeps (calls_are clean_call) (exec op)).
destruct op; unfold exec;
  repeat lazymatch goal with
    | |- keeps _ (sendUserUpdateEvent _ _ _ _) => apply keeps_clean_userEvent
    | |- keeps _ (removeLabels _) => apply keeps_clean_removeLabels
    | |- keeps _ (if ?x then _ else _) => destruct x eqn:?
    | |- _ => keeps_step
    end; try apply _; clean_side.
Qed.
End clean.

Section properties.
Context `{O : Oracle}.
Implicit Types (s : St).

(** C6. Labels, counter names, managed values and the player's name and version only
    reach a delegate from the label cleanser. In any sequence of operations with any
    arguments: every label of an event, and every label to add, comes out of the
    cleanser, but for the two labels of the client's own user events; so do counter
    names, the values of managed labels, which are never made from empty ones, and the
    player's name and version, which are never made from blank ones; labels to remove
    are there, and are cleaned keys that are not empty; a volume is between 0 and 100;
    and a media length is positive. Nothing is said of the arguments that the client
    passes on as given, such as types and names of actions, texts of errors,
    positions, rates, the content language and the trace identifier. *)
Theorem delegates_get_clean_messages ops s :
∃ cs, (exec_all ops s).2.(trace) = s.(trace) ++ cs ∧
  ∀ d m, ToDelegate d m ∈ cs → clean_message m.
Proof.
destruct (exec_all_keeps (calls_are clean_call) ops s) as (_ & cs & Ht & Hcs).
- intros op s' _ _. apply exec_clean.
- exists cs. split; [done|]. intros d m Hin. rewrite Forall_forall in Hcs.
  exact (Hcs _ Hin).
Qed.
End properties.
