(* ===== verification/Brokers.v ===== *)
(** * Brokers: at most one broker runs, and only for the current media.

    A broker keeps the position of the media it was made for; the client starts it
    with a play and stops it with every other navigation.  The invariant of this
    file is that a broker that is running is the client's current one, that the
    client has a media object, and that it is enabled: no broker is left running
    after an end, a clearing, a new media or a disabling. *)

From S2P Require Import Prelude SwiftNumbers Interfaces Client Concrete Labels Config Media AvEvents UserState Reporting Lifecycle Machine Safety.
From Stdlib Require Import SpecFloat.

Section brokers.
Context `{O : Oracle}.
Implicit Types (s : St) (c : EchoClient) (r : MediaRef) (m : Media) (X : gset BrokerRef).

(** The brokers that have been started and not stopped since. *)
Definition running_step X (call : Call) : gset BrokerRef :=
match call with
| BrokerStart b => {[ b ]} ∪ X
| BrokerStop b => X ∖ {[ b ]}
| _ => X
end.

Definition running_brokers (tr : list Call) : gset BrokerRef := foldl running_step ∅ tr.

Lemma running_app tr cs : running_brokers (tr ++ cs) = foldl running_step (running_brokers tr) cs.
Proof. apply foldl_app. Qed.

(** A running broker is the current one, of a client that has a media and is enabled. *)
Definition may_run c (b : BrokerRef) : Prop :=
c.(broker) = Some b ∧ is_Some c.(media) ∧ c.(echoEnabled) = true.

Definition broker_inv s : Prop := ∀ b, b ∈ running_brokers s.(trace) → may_run s.(client) b.

Definition broker_kept s s' : Prop := broker_inv s → broker_inv s'.

#[export] Instance broker_kept_preorder : PreOrder broker_kept.
Proof. split; unfold broker_kept; [by intros ? ?|]. intros s1 s2 s3; auto. Qed.

(** ** Calls that start no broker *)

Definition starts_no_broker (call : Call) : Prop :=
match call with BrokerStart _ => False | _ => True end.

Lemma running_shrinks X cs : Forall starts_no_broker cs → foldl running_step X cs ⊆ X.
Proof.
intros H. revert X. induction H as [|call cs Hc _ IH]; intros X; [done|].
simpl. etrans; [apply IH|]. destruct call; try done; simpl.
clear. set_solver.
Qed.

Lemma broadcast_starts_no_broker ds msg : Forall starts_no_broker (broadcast ds msg).
Proof. unfold broadcast. by apply Forall_fmap, Forall_true. Qed.

Lemma removeLabels_starts_no_broker ds ks : Forall starts_no_broker (removeLabels_calls ds ks).
Proof.
unfold removeLabels_calls. destruct (sanitiseKeys ks); [done|].
apply broadcast_starts_no_broker.
Qed.

Lemma kept_without_start s c' h' cs :
Forall starts_no_broker cs → (∀ b, may_run s.(client) b → may_run c' b) →
broker_kept s (mkSt c' h' (s.(trace) ++ cs)).
Proof.
intros Hcs Hc Hinv b Hb. simpl in *. rewrite running_app in Hb.
apply Hc, Hinv. by apply (running_shrinks _ cs).
Qed.

#[export] Instance broker_frame :
Frame broker_kept starts_no_broker (λ _, True) (λ f, ∀ c b, may_run c b → may_run (f c) b).
Proof.
split; [apply _|..].
- intros s c Hc. apply kept_without_start; [by apply Forall_singleton|done].
- intros s msg _. apply kept_without_start; [apply broadcast_starts_no_broker|done].
- intros s f Hf. rewrite <- (app_nil_r (trace s)). apply kept_without_start; [done|]. apply Hf.
Qed.

#[export] Instance broker_store : StoreFrame broker_kept.
Proof. intros s h. rewrite <- (app_nil_r (trace s)). by apply kept_without_start. Qed.

(** ** Stopping *)

(** When the current broker is stopped, none is left. *)
Lemma stopping_current s cs :
broker_inv s → Forall starts_no_broker cs →
(∀ b, s.(client).(broker) = Some b → BrokerStop b ∈ cs) →
running_brokers (s.(trace) ++ cs) = ∅.
Proof.
intros Hinv Hcs Hstop. rewrite running_app. apply set_eq. intros b.
split; [|by intros ?%not_elem_of_empty].
intros Hb. exfalso. pose proof (running_shrinks _ _ Hcs b Hb) as Hr.
destruct (Hinv b Hr) as [Hcur _]. specialize (Hstop b Hcur).
apply list_elem_of_split in Hstop as (cs1 & cs2 & ->).
apply Forall_app in Hcs as [_ Hcs]. apply Forall_cons in Hcs as [_ Hcs].
rewrite foldl_app in Hb. simpl in Hb.
apply (running_shrinks _ _ Hcs) in Hb. clear -Hb. set_solver.
Qed.

Lemma kept_stopped s c' h' cs :
Forall starts_no_broker cs → (∀ b, s.(client).(broker) = Some b → BrokerStop b ∈ cs) →
broker_kept s (mkSt c' h' (s.(trace) ++ cs)).
Proof.
intros Hcs Hstop Hinv b Hb. simpl in Hb. rewrite (stopping_current s cs) in Hb by done.
by apply not_elem_of_empty in Hb.
Qed.
(** ** Operations *)

Lemma clearMedia_starts_no_broker c : Forall starts_no_broker (clearMedia_calls c).
Proof.
unfold clearMedia_calls. simpl. rewrite app_nil_r. rewrite !Forall_app.
split_and!; try apply removeLabels_starts_no_broker; [|apply broadcast_starts_no_broker].
destruct (broker c); by repeat constructor.
Qed.

Lemma clearMedia_stops c b : c.(broker) = Some b → BrokerStop b ∈ clearMedia_calls c.
Proof.
intros E. unfold clearMedia_calls. rewrite E. apply elem_of_app. right.
apply list_elem_of_here.
Qed.

Lemma nav_starts_no_broker br m : Forall starts_no_broker (nav_calls br m).
Proof. unfold nav_calls. destruct br; [destruct (media_isLive m)|]; by repeat constructor. Qed.

Lemma kept_nav (x : M St unit) s r m fn p upd after msg :
x s = nav_outcome s r m fn p upd after msg → broker_kept s (x s).2.
Proof.
intros ->. unfold nav_outcome. simpl. rewrite <- app_assoc. apply kept_stopped.
- simpl. constructor; [exact I|]. apply Forall_app.
  split; [apply nav_starts_no_broker|apply broadcast_starts_no_broker].
- intros b ->. simpl. apply list_elem_of_further, list_elem_of_here.
Qed.

Lemma play_starts_current s m p X :
foldl running_step X (play_calls s.(client).(broker) m p) =
  match s.(client).(broker) with Some b => {[ b ]} ∪ X | None => X end.
Proof.
unfold play_calls. destruct (broker (client s)); [|done]. by destruct (media_isLive m).
Qed.

Lemma kept_play s r m p labels :
s.(client).(echoEnabled) = true → has_media s r m → broker_kept s (avPlayEvent p labels s).2.
Proof.
intros He Hm Hinv. rewrite (run_avPlayEvent s r m p labels He Hm). unfold play_outcome.
assert (H : ∀ c' h' cs, Forall starts_no_broker cs →
  c'.(broker) = s.(client).(broker) → c'.(media) = s.(client).(media) →
  c'.(echoEnabled) = s.(client).(echoEnabled) →
  broker_inv (mkSt c' h' ((s.(trace) ++ [called "avPlayEvent(at:eventLabels:)" p]) ++
                          play_calls s.(client).(broker) m p ++ cs))).
{ intros c' h' cs Hcs Eb Em Ee b Hb. simpl in *. unfold may_run. rewrite Eb, Em, Ee.
  rewrite !running_app, foldl_app in Hb. apply (running_shrinks _ _ Hcs) in Hb.
  rewrite play_starts_current in Hb. simpl in Hb.
  destruct (broker (client s)) as [b'|] eqn:E.
  - apply elem_of_union in Hb as [->%elem_of_singleton|Hb];
      [split_and!; [done|by eexists; apply Hm|done]|].
    destruct (Hinv b Hb) as (Hb1 & Hb2 & Hb3). by rewrite E in Hb1.
  - destruct (Hinv b Hb) as (Hb1 & Hb2 & Hb3). by rewrite E in Hb1. }
destruct (play_position _ _ _ _) as [q|]; [destruct (enriched_live m && _)|]; simpl.
- rewrite <- (app_nil_r (play_calls _ _ _)). by apply H.
- apply H; [apply broadcast_starts_no_broker|done..].
- revert Hinv. by apply kept_without_start; [repeat constructor|].
Qed.

Lemma kept_avPlayEvent s p l : well_formed s → broker_kept s (avPlayEvent p l s).2.
Proof.
intros Hwf. destruct (echoEnabled (client s)) eqn:He;
  [|unfold avPlayEvent; run_step; rewrite He; simpl; by intros ?].
destruct (media (client s)) as [r|] eqn:Hr.
- destruct (Hwf r Hr) as [m Hm]. by apply (kept_play s r m).
- unfold avPlayEvent. run_step. rewrite He. run_step. rewrite Hr. unfold log, emit.
  rewrite push_push. by apply kept_without_start; [repeat constructor|].
Qed.

Lemma kept_avEndEvent s p l : well_formed s → broker_kept s (avEndEvent p l s).2.
Proof.
intros Hwf. destruct (echoEnabled (client s)) eqn:He;
  [|unfold avEndEvent; run_step; rewrite He; simpl; by intros ?].
destruct (media (client s)) as [r|] eqn:Hr.
- destruct (Hwf r Hr) as [m Hm]. eapply kept_nav. by apply (run_avEndEvent s r m).
- unfold avEndEvent. run_step. rewrite He. run_step. rewrite Hr. unfold log, emit.
  rewrite push_push. by apply kept_without_start; [repeat constructor|].
Qed.

Lemma kept_releaseSuppressedPlay s : well_formed s → broker_kept s (releaseSuppressedPlay s).2.
Proof.
intros Hwf. unfold releaseSuppressedPlay. run_step.
destruct (echoEnabled (client s)); simpl; [|by intros ?]. run_step.
destruct (broker (client s)) as [b|] eqn:Hb; [|by intros ?].
destruct (suppressingPlayEvent (client s)); simpl; [|by intros ?].
unfold push. simpl. etrans; [|by apply kept_avPlayEvent].
by apply kept_without_start; [repeat constructor|].
Qed.

Lemma kept_setMedia s r m :
s.(client).(echoEnabled) = true → s.(heap) !! r = Some m → broker_kept s (setMedia r s).2.
Proof.
intros He Hr. rewrite (run_setMedia s r m) by done. unfold setMedia_state. simpl.
rewrite <- !app_assoc. apply kept_stopped.
- rewrite !Forall_app. split_and!; [apply clearMedia_starts_no_broker|..];
    try apply broadcast_starts_no_broker.
  unfold init_broker. simpl. destruct (playerDelegate (client s)); [|done].
  constructor; [|apply broadcast_starts_no_broker]. unfold make_broker_call. simpl.
  by destruct (essUrl (client s)), (media_isLive (media_getClone m)).
- intros b Hb. apply elem_of_app. left. by apply clearMedia_stops.
Qed.

Lemma kept_disable s : broker_kept s (disable s).2.
Proof.
unfold disable. run_step. destruct (echoEnabled (client s)) eqn:He; simpl; [|by intros ?].
run. unfold push. simpl. rewrite <- app_assoc. apply kept_stopped.
- apply Forall_app. split; [apply clearMedia_starts_no_broker|apply broadcast_starts_no_broker].
- intros b Hb. apply elem_of_app. left. by apply clearMedia_stops.
Qed.

End brokers.

Section exec_brokers.
Context `{O : Oracle}.

Lemma exec_brokers op s : well_formed s → op_ok op s → broker_kept s (exec op s).2.
Proof.
intros Hwf Hok. destruct op; unfold exec;
  lazymatch goal with
  | |- broker_kept _ (setMedia ?r _).2 =>
      destruct (echoEnabled (client s)) eqn:He;
        [destruct Hok as [? ?]; by eapply kept_setMedia
        |unfold setMedia; run_step; rewrite He; simpl; by intros ?]
  | |- broker_kept _ (avPlayEvent _ _ _).2 => by apply kept_avPlayEvent
  | |- broker_kept _ (avEndEvent _ _ _).2 => by apply kept_avEndEvent
  | |- broker_kept _ (releaseSuppressedPlay _).2 => by apply kept_releaseSuppressedPlay
  | |- broker_kept _ (disable _).2 => apply kept_disable
  | |- broker_kept ?s (?m ?s).2 =>
      cut (keeps broker_kept m); [intros Hk; apply Hk|];
      repeat keeps_step; try apply _;
      first [ exact I | by intros ? ? (? & ? & ?); unfold may_run; simpl; split_and!; eauto ]
  end.
Qed.

Lemma steps_broker_inv s s' : well_formed s → steps s s' → broker_kept s s'.
Proof.
intros Hwf. induction 1 as [|s1 s2 s3 [op s s0 Hok E] _ IH]; [by intros ?|].
intros Hinv. apply IH.
- apply (steps_well_formed s s0); [|done]. eapply steps_step; [|apply steps_refl].
  by apply (step_exec op).
- pose proof (exec_brokers op s Hwf Hok Hinv) as H. by rewrite E in H.
Qed.
End exec_brokers.

Section properties.
Context `{O : Oracle}.
Implicit Types (s : St).

(** C7. At most one broker runs, and only for the current media. In every execution
    from a state in which none runs, a broker that has been started and not stopped is
    the current broker of the client, the client has a media object, and it is
    enabled; so two brokers never run at once, and none is left running by an end, a
    new media, a clearing or a disabling. *)
Theorem running_broker_is_current s s' b :
well_formed s → running_brokers s.(trace) = ∅ → steps s s' →
b ∈ running_brokers s'.(trace) →
s'.(client).(broker) = Some b ∧ is_Some s'.(client).(media) ∧
s'.(client).(echoEnabled) = true ∧
∀ b', b' ∈ running_brokers s'.(trace) → b' = b.
Proof.
intros Hwf Hnone Hsteps Hb.
assert (Hinv : broker_inv s').
{ apply (steps_broker_inv s s' Hwf Hsteps). intros b0 Hb0. rewrite Hnone in Hb0.
  by apply not_elem_of_empty in Hb0. }
destruct (Hinv b Hb) as (H1 & H2 & H3). split_and!; [done..|].
intros b' Hb'. destruct (Hinv b' Hb') as (H1' & _). congruence.
Qed.
End properties.

(** ** Witnesses *)
Section witnesses.
#[local] Existing Instances cMediaI cUserI cLabelI cEnumI cConfigI cO.

Lemma running_broker_is_current_witness :
let s' := (exec (OpAvPlay 4000 None) on_demand).2 in
7%positive ∈ running_brokers s'.(trace) ∧
∀ b', b' ∈ running_brokers s'.(trace) → b' = 7%positive.
Proof.
set (s' := (exec (OpAvPlay 4000 None) on_demand).2).
assert (H : 7%positive ∈ running_brokers s'.(trace))
  by (apply (bool_decide_unpack _); vm_compute; reflexivity).
split; [exact H|].
apply (running_broker_is_current on_demand s' 7%positive); [| | |exact H].
- intros r [= <-]. by exists cOnDemand.
- reflexivity.
- eapply steps_step; [|apply steps_refl].
  apply step_of; [exact I|vm_compute; reflexivity].
Defined.
End witnesses.
