(* ===== verification/MediaFlags.v ===== *)
(** * MediaFlags: a media object is never playing and buffering at once.

    [isPlaying] and [isBuffering] are two properties of a shared [Media] object, and
    the handlers assign them separately.  The invariant of this file is about the
    whole store: the current media, the objects that were current before and those
    of other owners. *)

From S2P Require Import Prelude SwiftNumbers Interfaces Client Concrete Labels Config Media AvEvents UserState Reporting Lifecycle Machine Safety.
From Stdlib Require Import SpecFloat.

Section flags.
Context `{O : Oracle} `{!MediaLaws}.
Implicit Types (s : St) (r : MediaRef) (m : Media).

Definition exclusive m : Prop := media_isPlaying m = true → media_isBuffering m = false.

Definition flags_inv s : Prop := ∀ r m, s.(heap) !! r = Some m → exclusive m.

Definition flags_kept s s' : Prop := flags_inv s → flags_inv s'.

#[export] Instance flags_kept_preorder : PreOrder flags_kept.
Proof. split; unfold flags_kept; [by intros ? ?|]. intros s1 s2 s3; auto. Qed.

(** Calls and assignments to the client do not touch the store. *)
#[export] Instance flags_frame : Frame flags_kept (λ _, True) (λ _, True) (λ _, True).
Proof. split; [apply _|..]; by intros s ? ? ?. Qed.

(** An assignment after which the flags are exclusive if they were before. *)
Definition flags_ok (f : Media → Media) : Prop := ∀ m, exclusive m → exclusive (f m).

Lemma flags_insert s c' tr r m m' :
s.(heap) !! r = Some m → (exclusive m → exclusive m') →
flags_kept s (mkSt c' (<[r := m']> s.(heap)) tr).
Proof.
intros Hr Hm Hinv r' m0. simpl. intros Hin.
apply lookup_insert_Some in Hin as [[<- <-]|[_ Hin]]; [|by eapply Hinv].
apply Hm. by eapply Hinv.
Qed.

Lemma keeps_flags_update r f : flags_ok f → keeps flags_kept (update_media r f).
Proof.
intros Hf s. unfold update_media. destruct (heap s !! r) as [m|] eqn:E; simpl;
  [apply (flags_insert _ _ _ _ m); [done|apply Hf]|reflexivity].
Qed.

Lemma ok_stop : flags_ok (media_set_isPlaying false).
Proof. intros m _. unfold exclusive. by rewrite media_isPlaying_get_set. Qed.

Lemma ok_length l : flags_ok (media_set_length l).
Proof. intros m. unfold exclusive. by rewrite media_isPlaying_set_length, media_isBuffering_set_length. Qed.

Lemma exclusive_played m : exclusive (media_set_isBuffering false (media_set_isPlaying true m)).
Proof. intros _. apply media_isBuffering_get_set. Qed.

Lemma exclusive_buffering m :
exclusive (media_set_isBuffering true (media_set_isPlaying false m)).
Proof.
unfold exclusive. by rewrite media_isPlaying_set_isBuffering, media_isPlaying_get_set.
Qed.

(** ** Operations *)

Lemma flags_play s r m p labels :
s.(client).(echoEnabled) = true → has_media s r m → flags_kept s (avPlayEvent p labels s).2.
Proof.
intros He Hm. rewrite (run_avPlayEvent s r m p labels He Hm). unfold play_outcome.
destruct (play_position _ _ _ _); [destruct (enriched_live m && _)|]; simpl; [by intros ?| |by intros ?].
apply (flags_insert _ _ _ _ m); [apply Hm|]. intros _. apply exclusive_played.
Qed.

(** A handler returns at once while disabled, and only logs without a media. *)
Ltac flags_handler :=
match goal with
| Hwf : well_formed ?s |- flags_kept ?s (?x ?s).2 =>
    let h := head_of x in
    destruct (echoEnabled (client s)) eqn:He;
      [|unfold h; run_step; rewrite He; simpl; reflexivity];
    destruct (media (client s)) as [r|] eqn:Hr;
      [destruct (Hwf r Hr) as [m Hm]
      |unfold h; run_step; rewrite He; run_step; rewrite Hr; unfold log, emit;
       rewrite push_push; by intros ?]
end.

Lemma flags_avPlayEvent s p l : well_formed s → flags_kept s (avPlayEvent p l s).2.
Proof. intros Hwf. flags_handler. by apply (flags_play s r m). Qed.

Lemma flags_avBufferEvent s p l : well_formed s → flags_kept s (avBufferEvent p l s).2.
Proof.
intros Hwf. flags_handler. rewrite (run_avBufferEvent s r m) by done. unfold nav_outcome. simpl.
apply (flags_insert _ _ _ _ m); [done|]. intros _. apply exclusive_buffering.
Qed.

Lemma flags_releaseSuppressedPlay s : well_formed s → flags_kept s (releaseSuppressedPlay s).2.
Proof.
intros Hwf. unfold releaseSuppressedPlay. run_step.
destruct (echoEnabled (client s)); simpl; [|reflexivity]. run_step.
destruct (broker (client s)) as [b|]; [|reflexivity].
destruct (suppressingPlayEvent (client s)); simpl; [|reflexivity].
unfold push. simpl. etrans; [|by apply flags_avPlayEvent]. by intros ?.
Qed.

Lemma flags_setMedia s r m :
flags_ok media_getClone → s.(client).(echoEnabled) = true → s.(heap) !! r = Some m →
flags_kept s (setMedia r s).2.
Proof.
intros Hclone He Hr Hinv. rewrite (run_setMedia s r m) by done. unfold setMedia_state. simpl.
intros r' m'. simpl. intros Hin. apply lookup_insert_Some in Hin as [[_ <-]|[_ Hin]].
- apply Hclone. by eapply Hinv.
- by eapply Hinv.
Qed.
End flags.

Section exec_flags.
Context `{O : Oracle} `{!MediaLaws}.

Lemma exec_flags op s :
flags_ok media_getClone → well_formed s → op_ok op s → flags_kept s (exec op s).2.
Proof.
intros Hclone Hwf Hok. destruct op; unfold exec;
  lazymatch goal with
  | |- flags_kept _ (setMedia ?r _).2 =>
      destruct (echoEnabled (client s)) eqn:He;
        [destruct Hok as [? ?]; by eapply flags_setMedia
        |unfold setMedia; run_step; rewrite He; simpl; reflexivity]
  | |- flags_kept _ (avPlayEvent _ _ _).2 => by apply flags_avPlayEvent
  | |- flags_kept _ (avBufferEvent _ _ _).2 => by apply flags_avBufferEvent
  | |- flags_kept _ (releaseSuppressedPlay _).2 => by apply flags_releaseSuppressedPlay
  | |- flags_kept ?s (?m ?s).2 =>
      cut (keeps flags_kept m); [intros Hk; apply Hk|];
      repeat lazymatch goal with
        | |- keeps _ (update_media _ _) => apply keeps_flags_update
        | |- _ => keeps_step
        end; try apply _;
      first [ exact I | apply ok_stop | apply ok_length ]
  end.
Qed.

Lemma steps_flags s s' :
flags_ok media_getClone → well_formed s → steps s s' → flags_kept s s'.
Proof.
intros Hclone Hwf. induction 1 as [|s1 s2 s3 [op s s0 Hok E] _ IH]; [reflexivity|].
etrans; [|apply IH; apply (steps_well_formed s s0); [|done]].
- pose proof (exec_flags op s Hclone Hwf Hok) as Hin. by rewrite E in Hin.
- eapply steps_step; [|apply steps_refl]. by apply (step_exec op).
Qed.
End exec_flags.

Section properties.
Context `{O : Oracle}.
Implicit Types (s : St).

(** C12. A media object is never playing and buffering at once. If no object of the
    store is both, and cloning does not make one that is, then after any sequence of
    operations no object of the store is both: not the current media, nor one that was
    current before, although the handlers assign the two flags separately. *)
Theorem never_playing_and_buffering `{!MediaLaws} s s' :
flags_ok media_getClone → well_formed s → flags_inv s → steps s s' →
∀ r m, s'.(heap) !! r = Some m → ¬ (media_isPlaying m = true ∧ media_isBuffering m = true).
Proof.
intros Hclone Hwf Hinv Hsteps r m Hr [Hp Hb].
pose proof (steps_flags s s' Hclone Hwf Hsteps Hinv r m Hr Hp) as Hx. congruence.
Qed.
End properties.

(** ** Witnesses *)
Section witnesses.
#[local] Existing Instances cMediaI cUserI cLabelI cEnumI cConfigI cO cMediaL.

(** After a buffering event and a play the media only plays. *)
Lemma never_playing_and_buffering_witness :
let s1 := (exec (OpAvBuffer 3000 None) on_demand).2 in
let s2 := (exec (OpAvPlay 4000 None) s1).2 in
∃ m, s2.(heap) !! 3%positive = Some m ∧ media_isPlaying m = true ∧
  ¬ (media_isPlaying m = true ∧ media_isBuffering m = true).
Proof.
set (s1 := (exec (OpAvBuffer 3000 None) on_demand).2).
set (s2 := (exec (OpAvPlay 4000 None) s1).2).
exists (mkCMedia false false 10000 true false).
assert (H : s2.(heap) !! 3%positive = Some (mkCMedia false false 10000 true false))
  by (vm_compute; reflexivity).
split; [exact H|]. split; [reflexivity|].
apply (never_playing_and_buffering on_demand s2) with (r := 3%positive); [| | | |exact H].
- by intros m.
- intros r [= <-]. by exists cOnDemand.
- intros r m Hr. unfold on_demand, cWith, cState in Hr. simpl in Hr. apply lookup_singleton_Some in Hr as [_ <-]. done.
- eapply steps_step; [|eapply steps_step; [|apply steps_refl]];
    apply step_of; [exact I|vm_compute; reflexivity|exact I|vm_compute; reflexivity].
Defined.
End witnesses.
