(* ===== verification/MediaLabels.v ===== *)
(** * MediaLabels: no label of a media outlives it.

    The client tells its delegates with labels how the enrichment of live media goes:
    whether it is enabled, whether it succeeded, the error, a timestamp.  The labels
    are of the current media; they are added by callbacks of the broker, which come at
    any time.  An abstract delegate keeps the labels that it has been told to add and
    not to remove; whatever happened before, when it gets a media its labels say
    nothing of the media before. *)

From S2P Require Import Prelude SwiftNumbers Interfaces Client Concrete Labels Config Media AvEvents UserState Reporting Lifecycle Machine.

Section labels.
Context `{O : Oracle}.
Implicit Types (s : St) (l : Labels) (c : EchoClient) (d : DelegateRef).

(** ** The abstract delegate *)

(** The labels after a message; a label that is added again gets the new value. *)
Definition label_step l (m : DelegateMsg) : Labels :=
match m with
| d_addLabels new => new ∪ l
| d_removeLabels ks => foldl (λ l k, delete k l) l ks
| _ => l
end.

Definition labels_after l (ms : list DelegateMsg) : Labels := foldl label_step l ms.

(** ** Labels when a media is set *)

(** The labels about the media before. *)
Definition media_keys : list string :=
[key_MediaTimestamp; key_ESSSuccess; key_ESSError; key_ESSStatusCode; key_ESSEnriched].

(** The cleanser keeps the client's own keys apart, and does not empty them. *)
Definition own_keys_kept : Prop :=
NoDup (EmptyString :: map cleanLabelKey (key_ESSEnabled :: media_keys)).

(** What the labels say when a media is set. *)
Definition says_nothing_else (ess : bool) l : Prop :=
l !! cleanLabelKey key_ESSEnabled =
  Some (cleanLabelValue (cleanLabelKey key_ESSEnabled) (if ess then "true" else "false")) ∧
∀ k, k ∈ media_keys → l !! cleanLabelKey k = None.

(** In the messages [ms], to a delegate with the labels [l]. *)
Fixpoint sets_media_cleanly (ess : bool) l (ms : list DelegateMsg) : Prop :=
match ms with
| [] => True
| m :: ms' =>
    match m with d_setMedia _ => says_nothing_else ess l | _ => True end ∧
    sets_media_cleanly ess (label_step l m) ms'
end.

Lemma sets_media_cleanly_app ess l ms1 ms2 :
sets_media_cleanly ess l (ms1 ++ ms2) ↔
sets_media_cleanly ess l ms1 ∧ sets_media_cleanly ess (labels_after l ms1) ms2.
Proof.
revert l. induction ms1 as [|m ms1 IH]; intros l; simpl; [tauto|].
rewrite IH. unfold labels_after. simpl. tauto.
Qed.

Definition no_setMedia (m : DelegateMsg) : Prop := match m with d_setMedia _ => False | _ => True end.

Lemma sets_no_media ess l ms : Forall no_setMedia ms → sets_media_cleanly ess l ms.
Proof.
intros H. revert l. induction H as [|m ms Hm _ IH]; intros l; simpl; [done|].
split; [by destruct m|apply IH].
Qed.

(** ** The frame *)

Definition labels_ok s s' : Prop :=
s'.(client).(delegates) = s.(client).(delegates) ∧
s'.(client).(essEnabled) = s.(client).(essEnabled) ∧
∃ cs, s'.(trace) = s.(trace) ++ cs ∧
  (NoDup s.(client).(delegates) → ∀ d l, d ∈ s.(client).(delegates) →
   sets_media_cleanly s.(client).(essEnabled) l (messages d cs)).

#[export] Instance labels_ok_preorder : PreOrder labels_ok.
Proof.
split.
- intros s. split_and!; [done..|]. exists []. by rewrite app_nil_r.
- intros s1 s2 s3 (D1 & X1 & cs1 & E1 & U1) (D2 & X2 & cs2 & E2 & U2).
  split_and!; [congruence..|]. exists (cs1 ++ cs2). rewrite E2, E1, app_assoc. split; [done|].
  intros Hnd d l Hd. rewrite messages_app. apply sets_media_cleanly_app.
  split; [by apply U1|]. rewrite <- X1. rewrite D1 in U2. by apply U2.
Qed.

(** Calls that do not set a media. *)
Definition quiet_call (cl : Call) : Prop :=
match cl with ToDelegate _ m => no_setMedia m | _ => True end.

Lemma messages_quiet d cs : Forall quiet_call cs → Forall no_setMedia (messages d cs).
Proof.
induction 1 as [|cl cs Hc _ IH]; [constructor|]. rewrite messages_cons.
destruct cl; simpl; try done. destruct (decide _); [|done].
by destruct msg; try done; constructor.
Qed.

Lemma labels_ok_push s cs : Forall quiet_call cs → labels_ok s (push cs s).
Proof.
intros H. split_and!; [done..|]. exists cs. split; [done|]. intros _ d l _.
by apply sets_no_media, messages_quiet.
Qed.

#[export] Instance labels_ok_frame :
Frame labels_ok quiet_call no_setMedia
  (λ f, ∀ c, (f c).(delegates) = c.(delegates) ∧ (f c).(essEnabled) = c.(essEnabled)).
Proof.
split; [apply _|..].
- intros s c Hc. apply labels_ok_push. by apply Forall_singleton.
- intros s m Hm. apply labels_ok_push. unfold broadcast. by apply Forall_fmap, Forall_true.
- intros s f Hf. split_and!; [apply Hf..|]. exists []. simpl. by rewrite app_nil_r.
Qed.

#[export] Instance labels_ok_store : StoreFrame labels_ok.
Proof. intros s h. split_and!; [done..|]. exists []. simpl. by rewrite app_nil_r. Qed.
End labels.

Section setMedia.
Context `{O : Oracle} `{!LabelLaws}.
Hypothesis own_keys : own_keys_kept.
Implicit Types (s : St) (l : Labels) (c : EchoClient) (d : DelegateRef).

Lemma own_key_kept k : k ∈ key_ESSEnabled :: media_keys → cleanLabelKey k ≠ EmptyString.
Proof.
intros Hk E. apply NoDup_cons in own_keys as [Hn _]. apply Hn. rewrite <- E.
by apply list_elem_of_fmap_2.
Qed.

Lemma enabled_key_apart k :
k ∈ media_keys → cleanLabelKey key_ESSEnabled ≠ cleanLabelKey k.
Proof.
intros Hk E. apply NoDup_cons in own_keys as [_ Hn]. apply NoDup_cons in Hn as [Hn _].
apply Hn. rewrite E. by apply list_elem_of_fmap_2.
Qed.

Lemma messages_removeLabel c d k :
NoDup c.(delegates) → d ∈ c.(delegates) → k ∈ key_ESSEnabled :: media_keys →
messages d (removeLabels_calls c.(delegates) [k]) = [d_removeLabels [cleanLabelKey k]].
Proof.
intros Hnd Hd Hk. unfold removeLabels_calls.
assert (E : sanitiseKeys [k] = [cleanLabelKey k]).
{ rewrite sanitiseKeys_spec. simpl. by rewrite filter_cons_True by by apply own_key_kept. }
rewrite E. by apply messages_broadcast.
Qed.

Definition cleared_keys : list string :=
[key_MediaTimestamp; key_ESSEnabled; key_ESSSuccess; key_ESSError; key_ESSStatusCode; key_ESSEnriched].

Lemma messages_clearMedia c d :
NoDup c.(delegates) → d ∈ c.(delegates) →
messages d (clearMedia_calls c) =
  map (λ k, d_removeLabels [cleanLabelKey k]) cleared_keys ++ [d_clearMedia].
Proof.
intros Hnd Hd. unfold clearMedia_calls. rewrite !messages_app. f_equal.
- unfold cleared_keys, concat, map.
  rewrite !messages_app, !messages_removeLabel by (done || unfold media_keys; set_solver).
  reflexivity.
- rewrite messages_broadcast by done. by destruct (broker c).
Qed.

(** Removing keys one by one leaves none of them. *)
Lemma removed_keys l ks k :
k ∈ ks →
labels_after l (map (λ k, d_removeLabels [cleanLabelKey k]) ks) !! cleanLabelKey k = None.
Proof.
assert (G : ∀ ks l, l !! cleanLabelKey k = None →
  labels_after l (map (λ k, d_removeLabels [cleanLabelKey k]) ks) !! cleanLabelKey k = None).
{ clear. intros ks. induction ks as [|k' ks IH]; intros l E; [done|]. simpl. apply IH. simpl.
  destruct (decide (cleanLabelKey k' = cleanLabelKey k)) as [->|Hn];
    [apply lookup_delete_eq|by rewrite lookup_delete_ne]. }
revert l. induction ks as [|k' ks IH]; intros l Hk; [by apply elem_of_nil in Hk|].
apply elem_of_cons in Hk as [->|Hk]; [|by apply IH].
simpl. apply G. apply lookup_delete_eq.
Qed.

(** The labels after clearing and adding the one of the client. *)
Lemma cleared_labels l ess :
says_nothing_else ess
  (labels_after l ((map (λ k, d_removeLabels [cleanLabelKey k]) cleared_keys ++ [d_clearMedia]) ++
     [d_addLabels (sanitiseLabels {[key_ESSEnabled := if ess then "true" else "false"]})])).
Proof.
unfold labels_after. rewrite !foldl_app. simpl foldl at 1. rewrite sanitise_singleton.
split.
- simpl. by rewrite lookup_union_l', lookup_singleton_eq; [|rewrite lookup_singleton_eq].
- intros k Hk. simpl. rewrite lookup_union_r by (apply lookup_singleton_ne; by apply enabled_key_apart).
  apply (removed_keys l cleared_keys). unfold media_keys, cleared_keys in *. set_solver.
Qed.

(** What a delegate sees of making the broker. *)
Lemma messages_initBroker c d tr r m :
NoDup c.(delegates) → d ∈ c.(delegates) →
messages d (init_broker c tr r m).2 =
  match c.(playerDelegate) with Some _ => [d_setBroker (answer_makeBroker tr)] | None => [] end.
Proof.
intros Hnd Hd. unfold init_broker. destruct (playerDelegate c) as [p|]; [|done].
cbv zeta. simpl snd. rewrite messages_cons, messages_broadcast by done.
unfold make_broker_call. by destruct (essUrl c), (media_isLive m).
Qed.

Lemma labels_ok_setMedia s r : labels_ok s (setMedia r s).2.
Proof.
destruct (s.(client).(echoEnabled)) eqn:He.
2:{ unfold setMedia. run_step. rewrite He. simpl. reflexivity. }
destruct (s.(heap) !! r) as [m0|] eqn:Hr.
2:{ unfold setMedia. run_step. rewrite He. run_step. rewrite run_clearMedia. simpl.
    unfold deref at 1. simpl. rewrite Hr. simpl. split_and!; [done..|]. eexists.
    split; [reflexivity|]. intros Hnd d l Hd. apply sets_no_media.
    rewrite messages_clearMedia by done. by repeat constructor. }
rewrite (run_setMedia s r m0) by done. unfold setMedia_state, labels_ok. simpl.
split; [by rewrite init_broker_delegates|].
split; [unfold init_broker; by destruct (playerDelegate _)|].
eexists. rewrite <- !app_assoc. split; [reflexivity|]. intros Hnd d l Hd.
rewrite !messages_app, messages_clearMedia, !messages_broadcast, messages_initBroker by done.
rewrite app_assoc, app_assoc. apply sets_media_cleanly_app. split.
- apply sets_no_media. simpl playerDelegate. destruct (playerDelegate (client s));
    by repeat constructor.
- split; [|exact I]. pose proof (cleared_labels l (essEnabled (client s))) as Hc.
  simpl playerDelegate. destruct (playerDelegate (client s)) as [p|]; [|by rewrite app_nil_r].
  unfold labels_after. rewrite foldl_app. exact Hc.
Qed.

Lemma exec_labels op s : labels_ok s (exec op s).2.
Proof.
revert s. change (keeps labels_ok (exec op)).
destruct op; unfold exec;
  repeat lazymatch goal with
    | |- keeps _ (setMedia _) => intros ?; apply labels_ok_setMedia
    | |- _ => keeps_step
    end; try exact I; try apply _; by intros ?.
Qed.
End setMedia.

Section properties.
Context `{O : Oracle}.
Implicit Types (s : St) (l : Labels) (d : DelegateRef).

(** C13. A new media does not inherit labels. In any sequence of operations, with the
    callbacks of brokers at any time, a delegate that keeps the labels it is told to
    add and not to remove holds, whenever it gets a media, none of the labels about
    the media before: no timestamp, success, error, status code or enrichment; and the
    label that says whether enrichment is enabled has the value of the client,
    whatever the app set it to. *)
Theorem new_media_inherits_no_label `{!LabelLaws} ops s d l :
own_keys_kept → NoDup s.(client).(delegates) → d ∈ s.(client).(delegates) →
∃ cs, (exec_all ops s).2.(trace) = s.(trace) ++ cs ∧
  ∀ before r after, messages d cs = before ++ d_setMedia r :: after →
    labels_after l before !! cleanLabelKey key_ESSEnabled =
      Some (cleanLabelValue (cleanLabelKey key_ESSEnabled)
              (if s.(client).(essEnabled) then "true" else "false")) ∧
    ∀ k, k ∈ media_keys → labels_after l before !! cleanLabelKey k = None.
Proof.
intros Hkeys Hnd Hd. destruct (exec_all_keeps labels_ok ops s) as (_ & _ & cs & Ht & Hl).
- intros op s' _ _. by apply exec_labels.
- exists cs. split; [done|]. intros before r after E. specialize (Hl Hnd d l Hd).
  rewrite E in Hl. apply sets_media_cleanly_app in Hl as [_ [Hl _]]. exact Hl.
Qed.
End properties.

(** ** Witnesses *)
Section witnesses.
#[local] Existing Instances cMediaI cUserI cLabelI cEnumI cConfigI cO cLabelL.

#[local] Abbreviation failing := (OpSetEssError (ce_StatusCode : @EssError cEnumI) "503").

Lemma head_drop {A} (l : list A) (n : nat) (x : A) :
head (drop n l) = Some x → l = take n l ++ x :: drop (S n) l.
Proof.
revert l. induction n as [|n IH]; intros [|y l] E; try done; simpl in *.
{ injection E as ->. by rewrite drop_0. }
f_equal. by apply IH.
Qed.

(** An error that was reported for the media before is gone. *)
Lemma new_media_inherits_no_label_witness :
let msgs := messages 1%positive (exec_all [failing; OpSetMedia 3%positive] on_demand).2.(trace) in
head (drop 12 msgs) = Some (d_setMedia 4%positive) ∧
labels_after ∅ (take 2 msgs) !! "ess_error" = Some "status_code" ∧
labels_after ∅ (take 12 msgs) !! "ess_error" = None.
Proof.
destruct (new_media_inherits_no_label [failing; OpSetMedia 3%positive] on_demand 1%positive ∅)
  as (cs & Ht & H).
- apply (bool_decide_unpack _). vm_compute. reflexivity.
- apply (bool_decide_unpack _). vm_compute. reflexivity.
- apply list_elem_of_here.
- rewrite (app_nil_l cs : on_demand.(trace) ++ cs = cs) in Ht. rewrite Ht.
  assert (Hn : head (drop 12 (messages 1%positive cs)) = Some (d_setMedia 4%positive))
    by (rewrite <- Ht; vm_compute; reflexivity).
  split; [exact Hn|]. split; [rewrite <- Ht; vm_compute; reflexivity|].
  destruct (H _ _ _ (head_drop _ _ _ Hn)) as [_ Hk].
  specialize (Hk key_ESSError).
  assert (Ek : cleanLabelKey key_ESSError = "ess_error") by (vm_compute; reflexivity).
  rewrite Ek in Hk. apply Hk. do 2 apply list_elem_of_further. apply list_elem_of_here.
Defined.
End witnesses.
