(* ===== verification/Program.v ===== *)
(** * Program: everything that holds of a client from its construction on.

    A program that uses Echo constructs a client and then calls its operations, or
    lets the broker, the timer and the notification centre call them.  This file
    composes the construction (Startup) with the invariants of Safety, Machine,
    Brokers, Messages and Playback. *)

From S2P Require Import Prelude SwiftNumbers Interfaces Client Concrete Labels Config Media AvEvents UserState Reporting Lifecycle Machine Safety Startup Playback Messages Brokers.
From Stdlib Require Import SpecFloat.

Section program.
Context `{O : Oracle}.
Abbreviation Config := (gmap EchoConfigKey string).
Implicit Types (s : St) (cs : list Call) (config : Config).

(** The states of a program: a construction that succeeds, as the first thing the
  program does, and then operations; [queries] says whether the query of the
  ComScore device identifier may be one of them. *)
Inductive program_state (queries : bool) : St → Prop :=
| program_init appName appType name userConfig user c h s :
  init appName appType name userConfig user (mkSt c h []) = (Ret tt, s) →
  program_state queries s
| program_step op s s' :
  program_state queries s → op_ok op s → (op = OpGetComScoreDeviceID → queries = true) →
  exec op s = (Ret tt, s') → program_state queries s'.

Lemma program_made queries appName appType name userConfig user c h :
(init appName appType name userConfig user (mkSt c h [])).1 = Ret tt →
program_state queries (init appName appType name userConfig user (mkSt c h [])).2.
Proof.
intros E. eapply (program_init queries appName appType name userConfig user c h).
rewrite <- E. apply surjective_pairing.
Qed.

Lemma program_exec queries op s :
program_state queries s → op_ok op s → (op = OpGetComScoreDeviceID → queries = true) →
(exec op s).1 = Ret tt → program_state queries (exec op s).2.
Proof.
intros Hs Hok Hq E. apply (program_step queries op s); [done..|].
rewrite <- E. apply surjective_pairing.
Qed.

(** ** After the construction *)

(** The check of the configuration only writes to the log. *)
Lemma isValidConfig_calls appName config s :
∃ b cs, isValidConfig appName config s = (Ret b, push cs s) ∧
  Forall (λ c, match c with Log _ _ => True | _ => False end) cs.
Proof.
destruct (isValidConfig_validates appName config s) as (cs & E & Hcs).
exists (config_valid appName config), cs. split; [exact E|].
destruct (config_valid appName config); [by subst|].
destruct Hcs as [msg ->]. by repeat constructor.
Qed.

(** Calls that neither go to a delegate nor start a broker or a timer. *)
Definition is_preparation (c : Call) : Prop :=
match c with ToDelegate _ _ | BrokerStart _ | RunLoopAdd _ => False | _ => True end.

(** The state that [init] has made when it finds the configuration valid. *)
Lemma init_made appName appType name userConfig user c h s :
init appName appType name userConfig user (mkSt c h []) = (Ret tt, s) →
∃ ds tr, init_finish (mkSt (initial_client (collateConfig userConfig) user ds) h tr) = (Ret tt, s) ∧
  Forall is_preparation tr.
Proof.
intros E. set (config := collateConfig userConfig) in *.
destruct (run_init appName appType name userConfig user (mkSt c h [])) as (cs & ds & Hcs & Ei).
cbv zeta in Ei. fold config in Ei. rewrite E in Ei. clear E. symmetry in Ei.
destruct (bind_Ret_inv _ _ _ _ _ Ei) as (b & s1 & Ev & Ef).
match type of Ev with isValidConfig _ _ ?s0 = _ => set (s0' := s0) in * end.
destruct (isValidConfig_calls appName config s0') as (b' & vs & Ev' & Hvs).
rewrite Ev' in Ev. injection Ev as <- <-. destruct b'; [|discriminate].
exists ds, (s0'.(trace) ++ vs). split; [exact Ef|].
apply Forall_app. split; [|by eapply Forall_impl; [exact Hvs|intros []]].
unfold s0'. simpl. apply Forall_app. split; [by eapply Forall_impl; [exact Hcs|intros []]|].
apply Forall_app. unfold cookie_calls.
destruct (is_true (config !! cfg_idv5Enabled)); by repeat constructor.
Qed.

(** What is kept by the rest of the construction. *)
Lemma init_finish_timer : keeps timer_kept init_finish.
Proof.
unfold init_finish. repeat lazymatch goal with
  | |- keeps _ start => intros ?; apply (exec_timer OpStart)
  | |- _ => keeps_step
  end; try apply _; exact I.
Qed.

Lemma init_finish_clean : keeps (calls_are clean_call) init_finish.
Proof.
unfold init_finish. repeat lazymatch goal with
  | |- keeps _ start => intros ?; apply (exec_clean OpStart)
  | |- _ => keeps_step
  end; try apply _; exact I.
Qed.

Lemma init_finish_refines : keeps refines init_finish.
Proof.
unfold init_finish. repeat lazymatch goal with
  | |- keeps _ start => intros ?; apply refines_start
  | |- _ => keeps_step
  end; try apply _; exact I.
Qed.

Lemma init_finish_broker : keeps broker_kept init_finish.
Proof.
unfold init_finish. repeat keeps_step; try apply _;
  first [ exact I | by intros ? ? (? & ? & ?); unfold may_run; simpl; split_and!; eauto ].
Qed.

Lemma init_finish_safe : safe_run ∅ init_finish.
Proof. unfold init_finish. repeat safe_step. Qed.
(** ** The invariants *)

Lemma preparation_running tr X : Forall is_preparation tr → foldl running_step X tr ⊆ X.
Proof. intros H. apply running_shrinks. eapply Forall_impl; [exact H|by intros []]. Qed.

Lemma preparation_timers tr X : Forall is_preparation tr → foldl live_step X tr ⊆ X.
Proof.
intros H. revert X. induction H as [|c tr Hc _ IH]; intros X; [done|].
simpl. etrans; [apply IH|]. destruct c; try done; simpl. clear. set_solver.
Qed.

Lemma preparation_messages d tr : Forall is_preparation tr → messages d tr = [].
Proof.
induction 1 as [|c tr Hc _ IH]; [done|]. rewrite messages_cons. by destruct c.
Qed.

(** What holds of every state of a program. *)
Record invariants s : Prop := {
inv_media : well_formed s;
inv_broker : broker_inv s;
inv_timer : timer_inv s;
inv_clean : Forall clean_call s.(trace)
}.

(** The messages that a delegate has got are what the protocol accepts, from a client
  that was made enabled or disabled. *)
Definition protocol_kept s : Prop :=
NoDup s.(client).(delegates) → ∃ e, ∀ d, d ∈ s.(client).(delegates) →
  proto_run (mkSession e false false false) (messages d s.(trace)) =
    Some (session_of s.(client)).

Lemma calls_are_Forall P s s' : calls_are P s s' → Forall P s.(trace) → Forall P s'.(trace).
Proof. intros (_ & cs & -> & H) Hs. by apply Forall_app. Qed.

Lemma refines_protocol s s' : refines s s' → protocol_kept s → protocol_kept s'.
Proof.
intros (Hd & cs & Ht & H) Hp Hnd. rewrite Hd in Hnd. destruct (Hp Hnd) as [e He].
exists e. rewrite Hd. intros d Hin. rewrite Ht, messages_app.
erewrite proto_run_app by by apply He. by apply H.
Qed.

Lemma made_invariants config user ds h tr s :
init_finish (mkSt (initial_client config user ds) h tr) = (Ret tt, s) →
Forall is_preparation tr → invariants s ∧ protocol_kept s.
Proof.
set (s1 := mkSt (initial_client config user ds) h tr). intros E Htr.
assert (Es : s = (init_finish s1).2) by by rewrite E.
assert (Hsafe : safe ∅ s1) by (split; [by intros r|apply empty_subseteq]).
split; [split|]; rewrite Es.
- destruct (init_finish_safe s1 Hsafe) as (a & s' & E' & Hs'). rewrite E'. apply Hs'.
- apply init_finish_broker. intros b Hb.
  by apply (preparation_running tr ∅ Htr), not_elem_of_empty in Hb.
- apply init_finish_timer. unfold timer_inv. etrans; [by apply preparation_timers|].
  apply empty_subseteq.
- eapply calls_are_Forall; [apply init_finish_clean|].
  eapply Forall_impl; [exact Htr|by intros []].
- eapply refines_protocol; [apply init_finish_refines|]. intros _.
  exists (is_true (config !! cfg_echoEnabled)). intros d _. simpl.
  by rewrite preparation_messages.
Qed.

Lemma program_invariants queries s :
program_state queries s → invariants s ∧ (queries = false → protocol_kept s).
Proof.
induction 1 as [appName appType name userConfig user c h s E|op s s' _ [IH Hp] Hok Hq E].
- destruct (init_made _ _ _ _ _ _ _ _ E) as (ds & tr & Ef & Htr).
  destruct (made_invariants _ _ _ _ _ _ Ef Htr). by split.
- assert (Es : s' = (exec op s).2) by by rewrite E. destruct IH as [Hwf Hb Ht Hc].
  split; [split|].
  + apply (steps_well_formed s s'); [|done]. eapply steps_step; [|apply steps_refl].
    by apply (step_exec op).
  + rewrite Es. by apply exec_brokers.
  + rewrite Es. by apply exec_timer.
  + rewrite Es. eapply calls_are_Forall; [apply exec_clean|done].
  + intros ->. rewrite Es. eapply refines_protocol; [apply exec_refines; [done..|]|by apply Hp].
    intros Hop. by specialize (Hq Hop).
Qed.
End program.

Section properties.
Context `{O : Oracle}.
Implicit Types (s : St).

(** C3. The whole program. In every state of a program that constructs a client and
    then lets its operations run in any order: the media of the client exists; a
    running broker is the current one, of an enabled client with a media, and a timer
    on the run loop is the one the client holds; every message that a delegate has got
    since the construction is clean ([clean_message]: its labels, counter names,
    player names, volume and media length are cleaned or checked); and, if the
    ComScore device identifier is never asked for and the delegates differ, they are a
    sequence that the protocol accepts, from a client that has neither started nor got
    a media. *)
Theorem program_correct queries s :
program_state queries s →
(∀ r, s.(client).(media) = Some r → is_Some (s.(heap) !! r)) ∧
(∀ b, b ∈ running_brokers s.(trace) →
   s.(client).(broker) = Some b ∧ is_Some s.(client).(media) ∧ s.(client).(echoEnabled) = true) ∧
(∀ t, t ∈ live_timers s.(trace) → s.(client).(timer) = Some t) ∧
(∀ d m, ToDelegate d m ∈ s.(trace) → clean_message m) ∧
(queries = false → NoDup s.(client).(delegates) →
 ∃ enabled, ∀ d, d ∈ s.(client).(delegates) →
   proto_run (mkSession enabled false false false) (messages d s.(trace)) =
     Some (session_of s.(client))).
Proof.
intros Hs. destruct (program_invariants queries s Hs) as [[Hwf Hb Ht Hc] Hp].
split_and!; [exact Hwf|exact Hb| | |exact Hp].
- intros t H. apply Ht in H. unfold current_timer in H.
  destruct (timer (client s)); [by apply elem_of_singleton in H as ->|by apply elem_of_empty in H].
- intros d m H. rewrite Forall_forall in Hc. exact (Hc _ H).
Qed.
End properties.

(** ** Witnesses *)
Section witnesses.
#[local] Existing Instances cMediaI cUserI cLabelI cEnumI cConfigI cO.

Lemma program_correct_witness :
let s1 := (init "App" ("mobile-app" : @ApplicationType cEnumI) "home" None alice (cState cClient ∅)).2 in
let s2 := (exec (OpViewEvent "page" None) s1).2 in
Forall (λ c, match c with ToDelegate _ m => clean_message m | _ => True end) s2.(trace).
Proof.
intros s1 s2. apply Forall_forall. intros [] Hin; try exact I. revert Hin.
apply (program_correct false s2). unfold s2, s1.
apply program_exec; [|exact I|done|vm_compute; reflexivity].
apply program_made. vm_compute. reflexivity.
Defined.
End witnesses.
