(* ===== verification/ObjCInterface.v ===== *)
(** * ObjCInterface: the declarations of Objective-C headers.

    The client's delegates talk to three analytics libraries through the
    Objective-C headers in [Libraries]: interfaces, class extensions, protocols,
    enumerations and constants.  This file is a deep embedding of those
    declarations, and of what the language says about them: which methods a
    property declares, which declaration a message resolves to, and which value
    an enumerator has.  The files TrackerHeader, TvOSTrackerHeader, ComScoreHeader
    and SpringHeader hold the declarations themselves. *)

From S2P Require Import Prelude.

(** ** Syntax *)

Inductive Nullability := Nonnull | Nullable | Unspecified.

(** Types: [T_name] is a type without an asterisk ([void], [BOOL], an
    enumeration), [T_ptr] a pointer to an object of a class, with its type
    arguments and protocols. *)
Inductive CType :=
| T_name (name : string)
| T_ptr (cls : string) (args : list CType) (protocols : list string) (n : Nullability)
| T_id (protocols : list string) (n : Nullability)
| T_instancetype (n : Nullability)
| T_block (ret : CType) (args : list CType) (n : Nullability)
| T_ref (t : CType).  (* a pointer to an object pointer, such as [NSError **] *)

Inductive Kind := InstanceMethod | ClassMethod.

Inductive Availability := Available | Unavailable | Deprecated.

(** A part of a selector with its argument: label, type and argument name. *)
Record Part := mkPart { part_label : string; part_type : CType; part_name : string }.

(** [- (ret)label:(type)name ...] or, without parts, [- (ret)base]. *)
Record Method := mkMethod {
  m_kind : Kind;
  m_ret : CType;
  m_base : string;
  m_parts : list Part;
  m_availability : Availability;
  m_designated : bool
}.

Inductive Storage := Strong | Copy | Assign | Weak | Default.

Record Property := mkProperty {
  p_kind : Kind;
  p_readonly : bool;
  p_nonatomic : bool;
  p_storage : Storage;
  p_type : CType;
  p_name : string;
  p_availability : Availability
}.

Inductive Member :=
| Meth (m : Method)
| Prop_ (p : Property)
| Optional (m : Member)
| When (macro : string) (m : Member)      (* [#if macro] *)
| Unless (macro : string) (m : Member).   (* [#ifndef macro] *)

Record Interface := mkInterface {
  i_runtime_name : option string;
  i_name : string;
  i_super : string;
  i_protocols : list string;
  i_members : list Member
}.

(** [@interface Class ()] *)
Record Extension := mkExtension { x_class : string; x_members : list Member }.

Record Protocol := mkProtocol {
  pr_runtime_name : option string;
  pr_name : string;
  pr_protocols : list string;
  pr_members : list Member
}.

(** The enumerators, with their values where the header gives one. *)
Record Enum := mkEnum {
  e_name : string;
  e_type : string;
  e_cases : list (string * option Z)
}.

Inductive Decl :=
| D_interface (i : Interface)
| D_extension (x : Extension)
| D_protocol (p : Protocol)
| D_enum (e : Enum)
| D_extern (t : CType) (name : string)
| D_forward (names : list string)   (* [@class A, B;], [@protocol P;], [enum E : T;] *)
| D_when (macro : string) (d : Decl)
| D_unless (macro : string) (d : Decl).

Definition Header := list Decl.

(** Abbreviations for the declarations. *)
Definition object (cls : string) (n : Nullability) : CType := T_ptr cls [] [] n.
Definition arg (label : string) (t : CType) (name : string) : Part := mkPart label t name.
Definition method (k : Kind) (ret : CType) (base : string) : Member :=
  Meth (mkMethod k ret base [] Available false).
Definition message (k : Kind) (ret : CType) (parts : list Part) : Member :=
  Meth (mkMethod k ret EmptyString parts Available false).
Definition unavailable (m : Member) : Member :=
  match m with
  | Meth m => Meth (mkMethod (m_kind m) (m_ret m) (m_base m) (m_parts m) Unavailable (m_designated m))
  | Prop_ p => Prop_ (mkProperty (p_kind p) (p_readonly p) (p_nonatomic p) (p_storage p) (p_type p)
                         (p_name p) Unavailable)
  | m => m
  end.
Definition deprecated (m : Member) : Member :=
  match m with
  | Meth m => Meth (mkMethod (m_kind m) (m_ret m) (m_base m) (m_parts m) Deprecated (m_designated m))
  | Prop_ p => Prop_ (mkProperty (p_kind p) (p_readonly p) (p_nonatomic p) (p_storage p) (p_type p)
                         (p_name p) Deprecated)
  | m => m
  end.
Definition designated (m : Member) : Member :=
  match m with
  | Meth m => Meth (mkMethod (m_kind m) (m_ret m) (m_base m) (m_parts m) (m_availability m) true)
  | m => m
  end.
Definition property (k : Kind) (readonly nonatomic : bool) (st : Storage) (t : CType)
  (name : string) : Member :=
  Prop_ (mkProperty k readonly nonatomic st t name Available).

(** ** Selectors and accessors *)

Fixpoint parts_selector (l : list Part) : string :=
  match l with
  | [] => EmptyString
  | p :: l' => part_label p +:+ ":" +:+ parts_selector l'
  end.

Definition selector (m : Method) : string :=
  match m_parts m with [] => m_base m | ps => parts_selector ps end.

(** The first character in upper case. *)
Definition capitalised (s : string) : string :=
  match s with
  | EmptyString => EmptyString
  | String c s' =>
      let n := Ascii.nat_of_ascii c in
      String (if (97 <=? n)%nat && (n <=? 122)%nat then Ascii.ascii_of_nat (n - 32) else c) s'
  end.

Definition getter (p : Property) : Method :=
  mkMethod (p_kind p) (p_type p) (p_name p) [] (p_availability p) false.

Definition setter_label (p : Property) : string := "set" +:+ capitalised (p_name p).

Definition setter (p : Property) : Method :=
  mkMethod (p_kind p) (T_name "void") EmptyString
    [mkPart (setter_label p) (p_type p) "value"] (p_availability p) false.

Definition accessors (p : Property) : list Method :=
  if p_readonly p then [getter p] else [getter p; setter p].

(** ** Conditional compilation *)

(** The members and declarations that are compiled with the macros [defs]. *)
Fixpoint compiled_member (defs : list string) (m : Member) : list Member :=
  match m with
  | When c m => if existsb (String.eqb c) defs then compiled_member defs m else []
  | Unless c m => if existsb (String.eqb c) defs then [] else compiled_member defs m
  | m => [m]
  end.

Definition compiled_members (defs : list string) (l : list Member) : list Member :=
  flat_map (compiled_member defs) l.

Fixpoint compiled_decl (defs : list string) (d : Decl) : list Decl :=
  match d with
  | D_when c d => if existsb (String.eqb c) defs then compiled_decl defs d else []
  | D_unless c d => if existsb (String.eqb c) defs then [] else compiled_decl defs d
  | D_interface i =>
      [D_interface (mkInterface (i_runtime_name i) (i_name i) (i_super i) (i_protocols i)
                      (compiled_members defs (i_members i)))]
  | D_extension x => [D_extension (mkExtension (x_class x) (compiled_members defs (x_members x)))]
  | D_protocol p =>
      [D_protocol (mkProtocol (pr_runtime_name p) (pr_name p) (pr_protocols p)
                     (compiled_members defs (pr_members p)))]
  | d => [d]
  end.

Definition compiled (defs : list string) (h : Header) : Header := flat_map (compiled_decl defs) h.

(** ** What a header declares *)

Definition interfaces (h : Header) : list Interface :=
  flat_map (λ d, match d with D_interface i => [i] | _ => [] end) h.
Definition extensions (h : Header) : list Extension :=
  flat_map (λ d, match d with D_extension x => [x] | _ => [] end) h.
Definition protocols (h : Header) : list Protocol :=
  flat_map (λ d, match d with D_protocol p => [p] | _ => [] end) h.
Definition enums (h : Header) : list Enum :=
  flat_map (λ d, match d with D_enum e => [e] | _ => [] end) h.

(** The methods that members declare: explicit ones, then the accessors. *)
Fixpoint explicit_methods (l : list Member) : list Method :=
  match l with
  | [] => []
  | Meth m :: l' => m :: explicit_methods l'
  | _ :: l' => explicit_methods l'
  end.

Definition properties_of (l : list Member) : list Property :=
  flat_map (λ m, match m with Prop_ p => [p] | _ => [] end) l.

Definition methods_of (l : list Member) : list Method :=
  explicit_methods l ++ flat_map accessors (properties_of l).

Definition find_interface (l : list Interface) (c : string) : option Interface :=
  find (λ i, String.eqb (i_name i) c) l.

Definition find_protocol (ps : list Protocol) (p : string) : option Protocol :=
  find (λ q, String.eqb (pr_name q) p) ps.

(** The members of the protocols named in a list; none of the headers has a
    protocol that adopts another of its own. *)
Definition protocol_members (ps : list Protocol) (names : list string) : list Member :=
  flat_map (λ n, match find_protocol ps n with Some p => pr_members p | None => [] end) names.

(** All that the header says about the objects of the class of [i] itself. *)
Definition own_members (h : Header) (i : Interface) : list Member :=
  i_members i ++
  flat_map (λ x, if String.eqb (x_class x) (i_name i) then x_members x else []) (extensions h) ++
  protocol_members (protocols h) (i_protocols i).

Definition kind_eqb (k1 k2 : Kind) : bool :=
  match k1, k2 with
  | InstanceMethod, InstanceMethod | ClassMethod, ClassMethod => true
  | _, _ => false
  end.

Definition answers (k : Kind) (sel : string) (m : Method) : bool :=
  kind_eqb (m_kind m) k && String.eqb (selector m) sel.

Definition find_method (k : Kind) (sel : string) (ms : list Method) : option Method :=
  find (answers k sel) ms.

(** ** Resolution of messages *)

Section resolution.
Variable h : Header.

(** What a class that the header does not declare (a class of Foundation or
  UIKit) answers to a message, by the name of the class. *)
Variable external : string → Kind → string → option Method.

Inductive Resolution := Found (cls : string) (m : Method) | NotFound | OutOfFuel.

(** The declaration that a message to the class [c] (or to its instances)
  resolves to: the class's own, else its superclass's. *)
Fixpoint resolve (fuel : nat) (k : Kind) (c sel : string) : Resolution :=
match fuel with
| O => OutOfFuel
| S fuel =>
    match find_interface (interfaces h) c with
    | None => match external c k sel with Some m => Found c m | None => NotFound end
    | Some i =>
        match find_method k sel (methods_of (own_members h i)) with
        | Some m => Found c m
        | None => resolve fuel k (i_super i) sel
        end
    end
end.

(** The same as a relation: [Resolves k c sel d m] when the message resolves to
  the declaration [m] of the class [d]. *)
Inductive Resolves (k : Kind) : string → string → string → Method → Prop :=
| Resolves_external c sel m :
  find_interface (interfaces h) c = None → external c k sel = Some m → Resolves k c sel c m
| Resolves_own c sel i m :
  find_interface (interfaces h) c = Some i →
  find_method k sel (methods_of (own_members h i)) = Some m → Resolves k c sel c m
| Resolves_super c sel i d m :
  find_interface (interfaces h) c = Some i →
  find_method k sel (methods_of (own_members h i)) = None →
  Resolves k (i_super i) sel d m → Resolves k c sel d m.

(** Classes are declared once and after their superclass, as the compiler asks. *)
Definition declared (l : list Interface) (c : string) : bool :=
match find_interface l c with Some _ => true | None => false end.

Fixpoint supers_first (all before after : list Interface) : bool :=
match after with
| [] => true
| i :: after' =>
    negb (declared before (i_name i)) &&
    (declared before (i_super i) || negb (declared all (i_super i))) &&
    supers_first all (i :: before) after'
end.

Definition hierarchy_ok : bool := supers_first (interfaces h) [] (interfaces h).

(** The number of classes, and the one that is not declared at the root. *)
Definition enough_fuel : nat := S (length (interfaces h)).
End resolution.

(** Types up to nullability, which does not change what a message does. *)
Fixpoint ctype_eqb (t1 t2 : CType) : bool :=
  let all := fix all l1 l2 :=
    match l1, l2 with
    | [], [] => true
    | t1 :: l1, t2 :: l2 => ctype_eqb t1 t2 && all l1 l2
    | _, _ => false
    end in
  match t1, t2 with
  | T_name n1, T_name n2 => String.eqb n1 n2
  | T_ptr c1 a1 p1 _, T_ptr c2 a2 p2 _ =>
      String.eqb c1 c2 && all a1 a2 && bool_decide (p1 = p2)
  | T_id p1 _, T_id p2 _ => bool_decide (p1 = p2)
  | T_instancetype _, T_instancetype _ => true
  | T_block r1 a1 _, T_block r2 a2 _ => ctype_eqb r1 r2 && all a1 a2
  | T_ref t1, T_ref t2 => ctype_eqb t1 t2
  | _, _ => false
  end.

Fixpoint parts_eqb (l1 l2 : list Part) : bool :=
  match l1, l2 with
  | [], [] => true
  | p1 :: l1, p2 :: l2 => ctype_eqb (part_type p1) (part_type p2) && parts_eqb l1 l2
  | _, _ => false
  end.

Definition same_types (m1 m2 : Method) : bool :=
  ctype_eqb (m_ret m1) (m_ret m2) && parts_eqb (m_parts m1) (m_parts m2).

(** ** Enumerations *)

(** An enumerator without a value has the one before it plus one, the first 0. *)
Fixpoint enum_values (next : Z) (l : list (string * option Z)) : list (string * Z) :=
  match l with
  | [] => []
  | (c, Some v) :: l' => (c, v) :: enum_values (v + 1) l'
  | (c, None) :: l' => (c, next) :: enum_values (next + 1) l'
  end.

Definition values (e : Enum) : list (string * Z) := enum_values 0 (e_cases e).

Definition raw_value (e : Enum) (c : string) : option Z :=
  match find (λ cv, String.eqb cv.1 c) (values e) with Some cv => Some cv.2 | None => None end.

Definition case_of_raw (e : Enum) (v : Z) : option string :=
  match find (λ cv, cv.2 =? v) (values e) with Some cv => Some cv.1 | None => None end.

(** Different enumerators have different names and values, and the values fit
    in an [int]. *)
Definition enum_ok (e : Enum) : bool :=
  bool_decide (NoDup (map fst (values e))) && bool_decide (NoDup (map snd (values e))) &&
  forallb (λ cv, (- 2 ^ 31 <=? cv.2) && (cv.2 <? 2 ^ 31)) (values e).

(** ** Lemmas *)

Lemma find_interface_app l1 l2 c :
  find_interface (l1 ++ l2) c =
    match find_interface l1 c with Some i => Some i | None => find_interface l2 c end.
Proof.
  unfold find_interface. induction l1 as [|i l1 IH]; simpl; [done|].
  by destruct (String.eqb (i_name i) c).
Qed.

Lemma declared_true l c : declared l c = true ↔ ∃ i, i ∈ l ∧ i_name i = c.
Proof.
  unfold declared, find_interface. induction l as [|i l IH]; simpl.
  - split; [done|]. by intros (i & H & _); apply elem_of_nil in H.
  - destruct (String.eqb_spec (i_name i) c) as [Heq|Hne].
    + split; [|done]. intros _. exists i. split; [apply list_elem_of_here|done].
    + rewrite IH. split; intros (i' & H & Hi').
      * exists i'. split; [by apply list_elem_of_further|done].
      * apply elem_of_cons in H as [->|H]; [done|]. eauto.
Qed.

Lemma declared_reverse l c : declared (reverse l) c = declared l c.
Proof.
  apply eq_true_iff_eq. rewrite !declared_true. by setoid_rewrite elem_of_reverse.
Qed.

Section resolution_lemmas.
Context (h : Header) (external : string → Kind → string → option Method).
#[local] Abbreviation resolve := (resolve h external).
#[local] Abbreviation all := (interfaces h).

(** With [n] fuel or more, the resolution from [c] does not run out. *)
Definition settles (n : nat) (c : string) : Prop :=
∀ fuel k sel, (n ≤ fuel)%nat → resolve fuel k c sel ≠ OutOfFuel.

Lemma settles_external c : declared all c = false → settles 1 c.
Proof.
unfold declared. intros Hc [|fuel] k sel Hn; [lia|]. simpl.
destruct (find_interface all c); [done|]. by destruct (external c k sel).
Qed.

Lemma settles_super n c i :
find_interface all c = Some i → settles n (i_super i) → settles (S n) c.
Proof.
intros Hc Hs [|fuel] k sel Hn; [lia|]. simpl. rewrite Hc.
destruct (find_method k sel _); [done|]. apply Hs. lia.
Qed.

Lemma settles_mono n n' c : (n ≤ n')%nat → settles n c → settles n' c.
Proof. intros Hn H fuel k sel Hf. apply H. lia. Qed.

Lemma supers_first_settles before after :
all = reverse before ++ after → supers_first all before after = true →
(∀ c, declared before c = true → settles (S (length before)) c) →
∀ c, declared all c = true → settles (S (length all)) c.
Proof.
revert before. induction after as [|i after IH]; intros before Hall Hok Hb c Hc.
- rewrite app_nil_r in Hall. rewrite Hall, length_reverse. apply Hb.
  by rewrite <- declared_reverse, <- Hall.
- simpl in Hok. apply andb_true_iff in Hok as [Hok Hrest].
  apply andb_true_iff in Hok as [Hnew Hsuper].
  apply (IH (i :: before)); [|done| |done].
  { by rewrite reverse_cons, <- app_assoc. }
  assert (Hi : find_interface all (i_name i) = Some i).
  { apply negb_true_iff in Hnew. rewrite <- declared_reverse in Hnew. unfold declared in Hnew.
    rewrite Hall, find_interface_app.
    destruct (find_interface (reverse before) (i_name i)); [done|].
    unfold find_interface. simpl. by rewrite String.eqb_refl. }
  intros c' (j & Hj & <-)%declared_true. simpl.
  apply elem_of_cons in Hj as [->|Hj].
  + apply (settles_super _ _ i); [done|].
    apply orb_true_iff in Hsuper as [Hs|Hs]; [by apply Hb|].
    apply (settles_mono 1); [lia|]. by apply settles_external, negb_true_iff.
  + apply (settles_mono (S (length before))); [lia|]. apply Hb, declared_true. eauto.
Qed.

Lemma resolve_settles k c sel :
hierarchy_ok h = true → resolve (enough_fuel h) k c sel ≠ OutOfFuel.
Proof.
intros Hok. destruct (declared all c) eqn:Hc.
- apply (supers_first_settles [] all); [done|exact Hok| |done|done]. done.
- apply (settles_external c Hc). unfold enough_fuel. lia.
Qed.

Lemma resolve_sound fuel k c sel d m :
resolve fuel k c sel = Found d m → Resolves h external k c sel d m.
Proof.
revert c. induction fuel as [|fuel IH]; intros c; simpl; [done|].
destruct (find_interface all c) as [i|] eqn:Hc.
- destruct (find_method k sel _) as [m'|] eqn:Hm; intros E.
  + simplify_eq. by eapply Resolves_own.
  + eapply Resolves_super; eauto.
- destruct (external c k sel) eqn:He; intros E; simplify_eq. by apply Resolves_external.
Qed.

Lemma resolve_complete fuel k c sel d m :
Resolves h external k c sel d m → resolve fuel k c sel ≠ OutOfFuel →
resolve fuel k c sel = Found d m.
Proof.
intros HR. revert fuel. induction HR as [c sel m Hc He|c sel i m Hc Hm|c sel i d m Hc Hm _ IH];
  intros [|fuel] Hf; try done; simpl in *; rewrite Hc in *.
- by rewrite He.
- by rewrite Hm.
- rewrite Hm in *. by apply IH.
Qed.

Lemma resolve_more_fuel fuel fuel' k c sel :
(fuel ≤ fuel')%nat → resolve fuel k c sel ≠ OutOfFuel →
resolve fuel' k c sel = resolve fuel k c sel.
Proof.
revert fuel' c. induction fuel as [|fuel IH]; intros [|fuel'] c Hle Hf; try done; [lia|].
simpl in *. destruct (find_interface all c) as [i|]; [|done].
destruct (find_method k sel _); [done|]. apply IH; [lia|done].
Qed.
End resolution_lemmas.

(** ** Round trips of enumerators *)
Lemma find_key {A B} (eqb : B → B → bool) (f : A → B) (l : list A) (x : A) :
  (∀ b1 b2, eqb b1 b2 = true ↔ b1 = b2) → NoDup (map f l) → x ∈ l →
  find (λ y, eqb (f y) (f x)) l = Some x.
Proof.
  intros Heq. induction l as [|y l IH]; simpl; intros Hnd Hx; [by apply elem_of_nil in Hx|].
  apply NoDup_cons in Hnd as [Hy Hnd]. apply elem_of_cons in Hx as [->|Hx].
  - by rewrite (proj2 (Heq _ _)).
  - destruct (eqb (f y) (f x)) eqn:E; [|by apply IH].
    apply Heq in E. destruct Hy. rewrite E. by apply list_elem_of_fmap_2.
Qed.

Lemma find_key_Some {A B} (eqb : B → B → bool) (f : A → B) (l : list A) (x : A) (b : B) :
  (∀ b1 b2, eqb b1 b2 = true ↔ b1 = b2) →
  find (λ y, eqb (f y) b) l = Some x → x ∈ l ∧ f x = b.
Proof.
  intros Heq H. apply find_some in H as [Hin E].
  split; [by apply list_elem_of_In|by apply Heq].
Qed.

Lemma raw_value_spec e c v : enum_ok e = true → raw_value e c = Some v ↔ (c, v) ∈ values e.
Proof.
  unfold enum_ok. rewrite !andb_true_iff, !bool_decide_eq_true. intros [[Hn _] _].
  unfold raw_value. split.
  - destruct (find _ _) as [[c' v']|] eqn:E; [|done]. intros; simplify_eq/=.
    by apply (find_key_Some String.eqb fst _ (c', v) c String.eqb_eq) in E as [Hin ?]; simplify_eq/=.
  - intros Hin. pose proof (find_key String.eqb fst _ (c, v) String.eqb_eq Hn Hin) as E.
    simpl in E. by rewrite E.
Qed.

Lemma case_of_raw_spec e c v : enum_ok e = true → case_of_raw e v = Some c ↔ (c, v) ∈ values e.
Proof.
  unfold enum_ok. rewrite !andb_true_iff, !bool_decide_eq_true. intros [[_ Hn] _].
  unfold case_of_raw. split.
  - destruct (find _ _) as [[c' v']|] eqn:E; [|done]. intros; simplify_eq/=.
    by apply (find_key_Some Z.eqb snd _ (c, v') v Z.eqb_eq) in E as [Hin ?]; simplify_eq/=.
  - intros Hin. pose proof (find_key Z.eqb snd _ (c, v) Z.eqb_eq Hn Hin) as E.
    simpl in E. by rewrite E.
Qed.
