(* ===== verification/ObjCScope.v ===== *)
(** * ObjCScope: the names that declarations use.

    A declaration of a header uses names: of the superclass, of the adopted
    protocols, and in the types of its members.  The compiler asks that the class of
    an extension, a superclass and an adopted protocol are defined before, and that
    every other name is at least announced before ([@class], [@protocol], [enum]),
    unless it comes from the system.  This file says so, with a checker for it. *)

From S2P Require Import Prelude ObjCInterface.

(** ** Names *)

Fixpoint type_names (t : CType) : list string :=
  let all := fix all (l : list CType) : list string :=
    match l with [] => [] | t :: l => type_names t ++ all l end in
  match t with
  | T_name n => [n]
  | T_ptr c args ps _ => c :: all args ++ ps
  | T_id ps _ => ps
  | T_instancetype _ => []
  | T_block r args _ => type_names r ++ all args
  | T_ref t => type_names t
  end.

Definition method_names (m : Method) : list string :=
  type_names (m_ret m) ++ flat_map (λ p, type_names (part_type p)) (m_parts m).

Fixpoint member_names (m : Member) : list string :=
  match m with
  | Meth m => method_names m
  | Prop_ p => type_names (p_type p)
  | Optional m | When _ m | Unless _ m => member_names m
  end.

(** The names that must be defined before the declaration. *)
Fixpoint needs (d : Decl) : list string :=
  match d with
  | D_interface i => i_super i :: i_protocols i
  | D_extension x => [x_class x]
  | D_protocol p => pr_protocols p
  | D_when _ d | D_unless _ d => needs d
  | _ => []
  end.

(** The names that must be announced. *)
Fixpoint mentions (d : Decl) : list string :=
  match d with
  | D_interface i => flat_map member_names (i_members i)
  | D_extension x => flat_map member_names (x_members x)
  | D_protocol p => flat_map member_names (pr_members p)
  | D_enum e => [e_type e]
  | D_extern t _ => type_names t
  | D_forward _ => []
  | D_when _ d | D_unless _ d => mentions d
  end.

(** The names that the declaration defines, and those that it announces. *)
Fixpoint defines (d : Decl) : list string :=
  match d with
  | D_interface i => [i_name i]
  | D_protocol p => [pr_name p]
  | D_enum e => [e_name e]
  | D_when _ d | D_unless _ d => defines d
  | _ => []
  end.

Fixpoint announces (d : Decl) : list string :=
  match d with
  | D_forward ns => ns
  | D_when _ d | D_unless _ d => announces d
  | d => defines d
  end.

(** ** Scope *)
Section scope.
Variable system : list string.

(** What the compiler asks of a declaration that follows others, and of declarations
    that follow others. *)
Definition usable (before : Header) (d : Decl) : Prop :=
  (∀ n, n ∈ needs d → n ∈ system ∨ ∃ d', d' ∈ before ∧ n ∈ defines d') ∧
  (∀ n, n ∈ mentions d → n ∈ system ∨ ∃ d', d' ∈ before ++ [d] ∧ n ∈ announces d').

Definition in_scope_after (before h : Header) : Prop :=
  ∀ pre d post, h = pre ++ d :: post → usable (before ++ pre) d.

Definition in_scope : Header → Prop := in_scope_after [].

Definition known (l : list string) (n : string) : bool := existsb (String.eqb n) l.

(** The checker, with the names defined and announced so far. *)
Fixpoint scope_check (defined announced : list string) (h : Header) : bool :=
  match h with
  | [] => true
  | d :: h =>
      let announced' := announces d ++ announced in
      forallb (λ n, known system n || known defined n) (needs d) &&
      forallb (λ n, known system n || known announced' n) (mentions d) &&
      scope_check (defines d ++ defined) announced' h
  end.

(** ** Lemmas *)

Lemma in_scope_after_nil before : in_scope_after before [].
Proof. by intros []. Qed.

Lemma in_scope_after_cons before d h :
  in_scope_after before (d :: h) ↔ usable before d ∧ in_scope_after (before ++ [d]) h.
Proof.
  split.
  - intros H. split; [rewrite <- (app_nil_r before); by eapply (H [])|].
    intros pre d' post ->. rewrite <- app_assoc. by eapply (H (d :: pre)).
  - intros [Hd Hh] [|d1 pre] d' post E; injection E as -> E.
    + by rewrite app_nil_r.
    + specialize (Hh pre d' post E). by rewrite <- app_assoc in Hh.
Qed.

Lemma in_scope_after_app before h1 h2 :
  in_scope_after before (h1 ++ h2) ↔
  in_scope_after before h1 ∧ in_scope_after (before ++ h1) h2.
Proof.
  revert before. induction h1 as [|d h1 IH]; intros before; simpl.
  - rewrite app_nil_r. pose proof (in_scope_after_nil before). tauto.
  - rewrite !in_scope_after_cons, IH, <- app_assoc. simpl. tauto.
Qed.

Lemma known_spec l n : known l n = true ↔ n ∈ l.
Proof.
  unfold known. rewrite existsb_exists. split.
  - intros (x & Hx & E). apply String.eqb_eq in E as ->. by apply list_elem_of_In.
  - intros Hn. exists n. split; [by apply list_elem_of_In|apply String.eqb_refl].
Qed.

Lemma known_either l1 l2 ns :
  forallb (λ n, known l1 n || known l2 n) ns = true ↔ ∀ n, n ∈ ns → n ∈ l1 ∨ n ∈ l2.
Proof.
  rewrite forallb_forall. setoid_rewrite <- list_elem_of_In.
  by setoid_rewrite orb_true_iff; setoid_rewrite known_spec.
Qed.

(** [l] holds names, or all names, that the declarations before give. *)
Definition given (names : Decl → list string) (before : Header) (n : string) : Prop :=
  ∃ d, d ∈ before ∧ n ∈ names d.

Lemma given_snoc names before d n :
  given names (before ++ [d]) n ↔ n ∈ names d ∨ given names before n.
Proof.
  unfold given. setoid_rewrite elem_of_app. setoid_rewrite list_elem_of_singleton.
  naive_solver.
Qed.

Lemma scope_check_ok before h defined announced :
  (∀ n, n ∈ defined → given defines before n) →
  (∀ n, n ∈ announced → given announces before n) →
  scope_check defined announced h = true → in_scope_after before h.
Proof.
  revert before defined announced.
  induction h as [|d h IH]; intros before defined announced Hd Ha Hok; [apply in_scope_after_nil|].
  simpl in Hok. rewrite !andb_true_iff, !known_either in Hok. destruct Hok as [[Hn Hm] Hok].
  assert (Ha' : ∀ n, n ∈ announces d ++ announced → given announces (before ++ [d]) n)
    by (intros n [?|?]%elem_of_app; apply given_snoc; auto).
  apply in_scope_after_cons. split; [split|].
  - intros n [?|?]%Hn; [by left|right; by apply Hd].
  - intros n [?|?]%Hm; [by left|right; by apply Ha'].
  - eapply IH; [|exact Ha'|exact Hok].
    intros n [?|?]%elem_of_app; apply given_snoc; auto.
Qed.

Lemma scope_check_complete before h defined announced :
  (∀ n, given defines before n → n ∈ defined) →
  (∀ n, given announces before n → n ∈ announced) →
  in_scope_after before h → scope_check defined announced h = true.
Proof.
  revert before defined announced.
  induction h as [|d h IH]; intros before defined announced Hd Ha Hok; [done|].
  apply in_scope_after_cons in Hok as [[Hn Hm] Hok].
  assert (Ha' : ∀ n, given announces (before ++ [d]) n → n ∈ announces d ++ announced)
    by (intros n [?|?]%given_snoc; apply elem_of_app; auto).
  simpl. rewrite !andb_true_iff, !known_either. split_and!.
  - intros n [?|?]%Hn; [by left|right; by apply Hd].
  - intros n [?|?]%Hm; [by left|right; by apply Ha'].
  - eapply IH; [|exact Ha'|exact Hok].
    intros n [?|?]%given_snoc; apply elem_of_app; auto.
Qed.

Lemma scope_check_spec h : scope_check [] [] h = true ↔ in_scope h.
Proof.
  split.
  - apply scope_check_ok; by intros n ?%elem_of_nil.
  - apply scope_check_complete; by intros n (d & ?%elem_of_nil & _).
Qed.
End scope.

(** ** Conditional compilation

    Leaving out members, as the preprocessor does, keeps the rest in scope; leaving
    out whole declarations need not. *)
Definition unconditional : Header → bool :=
  forallb (λ d, match d with D_when _ _ | D_unless _ _ => false | _ => true end).

Lemma compiled_member_names defs m n :
  n ∈ flat_map member_names (compiled_member defs m) → n ∈ member_names m.
Proof.
  induction m as [m|p|m _|c m IH|c m IH]; simpl; rewrite ?app_nil_r; auto;
    destruct (existsb (String.eqb c) defs); simpl; auto; by intros ?%elem_of_nil.
Qed.

Lemma compiled_members_names defs l n :
  n ∈ flat_map member_names (compiled_members defs l) → n ∈ flat_map member_names l.
Proof.
  unfold compiled_members. induction l as [|m l IH]; simpl; [done|].
  rewrite flat_map_app, !elem_of_app. intros [H|H]; [left; by eapply compiled_member_names|auto].
Qed.

Lemma compiled_in_scope system defs h :
  unconditional h = true → in_scope system h → in_scope system (compiled defs h).
Proof.
  rewrite <- !scope_check_spec. generalize (@nil string) at 1 3. generalize (@nil string).
  induction h as [|d h IH]; intros announced defined; [done|].
  assert (Hone : ∀ d', compiled_decl defs d = [d'] → needs d' = needs d → defines d' = defines d →
    announces d' = announces d → (∀ n, n ∈ mentions d' → n ∈ mentions d) →
    unconditional h = true → scope_check system defined announced (d :: h) = true →
    scope_check system defined announced (compiled defs (d :: h)) = true).
  { intros d' Ed En Ef Ea Em Hu. unfold compiled. simpl. rewrite Ed. simpl. rewrite En, Ef, Ea.
    rewrite !andb_true_iff, !known_either. intros [[? ?] ?]. split_and!; auto. }
  destruct d as [i|x|p|e|t n|ns|c d|c d]; simpl unconditional; intros Hu; try done;
    (eapply Hone; [reflexivity|try reflexivity..|exact Hu]); try done;
    apply compiled_members_names.
Qed.
