(* ===== verification/ObjCImport.v ===== *)
(** * ObjCImport: what [#import] makes of a set of header files.

    A header file imports others before its own declarations, and [#import] includes
    a file once.  [import] computes the files of a translation unit in the order in
    which the compiler sees their declarations; it takes fuel, because nothing in
    the syntax keeps files from importing each other in a circle. *)

From S2P Require Import Prelude ObjCInterface.

Record HeaderFile := mkFile {
  f_name : string;
  f_imports : list string;
  f_decls : Header
}.

Section import.
Variable files : list HeaderFile.

Definition find_file (n : string) : option HeaderFile :=
  find (λ f, String.eqb (f_name f) n) files.

(** The files seen so far, in progress or done, and those done, in order. *)
Definition Progress : Type := list string * list HeaderFile.

Fixpoint import_all (one : string → Progress → option Progress) (l : list string)
  (st : Progress) : option Progress :=
  match l with
  | [] => Some st
  | n :: l' => match one n st with Some st' => import_all one l' st' | None => None end
  end.

(** A file that is not among [files] is a header of the system. *)
Fixpoint import (fuel : nat) (n : string) (st : Progress) : option Progress :=
  match fuel with
  | O => None
  | S fuel =>
      if existsb (String.eqb n) st.1 then Some st
      else match find_file n with
      | None => Some st
      | Some f =>
          match import_all (import fuel) (f_imports f) (n :: st.1, st.2) with
          | Some (seen, done) => Some (seen, done ++ [f])
          | None => None
          end
      end
  end.

(** The translation unit of a file, and its declarations. *)
Definition unit_of (n : string) : option (list HeaderFile) :=
  match import (S (length files)) n ([], []) with Some (_, done) => Some done | None => None end.

Definition declarations (unit : list HeaderFile) : Header := flat_map f_decls unit.

(** The files that a file imports, directly or not. *)
Inductive Reaches : string → string → Prop :=
| Reaches_self n f : find_file n = Some f → Reaches n n
| Reaches_import n f i m :
    find_file n = Some f → i ∈ f_imports f → Reaches i m → Reaches n m.

(** ** Termination *)

(** The number of files that have not been seen. *)
Definition unseen (seen : list string) : nat :=
  length (filter (λ f, f_name f ∉ seen) files).

Lemma find_file_Some n f : find_file n = Some f → f ∈ files ∧ f_name f = n.
Proof.
  unfold find_file. intros H. apply find_some in H as [H E].
  split; [by apply list_elem_of_In|by apply String.eqb_eq].
Qed.

Lemma seen_spec n seen : existsb (String.eqb n) seen = true ↔ n ∈ seen.
Proof.
  rewrite existsb_exists. split.
  - intros (x & Hx & E). apply String.eqb_eq in E as ->. by apply list_elem_of_In.
  - intros Hn. exists n. split; [by apply list_elem_of_In|apply String.eqb_refl].
Qed.

Lemma unseen_mono seen seen' : seen ⊆ seen' → (unseen seen' ≤ unseen seen)%nat.
Proof. intros H. apply length_filter_impl. intros f Hf Hin. by apply Hf, H. Qed.

Lemma unseen_new n seen f :
  find_file n = Some f → n ∉ seen → (unseen (n :: seen) < unseen seen)%nat.
Proof.
  intros [Hin <-]%find_file_Some Hn. unfold unseen.
  apply list_elem_of_split in Hin as (l1 & l2 & ->). rewrite !filter_app, !length_app.
  rewrite filter_cons_False by (intros H; apply H, list_elem_of_here).
  rewrite filter_cons_True by done. simpl.
  assert (Himp : ∀ g, f_name g ∉ f_name f :: seen → f_name g ∉ seen)
    by (intros g [_ H]%not_elem_of_cons; exact H).
  pose proof (length_filter_impl _ _ l1 Himp). pose proof (length_filter_impl _ _ l2 Himp). lia.
Qed.

(** ** What an import adds

    Between two states of progress, files are added once, which were not seen, and
    which [from] reaches; what they import has been seen. *)
Definition adds (from : string → Prop) (st st' : Progress) : Prop :=
  ∃ new, st'.2 = st.2 ++ new ∧ NoDup (map f_name new) ∧
    (∀ x, x ∈ map f_name new → x ∉ st.1) ∧
    (∀ x, x ∈ st'.1 ↔ x ∈ st.1 ∨ x ∈ map f_name new) ∧
    (∀ f, f ∈ new → find_file (f_name f) = Some f ∧ from (f_name f) ∧
       ∀ i, i ∈ f_imports f → is_Some (find_file i) → i ∈ st'.1).

Lemma adds_nothing from st : adds from st st.
Proof.
  exists []. split_and!; [by rewrite app_nil_r|constructor|by intros ? ?%elem_of_nil| |by intros ? ?%elem_of_nil].
  intros x. split; [by left|by intros [?|?%elem_of_nil]].
Qed.

Lemma adds_trans from st1 st2 st3 : adds from st1 st2 → adds from st2 st3 → adds from st1 st3.
Proof.
  intros (n1 & E1 & D1 & F1 & S1 & C1) (n2 & E2 & D2 & F2 & S2 & C2).
  exists (n1 ++ n2). rewrite map_app. split_and!.
  - by rewrite E2, E1, app_assoc.
  - apply NoDup_app. split_and!; [done| |done]. intros x H1 H2. apply (F2 x H2), S1. by right.
  - intros x [H|H]%elem_of_app; [by apply F1|]. intros Hx. apply (F2 x H), S1. by left.
  - intros x. rewrite S2, S1, elem_of_app. tauto.
  - intros f [H|H]%elem_of_app; [|by apply C2].
    destruct (C1 f H) as (Hf & Hr & Hi). split_and!; [done..|]. intros i Hin Hs.
    apply S2. left. by apply Hi.
Qed.

Lemma adds_weaken (from from' : string → Prop) st st' :
  (∀ x, from x → from' x) → adds from st st' → adds from' st st'.
Proof.
  intros Hw (new & E & D & F & S & C). exists new. split_and!; [done..|].
  intros f Hf. destruct (C f Hf) as (? & ? & ?). split_and!; auto.
Qed.
Lemma adds_seen from st st' x : adds from st st' → x ∈ st.1 → x ∈ st'.1.
Proof. intros (new & _ & _ & _ & S & _) Hx. apply S. by left. Qed.

(** What a list of imports does, when each import adds what it reaches. *)
Lemma import_all_adds one fuel from l st :
  (∀ n st, n ∈ l → (unseen st.1 < fuel)%nat →
     ∃ st', one n st = Some st' ∧ adds from st st' ∧ (is_Some (find_file n) → n ∈ st'.1)) →
  (unseen st.1 < fuel)%nat →
  ∃ st', import_all one l st = Some st' ∧ adds from st st' ∧
    ∀ i, i ∈ l → is_Some (find_file i) → i ∈ st'.1.
Proof.
  revert st. induction l as [|n l IH]; intros st Hone Hf; simpl.
  { exists st. split_and!; [done|apply adds_nothing|by intros i ?%elem_of_nil]. }
  destruct (Hone n st) as (st1 & -> & H1 & Hn); [apply list_elem_of_here|done|].
  destruct (IH st1) as (st2 & -> & H2 & Hl).
  - intros i st' Hi. apply Hone. by apply list_elem_of_further.
  - eapply Nat.le_lt_trans; [|exact Hf]. apply unseen_mono. intros x. by eapply adds_seen.
  - exists st2. split_and!; [done|by eapply adds_trans|].
    intros i [->|Hi]%elem_of_cons Hs; [eapply adds_seen; [exact H2|by apply Hn]|by apply Hl].
Qed.

Lemma import_adds fuel n st :
  (unseen st.1 < fuel)%nat →
  ∃ st', import fuel n st = Some st' ∧ adds (Reaches n) st st' ∧
    (is_Some (find_file n) → n ∈ st'.1).
Proof.
  revert n st. induction fuel as [|fuel IH]; intros n [seen done_] Hf; [lia|]. simpl in *.
  destruct (existsb (String.eqb n) seen) eqn:E.
  { apply seen_spec in E. exists (seen, done_). split_and!; [done|apply adds_nothing|done]. }
  assert (Hn : n ∉ seen) by (rewrite <- seen_spec; congruence).
  destruct (find_file n) as [f|] eqn:Ef.
  2:{ exists (seen, done_). split_and!; [done|apply adds_nothing|by intros [? ?]]. }
  pose proof (unseen_new n seen f Ef Hn) as Hu.
  destruct (import_all_adds (import fuel) fuel (Reaches n) (f_imports f) (n :: seen, done_))
    as ([seen' done'] & -> & (new & E' & D & F & S & C) & Hl); [|simpl; lia|].
  { intros i st' Hi Hf'. destruct (IH i st' Hf') as (st'' & Ei & Ha & Hs).
    exists st''. split_and!; [done| |done]. eapply adds_weaken; [|exact Ha].
    intros x. by eapply Reaches_import. }
  simpl in *. destruct (find_file_Some n f Ef) as [_ Hname]. subst done'.
  exists (seen', done_ ++ new ++ [f]). split_and!.
  - by rewrite app_assoc.
  - exists (new ++ [f]). rewrite map_app. simpl. rewrite Hname. split_and!; [done|..].
    + apply NoDup_app. split_and!; [done| |apply NoDup_singleton].
      intros x Hx ->%list_elem_of_singleton. apply (F n Hx), list_elem_of_here.
    + intros x [Hx| ->%list_elem_of_singleton]%elem_of_app; [|done].
      intros Hs. apply (F x Hx). by apply list_elem_of_further.
    + intros x. simpl. rewrite S, elem_of_app, list_elem_of_singleton, elem_of_cons. tauto.
    + intros g [Hg| ->%list_elem_of_singleton]%elem_of_app; [by apply C|].
      rewrite Hname. split_and!; [done|by eapply Reaches_self|]. intros i Hi Hs. by apply Hl.
  - intros _. simpl. apply S. left. apply list_elem_of_here.
Qed.

Lemma unseen_all : (unseen [] < S (length files))%nat.
Proof. unfold unseen. pose proof (length_filter (λ f, f_name f ∉ []) files). lia. Qed.

(** The translation unit of a file holds, once each, the files that it reaches. *)
Lemma unit_of_correct n f :
  find_file n = Some f →
  ∃ unit, unit_of n = Some unit ∧ NoDup (map f_name unit) ∧
    (∀ x, x ∈ map f_name unit ↔ Reaches n x) ∧
    ∀ g, g ∈ unit → find_file (f_name g) = Some g.
Proof.
  intros Ef. destruct (import_adds (S (length files)) n ([], []) unseen_all)
    as ([seen unit] & E & (new & E' & D & _ & S & C) & Hn).
  unfold unit_of. rewrite E. clear E. simpl in *. subst new. exists unit. split_and!; [done..| |by apply C].
  assert (Hseen : ∀ x, x ∈ seen ↔ x ∈ map f_name unit)
    by (intros x; rewrite S; split; [by intros [?%elem_of_nil|?]|by right]).
  intros x. split.
  - intros (g & -> & Hg)%list_elem_of_fmap. by apply C.
  - assert (H : ∀ m, Reaches m x → m ∈ map f_name unit → x ∈ map f_name unit).
    { clear Hn Ef. induction 1 as [m g _|m g i x Hg Hi Hr IH]; intros Hm; [done|].
      apply IH, Hseen. apply list_elem_of_fmap in Hm as (g' & -> & Hg').
      destruct (C g' Hg') as (Hf & _ & Hi'). rewrite Hg in Hf. injection Hf as <-.
      apply Hi'; [done|]. by destruct Hr; eexists. }
    intros Hr. apply (H n Hr), Hseen, Hn. by eexists.
Qed.
End import.
