(* ===== verification/TrackerArmv7Header.v ===== *)
(** * TrackerArmv7Header: the AT Internet tracker for iOS, for armv7.

    The second slice of [Libraries/Tracker.framework/Headers/Tracker-Swift.h], which
    the preprocessor selects by the architecture. *)

From S2P Require Import Prelude ObjCInterface.

Definition ATInternet : Interface :=
  mkInterface (Some "_TtC7Tracker10ATInternet") "ATInternet" "NSObject" [] [
  property InstanceMethod true true Strong (object "Tracker" Nonnull) "defaultTracker";
  unavailable (method InstanceMethod (T_instancetype Nonnull) "init");
  unavailable (method ClassMethod (T_instancetype Nonnull) "new");
  property ClassMethod true true Strong (object "ATInternet" Nonnull) "sharedInstance";
  method ClassMethod (object "ATInternet" Nonnull) "sharedInstance";
  message InstanceMethod (object "Tracker" Nonnull) [arg "tracker" (object "NSString" Nonnull)
      "name"];
  property ClassMethod false true Copy (object "NSURL" Nonnull) "databaseDirectory";
  method ClassMethod (object "NSURL" Nonnull) "databaseDirectory";
  message ClassMethod (T_name "void") [arg "setDatabaseDirectory" (object "NSURL" Nonnull)
      "newValue"];
  property ClassMethod false true Default (T_name "BOOL") "optOut";
  method ClassMethod (T_name "BOOL") "optOut";
  message ClassMethod (T_name "void") [arg "setOptOut" (T_name "BOOL") "newValue"];
  property ClassMethod false true Default (T_name "BOOL") "preventICloudSync";
  method ClassMethod (T_name "BOOL") "preventICloudSync";
  message ClassMethod (T_name "void") [arg "setPreventICloudSync" (T_name "BOOL") "value"];
  message InstanceMethod (object "Tracker" Nonnull) [arg "tracker" (object "NSString" Nonnull)
      "name"; arg "configuration" (T_ptr "NSDictionary" [object "NSString" Unspecified; object
      "NSString" Unspecified] [] Nonnull) "configuration"]].

Definition ATReachability : Interface :=
  mkInterface (Some "_TtC7Tracker14ATReachability") "ATReachability" "NSObject" [] [
  property InstanceMethod true true Copy (object "NSString" Nonnull) "description";
  unavailable (method InstanceMethod (T_instancetype Nonnull) "init");
  unavailable (method ClassMethod (T_instancetype Nonnull) "new")].

Definition BusinessObject : Interface :=
  mkInterface (Some "_TtC7Tracker14BusinessObject") "BusinessObject" "NSObject" [] [
  unavailable (method InstanceMethod (T_instancetype Nonnull) "init");
  unavailable (method ClassMethod (T_instancetype Nonnull) "new")].

Definition AbstractScreen : Interface :=
  mkInterface (Some "_TtC7Tracker14AbstractScreen") "AbstractScreen" "BusinessObject" [] [
  property InstanceMethod false true Default (T_name "ScreenAction") "action";
  property InstanceMethod false true Default (T_name "BOOL") "isBasketScreen";
  property InstanceMethod false true Strong (object "CustomObjects" Nonnull) "customObjects";
  property InstanceMethod false true Strong (object "CustomVars" Nonnull) "customVars";
  property InstanceMethod false true Strong (object "Aisle" Nullable) "aisle";
  property InstanceMethod false true Strong (object "CustomTreeStructure" Nullable)
      "customTreeStructure";
  property InstanceMethod false true Strong (object "PublisherImpressions" Nonnull) "publishers";
  property InstanceMethod false true Strong (object "SelfPromotionImpressions" Nonnull)
      "selfPromotions";
  property InstanceMethod false true Strong (object "Location" Nullable) "location";
  property InstanceMethod false true Strong (object "Campaign" Nullable) "campaign";
  property InstanceMethod false true Strong (object "InternalSearch" Nullable) "internalSearch";
  property InstanceMethod false true Strong (object "Order" Nullable) "order";
  property InstanceMethod false true Strong (object "Cart" Nullable) "cart";
  method InstanceMethod (T_name "void") "sendView"].

Definition ScreenAction : Enum :=
  mkEnum "ScreenAction" "NSInteger" [
  ("ScreenActionView", Some 0)].

Definition Event : Interface :=
  mkInterface (Some "_TtC7Tracker5Event") "Event" "NSObject" [] [
  property InstanceMethod false true Copy (object "NSString" Nonnull) "type";
  unavailable (method InstanceMethod (T_instancetype Nonnull) "init");
  unavailable (method ClassMethod (T_instancetype Nonnull) "new")].

Definition AddProduct : Interface :=
  mkInterface (Some "_TtC7Tracker10AddProduct") "AddProduct" "Event" [] [
  property InstanceMethod false true Strong (object "ECommerceProduct" Nonnull) "product";
  property InstanceMethod false true Strong (object "ECommerceCart" Nonnull) "cart"].

Definition EventsHelper : Interface :=
  mkInterface (Some "_TtC7Tracker12EventsHelper") "EventsHelper" "NSObject" [] [
  unavailable (method InstanceMethod (T_instancetype Nonnull) "init");
  unavailable (method ClassMethod (T_instancetype Nonnull) "new")].

Definition AddProducts : Interface :=
  mkInterface (Some "_TtC7Tracker11AddProducts") "AddProducts" "EventsHelper" [] [
  method InstanceMethod (object "AddProduct" Nonnull) "add"].

Definition ScreenInfo : Interface :=
  mkInterface (Some "_TtC7Tracker10ScreenInfo") "ScreenInfo" "BusinessObject" [] [].

Definition Aisle : Interface :=
  mkInterface (Some "_TtC7Tracker5Aisle") "Aisle" "ScreenInfo" [] [
  property InstanceMethod false true Copy (object "NSString" Nullable) "level1";
  property InstanceMethod false true Copy (object "NSString" Nullable) "level2";
  property InstanceMethod false true Copy (object "NSString" Nullable) "level3";
  property InstanceMethod false true Copy (object "NSString" Nullable) "level4";
  property InstanceMethod false true Copy (object "NSString" Nullable) "level5";
  property InstanceMethod false true Copy (object "NSString" Nullable) "level6";
  designated (message InstanceMethod (T_instancetype Nonnull) [arg "initWithLevel1" (object
      "NSString" Nonnull) "level1"]);
  message InstanceMethod (T_instancetype Nonnull) [arg "initWithLevel1" (object "NSString"
      Nonnull) "level1"; arg "level2" (object "NSString" Nonnull) "level2"];
  message InstanceMethod (T_instancetype Nonnull) [arg "initWithLevel1" (object "NSString"
      Nonnull) "level1"; arg "level2" (object "NSString" Nonnull) "level2"; arg "level3" (object
      "NSString" Nonnull) "level3"];
  message InstanceMethod (T_instancetype Nonnull) [arg "initWithLevel1" (object "NSString"
      Nonnull) "level1"; arg "level2" (object "NSString" Nonnull) "level2"; arg "level3" (object
      "NSString" Nonnull) "level3"; arg "level4" (object "NSString" Nonnull) "level4"];
  message InstanceMethod (T_instancetype Nonnull) [arg "initWithLevel1" (object "NSString"
      Nonnull) "level1"; arg "level2" (object "NSString" Nonnull) "level2"; arg "level3" (object
      "NSString" Nonnull) "level3"; arg "level4" (object "NSString" Nonnull) "level4"; arg
      "level5" (object "NSString" Nonnull) "level5"];
  message InstanceMethod (T_instancetype Nonnull) [arg "initWithLevel1" (object "NSString"
      Nonnull) "level1"; arg "level2" (object "NSString" Nonnull) "level2"; arg "level3" (object
      "NSString" Nonnull) "level3"; arg "level4" (object "NSString" Nonnull) "level4"; arg
      "level5" (object "NSString" Nonnull) "level5"; arg "level6" (object "NSString" Nonnull)
      "level6"]].

Definition RichMedia : Interface :=
  mkInterface (Some "_TtC7Tracker9RichMedia") "RichMedia" "BusinessObject" [] [
  deprecated (property InstanceMethod false true Copy (object "NSString" Nonnull) "name");
  property InstanceMethod false true Copy (object "NSString" Nonnull) "mediaLabel";
  deprecated (property InstanceMethod false true Copy (object "NSString" Nullable) "chapter1");
  property InstanceMethod false true Copy (object "NSString" Nullable) "mediaTheme1";
  deprecated (property InstanceMethod false true Copy (object "NSString" Nullable) "chapter2");
  property InstanceMethod false true Copy (object "NSString" Nullable) "mediaTheme2";
  deprecated (property InstanceMethod false true Copy (object "NSString" Nullable) "chapter3");
  property InstanceMethod false true Copy (object "NSString" Nullable) "mediaTheme3";
  deprecated (property InstanceMethod false true Default (T_name "NSInteger") "level2");
  property InstanceMethod false true Default (T_name "NSInteger") "mediaLevel2";
  property InstanceMethod false true Default (T_name "NSInteger") "duration";
  deprecated (property InstanceMethod false true Default (T_name "RichMediaAction") "action");
  property InstanceMethod false true Copy (object "NSString" Nullable) "webdomain";
  property InstanceMethod false true Copy (object "NSString" Nullable) "linkedContent";
  method InstanceMethod (T_name "void") "sendPlay";
  message InstanceMethod (T_name "void") [arg "sendPlayWithIsBuffering" (T_name "BOOL")
      "isBuffering"];
  deprecated (message InstanceMethod (T_name "void") [arg "sendPlay" (T_name "NSInteger")
      "refreshDuration"]);
  method InstanceMethod (T_name "void") "sendPlayWithoutRefresh";
  message InstanceMethod (T_name "void") [arg "sendPlayWithoutRefreshWithIsBuffering" (T_name
      "BOOL") "isBuffering"];
  message InstanceMethod (T_name "void") [arg "sendPlayWithDynamicRefreshConfiguration" (T_ptr
      "NSDictionary" [object "NSNumber" Unspecified; object "NSNumber" Unspecified] [] Nonnull)
      "dynamicRefreshConfiguration"];
  message InstanceMethod (T_name "void") [arg "sendPlayWithDynamicRefreshConfiguration" (T_ptr
      "NSDictionary" [object "NSNumber" Unspecified; object "NSNumber" Unspecified] [] Nonnull)
      "dynamicRefreshConfiguration"; arg "isBuffering" (T_name "BOOL") "isBuffering"];
  method InstanceMethod (T_name "void") "sendResume";
  message InstanceMethod (T_name "void") [arg "sendResumeWithIsBuffering" (T_name "BOOL")
      "isBuffering"];
  method InstanceMethod (T_name "void") "sendInfo";
  message InstanceMethod (T_name "void") [arg "sendInfoWithIsBuffering" (T_name "BOOL")
      "isBuffering"];
  method InstanceMethod (T_name "void") "sendPause";
  method InstanceMethod (T_name "void") "sendStop";
  method InstanceMethod (T_name "void") "sendMove";
  method InstanceMethod (T_name "void") "sendShare";
  method InstanceMethod (T_name "void") "sendEmail";
  method InstanceMethod (T_name "void") "sendFavor";
  method InstanceMethod (T_name "void") "sendDownload"].

Definition BroadcastMode : Enum :=
  mkEnum "BroadcastMode" "NSInteger" [
  ("BroadcastModeClip", Some 0);
  ("BroadcastModeLive", Some 1)].

Definition RichMediaAction : Enum :=
  mkEnum "RichMediaAction" "NSInteger" [
  ("RichMediaActionPlay", Some 0);
  ("RichMediaActionPause", Some 1);
  ("RichMediaActionStop", Some 2);
  ("RichMediaActionMove", Some 3);
  ("RichMediaActionRefresh", Some 4);
  ("RichMediaActionInfo", Some 5);
  ("RichMediaActionShare", Some 6);
  ("RichMediaActionEmail", Some 7);
  ("RichMediaActionFavor", Some 8);
  ("RichMediaActionDownload", Some 9)].

Definition Audio : Interface :=
  mkInterface (Some "_TtC7Tracker5Audio") "Audio" "RichMedia" [] [].

Definition Audios : Interface :=
  mkInterface (Some "_TtC7Tracker6Audios") "Audios" "NSObject" [] [
  message InstanceMethod (object "Audio" Nonnull) [arg "add" (object "NSString" Nonnull)
      "mediaLabel"; arg "duration" (T_name "NSInteger") "duration"];
  deprecated (message InstanceMethod (object "Audio" Nonnull) [arg "add" (object "NSString"
      Nonnull) "name"; arg "chapter1" (object "NSString" Nonnull) "chapter1"; arg "duration"
      (T_name "NSInteger") "duration"]);
  message InstanceMethod (object "Audio" Nonnull) [arg "add" (object "NSString" Nonnull)
      "mediaLabel"; arg "mediaTheme1" (object "NSString" Nonnull) "mediaTheme1"; arg "duration"
      (T_name "NSInteger") "duration"];
  deprecated (message InstanceMethod (object "Audio" Nonnull) [arg "add" (object "NSString"
      Nonnull) "name"; arg "chapter1" (object "NSString" Nonnull) "chapter1"; arg "chapter2"
      (object "NSString" Nonnull) "chapter2"; arg "duration" (T_name "NSInteger") "duration"]);
  message InstanceMethod (object "Audio" Nonnull) [arg "add" (object "NSString" Nonnull)
      "mediaLabel"; arg "mediaTheme1" (object "NSString" Nonnull) "mediaTheme1"; arg
      "mediaTheme2" (object "NSString" Nonnull) "mediaTheme2"; arg "duration" (T_name
      "NSInteger") "duration"];
  deprecated (message InstanceMethod (object "Audio" Nonnull) [arg "add" (object "NSString"
      Nonnull) "name"; arg "chapter1" (object "NSString" Nonnull) "chapter1"; arg "chapter2"
      (object "NSString" Nonnull) "chapter2"; arg "chapter3" (object "NSString" Nonnull)
      "chapter3"; arg "duration" (T_name "NSInteger") "duration"]);
  message InstanceMethod (object "Audio" Nonnull) [arg "add" (object "NSString" Nonnull)
      "mediaLabel"; arg "mediaTheme1" (object "NSString" Nonnull) "mediaTheme1"; arg
      "mediaTheme2" (object "NSString" Nonnull) "mediaTheme2"; arg "mediaTheme3" (object
      "NSString" Nonnull) "mediaTheme3"; arg "duration" (T_name "NSInteger") "duration"];
  message InstanceMethod (T_name "void") [arg "remove" (object "NSString" Nonnull) "mediaLabel"];
  method InstanceMethod (T_name "void") "removeAll";
  unavailable (method InstanceMethod (T_instancetype Nonnull) "init");
  unavailable (method ClassMethod (T_instancetype Nonnull) "new")].

Definition BackgroundMode : Enum :=
  mkEnum "BackgroundMode" "NSInteger" [
  ("BackgroundModeNormal", Some 0);
  ("BackgroundModeTask", Some 1);
  ("BackgroundModeFetch", Some 2)].

Definition BackgroundTask : Interface :=
  mkInterface (Some "_TtC7Tracker14BackgroundTask") "BackgroundTask" "NSObject" [] [
  unavailable (method InstanceMethod (T_instancetype Nonnull) "init");
  unavailable (method ClassMethod (T_instancetype Nonnull) "new")].

Definition Campaign : Interface :=
  mkInterface (Some "_TtC7Tracker8Campaign") "Campaign" "ScreenInfo" [] [
  property InstanceMethod false true Copy (object "NSString" Nonnull) "campaignId";
  designated (message InstanceMethod (T_instancetype Nonnull) [arg "initWithCampaignId" (object
      "NSString" Nonnull) "campaignId"])].

Definition Campaigns : Interface :=
  mkInterface (Some "_TtC7Tracker9Campaigns") "Campaigns" "NSObject" [] [
  message InstanceMethod (object "Campaign" Nonnull) [arg "addWithCampaignId" (object "NSString"
      Nonnull) "campaignId"];
  unavailable (method InstanceMethod (T_instancetype Nonnull) "init");
  unavailable (method ClassMethod (T_instancetype Nonnull) "new")].

Definition Cart : Interface :=
  mkInterface (Some "_TtC7Tracker4Cart") "Cart" "BusinessObject" [] [
  property InstanceMethod false true Copy (object "NSString" Nonnull) "cartId";
  property InstanceMethod false true Strong (object "Products" Nonnull) "products";
  message InstanceMethod (object "Cart" Nonnull) [arg "set" (object "NSString" Nonnull) "cartId"];
  method InstanceMethod (T_name "void") "unset";
  method InstanceMethod (T_name "void") "send"].

Definition Context : Interface :=
  mkInterface (Some "_TtC7Tracker7Context") "Context" "NSObject" [] [
  property InstanceMethod false true Default (T_name "NSInteger") "level2";
  property InstanceMethod false true Default (T_name "BackgroundMode") "backgroundMode";
  unavailable (method InstanceMethod (T_instancetype Nonnull) "init");
  unavailable (method ClassMethod (T_instancetype Nonnull) "new")].

Definition CustomObject : Interface :=
  mkInterface (Some "_TtC7Tracker12CustomObject") "CustomObject" "BusinessObject" [] [
  property InstanceMethod false true Copy (object "NSString" Nonnull) "json";
  property InstanceMethod false true Default (T_name "BOOL") "persistent"].

Definition CustomObjects : Interface :=
  mkInterface (Some "_TtC7Tracker13CustomObjects") "CustomObjects" "NSObject" [] [
  message InstanceMethod (object "CustomObject" Nonnull) [arg "addString" (object "NSString"
      Nonnull) "customObject"];
  message InstanceMethod (object "CustomObject" Nonnull) [arg "addDictionary" (T_ptr
      "NSDictionary" [object "NSString" Unspecified; T_id [] Unspecified] [] Nonnull)
      "customObject"];
  method InstanceMethod (T_name "void") "removeAll";
  unavailable (method InstanceMethod (T_instancetype Nonnull) "init");
  unavailable (method ClassMethod (T_instancetype Nonnull) "new")].

Definition CustomTreeStructure : Interface :=
  mkInterface (Some "_TtC7Tracker19CustomTreeStructure") "CustomTreeStructure" "ScreenInfo" [] [
  property InstanceMethod false true Default (T_name "NSInteger") "category1";
  property InstanceMethod false true Default (T_name "NSInteger") "category2";
  property InstanceMethod false true Default (T_name "NSInteger") "category3";
  designated (message InstanceMethod (T_instancetype Nonnull) [arg "initWithCategory1" (T_name
      "NSInteger") "category1"]);
  message InstanceMethod (T_instancetype Nonnull) [arg "initWithCategory1" (T_name "NSInteger")
      "category1"; arg "category2" (T_name "NSInteger") "category2"];
  message InstanceMethod (T_instancetype Nonnull) [arg "initWithCategory1" (T_name "NSInteger")
      "category1"; arg "category2" (T_name "NSInteger") "category2"; arg "category3" (T_name
      "NSInteger") "category3"]].

Definition CustomTreeStructures : Interface :=
  mkInterface (Some "_TtC7Tracker20CustomTreeStructures") "CustomTreeStructures" "NSObject" [] [
  unavailable (method InstanceMethod (T_instancetype Nonnull) "init");
  unavailable (method ClassMethod (T_instancetype Nonnull) "new")].

Definition CustomVar : Interface :=
  mkInterface (Some "_TtC7Tracker9CustomVar") "CustomVar" "ScreenInfo" [] [].

Definition CustomVarType : Enum :=
  mkEnum "CustomVarType" "NSInteger" [
  ("CustomVarTypeApp", Some 0);
  ("CustomVarTypeScreen", Some 1)].

Definition CustomVars : Interface :=
  mkInterface (Some "_TtC7Tracker10CustomVars") "CustomVars" "NSObject" [] [
  message InstanceMethod (object "CustomVar" Nonnull) [arg "add" (T_name "NSInteger") "varId";
      arg "value" (object "NSString" Nonnull) "value"; arg "type" (T_name "CustomVarType")
      "type"];
  message InstanceMethod (T_name "void") [arg "remove" (object "NSString" Nonnull) "customVarId"];
  method InstanceMethod (T_name "void") "removeAll";
  unavailable (method InstanceMethod (T_instancetype Nonnull) "init");
  unavailable (method ClassMethod (T_instancetype Nonnull) "new")].

Definition TrackerDelegate : Protocol :=
  mkProtocol (Some "_TtP7Tracker15TrackerDelegate_") "TrackerDelegate" [] [
  Optional (message InstanceMethod (T_name "void") [arg "trackerNeedsFirstLaunchApproval" (object
      "NSString" Nonnull) "message"]);
  Optional (message InstanceMethod (T_name "void") [arg "buildDidEnd" (T_name "HitStatus")
      "status"; arg "message" (object "NSString" Nonnull) "message"]);
  Optional (message InstanceMethod (T_name "void") [arg "sendDidEnd" (T_name "HitStatus")
      "status"; arg "message" (object "NSString" Nonnull) "message"]);
  Optional (message InstanceMethod (T_name "void") [arg "saveDidEnd" (object "NSString" Nonnull)
      "message"]);
  Optional (message InstanceMethod (T_name "void") [arg "didCallPartner" (object "NSString"
      Nonnull) "response"]);
  Optional (message InstanceMethod (T_name "void") [arg "warningDidOccur" (object "NSString"
      Nonnull) "message"]);
  Optional (message InstanceMethod (T_name "void") [arg "errorDidOccur" (object "NSString"
      Nonnull) "message"])].

Definition DefaultTrackerDelegate : Interface :=
  mkInterface (Some "_TtC7Tracker22DefaultTrackerDelegate") "DefaultTrackerDelegate" "NSObject"
      ["TrackerDelegate"] [
  message InstanceMethod (T_name "void") [arg "trackerNeedsFirstLaunchApproval" (object
      "NSString" Nonnull) "message"];
  message InstanceMethod (T_name "void") [arg "buildDidEnd" (T_name "HitStatus") "status"; arg
      "message" (object "NSString" Nonnull) "message"];
  message InstanceMethod (T_name "void") [arg "sendDidEnd" (T_name "HitStatus") "status"; arg
      "message" (object "NSString" Nonnull) "message"];
  message InstanceMethod (T_name "void") [arg "saveDidEnd" (object "NSString" Nonnull) "message"];
  message InstanceMethod (T_name "void") [arg "didCallPartner" (object "NSString" Nonnull)
      "response"];
  message InstanceMethod (T_name "void") [arg "warningDidOccur" (object "NSString" Nonnull)
      "message"];
  message InstanceMethod (T_name "void") [arg "errorDidOccur" (object "NSString" Nonnull)
      "message"];
  designated (method InstanceMethod (T_instancetype Nonnull) "init")].

Definition DeliveryCheckout : Interface :=
  mkInterface (Some "_TtC7Tracker16DeliveryCheckout") "DeliveryCheckout" "Event" [] [
  property InstanceMethod false true Strong (object "ECommerceCart" Nonnull) "cart";
  property InstanceMethod false true Strong (object "ECommerceShipping" Nonnull) "shipping"].

Definition DeliveryCheckouts : Interface :=
  mkInterface (Some "_TtC7Tracker17DeliveryCheckouts") "DeliveryCheckouts" "EventsHelper" [] [
  method InstanceMethod (object "DeliveryCheckout" Nonnull) "add"].

Definition DisplayCart : Interface :=
  mkInterface (Some "_TtC7Tracker11DisplayCart") "DisplayCart" "Event" [] [
  property InstanceMethod false true Copy (T_ptr "NSArray" [object "ECommerceProduct"
      Unspecified] [] Nonnull) "products";
  property InstanceMethod false true Strong (object "ECommerceCart" Nonnull) "cart";
  message InstanceMethod (T_name "void") [arg "setProductsWithProducts" (T_ptr "NSArray" [object
      "ECommerceProduct" Unspecified] [] Nonnull) "products"]].

Definition DisplayCarts : Interface :=
  mkInterface (Some "_TtC7Tracker12DisplayCarts") "DisplayCarts" "EventsHelper" [] [
  method InstanceMethod (object "DisplayCart" Nonnull) "add"].

Definition DisplayPageProduct : Interface :=
  mkInterface (Some "_TtC7Tracker18DisplayPageProduct") "DisplayPageProduct" "Event" [] [
  property InstanceMethod false true Strong (object "ECommerceProduct" Nonnull) "product"].

Definition DisplayPageProducts : Interface :=
  mkInterface (Some "_TtC7Tracker19DisplayPageProducts") "DisplayPageProducts" "EventsHelper" [] [
  method InstanceMethod (object "DisplayPageProduct" Nonnull) "add"].

Definition DisplayProduct : Interface :=
  mkInterface (Some "_TtC7Tracker14DisplayProduct") "DisplayProduct" "Event" [] [
  property InstanceMethod false true Copy (T_ptr "NSArray" [object "ECommerceProduct"
      Unspecified] [] Nonnull) "products";
  message InstanceMethod (T_name "void") [arg "setProductsWithProducts" (T_ptr "NSArray" [object
      "ECommerceProduct" Unspecified] [] Nonnull) "products"]].

Definition DisplayProducts : Interface :=
  mkInterface (Some "_TtC7Tracker15DisplayProducts") "DisplayProducts" "EventsHelper" [] [
  method InstanceMethod (object "DisplayProduct" Nonnull) "add"].

Definition DynamicScreen : Interface :=
  mkInterface (Some "_TtC7Tracker13DynamicScreen") "DynamicScreen" "AbstractScreen" [] [
  property InstanceMethod false true Copy (object "NSString" Nonnull) "name";
  property InstanceMethod false true Copy (object "NSString" Nullable) "chapter1";
  property InstanceMethod false true Copy (object "NSString" Nullable) "chapter2";
  property InstanceMethod false true Copy (object "NSString" Nullable) "chapter3";
  property InstanceMethod false true Default (T_name "NSInteger") "level2";
  property InstanceMethod false true Copy (object "NSString" Nonnull) "screenId";
  property InstanceMethod false true Copy (object "NSDate" Nonnull) "update"].

Definition DynamicScreens : Interface :=
  mkInterface (Some "_TtC7Tracker14DynamicScreens") "DynamicScreens" "NSObject" [] [
  deprecated (message InstanceMethod (object "DynamicScreen" Nonnull) [arg "add" (T_name
      "NSInteger") "screenId"; arg "update" (object "NSDate" Nonnull) "update"; arg "name"
      (object "NSString" Nonnull) "name"]);
  message InstanceMethod (object "DynamicScreen" Nonnull) [arg "addScreen" (object "NSString"
      Nonnull) "screenId"; arg "update" (object "NSDate" Nonnull) "update"; arg "name" (object
      "NSString" Nonnull) "name"];
  deprecated (message InstanceMethod (object "DynamicScreen" Nonnull) [arg "add" (T_name
      "NSInteger") "screenId"; arg "update" (object "NSDate" Nonnull) "update"; arg "name"
      (object "NSString" Nonnull) "name"; arg "chapter1" (object "NSString" Nonnull) "chapter1"]);
  message InstanceMethod (object "DynamicScreen" Nonnull) [arg "addScreenWith1Chapter" (object
      "NSString" Nonnull) "screenId"; arg "update" (object "NSDate" Nonnull) "update"; arg "name"
      (object "NSString" Nonnull) "name"; arg "chapter1" (object "NSString" Nonnull) "chapter1"];
  deprecated (message InstanceMethod (object "DynamicScreen" Nonnull) [arg "add" (T_name
      "NSInteger") "screenId"; arg "update" (object "NSDate" Nonnull) "update"; arg "name"
      (object "NSString" Nonnull) "name"; arg "chapter1" (object "NSString" Nonnull) "chapter1";
      arg "chapter2" (object "NSString" Nonnull) "chapter2"]);
  message InstanceMethod (object "DynamicScreen" Nonnull) [arg "addScreenWith2Chapters" (object
      "NSString" Nonnull) "screenId"; arg "update" (object "NSDate" Nonnull) "update"; arg "name"
      (object "NSString" Nonnull) "name"; arg "chapter1" (object "NSString" Nonnull) "chapter1";
      arg "chapter2" (object "NSString" Nonnull) "chapter2"];
  deprecated (message InstanceMethod (object "DynamicScreen" Nonnull) [arg "add" (T_name
      "NSInteger") "screenId"; arg "update" (object "NSDate" Nonnull) "update"; arg "name"
      (object "NSString" Nonnull) "name"; arg "chapter1" (object "NSString" Nonnull) "chapter1";
      arg "chapter2" (object "NSString" Nonnull) "chapter2"; arg "chapter3" (object "NSString"
      Nonnull) "chapter3"]);
  message InstanceMethod (object "DynamicScreen" Nonnull) [arg "addScreenWith3Chapters" (object
      "NSString" Nonnull) "screenId"; arg "update" (object "NSDate" Nonnull) "update"; arg "name"
      (object "NSString" Nonnull) "name"; arg "chapter1" (object "NSString" Nonnull) "chapter1";
      arg "chapter2" (object "NSString" Nonnull) "chapter2"; arg "chapter3" (object "NSString"
      Nonnull) "chapter3"];
  unavailable (method InstanceMethod (T_instancetype Nonnull) "init");
  unavailable (method ClassMethod (T_instancetype Nonnull) "new")].

Definition ECommerce : Interface :=
  mkInterface (Some "_TtC7Tracker9ECommerce") "ECommerce" "NSObject" [] [
  property InstanceMethod false true Strong (object "DisplayPageProducts" Nonnull)
      "displayPageProducts";
  property InstanceMethod false true Strong (object "DisplayProducts" Nonnull) "displayProducts";
  property InstanceMethod false true Strong (object "AddProducts" Nonnull) "addProducts";
  property InstanceMethod false true Strong (object "RemoveProducts" Nonnull) "removeProducts";
  property InstanceMethod false true Strong (object "DisplayCarts" Nonnull) "displayCarts";
  property InstanceMethod false true Strong (object "UpdateCarts" Nonnull) "updateCarts";
  property InstanceMethod false true Strong (object "DeliveryCheckouts" Nonnull)
      "deliveryCheckouts";
  property InstanceMethod false true Strong (object "PaymentCheckouts" Nonnull)
      "paymentCheckouts";
  property InstanceMethod false true Strong (object "TransactionConfirmations" Nonnull)
      "transactionConfirmations";
  message InstanceMethod (T_name "void") [arg "setAutoSalesTrackerEnabled" (T_name "BOOL")
      "enabled"; arg "sync" (T_name "BOOL") "sync"; arg "completionHandler" (T_block (T_name
      "void") [T_name "BOOL"] Nullable) "completionHandler"];
  message InstanceMethod (T_name "void") [arg "setCollectDomain" (object "NSString" Nonnull)
      "domain"; arg "sync" (T_name "BOOL") "sync"; arg "completionHandler" (T_block (T_name
      "void") [T_name "BOOL"] Nullable) "completionHandler"];
  unavailable (method InstanceMethod (T_instancetype Nonnull) "init");
  unavailable (method ClassMethod (T_instancetype Nonnull) "new")].

Definition RequiredPropertiesDataObject : Interface :=
  mkInterface (Some "_TtC7Tracker28RequiredPropertiesDataObject") "RequiredPropertiesDataObject"
      "NSObject" [] [
  message InstanceMethod (object "RequiredPropertiesDataObject" Nonnull) [arg "setWithKey"
      (object "NSString" Nonnull) "key"; arg "value" (T_id [] Nonnull) "value"];
  message InstanceMethod (object "RequiredPropertiesDataObject" Nonnull) [arg "setAllWithObj"
      (T_ptr "NSDictionary" [object "NSString" Unspecified; T_id [] Unspecified] [] Nonnull)
      "obj"];
  designated (method InstanceMethod (T_instancetype Nonnull) "init")].

Definition ECommerceCart : Interface :=
  mkInterface (Some "_TtC7Tracker13ECommerceCart") "ECommerceCart" "RequiredPropertiesDataObject"
      [] [
  unavailable (method InstanceMethod (T_instancetype Nonnull) "init");
  unavailable (method ClassMethod (T_instancetype Nonnull) "new")].

Definition ECommerceCustomer : Interface :=
  mkInterface (Some "_TtC7Tracker17ECommerceCustomer") "ECommerceCustomer"
      "RequiredPropertiesDataObject" [] [
  unavailable (method InstanceMethod (T_instancetype Nonnull) "init");
  unavailable (method ClassMethod (T_instancetype Nonnull) "new")].

Definition ECommercePayment : Interface :=
  mkInterface (Some "_TtC7Tracker16ECommercePayment") "ECommercePayment"
      "RequiredPropertiesDataObject" [] [
  unavailable (method InstanceMethod (T_instancetype Nonnull) "init");
  unavailable (method ClassMethod (T_instancetype Nonnull) "new")].

Definition ECommerceProduct : Interface :=
  mkInterface (Some "_TtC7Tracker16ECommerceProduct") "ECommerceProduct"
      "RequiredPropertiesDataObject" [] [
  unavailable (method InstanceMethod (T_instancetype Nonnull) "init");
  unavailable (method ClassMethod (T_instancetype Nonnull) "new");
  message InstanceMethod (T_instancetype Nonnull) [arg "initWithObj" (T_ptr "NSDictionary"
      [object "NSString" Unspecified; T_id [] Unspecified] [] Nonnull) "obj"]].

Definition ECommerceShipping : Interface :=
  mkInterface (Some "_TtC7Tracker17ECommerceShipping") "ECommerceShipping"
      "RequiredPropertiesDataObject" [] [
  unavailable (method InstanceMethod (T_instancetype Nonnull) "init");
  unavailable (method ClassMethod (T_instancetype Nonnull) "new")].

Definition ECommerceTransaction : Interface :=
  mkInterface (Some "_TtC7Tracker20ECommerceTransaction") "ECommerceTransaction"
      "RequiredPropertiesDataObject" [] [
  unavailable (method InstanceMethod (T_instancetype Nonnull) "init");
  unavailable (method ClassMethod (T_instancetype Nonnull) "new")].

Definition Events : Interface :=
  mkInterface (Some "_TtC7Tracker6Events") "Events" "BusinessObject" [] [].

Definition Gesture : Interface :=
  mkInterface (Some "_TtC7Tracker7Gesture") "Gesture" "BusinessObject" [] [
  property InstanceMethod false true Copy (object "NSString" Nonnull) "name";
  property InstanceMethod false true Copy (object "NSString" Nullable) "chapter1";
  property InstanceMethod false true Copy (object "NSString" Nullable) "chapter2";
  property InstanceMethod false true Copy (object "NSString" Nullable) "chapter3";
  property InstanceMethod false true Default (T_name "NSInteger") "level2";
  property InstanceMethod false true Default (T_name "GestureAction") "action";
  property InstanceMethod true true Default (T_name "GestureEventType") "type";
  property InstanceMethod false true Strong (object "CustomObjects" Nonnull) "customObjects";
  property InstanceMethod false true Strong (object "InternalSearch" Nullable) "internalSearch";
  method InstanceMethod (T_name "void") "sendNavigation";
  method InstanceMethod (T_name "void") "sendExit";
  method InstanceMethod (T_name "void") "sendDownload";
  method InstanceMethod (T_name "void") "sendTouch";
  method InstanceMethod (T_name "void") "sendSearch"].

Definition GestureEventType : Enum :=
  mkEnum "GestureEventType" "NSInteger" [
  ("GestureEventTypeUnknown", Some 0);
  ("GestureEventTypeTap", Some 1);
  ("GestureEventTypeSwipe", Some 2);
  ("GestureEventTypeScroll", Some 3);
  ("GestureEventTypePinch", Some 4);
  ("GestureEventTypePan", Some 5);
  ("GestureEventTypeRotate", Some 6);
  ("GestureEventTypeRefresh", Some 7);
  ("GestureEventTypeDeviceRotate", Some 8)].

Definition GestureAction : Enum :=
  mkEnum "GestureAction" "NSInteger" [
  ("GestureActionTouch", Some 0);
  ("GestureActionNavigate", Some 1);
  ("GestureActionDownload", Some 2);
  ("GestureActionExit", Some 3);
  ("GestureActionSearch", Some 4)].

Definition Gestures : Interface :=
  mkInterface (Some "_TtC7Tracker8Gestures") "Gestures" "NSObject" [] [
  method InstanceMethod (object "Gesture" Nonnull) "add";
  message InstanceMethod (object "Gesture" Nonnull) [arg "add" (object "NSString" Nonnull)
      "name"];
  message InstanceMethod (object "Gesture" Nonnull) [arg "add" (object "NSString" Nonnull)
      "name"; arg "chapter1" (object "NSString" Nonnull) "chapter1"];
  message InstanceMethod (object "Gesture" Nonnull) [arg "add" (object "NSString" Nonnull)
      "name"; arg "chapter1" (object "NSString" Nonnull) "chapter1"; arg "chapter2" (object
      "NSString" Nonnull) "chapter2"];
  message InstanceMethod (object "Gesture" Nonnull) [arg "add" (object "NSString" Nonnull)
      "name"; arg "chapter1" (object "NSString" Nonnull) "chapter1"; arg "chapter2" (object
      "NSString" Nonnull) "chapter2"; arg "chapter3" (object "NSString" Nonnull) "chapter3"];
  unavailable (method InstanceMethod (T_instancetype Nonnull) "init");
  unavailable (method ClassMethod (T_instancetype Nonnull) "new")].

Definition Hit : Interface :=
  mkInterface (Some "_TtC7Tracker3Hit") "Hit" "NSObject" [] [
  property InstanceMethod false true Copy (object "NSString" Nonnull) "url";
  property InstanceMethod false true Copy (object "NSDate" Nonnull) "creationDate";
  property InstanceMethod false true Strong (object "NSNumber" Nonnull) "retryCount";
  property InstanceMethod false true Default (T_name "BOOL") "isOffline";
  property InstanceMethod true true Default (T_name "HitType") "type";
  property InstanceMethod true true Copy (object "NSString" Nonnull) "text";
  unavailable (method InstanceMethod (T_instancetype Nonnull) "init");
  unavailable (method ClassMethod (T_instancetype Nonnull) "new")].

Definition HitType : Enum :=
  mkEnum "HitType" "NSInteger" [
  ("HitTypeUnknown", Some 0);
  ("HitTypeScreen", Some 1);
  ("HitTypeTouch", Some 2);
  ("HitTypeAudio", Some 3);
  ("HitTypeVideo", Some 4);
  ("HitTypeAnimation", Some 5);
  ("HitTypePodCast", Some 6);
  ("HitTypeRss", Some 7);
  ("HitTypeEmail", Some 8);
  ("HitTypeAdvertising", Some 9);
  ("HitTypeAdTracking", Some 10);
  ("HitTypeProductDisplay", Some 11);
  ("HitTypeWeborama", Some 12);
  ("HitTypeMvTesting", Some 13)].

Definition HitStatus : Enum :=
  mkEnum "HitStatus" "NSInteger" [
  ("HitStatusFailed", Some 0);
  ("HitStatusSuccess", Some 1)].

Definition IdentifiedVisitor : Interface :=
  mkInterface (Some "_TtC7Tracker17IdentifiedVisitor") "IdentifiedVisitor" "NSObject" [] [
  message InstanceMethod (object "Tracker" Nonnull) [arg "setInt" (T_name "NSInteger")
      "visitorId"];
  message InstanceMethod (object "Tracker" Nonnull) [arg "setInt" (T_name "NSInteger")
      "visitorId"; arg "visitorCategory" (T_name "NSInteger") "visitorCategory"];
  message InstanceMethod (object "Tracker" Nonnull) [arg "setString" (object "NSString" Nonnull)
      "visitorId"];
  message InstanceMethod (object "Tracker" Nonnull) [arg "setString" (object "NSString" Nonnull)
      "visitorId"; arg "visitorCategory" (T_name "NSInteger") "visitorCategory"];
  method InstanceMethod (object "Tracker" Nonnull) "unset";
  unavailable (method InstanceMethod (T_instancetype Nonnull) "init");
  unavailable (method ClassMethod (T_instancetype Nonnull) "new")].

Definition InternalSearch : Interface :=
  mkInterface (Some "_TtC7Tracker14InternalSearch") "InternalSearch" "BusinessObject" [] [
  property InstanceMethod false true Copy (object "NSString" Nonnull) "keyword";
  property InstanceMethod false true Default (T_name "NSInteger") "resultScreenNumber";
  property InstanceMethod false true Default (T_name "NSInteger") "resultPosition";
  designated (message InstanceMethod (T_instancetype Nonnull) [arg "initWithKeyword" (object
      "NSString" Nonnull) "keyword"; arg "resultScreenNumber" (T_name "NSInteger")
      "resultScreenNumber"])].

Definition InternalSearches : Interface :=
  mkInterface (Some "_TtC7Tracker16InternalSearches") "InternalSearches" "NSObject" [] [
  message InstanceMethod (object "InternalSearch" Nonnull) [arg "add" (object "NSString" Nonnull)
      "keyword"; arg "resultScreenNumber" (T_name "NSInteger") "resultScreenNumber"];
  message InstanceMethod (object "InternalSearch" Nonnull) [arg "add" (object "NSString" Nonnull)
      "keyword"; arg "resultScreenNumber" (T_name "NSInteger") "resultScreenNumber"; arg
      "resultPosition" (T_name "NSInteger") "resultPosition"];
  unavailable (method InstanceMethod (T_instancetype Nonnull) "init");
  unavailable (method ClassMethod (T_instancetype Nonnull) "new")].

Definition LiveAudio : Interface :=
  mkInterface (Some "_TtC7Tracker9LiveAudio") "LiveAudio" "RichMedia" [] [].

Definition LiveAudios : Interface :=
  mkInterface (Some "_TtC7Tracker10LiveAudios") "LiveAudios" "NSObject" [] [
  message InstanceMethod (object "LiveAudio" Nonnull) [arg "add" (object "NSString" Nonnull)
      "mediaLabel"];
  deprecated (message InstanceMethod (object "LiveAudio" Nonnull) [arg "add" (object "NSString"
      Nonnull) "name"; arg "chapter1" (object "NSString" Nonnull) "chapter1"]);
  message InstanceMethod (object "LiveAudio" Nonnull) [arg "add" (object "NSString" Nonnull)
      "mediaLabel"; arg "mediaTheme1" (object "NSString" Nonnull) "mediaTheme1"];
  deprecated (message InstanceMethod (object "LiveAudio" Nonnull) [arg "add" (object "NSString"
      Nonnull) "name"; arg "chapter1" (object "NSString" Nonnull) "chapter1"; arg "chapter2"
      (object "NSString" Nonnull) "chapter2"]);
  message InstanceMethod (object "LiveAudio" Nonnull) [arg "add" (object "NSString" Nonnull)
      "mediaLabel"; arg "mediaTheme1" (object "NSString" Nonnull) "mediaTheme1"; arg
      "mediaTheme2" (object "NSString" Nonnull) "mediaTheme2"];
  deprecated (message InstanceMethod (object "LiveAudio" Nonnull) [arg "add" (object "NSString"
      Nonnull) "name"; arg "chapter1" (object "NSString" Nonnull) "chapter1"; arg "chapter2"
      (object "NSString" Nonnull) "chapter2"; arg "chapter3" (object "NSString" Nonnull)
      "chapter3"]);
  message InstanceMethod (object "LiveAudio" Nonnull) [arg "add" (object "NSString" Nonnull)
      "mediaLabel"; arg "mediaTheme1" (object "NSString" Nonnull) "mediaTheme1"; arg
      "mediaTheme2" (object "NSString" Nonnull) "mediaTheme2"; arg "mediaTheme3" (object
      "NSString" Nonnull) "mediaTheme3"];
  message InstanceMethod (T_name "void") [arg "remove" (object "NSString" Nonnull) "mediaLabel"];
  method InstanceMethod (T_name "void") "removeAll";
  unavailable (method InstanceMethod (T_instancetype Nonnull) "init");
  unavailable (method ClassMethod (T_instancetype Nonnull) "new")].

Definition LiveMedia : Interface :=
  mkInterface (Some "_TtC7Tracker9LiveMedia") "LiveMedia" "NSObject" [] [
  message InstanceMethod (object "LiveMedium" Nonnull) [arg "add" (object "NSString" Nonnull)
      "mediaLabel"; arg "mediaType" (object "NSString" Nonnull) "mediaType"];
  message InstanceMethod (object "LiveMedium" Nonnull) [arg "add" (object "NSString" Nonnull)
      "mediaLabel"; arg "mediaTheme1" (object "NSString" Nonnull) "mediaTheme1"; arg "mediaType"
      (object "NSString" Nonnull) "mediaType"];
  message InstanceMethod (object "LiveMedium" Nonnull) [arg "add" (object "NSString" Nonnull)
      "mediaLabel"; arg "mediaTheme1" (object "NSString" Nonnull) "mediaTheme1"; arg
      "mediaTheme2" (object "NSString" Nonnull) "mediaTheme2"; arg "mediaType" (object "NSString"
      Nonnull) "mediaType"];
  message InstanceMethod (object "LiveMedium" Nonnull) [arg "add" (object "NSString" Nonnull)
      "mediaLabel"; arg "mediaTheme1" (object "NSString" Nonnull) "mediaTheme1"; arg
      "mediaTheme2" (object "NSString" Nonnull) "mediaTheme2"; arg "mediaTheme3" (object
      "NSString" Nonnull) "mediaTheme3"; arg "mediaType" (object "NSString" Nonnull) "mediaType"];
  message InstanceMethod (T_name "void") [arg "remove" (object "NSString" Nonnull) "mediaLabel"];
  method InstanceMethod (T_name "void") "removeAll";
  unavailable (method InstanceMethod (T_instancetype Nonnull) "init");
  unavailable (method ClassMethod (T_instancetype Nonnull) "new")].

Definition LiveMedium : Interface :=
  mkInterface (Some "_TtC7Tracker10LiveMedium") "LiveMedium" "RichMedia" [] [].

Definition LiveVideo : Interface :=
  mkInterface (Some "_TtC7Tracker9LiveVideo") "LiveVideo" "RichMedia" [] [].

Definition LiveVideos : Interface :=
  mkInterface (Some "_TtC7Tracker10LiveVideos") "LiveVideos" "NSObject" [] [
  message InstanceMethod (object "LiveVideo" Nonnull) [arg "add" (object "NSString" Nonnull)
      "mediaLabel"];
  deprecated (message InstanceMethod (object "LiveVideo" Nonnull) [arg "add" (object "NSString"
      Nonnull) "name"; arg "chapter1" (object "NSString" Nonnull) "chapter1"]);
  message InstanceMethod (object "LiveVideo" Nonnull) [arg "add" (object "NSString" Nonnull)
      "mediaLabel"; arg "mediaTheme1" (object "NSString" Nonnull) "mediaTheme1"];
  deprecated (message InstanceMethod (object "LiveVideo" Nonnull) [arg "add" (object "NSString"
      Nonnull) "name"; arg "chapter1" (object "NSString" Nonnull) "chapter1"; arg "chapter2"
      (object "NSString" Nonnull) "chapter2"]);
  message InstanceMethod (object "LiveVideo" Nonnull) [arg "add" (object "NSString" Nonnull)
      "mediaLabel"; arg "mediaTheme1" (object "NSString" Nonnull) "mediaTheme1"; arg
      "mediaTheme2" (object "NSString" Nonnull) "mediaTheme2"];
  deprecated (message InstanceMethod (object "LiveVideo" Nonnull) [arg "add" (object "NSString"
      Nonnull) "name"; arg "chapter1" (object "NSString" Nonnull) "chapter1"; arg "chapter2"
      (object "NSString" Nonnull) "chapter2"; arg "chapter3" (object "NSString" Nonnull)
      "chapter3"]);
  message InstanceMethod (object "LiveVideo" Nonnull) [arg "add" (object "NSString" Nonnull)
      "mediaLabel"; arg "mediaTheme1" (object "NSString" Nonnull) "mediaTheme1"; arg
      "mediaTheme2" (object "NSString" Nonnull) "mediaTheme2"; arg "mediaTheme3" (object
      "NSString" Nonnull) "mediaTheme3"];
  message InstanceMethod (T_name "void") [arg "remove" (object "NSString" Nonnull) "mediaLabel"];
  method InstanceMethod (T_name "void") "removeAll";
  unavailable (method InstanceMethod (T_instancetype Nonnull) "init");
  unavailable (method ClassMethod (T_instancetype Nonnull) "new")].

Definition Location : Interface :=
  mkInterface (Some "_TtC7Tracker8Location") "Location" "ScreenInfo" [] [
  property InstanceMethod false true Default (T_name "double") "latitude";
  property InstanceMethod false true Default (T_name "double") "longitude";
  designated (message InstanceMethod (T_instancetype Nonnull) [arg "initWithLatitude" (T_name
      "double") "latitude"; arg "longitude" (T_name "double") "longitude"])].

Definition Locations : Interface :=
  mkInterface (Some "_TtC7Tracker9Locations") "Locations" "NSObject" [] [
  message InstanceMethod (object "Location" Nonnull) [arg "add" (T_name "double") "latitude"; arg
      "longitude" (T_name "double") "longitude"];
  unavailable (method InstanceMethod (T_instancetype Nonnull) "init");
  unavailable (method ClassMethod (T_instancetype Nonnull) "new")].

Definition Media : Interface :=
  mkInterface (Some "_TtC7Tracker5Media") "Media" "NSObject" [] [
  message InstanceMethod (object "Medium" Nonnull) [arg "add" (object "NSString" Nonnull)
      "mediaLabel"; arg "mediaType" (object "NSString" Nonnull) "mediaType"; arg "duration"
      (T_name "NSInteger") "duration"];
  message InstanceMethod (object "Medium" Nonnull) [arg "add" (object "NSString" Nonnull)
      "mediaLabel"; arg "mediaTheme1" (object "NSString" Nonnull) "mediaTheme1"; arg "mediaType"
      (object "NSString" Nonnull) "mediaType"; arg "duration" (T_name "NSInteger") "duration"];
  message InstanceMethod (object "Medium" Nonnull) [arg "add" (object "NSString" Nonnull)
      "mediaLabel"; arg "mediaTheme1" (object "NSString" Nonnull) "mediaTheme1"; arg
      "mediaTheme2" (object "NSString" Nonnull) "mediaTheme2"; arg "mediaType" (object "NSString"
      Nonnull) "mediaType"; arg "duration" (T_name "NSInteger") "duration"];
  message InstanceMethod (object "Medium" Nonnull) [arg "add" (object "NSString" Nonnull)
      "mediaLabel"; arg "mediaTheme1" (object "NSString" Nonnull) "mediaTheme1"; arg
      "mediaTheme2" (object "NSString" Nonnull) "mediaTheme2"; arg "mediaTheme3" (object
      "NSString" Nonnull) "mediaTheme3"; arg "mediaType" (object "NSString" Nonnull) "mediaType";
      arg "duration" (T_name "NSInteger") "duration"];
  deprecated (message InstanceMethod (T_name "void") [arg "remove" (object "NSString" Nonnull)
      "mediaLabel"]);
  method InstanceMethod (T_name "void") "removeAll";
  unavailable (method InstanceMethod (T_instancetype Nonnull) "init");
  unavailable (method ClassMethod (T_instancetype Nonnull) "new")].

Definition MediaPlayer : Interface :=
  mkInterface (Some "_TtC7Tracker11MediaPlayer") "MediaPlayer" "NSObject" [] [
  property InstanceMethod false true Default (T_name "NSInteger") "playerId";
  property InstanceMethod false true Strong (object "Videos" Nonnull) "videos";
  property InstanceMethod false true Strong (object "Audios" Nonnull) "audios";
  property InstanceMethod false true Strong (object "LiveVideos" Nonnull) "liveVideos";
  property InstanceMethod false true Strong (object "LiveAudios" Nonnull) "liveAudios";
  property InstanceMethod false true Strong (object "Media" Nonnull) "media";
  property InstanceMethod false true Strong (object "LiveMedia" Nonnull) "liveMedia";
  unavailable (method InstanceMethod (T_instancetype Nonnull) "init");
  unavailable (method ClassMethod (T_instancetype Nonnull) "new")].

Definition MediaPlayers : Interface :=
  mkInterface (Some "_TtC7Tracker12MediaPlayers") "MediaPlayers" "NSObject" [] [
  method InstanceMethod (object "MediaPlayer" Nonnull) "add";
  message InstanceMethod (object "MediaPlayer" Nonnull) [arg "add" (T_name "NSInteger")
      "playerId"];
  message InstanceMethod (T_name "void") [arg "remove" (T_name "NSInteger") "playerId"];
  method InstanceMethod (T_name "void") "removeAll";
  unavailable (method InstanceMethod (T_instancetype Nonnull) "init");
  unavailable (method ClassMethod (T_instancetype Nonnull) "new")].

Definition Medium : Interface :=
  mkInterface (Some "_TtC7Tracker6Medium") "Medium" "RichMedia" [] [].

Definition MvTesting : Interface :=
  mkInterface (Some "_TtC7Tracker9MvTesting") "MvTesting" "BusinessObject" [] [
  property InstanceMethod false true Copy (object "NSString" Nonnull) "test";
  property InstanceMethod false true Default (T_name "NSInteger") "waveId";
  property InstanceMethod false true Copy (object "NSString" Nonnull) "creation";
  property InstanceMethod false true Strong (object "MvTestingVars" Nonnull) "variables";
  method InstanceMethod (T_name "void") "send"].

Definition MvTestingVar : Interface :=
  mkInterface (Some "_TtC7Tracker12MvTestingVar") "MvTestingVar" "NSObject" [] [
  property InstanceMethod false true Copy (object "NSString" Nonnull) "variable";
  property InstanceMethod false true Copy (object "NSString" Nonnull) "version";
  unavailable (method InstanceMethod (T_instancetype Nonnull) "init");
  unavailable (method ClassMethod (T_instancetype Nonnull) "new")].

Definition MvTestingVars : Interface :=
  mkInterface (Some "_TtC7Tracker13MvTestingVars") "MvTestingVars" "NSObject" [] [
  message InstanceMethod (object "MvTestingVar" Nonnull) [arg "add" (object "NSString" Nonnull)
      "variable"; arg "version" (object "NSString" Nonnull) "version"];
  designated (method InstanceMethod (T_instancetype Nonnull) "init")].

Definition MvTestings : Interface :=
  mkInterface (Some "_TtC7Tracker10MvTestings") "MvTestings" "NSObject" [] [
  message InstanceMethod (object "MvTesting" Nonnull) [arg "add" (object "NSString" Nonnull)
      "test"; arg "waveId" (T_name "NSInteger") "waveId"; arg "creation" (object "NSString"
      Nonnull) "creation"];
  unavailable (method InstanceMethod (T_instancetype Nonnull) "init");
  unavailable (method ClassMethod (T_instancetype Nonnull) "new")].

Definition NuggAd : Interface :=
  mkInterface (Some "_TtC7Tracker6NuggAd") "NuggAd" "BusinessObject" [] [].

Definition NuggAds : Interface :=
  mkInterface (Some "_TtC7Tracker7NuggAds") "NuggAds" "NSObject" [] [
  message InstanceMethod (object "NuggAd" Nonnull) [arg "add" (T_ptr "NSDictionary" [object
      "NSString" Unspecified; T_id [] Unspecified] [] Nonnull) "data"];
  unavailable (method InstanceMethod (T_instancetype Nonnull) "init");
  unavailable (method ClassMethod (T_instancetype Nonnull) "new")].

Definition Offline : Interface :=
  mkInterface (Some "_TtC7Tracker7Offline") "Offline" "NSObject" [] [
  method InstanceMethod (T_name "void") "dispatch";
  method InstanceMethod (T_ptr "NSArray" [object "Hit" Unspecified] [] Nonnull) "get";
  method InstanceMethod (T_name "NSInteger") "count";
  method InstanceMethod (T_name "NSInteger") "delete";
  message InstanceMethod (T_name "NSInteger") [arg "deleteOlderThanInt" (T_name "NSInteger")
      "olderThan"];
  message InstanceMethod (T_name "NSInteger") [arg "deleteOlderThanDate" (object "NSDate"
      Nonnull) "olderThan"];
  method InstanceMethod (object "Hit" Nullable) "oldest";
  method InstanceMethod (object "Hit" Nullable) "latest";
  unavailable (method InstanceMethod (T_instancetype Nonnull) "init");
  unavailable (method ClassMethod (T_instancetype Nonnull) "new")].

Definition OnAppAd : Interface :=
  mkInterface (Some "_TtC7Tracker7OnAppAd") "OnAppAd" "BusinessObject" [] [
  property InstanceMethod false true Default (T_name "OnAppAdAction") "action"].

Definition OnAppAdAction : Enum :=
  mkEnum "OnAppAdAction" "NSInteger" [
  ("OnAppAdActionView", Some 0);
  ("OnAppAdActionTouch", Some 1)].

Definition Order : Interface :=
  mkInterface (Some "_TtC7Tracker5Order") "Order" "BusinessObject" [] [
  property InstanceMethod false true Copy (object "NSString" Nonnull) "orderId";
  property InstanceMethod false true Default (T_name "double") "turnover";
  property InstanceMethod false true Default (T_name "NSInteger") "status";
  property InstanceMethod false true Strong (object "OrderDiscount" Nonnull) "discount";
  property InstanceMethod false true Strong (object "OrderAmount" Nonnull) "amount";
  property InstanceMethod false true Strong (object "OrderDelivery" Nonnull) "delivery";
  property InstanceMethod false true Strong (object "OrderCustomVars" Nonnull) "customVariables";
  property InstanceMethod false true Default (T_name "BOOL") "isNewCustomer";
  property InstanceMethod false true Default (T_name "NSInteger") "paymentMethod";
  property InstanceMethod false true Default (T_name "BOOL") "isConfirmationRequired";
  designated (message InstanceMethod (T_instancetype Nonnull) [arg "initWithOrderId" (object
      "NSString" Nonnull) "orderId"; arg "turnover" (T_name "double") "turnover"]);
  message InstanceMethod (T_instancetype Nonnull) [arg "initWithOrderId" (object "NSString"
      Nonnull) "orderId"; arg "turnover" (T_name "double") "turnover"; arg "status" (T_name
      "NSInteger") "status"]].

Definition OrderAmount : Interface :=
  mkInterface (Some "_TtC7Tracker11OrderAmount") "OrderAmount" "NSObject" [] [
  property InstanceMethod false true Default (T_name "double") "amountTaxFree";
  property InstanceMethod false true Default (T_name "double") "amountTaxIncluded";
  property InstanceMethod false true Default (T_name "double") "taxAmount";
  message InstanceMethod (object "Order" Nonnull) [arg "set" (T_name "double") "amountTaxFree";
      arg "amountTaxIncluded" (T_name "double") "amountTaxIncluded"; arg "taxAmount" (T_name
      "double") "taxAmount"];
  unavailable (method InstanceMethod (T_instancetype Nonnull) "init");
  unavailable (method ClassMethod (T_instancetype Nonnull) "new")].

Definition OrderCustomVar : Interface :=
  mkInterface (Some "_TtC7Tracker14OrderCustomVar") "OrderCustomVar" "NSObject" [] [
  property InstanceMethod false true Default (T_name "NSInteger") "varId";
  property InstanceMethod false true Copy (object "NSString" Nonnull) "value";
  unavailable (method InstanceMethod (T_instancetype Nonnull) "init");
  unavailable (method ClassMethod (T_instancetype Nonnull) "new")].

Definition OrderCustomVars : Interface :=
  mkInterface (Some "_TtC7Tracker15OrderCustomVars") "OrderCustomVars" "NSObject" [] [
  message InstanceMethod (object "OrderCustomVar" Nonnull) [arg "add" (T_name "NSInteger")
      "varId"; arg "value" (object "NSString" Nonnull) "value"];
  designated (method InstanceMethod (T_instancetype Nonnull) "init")].

Definition OrderDelivery : Interface :=
  mkInterface (Some "_TtC7Tracker13OrderDelivery") "OrderDelivery" "NSObject" [] [
  property InstanceMethod false true Default (T_name "double") "shippingFeesTaxIncluded";
  property InstanceMethod false true Default (T_name "double") "shippingFeesTaxFree";
  property InstanceMethod false true Copy (object "NSString" Nullable) "deliveryMethod";
  message InstanceMethod (object "Order" Nonnull) [arg "set" (T_name "double")
      "shippingFeesTaxFree"; arg "shippingFeesTaxIncluded" (T_name "double")
      "shippingFeesTaxIncluded"; arg "deliveryMethod" (object "NSString" Nonnull)
      "deliveryMethod"];
  unavailable (method InstanceMethod (T_instancetype Nonnull) "init");
  unavailable (method ClassMethod (T_instancetype Nonnull) "new")].

Definition OrderDiscount : Interface :=
  mkInterface (Some "_TtC7Tracker13OrderDiscount") "OrderDiscount" "NSObject" [] [
  property InstanceMethod false true Default (T_name "double") "discountTaxIncluded";
  property InstanceMethod false true Default (T_name "double") "discountTaxFree";
  property InstanceMethod false true Copy (object "NSString" Nullable) "promotionalCode";
  message InstanceMethod (object "Order" Nonnull) [arg "set" (T_name "double") "discountTaxFree";
      arg "discountTaxIncluded" (T_name "double") "discountTaxIncluded"; arg "promotionalCode"
      (object "NSString" Nonnull) "promotionalCode"];
  unavailable (method InstanceMethod (T_instancetype Nonnull) "init");
  unavailable (method ClassMethod (T_instancetype Nonnull) "new")].

Definition Orders : Interface :=
  mkInterface (Some "_TtC7Tracker6Orders") "Orders" "NSObject" [] [
  message InstanceMethod (object "Order" Nonnull) [arg "add" (object "NSString" Nonnull)
      "orderId"; arg "turnover" (T_name "double") "turnover"];
  message InstanceMethod (object "Order" Nonnull) [arg "add" (object "NSString" Nonnull)
      "orderId"; arg "turnover" (T_name "double") "turnover"; arg "status" (T_name "NSInteger")
      "status"];
  unavailable (method InstanceMethod (T_instancetype Nonnull) "init");
  unavailable (method ClassMethod (T_instancetype Nonnull) "new")].

Definition ParamOption : Interface :=
  mkInterface (Some "_TtC7Tracker11ParamOption") "ParamOption" "NSObject" [] [
  property InstanceMethod false true Copy (object "NSString" Nullable) "relativeParameterKey";
  property InstanceMethod false true Copy (object "NSString" Nonnull) "separator";
  property InstanceMethod false true Default (T_name "BOOL") "encode";
  property InstanceMethod false true Default (T_name "BOOL") "persistent";
  property InstanceMethod false true Default (T_name "BOOL") "append";
  designated (method InstanceMethod (T_instancetype Nonnull) "init")].

Definition PaymentCheckout : Interface :=
  mkInterface (Some "_TtC7Tracker15PaymentCheckout") "PaymentCheckout" "Event" [] [
  property InstanceMethod false true Strong (object "ECommerceCart" Nonnull) "cart";
  property InstanceMethod false true Strong (object "ECommerceShipping" Nonnull) "shipping"].

Definition PaymentCheckouts : Interface :=
  mkInterface (Some "_TtC7Tracker16PaymentCheckouts") "PaymentCheckouts" "EventsHelper" [] [
  method InstanceMethod (object "PaymentCheckout" Nonnull) "add"].

Definition Product : Interface :=
  mkInterface (Some "_TtC7Tracker7Product") "Product" "BusinessObject" [] [
  property InstanceMethod false true Copy (object "NSString" Nonnull) "productId";
  property InstanceMethod false true Copy (object "NSString" Nullable) "category1";
  property InstanceMethod false true Copy (object "NSString" Nullable) "category2";
  property InstanceMethod false true Copy (object "NSString" Nullable) "category3";
  property InstanceMethod false true Copy (object "NSString" Nullable) "category4";
  property InstanceMethod false true Copy (object "NSString" Nullable) "category5";
  property InstanceMethod false true Copy (object "NSString" Nullable) "category6";
  property InstanceMethod false true Default (T_name "NSInteger") "quantity";
  property InstanceMethod false true Default (T_name "double") "unitPriceTaxIncluded";
  property InstanceMethod false true Default (T_name "double") "unitPriceTaxFree";
  property InstanceMethod false true Default (T_name "double") "discountTaxIncluded";
  property InstanceMethod false true Default (T_name "double") "discountTaxFree";
  property InstanceMethod false true Copy (object "NSString" Nullable) "promotionalCode";
  property InstanceMethod false true Default (T_name "ProductAction") "action";
  property InstanceMethod false true Strong (object "CustomObjects" Nonnull) "customObjects";
  method InstanceMethod (T_name "void") "sendView"].

Definition ProductAction : Enum :=
  mkEnum "ProductAction" "NSInteger" [
  ("ProductActionView", Some 0)].

Definition Products : Interface :=
  mkInterface (Some "_TtC7Tracker8Products") "Products" "NSObject" [] [
  message InstanceMethod (object "Product" Nonnull) [arg "add" (object "Product" Nonnull)
      "product"];
  message InstanceMethod (object "Product" Nonnull) [arg "addString" (object "NSString" Nonnull)
      "productId"];
  message InstanceMethod (object "Product" Nonnull) [arg "add" (object "NSString" Nonnull)
      "productId"; arg "category1" (object "NSString" Nonnull) "category1"];
  message InstanceMethod (object "Product" Nonnull) [arg "add" (object "NSString" Nonnull)
      "productId"; arg "category1" (object "NSString" Nonnull) "category1"; arg "category2"
      (object "NSString" Nonnull) "category2"];
  message InstanceMethod (object "Product" Nonnull) [arg "add" (object "NSString" Nonnull)
      "productId"; arg "category1" (object "NSString" Nonnull) "category1"; arg "category2"
      (object "NSString" Nonnull) "category2"; arg "category3" (object "NSString" Nonnull)
      "category3"];
  message InstanceMethod (object "Product" Nonnull) [arg "add" (object "NSString" Nonnull)
      "productId"; arg "category1" (object "NSString" Nonnull) "category1"; arg "category2"
      (object "NSString" Nonnull) "category2"; arg "category3" (object "NSString" Nonnull)
      "category3"; arg "category4" (object "NSString" Nonnull) "category4"];
  message InstanceMethod (object "Product" Nonnull) [arg "add" (object "NSString" Nonnull)
      "productId"; arg "category1" (object "NSString" Nonnull) "category1"; arg "category2"
      (object "NSString" Nonnull) "category2"; arg "category3" (object "NSString" Nonnull)
      "category3"; arg "category4" (object "NSString" Nonnull) "category4"; arg "category5"
      (object "NSString" Nonnull) "category5"];
  message InstanceMethod (object "Product" Nonnull) [arg "add" (object "NSString" Nonnull)
      "productId"; arg "category1" (object "NSString" Nonnull) "category1"; arg "category2"
      (object "NSString" Nonnull) "category2"; arg "category3" (object "NSString" Nonnull)
      "category3"; arg "category4" (object "NSString" Nonnull) "category4"; arg "category5"
      (object "NSString" Nonnull) "category5"; arg "category6" (object "NSString" Nonnull)
      "category6"];
  message InstanceMethod (T_name "void") [arg "remove" (object "NSString" Nonnull) "productId"];
  method InstanceMethod (T_name "void") "removeAll";
  method InstanceMethod (T_name "void") "sendViews";
  unavailable (method InstanceMethod (T_instancetype Nonnull) "init");
  unavailable (method ClassMethod (T_instancetype Nonnull) "new")].

Definition Publisher : Interface :=
  mkInterface (Some "_TtC7Tracker9Publisher") "Publisher" "OnAppAd" [] [
  property InstanceMethod false true Copy (object "NSString" Nonnull) "campaignId";
  property InstanceMethod false true Copy (object "NSString" Nullable) "creation";
  property InstanceMethod false true Copy (object "NSString" Nullable) "variant";
  property InstanceMethod false true Copy (object "NSString" Nullable) "format";
  property InstanceMethod false true Copy (object "NSString" Nullable) "generalPlacement";
  property InstanceMethod false true Copy (object "NSString" Nullable) "detailedPlacement";
  property InstanceMethod false true Copy (object "NSString" Nullable) "advertiserId";
  property InstanceMethod false true Copy (object "NSString" Nullable) "url";
  property InstanceMethod false true Strong (object "CustomObjects" Nonnull) "customObjects";
  method InstanceMethod (T_name "void") "sendTouch";
  method InstanceMethod (T_name "void") "sendImpression"].

Definition PublisherImpression : Interface :=
  mkInterface (Some "_TtC7Tracker19PublisherImpression") "PublisherImpression" "Publisher" [] [
  deprecated (designated (message InstanceMethod (T_instancetype Nonnull) [arg
      "initWithCampaignId" (object "NSString" Nonnull) "campaignId"]));
  method InstanceMethod (T_name "void") "sendImpression";
  method InstanceMethod (T_name "void") "sendTouch"].

Definition PublisherImpressions : Interface :=
  mkInterface (Some "_TtC7Tracker20PublisherImpressions") "PublisherImpressions" "NSObject" [] [
  message InstanceMethod (object "PublisherImpression" Nonnull) [arg "add" (object "NSString"
      Nonnull) "campaignId"];
  unavailable (method InstanceMethod (T_instancetype Nonnull) "init");
  unavailable (method ClassMethod (T_instancetype Nonnull) "new")].

Definition Publishers : Interface :=
  mkInterface (Some "_TtC7Tracker10Publishers") "Publishers" "NSObject" [] [
  message InstanceMethod (object "Publisher" Nonnull) [arg "add" (object "NSString" Nonnull)
      "campaignId"];
  method InstanceMethod (T_name "void") "sendImpressions";
  unavailable (method InstanceMethod (T_instancetype Nonnull) "init");
  unavailable (method ClassMethod (T_instancetype Nonnull) "new")].

Definition RemoveProduct : Interface :=
  mkInterface (Some "_TtC7Tracker13RemoveProduct") "RemoveProduct" "Event" [] [
  property InstanceMethod false true Strong (object "ECommerceProduct" Nonnull) "product";
  property InstanceMethod false true Strong (object "ECommerceCart" Nonnull) "cart"].

Definition RemoveProducts : Interface :=
  mkInterface (Some "_TtC7Tracker14RemoveProducts") "RemoveProducts" "EventsHelper" [] [
  method InstanceMethod (object "RemoveProduct" Nonnull) "add"].

Definition Screen : Interface :=
  mkInterface (Some "_TtC7Tracker6Screen") "Screen" "AbstractScreen" [] [
  property InstanceMethod false true Copy (object "NSString" Nonnull) "name";
  property InstanceMethod false true Copy (object "NSString" Nullable) "chapter1";
  property InstanceMethod false true Copy (object "NSString" Nullable) "chapter2";
  property InstanceMethod false true Copy (object "NSString" Nullable) "chapter3";
  property InstanceMethod false true Default (T_name "NSInteger") "level2"].

Definition Screens : Interface :=
  mkInterface (Some "_TtC7Tracker7Screens") "Screens" "NSObject" [] [
  method InstanceMethod (object "Screen" Nonnull) "add";
  message InstanceMethod (object "Screen" Nonnull) [arg "add" (object "NSString" Nonnull) "name"];
  message InstanceMethod (object "Screen" Nonnull) [arg "add" (object "NSString" Nonnull) "name";
      arg "chapter1" (object "NSString" Nonnull) "chapter1"];
  message InstanceMethod (object "Screen" Nonnull) [arg "add" (object "NSString" Nonnull) "name";
      arg "chapter1" (object "NSString" Nonnull) "chapter1"; arg "chapter2" (object "NSString"
      Nonnull) "chapter2"];
  message InstanceMethod (object "Screen" Nonnull) [arg "add" (object "NSString" Nonnull) "name";
      arg "chapter1" (object "NSString" Nonnull) "chapter1"; arg "chapter2" (object "NSString"
      Nonnull) "chapter2"; arg "chapter3" (object "NSString" Nonnull) "chapter3"];
  unavailable (method InstanceMethod (T_instancetype Nonnull) "init");
  unavailable (method ClassMethod (T_instancetype Nonnull) "new")].

Definition SelfPromotion : Interface :=
  mkInterface (Some "_TtC7Tracker13SelfPromotion") "SelfPromotion" "OnAppAd" [] [
  property InstanceMethod false true Default (T_name "NSInteger") "adId";
  property InstanceMethod false true Copy (object "NSString" Nullable) "format";
  property InstanceMethod false true Copy (object "NSString" Nullable) "productId";
  property InstanceMethod false true Strong (object "CustomObjects" Nonnull) "customObjects";
  method InstanceMethod (T_name "void") "sendTouch";
  method InstanceMethod (T_name "void") "sendImpression"].

Definition SelfPromotionImpression : Interface :=
  mkInterface (Some "_TtC7Tracker23SelfPromotionImpression") "SelfPromotionImpression"
      "SelfPromotion" [] [
  deprecated (designated (message InstanceMethod (T_instancetype Nonnull) [arg "initWithAdId"
      (T_name "NSInteger") "adId"]));
  method InstanceMethod (T_name "void") "sendImpression";
  method InstanceMethod (T_name "void") "sendTouch"].

Definition SelfPromotionImpressions : Interface :=
  mkInterface (Some "_TtC7Tracker24SelfPromotionImpressions") "SelfPromotionImpressions"
      "NSObject" [] [
  message InstanceMethod (object "SelfPromotionImpression" Nonnull) [arg "add" (T_name
      "NSInteger") "adId"];
  unavailable (method InstanceMethod (T_instancetype Nonnull) "init");
  unavailable (method ClassMethod (T_instancetype Nonnull) "new")].

Definition SelfPromotions : Interface :=
  mkInterface (Some "_TtC7Tracker14SelfPromotions") "SelfPromotions" "NSObject" [] [
  message InstanceMethod (object "SelfPromotion" Nonnull) [arg "add" (T_name "NSInteger") "adId"];
  method InstanceMethod (T_name "void") "sendImpressions";
  unavailable (method InstanceMethod (T_instancetype Nonnull) "init");
  unavailable (method ClassMethod (T_instancetype Nonnull) "new")].

Definition Tracker_members_1 : list Member := [
  property InstanceMethod false true Strong (T_id ["TrackerDelegate"] Nullable) "delegate";
  property InstanceMethod false true Default (T_name "BOOL") "enableDebugger";
  property InstanceMethod true true Strong (object "Offline" Nonnull) "offline";
  property InstanceMethod true true Strong (object "Context" Nonnull) "context";
  property InstanceMethod true true Strong (object "NuggAds" Nonnull) "nuggAds";
  deprecated (property InstanceMethod true true Strong (object "Locations" Nonnull) "locations");
  property InstanceMethod true true Strong (object "Publishers" Nonnull) "publishers";
  property InstanceMethod true true Strong (object "SelfPromotions" Nonnull) "selfPromotions";
  property InstanceMethod true true Strong (object "IdentifiedVisitor" Nonnull)
      "identifiedVisitor";
  property InstanceMethod true true Strong (object "Screens" Nonnull) "screens";
  property InstanceMethod true true Strong (object "DynamicScreens" Nonnull) "dynamicScreens";
  property InstanceMethod true true Strong (object "Gestures" Nonnull) "gestures";
  property InstanceMethod true true Strong (object "CustomObjects" Nonnull) "customObjects";
  property InstanceMethod true true Strong (object "ECommerce" Nonnull) "ecommerce";
  property InstanceMethod true true Strong (object "Events" Nonnull) "events";
  deprecated (property InstanceMethod true true Strong (object "CustomVars" Nonnull)
      "customVars");
  property InstanceMethod true true Strong (object "Orders" Nonnull) "orders";
  property InstanceMethod true true Strong (object "Cart" Nonnull) "cart";
  property InstanceMethod true true Strong (object "Products" Nonnull) "products";
  property InstanceMethod true true Strong (object "Campaigns" Nonnull) "campaigns";
  deprecated (property InstanceMethod true true Strong (object "InternalSearches" Nonnull)
      "internalSearches");
  deprecated (property InstanceMethod true true Strong (object "CustomTreeStructures" Nonnull)
      "customTreeStructures");
  property InstanceMethod true true Strong (object "MediaPlayers" Nonnull) "mediaPlayers";
  property InstanceMethod true true Strong (object "MvTestings" Nonnull) "mvTestings";
  method InstanceMethod (T_instancetype Nonnull) "init";
  designated (message InstanceMethod (T_instancetype Nonnull) [arg "initWithConfiguration" (T_ptr
      "NSDictionary" [object "NSString" Unspecified; object "NSString" Unspecified] [] Nonnull)
      "configuration"]);
  property InstanceMethod true true Copy (T_ptr "NSDictionary" [object "NSString" Unspecified;
      object "NSString" Unspecified] [] Nonnull) "config";
  message InstanceMethod (T_name "void") [arg "setConfig" (T_ptr "NSDictionary" [object
      "NSString" Unspecified; object "NSString" Unspecified] [] Nonnull) "configuration"; arg
      "override" (T_name "BOOL") "override"; arg "sync" (T_name "BOOL") "sync"; arg
      "completionHandler" (T_block (T_name "void") [T_name "BOOL"] Nullable) "completionHandler"];
  message InstanceMethod (T_name "void") [arg "setConfig" (object "NSString" Nonnull) "key"; arg
      "value" (object "NSString" Nonnull) "value"; arg "sync" (T_name "BOOL") "sync"; arg
      "completionHandler" (T_block (T_name "void") [T_name "BOOL"] Nullable) "completionHandler"];
  message InstanceMethod (T_name "void") [arg "setLog" (object "NSString" Nonnull) "log"; arg
      "sync" (T_name "BOOL") "sync"; arg "completionHandler" (T_block (T_name "void") [T_name
      "BOOL"] Nullable) "completionHandler"];
  message InstanceMethod (T_name "void") [arg "setSecuredLog" (object "NSString" Nonnull)
      "securedLog"; arg "sync" (T_name "BOOL") "sync"; arg "completionHandler" (T_block (T_name
      "void") [T_name "BOOL"] Nullable) "completionHandler"];
  message InstanceMethod (T_name "void") [arg "setDomain" (object "NSString" Nonnull) "domain";
      arg "sync" (T_name "BOOL") "sync"; arg "completionHandler" (T_block (T_name "void") [T_name
      "BOOL"] Nullable) "completionHandler"];
  message InstanceMethod (T_name "void") [arg "setSiteId" (T_name "NSInteger") "siteId"; arg
      "sync" (T_name "BOOL") "sync"; arg "completionHandler" (T_block (T_name "void") [T_name
      "BOOL"] Nullable) "completionHandler"];
  message InstanceMethod (T_name "void") [arg "setSecureModeEnabled" (T_name "BOOL") "enabled";
      arg "sync" (T_name "BOOL") "sync"; arg "completionHandler" (T_block (T_name "void") [T_name
      "BOOL"] Nullable) "completionHandler"];
  message InstanceMethod (T_name "void") [arg "setHashUserIdEnabled" (T_name "BOOL") "enabled";
      arg "sync" (T_name "BOOL") "sync"; arg "completionHandler" (T_block (T_name "void") [T_name
      "BOOL"] Nullable) "completionHandler"]].

Definition Tracker_members_2 : list Member := [
  message InstanceMethod (T_name "void") [arg "setIgnoreLimitedAdTrackingEnabled" (T_name "BOOL")
      "enabled"; arg "sync" (T_name "BOOL") "sync"; arg "completionHandler" (T_block (T_name
      "void") [T_name "BOOL"] Nullable) "completionHandler"];
  message InstanceMethod (T_name "void") [arg "setSendHitWhenOptOutEnabled" (T_name "BOOL")
      "enabled"; arg "sync" (T_name "BOOL") "sync"; arg "completionHandler" (T_block (T_name
      "void") [T_name "BOOL"] Nullable) "completionHandler"];
  message InstanceMethod (T_name "void") [arg "setBackgroundTaskEnabled" (T_name "BOOL")
      "enabled"; arg "sync" (T_name "BOOL") "sync"; arg "completionHandler" (T_block (T_name
      "void") [T_name "BOOL"] Nullable) "completionHandler"];
  deprecated (message InstanceMethod (T_name "void") [arg "setSendOnlyWhenAppActive" (T_name
      "BOOL") "enabled"; arg "sync" (T_name "BOOL") "sync"; arg "completionHandler" (T_block
      (T_name "void") [T_name "BOOL"] Nullable) "completionHandler"]);
  message InstanceMethod (T_name "void") [arg "setPixelPath" (object "NSString" Nonnull)
      "pixelPath"; arg "sync" (T_name "BOOL") "sync"; arg "completionHandler" (T_block (T_name
      "void") [T_name "BOOL"] Nullable) "completionHandler"];
  message InstanceMethod (T_name "void") [arg "setPersistentIdentifiedVisitorEnabled" (T_name
      "BOOL") "enabled"; arg "sync" (T_name "BOOL") "sync"; arg "completionHandler" (T_block
      (T_name "void") [T_name "BOOL"] Nullable) "completionHandler"];
  message InstanceMethod (T_name "void") [arg "setCampaignLastPersistenceEnabled" (T_name "BOOL")
      "enabled"; arg "sync" (T_name "BOOL") "sync"; arg "completionHandler" (T_block (T_name
      "void") [T_name "BOOL"] Nullable) "completionHandler"];
  message InstanceMethod (T_name "void") [arg "setCampaignLifetime" (T_name "NSInteger")
      "lifetime"; arg "sync" (T_name "BOOL") "sync"; arg "completionHandler" (T_block (T_name
      "void") [T_name "BOOL"] Nullable) "completionHandler"];
  message InstanceMethod (T_name "void") [arg "setSessionBackgroundDuration" (T_name "NSInteger")
      "duration"; arg "sync" (T_name "BOOL") "sync"; arg "completionHandler" (T_block (T_name
      "void") [T_name "BOOL"] Nullable) "completionHandler"];
  message InstanceMethod (object "Tracker" Nonnull) [arg "setParam" (object "NSString" Nonnull)
      "key"; arg "value" (T_block (object "NSString" Nonnull) [] Nonnull) "value"];
  message InstanceMethod (object "Tracker" Nonnull) [arg "setParam" (object "NSString" Nonnull)
      "key"; arg "value" (T_block (object "NSString" Nonnull) [] Nonnull) "value"; arg "options"
      (object "ParamOption" Nonnull) "options"];
  message InstanceMethod (object "Tracker" Nonnull) [arg "setStringParam" (object "NSString"
      Nonnull) "key"; arg "value" (object "NSString" Nonnull) "value"];
  message InstanceMethod (object "Tracker" Nonnull) [arg "setStringParam" (object "NSString"
      Nonnull) "key"; arg "value" (object "NSString" Nonnull) "value"; arg "options" (object
      "ParamOption" Nonnull) "options"];
  message InstanceMethod (object "Tracker" Nonnull) [arg "setIntParam" (object "NSString"
      Nonnull) "key"; arg "value" (T_name "NSInteger") "value"];
  message InstanceMethod (object "Tracker" Nonnull) [arg "setIntParam" (object "NSString"
      Nonnull) "key"; arg "value" (T_name "NSInteger") "value"; arg "options" (object
      "ParamOption" Nonnull) "options"];
  message InstanceMethod (object "Tracker" Nonnull) [arg "setFloatParam" (object "NSString"
      Nonnull) "key"; arg "value" (T_name "float") "value"]].

Definition Tracker_members_3 : list Member := [
  message InstanceMethod (object "Tracker" Nonnull) [arg "setFloatParam" (object "NSString"
      Nonnull) "key"; arg "value" (T_name "float") "value"; arg "options" (object "ParamOption"
      Nonnull) "options"];
  message InstanceMethod (object "Tracker" Nonnull) [arg "setDoubleParam" (object "NSString"
      Nonnull) "key"; arg "value" (T_name "double") "value"];
  message InstanceMethod (object "Tracker" Nonnull) [arg "setDoubleParam" (object "NSString"
      Nonnull) "key"; arg "value" (T_name "double") "value"; arg "options" (object "ParamOption"
      Nonnull) "options"];
  message InstanceMethod (object "Tracker" Nonnull) [arg "setBoolParam" (object "NSString"
      Nonnull) "key"; arg "value" (T_name "BOOL") "value"];
  message InstanceMethod (object "Tracker" Nonnull) [arg "setBoolParam" (object "NSString"
      Nonnull) "key"; arg "value" (T_name "BOOL") "value"; arg "options" (object "ParamOption"
      Nonnull) "options"];
  message InstanceMethod (object "Tracker" Nonnull) [arg "setArrayParam" (object "NSString"
      Nonnull) "key"; arg "value" (object "NSArray" Nonnull) "value"];
  message InstanceMethod (object "Tracker" Nonnull) [arg "setArrayParam" (object "NSString"
      Nonnull) "key"; arg "value" (object "NSArray" Nonnull) "value"; arg "options" (object
      "ParamOption" Nonnull) "options"];
  message InstanceMethod (object "Tracker" Nonnull) [arg "setDictionaryParam" (object "NSString"
      Nonnull) "key"; arg "value" (T_ptr "NSDictionary" [object "NSString" Unspecified; T_id []
      Unspecified] [] Nonnull) "value"];
  message InstanceMethod (object "Tracker" Nonnull) [arg "setDictionaryParam" (object "NSString"
      Nonnull) "key"; arg "value" (T_ptr "NSDictionary" [object "NSString" Unspecified; T_id []
      Unspecified] [] Nonnull) "value"; arg "options" (object "ParamOption" Nonnull) "options"];
  message InstanceMethod (T_name "void") [arg "unsetParam" (object "NSString" Nonnull) "param"];
  method InstanceMethod (T_name "void") "resetScreenContext";
  method InstanceMethod (T_name "void") "dispatch";
  method InstanceMethod (object "NSString" Nonnull) "getUserId";
  message InstanceMethod (T_name "void") [arg "setUserIdWithUserId" (object "NSString" Nonnull)
      "userId"];
  method InstanceMethod (T_ptr "NSDictionary" [object "NSString" Unspecified; T_id []
      Unspecified] [] Nonnull) "getLifecycleMetrics";
  method InstanceMethod (T_ptr "NSDictionary" [object "NSString" Unspecified; T_id []
      Unspecified] [] Nonnull) "getCrashInformation";
  deprecated (property ClassMethod false true Default (T_name "BOOL") "optOut");
  method ClassMethod (T_name "BOOL") "optOut";
  message ClassMethod (T_name "void") [arg "setOptOut" (T_name "BOOL") "newValue"];
  deprecated (property ClassMethod false true Default (T_name "BOOL") "doNotTrack");
  method ClassMethod (T_name "BOOL") "doNotTrack";
  message ClassMethod (T_name "void") [arg "setDoNotTrack" (T_name "BOOL") "newValue"];
  property ClassMethod false true Default (T_name "BOOL") "handleCrash";
  method ClassMethod (T_name "BOOL") "handleCrash";
  message ClassMethod (T_name "void") [arg "setHandleCrash" (T_name "BOOL") "newValue"]].

Definition Tracker : Interface :=
  mkInterface (Some "_TtC7Tracker7Tracker") "Tracker" "NSObject" [] (Tracker_members_1 ++
      Tracker_members_2 ++ Tracker_members_3).

Definition TrackerConfigurationKeys : Interface :=
  mkInterface (Some "_TtC7Tracker24TrackerConfigurationKeys") "TrackerConfigurationKeys"
      "NSObject" [] [
  property ClassMethod true true Copy (object "NSString" Nonnull) "SessionBackgroundDuration";
  method ClassMethod (object "NSString" Nonnull) "SessionBackgroundDuration";
  property ClassMethod true true Copy (object "NSString" Nonnull) "CampaignLifetime";
  method ClassMethod (object "NSString" Nonnull) "CampaignLifetime";
  property ClassMethod true true Copy (object "NSString" Nonnull) "CampaignLastPersistence";
  method ClassMethod (object "NSString" Nonnull) "CampaignLastPersistence";
  property ClassMethod true true Copy (object "NSString" Nonnull) "PersistIdentifiedVisitor";
  method ClassMethod (object "NSString" Nonnull) "PersistIdentifiedVisitor";
  property ClassMethod true true Copy (object "NSString" Nonnull) "HashUserId";
  method ClassMethod (object "NSString" Nonnull) "HashUserId";
  property ClassMethod true true Copy (object "NSString" Nonnull) "EnableBackgroundTask";
  method ClassMethod (object "NSString" Nonnull) "EnableBackgroundTask";
  property ClassMethod true true Copy (object "NSString" Nonnull) "OfflineMode";
  method ClassMethod (object "NSString" Nonnull) "OfflineMode";
  property ClassMethod true true Copy (object "NSString" Nonnull) "Log";
  method ClassMethod (object "NSString" Nonnull) "Log";
  property ClassMethod true true Copy (object "NSString" Nonnull) "LogSSL";
  method ClassMethod (object "NSString" Nonnull) "LogSSL";
  property ClassMethod true true Copy (object "NSString" Nonnull) "Domain";
  method ClassMethod (object "NSString" Nonnull) "Domain";
  property ClassMethod true true Copy (object "NSString" Nonnull) "PixelPath";
  method ClassMethod (object "NSString" Nonnull) "PixelPath";
  property ClassMethod true true Copy (object "NSString" Nonnull) "Site";
  method ClassMethod (object "NSString" Nonnull) "Site";
  property ClassMethod true true Copy (object "NSString" Nonnull) "Secure";
  method ClassMethod (object "NSString" Nonnull) "Secure";
  property ClassMethod true true Copy (object "NSString" Nonnull) "Identifier";
  method ClassMethod (object "NSString" Nonnull) "Identifier";
  property ClassMethod true true Copy (object "NSString" Nonnull) "DownloadSource";
  method ClassMethod (object "NSString" Nonnull) "DownloadSource";
  property ClassMethod true true Copy (object "NSString" Nonnull) "Plugins";
  method ClassMethod (object "NSString" Nonnull) "Plugins";
  deprecated (property ClassMethod true true Copy (object "NSString" Nonnull)
      "SendOnlyWhenAppActive");
  method ClassMethod (object "NSString" Nonnull) "SendOnlyWhenAppActive";
  property ClassMethod true true Copy (object "NSString" Nonnull) "SendOnApplicationState";
  method ClassMethod (object "NSString" Nonnull) "SendOnApplicationState";
  property ClassMethod true true Copy (object "NSString" Nonnull) "AutoSalesTracker";
  method ClassMethod (object "NSString" Nonnull) "AutoSalesTracker";
  property ClassMethod true true Copy (object "NSString" Nonnull) "CollectDomain";
  method ClassMethod (object "NSString" Nonnull) "CollectDomain";
  property ClassMethod true true Copy (object "NSString" Nonnull) "IgnoreLimitedAdTracking";
  method ClassMethod (object "NSString" Nonnull) "IgnoreLimitedAdTracking";
  property ClassMethod true true Copy (object "NSString" Nonnull) "SendHitWhenOptOut";
  method ClassMethod (object "NSString" Nonnull) "SendHitWhenOptOut";
  designated (method InstanceMethod (T_instancetype Nonnull) "init")].

Definition TransactionConfirmation : Interface :=
  mkInterface (Some "_TtC7Tracker23TransactionConfirmation") "TransactionConfirmation" "Event" []
      [
  property InstanceMethod false true Copy (T_ptr "NSArray" [object "ECommerceProduct"
      Unspecified] [] Nonnull) "products";
  property InstanceMethod false true Strong (object "ECommerceCart" Nonnull) "cart";
  property InstanceMethod false true Strong (object "ECommerceTransaction" Nonnull) "transaction";
  property InstanceMethod false true Strong (object "ECommerceShipping" Nonnull) "shipping";
  property InstanceMethod false true Strong (object "ECommercePayment" Nonnull) "payment";
  property InstanceMethod false true Strong (object "ECommerceCustomer" Nonnull) "customer";
  property InstanceMethod false true Copy (T_ptr "NSArray" [object "NSString" Unspecified] []
      Nonnull) "promotionalCodes";
  message InstanceMethod (T_name "void") [arg "setProductsWithProducts" (T_ptr "NSArray" [object
      "ECommerceProduct" Unspecified] [] Nonnull) "products"];
  message InstanceMethod (T_name "void") [arg "setPromotionalCodesWithCodes" (T_ptr "NSArray"
      [object "NSString" Unspecified] [] Nonnull) "codes"]].

Definition TransactionConfirmations : Interface :=
  mkInterface (Some "_TtC7Tracker24TransactionConfirmations") "TransactionConfirmations"
      "EventsHelper" [] [
  message InstanceMethod (object "TransactionConfirmation" Nonnull) [arg "addWithScreen" (object
      "Screen" Nullable) "screen"]].

Definition UpdateCart : Interface :=
  mkInterface (Some "_TtC7Tracker10UpdateCart") "UpdateCart" "Event" [] [
  property InstanceMethod false true Strong (object "ECommerceCart" Nonnull) "cart"].

Definition UpdateCarts : Interface :=
  mkInterface (Some "_TtC7Tracker11UpdateCarts") "UpdateCarts" "EventsHelper" [] [
  method InstanceMethod (object "UpdateCart" Nonnull) "add"].

Definition Video : Interface :=
  mkInterface (Some "_TtC7Tracker5Video") "Video" "RichMedia" [] [].

Definition Videos : Interface :=
  mkInterface (Some "_TtC7Tracker6Videos") "Videos" "NSObject" [] [
  message InstanceMethod (object "Video" Nonnull) [arg "add" (object "NSString" Nonnull)
      "mediaLabel"; arg "duration" (T_name "NSInteger") "duration"];
  deprecated (message InstanceMethod (object "Video" Nonnull) [arg "add" (object "NSString"
      Nonnull) "name"; arg "chapter1" (object "NSString" Nonnull) "chapter1"; arg "duration"
      (T_name "NSInteger") "duration"]);
  message InstanceMethod (object "Video" Nonnull) [arg "add" (object "NSString" Nonnull)
      "mediaLabel"; arg "mediaTheme1" (object "NSString" Nonnull) "mediaTheme1"; arg "duration"
      (T_name "NSInteger") "duration"];
  deprecated (message InstanceMethod (object "Video" Nonnull) [arg "add" (object "NSString"
      Nonnull) "name"; arg "chapter1" (object "NSString" Nonnull) "chapter1"; arg "chapter2"
      (object "NSString" Nonnull) "chapter2"; arg "duration" (T_name "NSInteger") "duration"]);
  message InstanceMethod (object "Video" Nonnull) [arg "add" (object "NSString" Nonnull)
      "mediaLabel"; arg "mediaTheme1" (object "NSString" Nonnull) "mediaTheme1"; arg
      "mediaTheme2" (object "NSString" Nonnull) "mediaTheme2"; arg "duration" (T_name
      "NSInteger") "duration"];
  deprecated (message InstanceMethod (object "Video" Nonnull) [arg "add" (object "NSString"
      Nonnull) "name"; arg "chapter1" (object "NSString" Nonnull) "chapter1"; arg "chapter2"
      (object "NSString" Nonnull) "chapter2"; arg "chapter3" (object "NSString" Nonnull)
      "chapter3"; arg "duration" (T_name "NSInteger") "duration"]);
  deprecated (message InstanceMethod (object "Video" Nonnull) [arg "addWithMediaLabel" (object
      "NSString" Nonnull) "mediaLabel"; arg "mediaTheme1" (object "NSString" Nonnull)
      "mediaTheme1"; arg "mediaTheme2" (object "NSString" Nonnull) "mediaTheme2"; arg
      "mediaTheme3" (object "NSString" Nonnull) "mediaTheme3"; arg "duration" (T_name
      "NSInteger") "duration"]);
  message InstanceMethod (object "Video" Nonnull) [arg "add" (object "NSString" Nonnull)
      "mediaLabel"; arg "mediaTheme1" (object "NSString" Nonnull) "mediaTheme1"; arg
      "mediaTheme2" (object "NSString" Nonnull) "mediaTheme2"; arg "mediaTheme3" (object
      "NSString" Nonnull) "mediaTheme3"; arg "duration" (T_name "NSInteger") "duration"];
  deprecated (message InstanceMethod (T_name "void") [arg "remove" (object "NSString" Nonnull)
      "mediaLabel"]);
  method InstanceMethod (T_name "void") "removeAll";
  unavailable (method InstanceMethod (T_instancetype Nonnull) "init");
  unavailable (method ClassMethod (T_instancetype Nonnull) "new")].

(** The declarations, in the order of the header. *)
Definition header : Header := [
  D_forward ["Tracker"];
  D_interface ATInternet;
  D_interface ATReachability;
  D_interface BusinessObject;
  D_forward ["ScreenAction"];
  D_forward ["CustomObjects"];
  D_forward ["CustomVars"];
  D_forward ["Aisle"];
  D_forward ["CustomTreeStructure"];
  D_forward ["PublisherImpressions"];
  D_forward ["SelfPromotionImpressions"];
  D_forward ["Location"];
  D_forward ["Campaign"];
  D_forward ["InternalSearch"];
  D_forward ["Order"];
  D_forward ["Cart"];
  D_interface AbstractScreen;
  D_enum ScreenAction;
  D_interface Event;
  D_forward ["ECommerceProduct"];
  D_forward ["ECommerceCart"];
  D_interface AddProduct;
  D_interface EventsHelper;
  D_interface AddProducts;
  D_interface ScreenInfo;
  D_interface Aisle;
  D_forward ["RichMediaAction"];
  D_interface RichMedia;
  D_enum BroadcastMode;
  D_enum RichMediaAction;
  D_interface Audio;
  D_interface Audios;
  D_enum BackgroundMode;
  D_interface BackgroundTask;
  D_interface Campaign;
  D_interface Campaigns;
  D_forward ["Products"];
  D_interface Cart;
  D_interface Context;
  D_interface CustomObject;
  D_interface CustomObjects;
  D_interface CustomTreeStructure;
  D_interface CustomTreeStructures;
  D_interface CustomVar;
  D_enum CustomVarType;
  D_interface CustomVars;
  D_forward ["HitStatus"];
  D_protocol TrackerDelegate;
  D_interface DefaultTrackerDelegate;
  D_forward ["ECommerceShipping"];
  D_interface DeliveryCheckout;
  D_interface DeliveryCheckouts;
  D_interface DisplayCart;
  D_interface DisplayCarts;
  D_interface DisplayPageProduct;
  D_interface DisplayPageProducts;
  D_interface DisplayProduct;
  D_interface DisplayProducts;
  D_interface DynamicScreen;
  D_interface DynamicScreens;
  D_forward ["RemoveProducts"];
  D_forward ["UpdateCarts"];
  D_forward ["PaymentCheckouts"];
  D_forward ["TransactionConfirmations"];
  D_interface ECommerce;
  D_interface RequiredPropertiesDataObject;
  D_interface ECommerceCart;
  D_interface ECommerceCustomer;
  D_interface ECommercePayment;
  D_interface ECommerceProduct;
  D_interface ECommerceShipping;
  D_interface ECommerceTransaction;
  D_interface Events;
  D_forward ["GestureAction"];
  D_forward ["GestureEventType"];
  D_interface Gesture;
  D_enum GestureEventType;
  D_enum GestureAction;
  D_interface Gestures;
  D_forward ["NSNumber"];
  D_forward ["HitType"];
  D_interface Hit;
  D_enum HitType;
  D_enum HitStatus;
  D_interface IdentifiedVisitor;
  D_interface InternalSearch;
  D_interface InternalSearches;
  D_interface LiveAudio;
  D_interface LiveAudios;
  D_forward ["LiveMedium"];
  D_interface LiveMedia;
  D_interface LiveMedium;
  D_interface LiveVideo;
  D_interface LiveVideos;
  D_interface Location;
  D_interface Locations;
  D_forward ["Medium"];
  D_interface Media;
  D_forward ["Videos"];
  D_interface MediaPlayer;
  D_interface MediaPlayers;
  D_interface Medium;
  D_forward ["MvTestingVars"];
  D_interface MvTesting;
  D_interface MvTestingVar;
  D_interface MvTestingVars;
  D_interface MvTestings;
  D_interface NuggAd;
  D_interface NuggAds;
  D_interface Offline;
  D_forward ["OnAppAdAction"];
  D_interface OnAppAd;
  D_enum OnAppAdAction;
  D_forward ["OrderDiscount"];
  D_forward ["OrderAmount"];
  D_forward ["OrderDelivery"];
  D_forward ["OrderCustomVars"];
  D_interface Order;
  D_interface OrderAmount;
  D_interface OrderCustomVar;
  D_interface OrderCustomVars;
  D_interface OrderDelivery;
  D_interface OrderDiscount;
  D_interface Orders;
  D_interface ParamOption;
  D_interface PaymentCheckout;
  D_interface PaymentCheckouts;
  D_forward ["ProductAction"];
  D_interface Product;
  D_enum ProductAction;
  D_interface Products;
  D_interface Publisher;
  D_interface PublisherImpression;
  D_interface PublisherImpressions;
  D_interface Publishers;
  D_interface RemoveProduct;
  D_interface RemoveProducts;
  D_interface Screen;
  D_interface Screens;
  D_interface SelfPromotion;
  D_interface SelfPromotionImpression;
  D_interface SelfPromotionImpressions;
  D_interface SelfPromotions;
  D_interface Tracker;
  D_interface TrackerConfigurationKeys;
  D_interface TransactionConfirmation;
  D_interface TransactionConfirmations;
  D_interface UpdateCart;
  D_interface UpdateCarts;
  D_interface Video;
  D_interface Videos].
