(* ===== verification/ComScoreHeader.v ===== *)
(** * ComScoreHeader: the ComScore SDK.

    The headers under [Libraries/ComScore.framework/Versions/A/Headers] that
    [ComScore.h] imports, in the order of the imports. *)

From S2P Require Import Prelude ObjCInterface.

Definition SCORLogLevel : Enum :=
  mkEnum "SCORLogLevel" "NSInteger" [
  ("SCORLogLevelNone", Some 30000);
  ("SCORLogLevelError", Some 30001);
  ("SCORLogLevelWarning", Some 30002);
  ("SCORLogLevelDebug", Some 30003);
  ("SCORLogLevelVerbose", Some 30004)].

Definition SCORAnalytics_members_1 : list Member := [
  method ClassMethod (object "NSString" Unspecified) "version";
  method ClassMethod (T_name "SCORLogLevel") "logLevel";
  message ClassMethod (T_name "void") [arg "setLogLevel" (T_name "SCORLogLevel") "level"];
  method ClassMethod (T_name "void") "notifyViewEvent";
  message ClassMethod (T_name "void") [arg "notifyViewEventWithEventInfo" (object "SCOREventInfo"
      Unspecified) "eventInfo"];
  message ClassMethod (T_name "void") [arg "notifyViewEventWithLabels" (object "NSDictionary"
      Unspecified) "labels"];
  method ClassMethod (T_name "void") "notifyHiddenEvent";
  message ClassMethod (T_name "void") [arg "notifyHiddenEventWithEventInfo" (object
      "SCOREventInfo" Unspecified) "eventInfo"];
  message ClassMethod (T_name "void") [arg "notifyHiddenEventWithLabels" (object "NSDictionary"
      Unspecified) "labels"];
  message ClassMethod (T_name "void") [arg "aggregateWithLabels" (object "NSDictionary"
      Unspecified) "labels"];
  message ClassMethod (T_name "void") [arg "aggregateWithEventInfo" (object "SCOREventInfo"
      Unspecified) "eventInfo"];
  method ClassMethod (object "NSDictionary" Unspecified) "trackingProperties";
  method ClassMethod (T_name "void") "notifyUserInteraction";
  method ClassMethod (T_name "void") "notifyUxActive";
  method ClassMethod (T_name "void") "notifyUxInactive";
  method ClassMethod (T_name "void") "notifyEnterForeground";
  method ClassMethod (T_name "void") "notifyExitForeground";
  method ClassMethod (T_name "void") "updateUsageProperties";
  method ClassMethod (T_name "void") "flushOfflineCache";
  method ClassMethod (object "SCORConfiguration" Unspecified) "configuration";
  method ClassMethod (T_name "void") "start"].

Definition SCORAnalytics_members_2 : list Member := [
  method ClassMethod (T_name "void") "clearOfflineCache";
  method ClassMethod (T_name "void") "clearInternalData";
  message ClassMethod (T_name "void") [arg "getActivationCategoriesWithKey" (object "NSString"
      Unspecified) "key"; arg "url" (object "NSString" Unspecified) "url"; arg
      "publisherConfiguration" (object "SCORPublisherConfiguration" Unspecified)
      "publisherConfiguration"; arg "block" (T_block (T_name "void") [object "NSArray"
      Unspecified] Unspecified) "callback"]].

Definition SCORAnalytics : Interface :=
  mkInterface None "SCORAnalytics" "NSObject" [] (SCORAnalytics_members_1 ++
      SCORAnalytics_members_2).

Definition SCORApplicationState : Enum :=
  mkEnum "SCORApplicationState" "NSInteger" [
  ("SCORApplicationStateForeground", None);
  ("SCORApplicationStateBackgroundUxActive", None);
  ("SCORApplicationStateInactive", None)].

Definition SCORLiveTransmissionMode : Enum :=
  mkEnum "SCORLiveTransmissionMode" "enum" [
  ("SCORLiveTransmissionModeCache", Some 20003);
  ("SCORLiveTransmissionModeLan", Some 20002);
  ("SCORLiveTransmissionModeStandard", Some 20001)].

Definition SCOROfflineCacheMode : Enum :=
  mkEnum "SCOROfflineCacheMode" "NSInteger" [
  ("SCOROfflineCacheModeDisabled", Some 20104);
  ("SCOROfflineCacheModeLan", Some 20103);
  ("SCOROfflineCacheModeManualFlush", Some 20102);
  ("SCOROfflineCacheModeEnabled", Some 20101)].

Definition SCORUsagePropertiesAutoUpdateMode : Enum :=
  mkEnum "SCORUsagePropertiesAutoUpdateMode" "NSInteger" [
  ("SCORUsagePropertiesAutoUpdateModeDisabled", Some 20502);
  ("SCORUsagePropertiesAutoUpdateModeForegroundAndBackground", Some 20501);
  ("SCORUsagePropertiesAutoUpdateModeForegroundOnly", Some 20500)].

Definition SCORConfigurationType : Enum :=
  mkEnum "SCORConfigurationType" "NSInteger" [
  ("SCORConfigurationTypePersistentLabels", Some 20300);
  ("SCORConfigurationTypePartner", Some 20301);
  ("SCORConfigurationTypePublisher", Some 20302);
  ("SCORConfigurationTypeKeepAliveMeasurement", Some 20303);
  ("SCORConfigurationTypeLiveTransmissionMode", Some 20304);
  ("SCORConfigurationTypeOfflineCacheMode", Some 20305);
  ("SCORConfigurationTypeDisable", Some 20306);
  ("SCORConfigurationTypeTimeWindowElapsed", Some 20307)].

Definition SCORConfigurationDelegate : Protocol :=
  mkProtocol None "SCORConfigurationDelegate" ["NSObject"] [
  message InstanceMethod (T_name "void") [arg "configurationChangedWithConfigurationType" (T_name
      "SCORConfigurationType") "configurationType"]].

Definition SCORClientConfiguration_members_1 : list Member := [
  property InstanceMethod true false Default (object "NSString" Unspecified) "applicationName";
  property InstanceMethod true false Default (object "NSString" Unspecified) "applicationVersion";
  property InstanceMethod false true Copy (object "NSDictionary" Unspecified) "startLabels";
  message InstanceMethod (T_name "BOOL") [arg "containsStartLabel" (object "NSString"
      Unspecified) "labelName"];
  property InstanceMethod true false Default (object "NSString" Unspecified) "liveEndpointURL";
  property InstanceMethod true false Default (object "NSString" Unspecified)
      "offlineFlushEndpointURL";
  property InstanceMethod true false Default (T_name "SCORLiveTransmissionMode")
      "liveTransmissionMode";
  property InstanceMethod true false Default (T_name "SCOROfflineCacheMode") "offlineCacheMode";
  property InstanceMethod true false Default (object "NSArray" Unspecified) "labelOrder";
  property InstanceMethod true false Default (T_name "SCORUsagePropertiesAutoUpdateMode")
      "usagePropertiesAutoUpdateMode";
  property InstanceMethod true false Default (T_name "int") "usagePropertiesAutoUpdateInterval";
  property InstanceMethod true false Default (T_name "int") "cacheMaxMeasurements";
  property InstanceMethod true false Default (T_name "int") "cacheMaxBatchFiles";
  property InstanceMethod true false Default (T_name "int") "cacheMaxFlushesInARow";
  property InstanceMethod true false Default (T_name "int") "cacheMinutesToRetry";
  property InstanceMethod true false Default (T_name "int") "cacheMeasurementExpiry";
  property InstanceMethod true false Default (T_name "long") "cacheFlushingInterval";
  property InstanceMethod true false Default (T_name "BOOL") "keepAliveMeasurement";
  property InstanceMethod true false Default (T_name "BOOL") "secureTransmission";
  property InstanceMethod true false Default (T_name "BOOL") "httpRedirectCaching";
  When "COMSCORE_MAC" (property InstanceMethod true false Default (T_name "NSString")
      "applicationDataDirectory");
  method InstanceMethod (object "NSDictionary" Unspecified) "persistentLabels";
  message InstanceMethod (T_name "void") [arg "setPersistentLabelWithName" (object "NSString"
      Unspecified) "name"; arg "value" (object "NSString" Unspecified) "value"]].

Definition SCORClientConfiguration_members_2 : list Member := [
  message InstanceMethod (T_name "void") [arg "setPersistentLabels" (object "NSDictionary"
      Unspecified) "persistentLabels"];
  message InstanceMethod (T_name "void") [arg "removePersistentLabelWithName" (object "NSString"
      Unspecified) "name"];
  method InstanceMethod (T_name "void") "removeAllPersistentLabels";
  message InstanceMethod (object "NSString" Unspecified) [arg "persistentLabelWithName" (object
      "NSString" Unspecified) "name"];
  message InstanceMethod (T_name "BOOL") [arg "containsPersistentLabel" (object "NSString"
      Unspecified) "labelName"];
  message InstanceMethod (T_name "void") [arg "addDelegate" (T_id ["SCORConfigurationDelegate"]
      Unspecified) "delegate"];
  message InstanceMethod (T_name "void") [arg "removeDelegate" (T_id
      ["SCORConfigurationDelegate"] Unspecified) "delegate"]].

Definition SCORClientConfiguration : Interface :=
  mkInterface None "SCORClientConfiguration" "NSObject" [] (SCORClientConfiguration_members_1 ++
      SCORClientConfiguration_members_2).

Definition SCORClientConfigurationBuilder : Interface :=
  mkInterface None "SCORClientConfigurationBuilder" "NSObject" [] [
  property InstanceMethod false false Copy (object "NSString" Unspecified) "liveEndpointURL";
  property InstanceMethod false false Copy (object "NSString" Unspecified)
      "offlineFlushEndpointURL";
  property InstanceMethod false true Default (T_name "SCORLiveTransmissionMode")
      "liveTransmissionMode";
  property InstanceMethod false true Default (T_name "SCOROfflineCacheMode") "offlineCacheMode";
  property InstanceMethod false false Copy (object "NSDictionary" Unspecified) "persistentLabels";
  property InstanceMethod false false Copy (object "NSDictionary" Unspecified) "startLabels";
  property InstanceMethod false false Copy (object "NSArray" Unspecified) "labelOrder";
  property InstanceMethod false false Copy (object "NSString" Unspecified) "applicationName";
  property InstanceMethod false false Copy (object "NSString" Unspecified) "applicationVersion";
  property InstanceMethod false true Default (T_name "SCORUsagePropertiesAutoUpdateMode")
      "usagePropertiesAutoUpdateMode";
  property InstanceMethod false true Default (T_name "int") "usagePropertiesAutoUpdateInterval";
  property InstanceMethod false true Default (T_name "int") "cacheMaxMeasurements";
  property InstanceMethod false true Default (T_name "int") "cacheMaxBatchFiles";
  property InstanceMethod false true Default (T_name "int") "cacheMaxFlushesInARow";
  property InstanceMethod false true Default (T_name "int") "cacheMinutesToRetry";
  property InstanceMethod false true Default (T_name "int") "cacheMeasurementExpiry";
  property InstanceMethod false true Default (T_name "int") "cacheFlushingInterval";
  property InstanceMethod false true Default (T_name "BOOL") "keepAliveMeasurement";
  property InstanceMethod false true Default (T_name "BOOL") "secureTransmission";
  property InstanceMethod false true Default (T_name "BOOL") "httpRedirectCaching"].

Definition SCORConfiguration_members_1 : list Member := [
  property InstanceMethod false false Default (T_name "SCORLiveTransmissionMode")
      "liveTransmissionMode";
  property InstanceMethod false false Default (T_name "SCOROfflineCacheMode") "offlineCacheMode";
  property InstanceMethod true false Default (T_name "int") "cacheMaxMeasurements";
  property InstanceMethod true false Default (T_name "int") "cacheMaxBatchFiles";
  property InstanceMethod true false Default (T_name "int") "cacheMaxFlushesInARow";
  property InstanceMethod true false Default (T_name "int") "cacheMinutesToRetry";
  property InstanceMethod true false Default (T_name "int") "cacheMeasurementExpiry";
  property InstanceMethod true false Default (T_name "long") "cacheFlushingInterval";
  property InstanceMethod true false Default (object "NSArray" Unspecified)
      "partnerConfigurations";
  property InstanceMethod true false Default (object "NSArray" Unspecified)
      "publisherConfigurations";
  property InstanceMethod true false Default (T_name "int") "usagePropertiesAutoUpdateInterval";
  property InstanceMethod false false Copy (object "NSArray" Unspecified) "labelOrder";
  property InstanceMethod true false Default (object "NSString" Unspecified) "liveEndpointURL";
  property InstanceMethod true false Default (object "NSString" Unspecified)
      "offlineFlushEndpointURL";
  property InstanceMethod false false Copy (object "NSString" Unspecified) "applicationName";
  property InstanceMethod false false Copy (object "NSString" Unspecified) "applicationVersion";
  property InstanceMethod false false Copy (object "NSDictionary" Unspecified) "startLabels";
  property InstanceMethod false true Default (T_name "bool") "preventAdSupportUsage";
  message InstanceMethod (object "NSString" Unspecified) [arg "startLabelWithName" (object
      "NSString" Unspecified) "name"];
  message InstanceMethod (T_name "void") [arg "setStartLabelWithName" (object "NSString"
      Unspecified) "name"; arg "value" (object "NSString" Unspecified) "value"];
  message InstanceMethod (T_name "BOOL") [arg "containsStartLabel" (object "NSString"
      Unspecified) "labelName"];
  message InstanceMethod (T_name "void") [arg "removeStartLabelWithName" (object "NSString"
      Unspecified) "name"];
  method InstanceMethod (T_name "void") "removeAllStartLabels";
  property InstanceMethod false false Default (T_name "BOOL") "keepAliveMeasurement";
  property InstanceMethod true false Default (T_name "BOOL") "secureTransmission";
  property InstanceMethod true false Default (T_name "BOOL") "httpRedirectCaching";
  property InstanceMethod true false Default (T_name "SCORUsagePropertiesAutoUpdateMode")
      "usagePropertiesAutoUpdateMode"].

Definition SCORConfiguration_members_2 : list Member := [
  property InstanceMethod true false Default (T_name "BOOL") "enabled";
  method InstanceMethod (object "NSDictionary" Unspecified) "persistentLabels";
  message InstanceMethod (T_name "void") [arg "setPersistentLabels" (object "NSDictionary"
      Unspecified) "persistentLabels"];
  message InstanceMethod (T_name "void") [arg "setPersistentLabelWithName" (object "NSString"
      Unspecified) "name"; arg "value" (object "NSString" Unspecified) "value"];
  message InstanceMethod (object "NSString" Unspecified) [arg "persistentLabelWithName" (object
      "NSString" Unspecified) "name"];
  message InstanceMethod (T_name "BOOL") [arg "containsPersistentLabel" (object "NSString"
      Unspecified) "labelName"];
  message InstanceMethod (T_name "void") [arg "removePersistentLabelWithName" (object "NSString"
      Unspecified) "name"];
  method InstanceMethod (T_name "void") "removeAllPersistentLabels";
  message InstanceMethod (T_name "void") [arg "addClientWithConfiguration" (object
      "SCORClientConfiguration" Unspecified) "clientConfiguration"];
  message InstanceMethod (object "SCORPartnerConfiguration" Unspecified) [arg
      "partnerConfigurationWithPartnerId" (object "NSString" Unspecified) "partnerId"];
  message InstanceMethod (object "SCORPublisherConfiguration" Unspecified) [arg
      "publisherConfigurationWithPublisherId" (object "NSString" Unspecified) "publisherId"];
  method InstanceMethod (T_name "void") "disable";
  message InstanceMethod (T_name "void") [arg "addDelegate" (T_id ["SCORConfigurationDelegate"]
      Unspecified) "delegate"];
  message InstanceMethod (T_name "void") [arg "removeDelegate" (T_id
      ["SCORConfigurationDelegate"] Unspecified) "delegate"]].

Definition SCORConfiguration : Interface :=
  mkInterface None "SCORConfiguration" "NSObject" [] (SCORConfiguration_members_1 ++
      SCORConfiguration_members_2).

Definition SCOREventInfo : Interface :=
  mkInterface None "SCOREventInfo" "NSObject" [] [
  method InstanceMethod (object "SCOREventInfo" Unspecified) "init";
  method InstanceMethod (T_name "void") "dealloc";
  method InstanceMethod (object "SCOREventInfo" Unspecified) "copy";
  message InstanceMethod (T_name "void") [arg "setLabels" (object "NSDictionary" Unspecified)
      "labels"];
  message InstanceMethod (T_name "void") [arg "setLabelWithName" (object "NSString" Unspecified)
      "name"; arg "value" (object "NSString" Unspecified) "value"];
  message InstanceMethod (object "NSString" Unspecified) [arg "labelWithName" (object "NSString"
      Unspecified) "name"];
  message InstanceMethod (object "NSString" Unspecified) [arg "labelWithName" (object "NSString"
      Unspecified) "name"; arg "publisherId" (object "NSString" Unspecified) "publisherId"];
  message InstanceMethod (T_name "void") [arg "removePublisherWithId" (object "NSString"
      Unspecified) "publisherId"];
  message InstanceMethod (T_name "void") [arg "removeLabelWithName" (object "NSString"
      Unspecified) "name"];
  message InstanceMethod (T_name "void") [arg "setLabels" (object "NSDictionary" Unspecified)
      "labels"; arg "publisherId" (object "NSString" Unspecified) "publisherId"];
  message InstanceMethod (T_name "void") [arg "setLabelWithName" (object "NSString" Unspecified)
      "name"; arg "value" (object "NSString" Unspecified) "value"; arg "publisherId" (object
      "NSString" Unspecified) "publisherId"];
  message InstanceMethod (T_name "void") [arg "setPublisherWithId" (object "NSString"
      Unspecified) "publisherId"];
  message InstanceMethod (T_name "void") [arg "removeLabelWithName" (object "NSString"
      Unspecified) "name"; arg "publisherId" (object "NSString" Unspecified) "publisherId"];
  method InstanceMethod (object "NSDictionary" Unspecified) "labels";
  method InstanceMethod (T_name "void") "removeAllLabels";
  message InstanceMethod (T_name "void") [arg "removeAllLabelsWithPublisherId" (object "NSString"
      Unspecified) "publisherId"];
  message InstanceMethod (object "NSDictionary" Unspecified) [arg "labelsWithPublisherId" (object
      "NSString" Unspecified) "publisherId"];
  message InstanceMethod (T_name "BOOL") [arg "containsPublisher" (object "NSString" Unspecified)
      "publisherId"];
  message InstanceMethod (T_name "BOOL") [arg "containsLabel" (object "NSString" Unspecified)
      "labelName"];
  message InstanceMethod (T_name "BOOL") [arg "containsLabel" (object "NSString" Unspecified)
      "labelName"; arg "publisherId" (object "NSString" Unspecified) "publisherId"]].

Definition SCORExtensionType : Enum :=
  mkEnum "SCORExtensionType" "NSInteger" [
  ("SCORExtensionTypeToday", None);
  ("SCORExtensionTypeShare", None);
  ("SCORExtensionTypeAction", None);
  ("SCORExtensionTypePhotoEditing", None);
  ("SCORExtensionTypeDocumentProvider", None);
  ("SCORExtensionTypeCustomKeyboard", None);
  ("SCORExtensionTypeWatchApp", None);
  ("SCORExtensionTypeAudioUnit", None);
  ("SCORExtensionTypeUnknown", None)].

Definition SCORPartnerConfiguration : Interface :=
  mkInterface None "SCORPartnerConfiguration" "SCORClientConfiguration" [] [
  property InstanceMethod true true Copy (object "NSString" Unspecified) "partnerId";
  property InstanceMethod true true Copy (object "NSString" Unspecified) "externalClientId";
  message ClassMethod (object "SCORPartnerConfiguration" Unspecified) [arg
      "partnerConfigurationWithBuilderBlock" (T_block (T_name "void") [object
      "SCORPartnerConfigurationBuilder" Unspecified] Unspecified) "block"];
  message InstanceMethod (T_instancetype Unspecified) [arg "initWithBuilder" (object
      "SCORPartnerConfigurationBuilder" Unspecified) "builder"]].

Definition SCORPartnerConfigurationBuilder : Interface :=
  mkInterface None "SCORPartnerConfigurationBuilder" "SCORClientConfigurationBuilder" [] [
  property InstanceMethod false false Copy (object "NSString" Unspecified) "partnerId";
  property InstanceMethod false false Copy (object "NSString" Unspecified) "externalClientId";
  method InstanceMethod (object "SCORPartnerConfiguration" Unspecified) "build"].

Definition SCORPublisherConfiguration : Interface :=
  mkInterface None "SCORPublisherConfiguration" "SCORClientConfiguration" [] [
  property InstanceMethod true true Copy (object "NSString" Unspecified) "publisherId";
  property InstanceMethod true true Copy (object "NSString" Unspecified) "publisherSecret";
  property InstanceMethod true false Default (object "NSString" Unspecified)
      "publisherUniqueDeviceId";
  message ClassMethod (object "SCORPublisherConfiguration" Unspecified) [arg
      "publisherConfigurationWithBuilderBlock" (T_block (T_name "void") [object
      "SCORPublisherConfigurationBuilder" Unspecified] Unspecified) "block"];
  message InstanceMethod (T_instancetype Unspecified) [arg "initWithBuilder" (object
      "SCORPublisherConfigurationBuilder" Unspecified) "builder"]].

Definition SCORPublisherConfigurationBuilder : Interface :=
  mkInterface None "SCORPublisherConfigurationBuilder" "SCORClientConfigurationBuilder" [] [
  property InstanceMethod false false Copy (object "NSString" Unspecified) "publisherId";
  property InstanceMethod false false Copy (object "NSString" Unspecified) "publisherSecret";
  method InstanceMethod (object "SCORPublisherConfiguration" Unspecified) "build"].

Definition SCORSessionState : Enum :=
  mkEnum "SCORSessionState" "enum" [
  ("SCORSessionStateInactive", None);
  ("SCORSessionStateApplication", None);
  ("SCORSessionStateUser", None);
  ("SCORSessionStateActiveUser", None)].

Definition SCORTrackingProperty : Enum :=
  mkEnum "SCORTrackingProperty" "NSInteger" [
  ("SCORTrackingPropertyFirstInstallId", Some 20400);
  ("SCORTrackingPropertyCurrentInstallId", Some 20401);
  ("SCORTrackingPropertyDeviceModel", Some 20402);
  ("SCORTrackingPropertyCrossPublisherDeviceId", Some 20403);
  ("SCORTrackingPropertyCurrentApplicationVersion", Some 20404);
  ("SCORTrackingPropertyPreviousApplicationVersion", Some 20405);
  ("SCORTrackingPropertyRunCount", Some 20406);
  ("SCORTrackingPropertyIsJailbroken", Some 20407);
  ("SCORTrackingPropertyColdStartId", Some 20408);
  ("SCORTrackingPropertyColdStartCount", Some 20409)].

Definition SCORStreamingConfiguration : Interface :=
  mkInterface None "SCORStreamingConfiguration" "NSObject" [] [
  property InstanceMethod true false Default (object "NSArray" Unspecified)
      "restrictedPublishersList";
  property InstanceMethod true false Default (T_name "BOOL") "systemClockJumpDetection";
  message ClassMethod (object "SCORStreamingConfiguration" Unspecified) [arg
      "streamingConfigurationWithBuilderBlock" (T_block (T_name "void") [object
      "SCORStreamingConfigurationBuilder" Unspecified] Unspecified) "block"];
  message InstanceMethod (T_instancetype Unspecified) [arg "initWithBuilder" (object
      "SCORStreamingConfigurationBuilder" Unspecified) "builder"]].

Definition SCORStreamingConfigurationBuilder : Interface :=
  mkInterface None "SCORStreamingConfigurationBuilder" "NSObject" [] [
  property InstanceMethod false false Copy (object "NSArray" Unspecified)
      "restrictedPublishersList";
  property InstanceMethod false true Default (T_name "BOOL") "systemClockJumpDetection";
  method InstanceMethod (object "SCORStreamingConfiguration" Unspecified) "build"].

Definition SCORAdType : Enum :=
  mkEnum "SCORAdType" "NSInteger" [
  ("SCORAdTypeLinearOnDemandPreRoll", Some 211);
  ("SCORAdTypeLinearOnDemandMidRoll", Some 212);
  ("SCORAdTypeLinearOnDemandPostRoll", Some 213);
  ("SCORAdTypeLinearLive", Some 221);
  ("SCORAdTypeBrandedOnDemandPreRoll", Some 231);
  ("SCORAdTypeBrandedOnDemandMidRoll", Some 232);
  ("SCORAdTypeBrandedOnDemandPostRoll", Some 233);
  ("SCORAdTypeBrandedOnDemandContent", Some 234);
  ("SCORAdTypeBrandedOnDemandLive", Some 235);
  ("SCORAdTypeOther", Some 200)].

Definition SCORContentType : Enum :=
  mkEnum "SCORContentType" "NSInteger" [
  ("SCORContentTypeLongFormOnDemand", Some 112);
  ("SCORContentTypeShortFormOnDemand", Some 111);
  ("SCORContentTypeLive", Some 113);
  ("SCORContentTypeUserGeneratedLongFormOnDemand", Some 122);
  ("SCORContentTypeUserGeneratedShortFormOnDemand", Some 121);
  ("SCORContentTypeUserGeneratedLive", Some 123);
  ("SCORContentTypeBumper", Some 199);
  ("SCORContentTypeOther", Some 100)].

Definition SCORReducedRequirementsStreamingAnalytics : Interface :=
  mkInterface None "SCORReducedRequirementsStreamingAnalytics" "NSObject" [] [
  message InstanceMethod (T_name "void") [arg "playVideoAdvertisementWithMetadata" (object
      "NSDictionary" Unspecified) "metadata"; arg "andMediaType" (T_name "SCORAdType")
      "mediaType"];
  message InstanceMethod (T_name "void") [arg "playAudioAdvertisementWithMetadata" (object
      "NSDictionary" Unspecified) "metadata"; arg "andMediaType" (T_name "SCORAdType")
      "mediaType"];
  message InstanceMethod (T_name "void") [arg "playVideoContentPartWithMetadata" (object
      "NSDictionary" Unspecified) "metadata"; arg "andMediaType" (T_name "SCORContentType")
      "mediaType"];
  message InstanceMethod (T_name "void") [arg "playAudioContentPartWithMetadata" (object
      "NSDictionary" Unspecified) "metadata"; arg "andMediaType" (T_name "SCORContentType")
      "mediaType"];
  method InstanceMethod (T_name "void") "stop"].

Definition SCORStreamingAnalyticsProtocol_members_1 : list Member := [
  property InstanceMethod true false Default (object "NSDictionary" Unspecified) "labels";
  property InstanceMethod true false Default (object "SCORStreamingPlaybackSession" Unspecified)
      "playbackSession";
  message InstanceMethod (T_name "BOOL") [arg "notifyPlayWithPosition" (T_name "long")
      "position"; arg "labels" (object "NSDictionary" Unspecified) "labels"];
  message InstanceMethod (T_name "BOOL") [arg "notifyPlayWithPosition" (T_name "long")
      "position"];
  message InstanceMethod (T_name "BOOL") [arg "notifyPlayWithLabels" (object "NSDictionary"
      Unspecified) "labels"];
  method InstanceMethod (T_name "BOOL") "notifyPlay";
  message InstanceMethod (T_name "BOOL") [arg "notifyPauseWithPosition" (T_name "long")
      "position"; arg "labels" (object "NSDictionary" Unspecified) "labels"];
  message InstanceMethod (T_name "BOOL") [arg "notifyPauseWithPosition" (T_name "long")
      "position"];
  message InstanceMethod (T_name "BOOL") [arg "notifyPauseWithLabels" (object "NSDictionary"
      Unspecified) "labels"];
  method InstanceMethod (T_name "BOOL") "notifyPause";
  message InstanceMethod (T_name "BOOL") [arg "notifyEndWithPosition" (T_name "long") "position";
      arg "labels" (object "NSDictionary" Unspecified) "labels"];
  message InstanceMethod (T_name "BOOL") [arg "notifyEndWithPosition" (T_name "long") "position"];
  message InstanceMethod (T_name "BOOL") [arg "notifyEndWithLabels" (object "NSDictionary"
      Unspecified) "labels"];
  method InstanceMethod (T_name "BOOL") "notifyEnd";
  message InstanceMethod (T_name "BOOL") [arg "notifyBufferStartWithPosition" (T_name "long")
      "position"; arg "labels" (object "NSDictionary" Unspecified) "labels"];
  message InstanceMethod (T_name "BOOL") [arg "notifyBufferStartWithPosition" (T_name "long")
      "position"];
  message InstanceMethod (T_name "BOOL") [arg "notifyBufferStartWithLabels" (object
      "NSDictionary" Unspecified) "labels"];
  method InstanceMethod (T_name "BOOL") "notifyBufferStart"].

Definition SCORStreamingAnalyticsProtocol_members_2 : list Member := [
  message InstanceMethod (T_name "BOOL") [arg "notifyBufferStopWithPosition" (T_name "long")
      "position"; arg "labels" (object "NSDictionary" Unspecified) "labels"];
  message InstanceMethod (T_name "BOOL") [arg "notifyBufferStopWithPosition" (T_name "long")
      "position"];
  message InstanceMethod (T_name "BOOL") [arg "notifyBufferStopWithLabels" (object "NSDictionary"
      Unspecified) "labels"];
  method InstanceMethod (T_name "BOOL") "notifyBufferStop";
  message InstanceMethod (T_name "BOOL") [arg "notifyLoadWithPosition" (T_name "long")
      "position"; arg "labels" (object "NSDictionary" Unspecified) "labels"];
  message InstanceMethod (T_name "BOOL") [arg "notifyLoadWithPosition" (T_name "long")
      "position"];
  message InstanceMethod (T_name "BOOL") [arg "notifyLoadWithLabels" (object "NSDictionary"
      Unspecified) "labels"];
  method InstanceMethod (T_name "BOOL") "notifyLoad";
  message InstanceMethod (T_name "BOOL") [arg "notifyEngageWithPosition" (T_name "long")
      "position"; arg "labels" (object "NSDictionary" Unspecified) "labels"];
  message InstanceMethod (T_name "BOOL") [arg "notifyEngageWithPosition" (T_name "long")
      "position"];
  message InstanceMethod (T_name "BOOL") [arg "notifyEngageWithLabels" (object "NSDictionary"
      Unspecified) "labels"];
  method InstanceMethod (T_name "BOOL") "notifyEngage";
  message InstanceMethod (T_name "BOOL") [arg "notifySeekStartWithPosition" (T_name "long")
      "position"; arg "labels" (object "NSDictionary" Unspecified) "labels"];
  message InstanceMethod (T_name "BOOL") [arg "notifySeekStartWithPosition" (T_name "long")
      "position"];
  message InstanceMethod (T_name "BOOL") [arg "notifySeekStartWithLabels" (object "NSDictionary"
      Unspecified) "labels"];
  method InstanceMethod (T_name "BOOL") "notifySeekStart";
  message InstanceMethod (T_name "BOOL") [arg "notifySkipAdWithPosition" (T_name "long")
      "position"; arg "labels" (object "NSDictionary" Unspecified) "labels"]].

Definition SCORStreamingAnalyticsProtocol_members_3 : list Member := [
  message InstanceMethod (T_name "BOOL") [arg "notifySkipAdWithPosition" (T_name "long")
      "position"];
  message InstanceMethod (T_name "BOOL") [arg "notifySkipAdWithLabels" (object "NSDictionary"
      Unspecified) "labels"];
  method InstanceMethod (T_name "BOOL") "notifySkipAd";
  message InstanceMethod (T_name "BOOL") [arg "notifyCustomEventWithPosition" (T_name "long")
      "position"; arg "labels" (object "NSDictionary" Unspecified) "labels"];
  message InstanceMethod (T_name "BOOL") [arg "notifyCustomEventWithPosition" (T_name "long")
      "position"];
  message InstanceMethod (T_name "BOOL") [arg "notifyCustomEventWithLabels" (object
      "NSDictionary" Unspecified) "labels"];
  method InstanceMethod (T_name "BOOL") "notifyCustomEvent";
  message InstanceMethod (T_name "BOOL") [arg "notifyCallToActionWithPosition" (T_name "long")
      "position"; arg "labels" (object "NSDictionary" Unspecified) "labels"];
  message InstanceMethod (T_name "BOOL") [arg "notifyCallToActionWithPosition" (T_name "long")
      "position"];
  message InstanceMethod (T_name "BOOL") [arg "notifyCallToActionWithLabels" (object
      "NSDictionary" Unspecified) "labels"];
  method InstanceMethod (T_name "BOOL") "notifyCallToAction";
  message InstanceMethod (T_name "BOOL") [arg "notifyErrorWithPosition" (T_name "long")
      "position"; arg "labels" (object "NSDictionary" Unspecified) "labels"];
  message InstanceMethod (T_name "BOOL") [arg "notifyErrorWithPosition" (T_name "long")
      "position"];
  message InstanceMethod (T_name "BOOL") [arg "notifyErrorWithLabels" (object "NSDictionary"
      Unspecified) "labels"];
  method InstanceMethod (T_name "BOOL") "notifyError";
  message InstanceMethod (T_name "BOOL") [arg "notifyTransferPlaybackWithPosition" (T_name
      "long") "position"; arg "labels" (object "NSDictionary" Unspecified) "labels"];
  message InstanceMethod (T_name "BOOL") [arg "notifyTransferPlaybackWithPosition" (T_name
      "long") "position"]].

Definition SCORStreamingAnalyticsProtocol_members_4 : list Member := [
  message InstanceMethod (T_name "BOOL") [arg "notifyTransferPlaybackWithLabels" (object
      "NSDictionary" Unspecified) "labels"];
  method InstanceMethod (T_name "BOOL") "notifyTransferPlayback";
  message InstanceMethod (T_name "BOOL") [arg "notifyDRMFailWithPosition" (T_name "long")
      "position"; arg "labels" (object "NSDictionary" Unspecified) "labels"];
  message InstanceMethod (T_name "BOOL") [arg "notifyDRMFailWithPosition" (T_name "long")
      "position"];
  message InstanceMethod (T_name "BOOL") [arg "notifyDRMFailWithLabels" (object "NSDictionary"
      Unspecified) "labels"];
  method InstanceMethod (T_name "BOOL") "notifyDRMFail";
  message InstanceMethod (T_name "BOOL") [arg "notifyDRMApproveWithPosition" (T_name "long")
      "position"; arg "labels" (object "NSDictionary" Unspecified) "labels"];
  message InstanceMethod (T_name "BOOL") [arg "notifyDRMApproveWithPosition" (T_name "long")
      "position"];
  message InstanceMethod (T_name "BOOL") [arg "notifyDRMApproveWithLabels" (object "NSDictionary"
      Unspecified) "labels"];
  method InstanceMethod (T_name "BOOL") "notifyDRMApprove";
  message InstanceMethod (T_name "BOOL") [arg "notifyDRMDenyWithPosition" (T_name "long")
      "position"; arg "labels" (object "NSDictionary" Unspecified) "labels"];
  message InstanceMethod (T_name "BOOL") [arg "notifyDRMDenyWithPosition" (T_name "long")
      "position"];
  message InstanceMethod (T_name "BOOL") [arg "notifyDRMDenyWithLabels" (object "NSDictionary"
      Unspecified) "labels"];
  method InstanceMethod (T_name "BOOL") "notifyDRMDeny";
  message InstanceMethod (T_name "BOOL") [arg "notifyChangeBitrate" (T_name "NSInteger")
      "newBitrate"; arg "position" (T_name "long") "position"; arg "labels" (object
      "NSDictionary" Unspecified) "labels"];
  message InstanceMethod (T_name "BOOL") [arg "notifyChangeBitrate" (T_name "NSInteger")
      "newBitrate"; arg "position" (T_name "long") "position"]].

Definition SCORStreamingAnalyticsProtocol_members_5 : list Member := [
  message InstanceMethod (T_name "BOOL") [arg "notifyChangeBitrate" (T_name "NSInteger")
      "newBitrate"; arg "labels" (object "NSDictionary" Unspecified) "labels"];
  message InstanceMethod (T_name "BOOL") [arg "notifyChangeBitrate" (T_name "NSInteger")
      "newBitrate"];
  message InstanceMethod (T_name "BOOL") [arg "notifyChangePlaybackRate" (T_name "NSInteger")
      "newPlaybackRate"; arg "withPosition" (T_name "long") "position"; arg "labels" (object
      "NSDictionary" Unspecified) "labels"];
  message InstanceMethod (T_name "BOOL") [arg "notifyChangePlaybackRate" (T_name "NSInteger")
      "newPlaybackRate"; arg "position" (T_name "long") "position"];
  message InstanceMethod (T_name "BOOL") [arg "notifyChangePlaybackRate" (T_name "NSInteger")
      "newPlaybackRate"; arg "labels" (object "NSDictionary" Unspecified) "labels"];
  message InstanceMethod (T_name "BOOL") [arg "notifyChangePlaybackRate" (T_name "NSInteger")
      "newRate"];
  message InstanceMethod (T_name "BOOL") [arg "notifyChangeVolume" (T_name "NSInteger")
      "newVolume"; arg "withPosition" (T_name "long") "position"; arg "labels" (object
      "NSDictionary" Unspecified) "labels"];
  message InstanceMethod (T_name "BOOL") [arg "notifyChangeVolume" (T_name "NSInteger")
      "newVolume"; arg "position" (T_name "long") "position"];
  message InstanceMethod (T_name "BOOL") [arg "notifyChangeVolume" (T_name "NSInteger")
      "newVolume"; arg "labels" (object "NSDictionary" Unspecified) "labels"];
  message InstanceMethod (T_name "BOOL") [arg "notifyChangeVolume" (T_name "NSInteger")
      "newVolume"];
  message InstanceMethod (T_name "BOOL") [arg "notifyChangeWindowState" (object "NSString"
      Unspecified) "newState"; arg "withPosition" (T_name "long") "position"; arg "labels"
      (object "NSDictionary" Unspecified) "labels"];
  message InstanceMethod (T_name "BOOL") [arg "notifyChangeWindowState" (object "NSString"
      Unspecified) "newState"; arg "position" (T_name "long") "position"];
  message InstanceMethod (T_name "BOOL") [arg "notifyChangeWindowState" (object "NSString"
      Unspecified) "newState"; arg "labels" (object "NSDictionary" Unspecified) "labels"];
  message InstanceMethod (T_name "BOOL") [arg "notifyChangeWindowState" (object "NSString"
      Unspecified) "newState"];
  message InstanceMethod (T_name "BOOL") [arg "notifyChangeAudioTrack" (object "NSString"
      Unspecified) "newAudioTrack"; arg "withPosition" (T_name "long") "position"; arg "labels"
      (object "NSDictionary" Unspecified) "labels"]].

Definition SCORStreamingAnalyticsProtocol_members_6 : list Member := [
  message InstanceMethod (T_name "BOOL") [arg "notifyChangeAudioTrack" (object "NSString"
      Unspecified) "newAudioTrack"; arg "position" (T_name "long") "position"];
  message InstanceMethod (T_name "BOOL") [arg "notifyChangeAudioTrack" (object "NSString"
      Unspecified) "newAudioTrack"; arg "labels" (object "NSDictionary" Unspecified) "labels"];
  message InstanceMethod (T_name "BOOL") [arg "notifyChangeAudioTrack" (object "NSString"
      Unspecified) "newAudioTrack"];
  message InstanceMethod (T_name "BOOL") [arg "notifyChangeVideoTrack" (object "NSString"
      Unspecified) "newVideoTrack"; arg "withPosition" (T_name "long") "position"; arg "labels"
      (object "NSDictionary" Unspecified) "labels"];
  message InstanceMethod (T_name "BOOL") [arg "notifyChangeVideoTrack" (object "NSString"
      Unspecified) "newVideoTrack"; arg "position" (T_name "long") "position"];
  message InstanceMethod (T_name "BOOL") [arg "notifyChangeVideoTrack" (object "NSString"
      Unspecified) "newVideoTrack"; arg "labels" (object "NSDictionary" Unspecified) "labels"];
  message InstanceMethod (T_name "BOOL") [arg "notifyChangeVideoTrack" (object "NSString"
      Unspecified) "newVideoTrack"];
  message InstanceMethod (T_name "BOOL") [arg "notifyChangeSubtitleTrack" (object "NSString"
      Unspecified) "newSubtitle"; arg "withPosition" (T_name "long") "position"; arg "labels"
      (object "NSDictionary" Unspecified) "labels"];
  message InstanceMethod (T_name "BOOL") [arg "notifyChangeSubtitleTrack" (object "NSString"
      Unspecified) "newSubtitle"; arg "position" (T_name "long") "position"];
  message InstanceMethod (T_name "BOOL") [arg "notifyChangeSubtitleTrack" (object "NSString"
      Unspecified) "newSubtitle"; arg "labels" (object "NSDictionary" Unspecified) "labels"];
  message InstanceMethod (T_name "BOOL") [arg "notifyChangeSubtitleTrack" (object "NSString"
      Unspecified) "newSubtitle"];
  message InstanceMethod (T_name "BOOL") [arg "notifyChangeCDN" (object "NSString" Unspecified)
      "newCDN"; arg "withPosition" (T_name "long") "position"; arg "labels" (object
      "NSDictionary" Unspecified) "labels"];
  message InstanceMethod (T_name "BOOL") [arg "notifyChangeCDN" (object "NSString" Unspecified)
      "newCDN"; arg "position" (T_name "long") "position"];
  message InstanceMethod (T_name "BOOL") [arg "notifyChangeCDN" (object "NSString" Unspecified)
      "newCDN"; arg "labels" (object "NSDictionary" Unspecified) "labels"];
  message InstanceMethod (T_name "BOOL") [arg "notifyChangeCDN" (object "NSString" Unspecified)
      "newCDN"]].

Definition SCORStreamingAnalyticsProtocol_members_7 : list Member := [
  message InstanceMethod (T_name "void") [arg "setLabelWithName" (object "NSString" Unspecified)
      "name"; arg "value" (object "NSString" Unspecified) "value"];
  message InstanceMethod (T_name "void") [arg "setLabels" (object "NSDictionary" Unspecified)
      "labels"];
  message InstanceMethod (object "NSString" Unspecified) [arg "valueForLabel" (object "NSString"
      Unspecified) "name"];
  message InstanceMethod (T_name "BOOL") [arg "containsLabel" (object "NSString" Unspecified)
      "labelName"]].

Definition SCORStreamingAnalyticsProtocol : Protocol :=
  mkProtocol None "SCORStreamingAnalyticsProtocol" ["NSObject"]
      (SCORStreamingAnalyticsProtocol_members_1 ++ SCORStreamingAnalyticsProtocol_members_2 ++
      SCORStreamingAnalyticsProtocol_members_3 ++ SCORStreamingAnalyticsProtocol_members_4 ++
      SCORStreamingAnalyticsProtocol_members_5 ++ SCORStreamingAnalyticsProtocol_members_6 ++
      SCORStreamingAnalyticsProtocol_members_7).

Definition SCORStreamingState : Enum :=
  mkEnum "SCORStreamingState" "NSInteger" [
  ("SCORStreamingStateUndefined", Some (-1));
  ("SCORStreamingStateIdle", Some 0);
  ("SCORStreamingStatePlaybackNotStarted", None);
  ("SCORStreamingStatePlaying", None);
  ("SCORStreamingStatePaused", None);
  ("SCORStreamingStateBufferingBeforePlayback", None);
  ("SCORStreamingStateBufferingDuringPlayback", None);
  ("SCORStreamingStateBufferingDuringSeeking", None);
  ("SCORStreamingStateBufferingDuringPause", None);
  ("SCORStreamingStateSeekingBeforePlayback", None);
  ("SCORStreamingStateSeekingDuringPlayback", None);
  ("SCORStreamingStateSeekingDuringBuffering", None);
  ("SCORStreamingStateSeekingDuringPause", None);
  ("SCORStreamingStatePausedDuringBuffering", None)].

Definition SCORStreamingDelegate : Protocol :=
  mkProtocol None "SCORStreamingDelegate" ["NSObject"] [
  Optional (message InstanceMethod (T_name "void") [arg "onStateChanged" (T_name
      "SCORStreamingState") "oldState"; arg "newState" (T_name "SCORStreamingState") "newState";
      arg "eventLabels" (object "NSDictionary" Unspecified) "eventLabels"; arg "timeDelta"
      (T_name "NSTimeInterval") "timeDelta"])].

Definition SCORStreamingAnalytics : Interface :=
  mkInterface None "SCORStreamingAnalytics" "NSObject" ["SCORStreamingAnalyticsProtocol"] [
  property InstanceMethod true false Default (T_name "SCORStreamingState") "state";
  property InstanceMethod false true Default (T_name "BOOL") "pauseOnBufferingEnabled";
  property InstanceMethod false true Default (T_name "BOOL") "throttlingEnabled";
  property InstanceMethod false true Default (T_name "NSTimeInterval")
      "playbackIntervalMergeTolerance";
  property InstanceMethod false true Default (T_name "NSTimeInterval") "throttlingDelay";
  property InstanceMethod false true Default (T_name "NSTimeInterval") "pauseOnBufferingInterval";
  property InstanceMethod false true Default (T_name "NSTimeInterval") "keepAliveInterval";
  property InstanceMethod false true Default (T_name "NSTimeInterval") "loadTimeOffset";
  property InstanceMethod false true Copy (object "NSArray" Unspecified) "heartbeatIntervals";
  message InstanceMethod (T_instancetype Unspecified) [arg "initWithConfiguration" (object
      "SCORStreamingConfiguration" Unspecified) "streamingConfiguration"];
  method InstanceMethod (T_name "void") "reset";
  message InstanceMethod (T_name "void") [arg "createPlaybackSessionWithLabels" (object
      "NSDictionary" Unspecified) "labels"];
  method InstanceMethod (T_name "void") "createPlaybackSession";
  message InstanceMethod (T_name "void") [arg "setDVRWindowLength" (T_name "NSInteger")
      "newDVRWindowLength"];
  message InstanceMethod (T_name "void") [arg "setDVRWindowOffset" (T_name "NSInteger")
      "newDVRWindowOffset"];
  message InstanceMethod (T_name "void") [arg "addListener" (T_id ["SCORStreamingDelegate"]
      Unspecified) "listener"];
  message InstanceMethod (T_name "void") [arg "removeListener" (T_id ["SCORStreamingDelegate"]
      Unspecified) "listener"]].

Definition SCORStreamingAsset : Interface :=
  mkInterface None "SCORStreamingAsset" "NSObject" [] [
  property InstanceMethod true false Default (object "NSDictionary" Unspecified) "labels";
  property InstanceMethod true false Default (T_name "NSInteger") "clipNumber";
  property InstanceMethod false true Default (T_name "bool") "autoCalculatePositions";
  message InstanceMethod (T_name "void") [arg "setLabelWithName" (object "NSString" Unspecified)
      "labelName"; arg "withValue" (object "NSString" Unspecified) "value"];
  message InstanceMethod (T_name "void") [arg "setLabels" (object "NSDictionary" Unspecified)
      "labels"];
  message InstanceMethod (T_name "void") [arg "removeLabelWithName" (object "NSString"
      Unspecified) "name"];
  message InstanceMethod (object "NSString" Unspecified) [arg "label" (object "NSString"
      Unspecified) "labelName"];
  message InstanceMethod (T_name "BOOL") [arg "containsLabel" (object "NSString" Unspecified)
      "labelName"];
  message InstanceMethod (T_name "void") [arg "addStackWithPublisherId" (object "NSString"
      Unspecified) "publisherId"; arg "labels" (object "NSDictionary" Unspecified) "labels"];
  message InstanceMethod (T_name "void") [arg "removeStackWithPublisherId" (object "NSString"
      Unspecified) "publisherId"]].

Definition SCORStreamingPlaybackSession : Interface :=
  mkInterface None "SCORStreamingPlaybackSession" "NSObject" [] [
  property InstanceMethod true false Default (object "NSDictionary" Unspecified) "labels";
  property InstanceMethod true false Default (object "SCORStreamingAsset" Unspecified) "asset";
  message InstanceMethod (T_name "void") [arg "setLabelWithName" (object "NSString" Unspecified)
      "labelName"; arg "value" (object "NSString" Unspecified) "value"];
  message InstanceMethod (T_name "void") [arg "setLabels" (object "NSDictionary" Unspecified)
      "labels"];
  message InstanceMethod (T_name "void") [arg "removeLabelWithName" (object "NSString"
      Unspecified) "name"];
  message InstanceMethod (object "NSString" Unspecified) [arg "label" (object "NSString"
      Unspecified) "labelName"];
  message InstanceMethod (T_name "BOOL") [arg "containsLabel" (object "NSString" Unspecified)
      "labelName"];
  method InstanceMethod (object "NSString" Unspecified) "playbackSessionID";
  message InstanceMethod (T_name "void") [arg "setAssetWithLabels" (object "NSDictionary"
      Unspecified) "labels"];
  message InstanceMethod (T_name "void") [arg "setAssetWithLabels" (object "NSDictionary"
      Unspecified) "labels"; arg "loop" (T_name "BOOL") "loop"]].

Definition SCORVCE : Interface :=
  mkInterface None "SCORVCE" "NSObject" [] [
  method ClassMethod (object "NSString" Unspecified) "sdkVersion";
  method ClassMethod (T_name "void") "disable";
  method ClassMethod (T_name "BOOL") "enabled";
  method ClassMethod (T_instancetype Unspecified) "sharedInstance";
  message InstanceMethod (T_name "void") [arg "addPartnerID" (object "NSString" Unspecified)
      "partnerID"];
  message InstanceMethod (T_name "void") [arg "addPublisherID" (object "NSString" Unspecified)
      "publisherID"];
  method InstanceMethod (T_name "void") "discoverAndTrackAds";
  message InstanceMethod (T_name "void") [arg "discoverAndTrackAdClassNames" (object "NSArray"
      Unspecified) "classNamesArray"];
  method InstanceMethod (T_name "void") "manualTrack";
  method InstanceMethod (T_name "void") "nativeTrack";
  message InstanceMethod (T_name "void") [arg "trackAdView" (object "UIView" Unspecified)
      "adView"];
  message InstanceMethod (T_name "void") [arg "trackAdViewArray" (object "NSArray" Unspecified)
      "adViewArray"];
  message InstanceMethod (T_name "void") [arg "trackNativeView" (object "UIView" Unspecified)
      "nativeDisplayView"; arg "withTrackingURL" (object "NSURL" Unspecified)
      "displayImpressionURL"];
  message InstanceMethod (T_name "void") [arg "trackNativeView" (object "UIView" Unspecified)
      "nativeView"; arg "forEventName" (object "NSString" Unspecified) "videoEventName"; arg
      "withEventURL" (object "NSURL" Unspecified) "url"; arg "withParamsDict" (object
      "NSDictionary" Unspecified) "dict"];
  message InstanceMethod (T_name "void") [arg "stopTrackingNativeView" (object "UIView"
      Unspecified) "nativeView"]].

Definition SCORAnalytics_VCE : Extension :=
  mkExtension "SCORAnalytics" [
  method ClassMethod (object "NSString" Unspecified) "vceVersion";
  method ClassMethod (object "SCORVCE" Unspecified) "sharedVCEInstance"].

Definition SCORClientConfiguration_VCE : Extension :=
  mkExtension "SCORClientConfiguration" [
  property InstanceMethod true false Default (T_name "BOOL") "vce"].

Definition SCORClientConfigurationBuilder_VCE : Extension :=
  mkExtension "SCORClientConfigurationBuilder" [
  property InstanceMethod false true Default (T_name "BOOL") "vce"].

Definition SCORConfiguration_VCE : Extension :=
  mkExtension "SCORConfiguration" [
  property InstanceMethod true false Default (T_name "BOOL") "vce"].

(** The declarations, in the order of the header. *)
Definition header : Header := [
  D_enum SCORLogLevel;
  D_forward ["SCOREventInfo"];
  D_forward ["SCORConfiguration"];
  D_forward ["SCORPublisherConfiguration"];
  D_interface SCORAnalytics;
  D_enum SCORApplicationState;
  D_enum SCORLiveTransmissionMode;
  D_enum SCOROfflineCacheMode;
  D_enum SCORUsagePropertiesAutoUpdateMode;
  D_enum SCORConfigurationType;
  D_protocol SCORConfigurationDelegate;
  D_forward ["SCORClientConfigurationBuilder"];
  D_interface SCORClientConfiguration;
  D_interface SCORClientConfigurationBuilder;
  D_forward ["SCORTaskExecutor"];
  D_forward ["SCORKeepAlive"];
  D_forward ["SCOROfflineCache"];
  D_forward ["SCORPartnerConfiguration"];
  D_forward ["SCORPublisherConfiguration"];
  D_forward ["SCORClientConfiguration"];
  D_interface SCORConfiguration;
  D_interface SCOREventInfo;
  D_enum SCORExtensionType;
  D_extern (object "NSString" Unspecified) "SCORExtensionType_toString[9]";
  D_forward ["SCORPartnerConfigurationBuilder"];
  D_interface SCORPartnerConfiguration;
  D_forward ["SCORPartnerConfiguration"];
  D_interface SCORPartnerConfigurationBuilder;
  D_forward ["SCORPublisherConfigurationBuilder"];
  D_interface SCORPublisherConfiguration;
  D_forward ["SCORPublisherConfiguration"];
  D_interface SCORPublisherConfigurationBuilder;
  D_enum SCORSessionState;
  D_enum SCORTrackingProperty;
  D_forward ["SCORStreamingConfigurationBuilder"];
  D_interface SCORStreamingConfiguration;
  D_forward ["SCORStreamingConfiguration"];
  D_interface SCORStreamingConfigurationBuilder;
  D_enum SCORAdType;
  D_enum SCORContentType;
  D_interface SCORReducedRequirementsStreamingAnalytics;
  D_forward ["SCORStreamingPlaybackSession"];
  D_protocol SCORStreamingAnalyticsProtocol;
  D_enum SCORStreamingState;
  D_protocol SCORStreamingDelegate;
  D_forward ["SCORStreamingConfiguration"];
  D_interface SCORStreamingAnalytics;
  D_interface SCORStreamingAsset;
  D_forward ["SCORStreamingAsset"];
  D_interface SCORStreamingPlaybackSession;
  D_forward ["UIView"];
  D_forward ["UIViewController"];
  D_interface SCORVCE;
  D_forward ["SCORVCE"];
  D_extension SCORAnalytics_VCE;
  D_extension SCORClientConfiguration_VCE;
  D_extension SCORClientConfigurationBuilder_VCE;
  D_extension SCORConfiguration_VCE].
