(* ===== verification/ComScoreFiles.v ===== *)
(** * ComScoreFiles: the files of the ComScore SDK.

    Each header under [Libraries/ComScore.framework/Versions/A/Headers]: its name,
    what it imports, and its declarations in order. *)

From S2P Require Import Prelude ObjCInterface ObjCImport ComScoreHeader.

Definition SCORLogLevel_h : HeaderFile :=
  mkFile "SCORLogLevel.h" []
    [D_enum SCORLogLevel].

Definition SCORAnalytics_h : HeaderFile :=
  mkFile "SCORAnalytics.h" ["Foundation/Foundation.h"; "SCORLogLevel.h"]
    [D_forward ["SCOREventInfo"];
    D_forward ["SCORConfiguration"];
    D_forward ["SCORPublisherConfiguration"];
    D_interface SCORAnalytics].

Definition SCORApplicationState_h : HeaderFile :=
  mkFile "SCORApplicationState.h" []
    [D_enum SCORApplicationState].

Definition SCORLiveTransmissionMode_h : HeaderFile :=
  mkFile "SCORLiveTransmissionMode.h" []
    [D_enum SCORLiveTransmissionMode].

Definition SCOROfflineCacheMode_h : HeaderFile :=
  mkFile "SCOROfflineCacheMode.h" []
    [D_enum SCOROfflineCacheMode].

Definition SCORUsagePropertiesAutoUpdateMode_h : HeaderFile :=
  mkFile "SCORUsagePropertiesAutoUpdateMode.h" []
    [D_enum SCORUsagePropertiesAutoUpdateMode].

Definition SCORConfigurationType_h : HeaderFile :=
  mkFile "SCORConfigurationType.h" []
    [D_enum SCORConfigurationType].

Definition SCORConfigurationDelegate_h : HeaderFile :=
  mkFile "SCORConfigurationDelegate.h" ["Foundation/Foundation.h"; "SCORConfigurationType.h"]
    [D_protocol SCORConfigurationDelegate].

Definition SCORClientConfiguration_h : HeaderFile :=
  mkFile "SCORClientConfiguration.h" ["Foundation/Foundation.h"; "SCORLiveTransmissionMode.h";
      "SCOROfflineCacheMode.h"; "SCORUsagePropertiesAutoUpdateMode.h";
      "SCORConfigurationDelegate.h"]
    [D_forward ["SCORClientConfigurationBuilder"];
    D_interface SCORClientConfiguration].

Definition SCORClientConfigurationBuilder_h : HeaderFile :=
  mkFile "SCORClientConfigurationBuilder.h" ["Foundation/Foundation.h";
      "SCORLiveTransmissionMode.h"; "SCOROfflineCacheMode.h"; "SCORConfigurationDelegate.h";
      "SCORUsagePropertiesAutoUpdateMode.h"]
    [D_interface SCORClientConfigurationBuilder].

Definition SCORConfiguration_h : HeaderFile :=
  mkFile "SCORConfiguration.h" ["Foundation/Foundation.h"; "SCORLiveTransmissionMode.h";
      "SCOROfflineCacheMode.h"; "SCORConfigurationDelegate.h"; "SCORLogLevel.h";
      "SCORUsagePropertiesAutoUpdateMode.h"]
    [D_forward ["SCORTaskExecutor"];
    D_forward ["SCORKeepAlive"];
    D_forward ["SCOROfflineCache"];
    D_forward ["SCORPartnerConfiguration"];
    D_forward ["SCORPublisherConfiguration"];
    D_forward ["SCORClientConfiguration"];
    D_interface SCORConfiguration].

Definition SCOREventInfo_h : HeaderFile :=
  mkFile "SCOREventInfo.h" ["Foundation/Foundation.h"]
    [D_interface SCOREventInfo].

Definition SCORExtensionType_h : HeaderFile :=
  mkFile "SCORExtensionType.h" []
    [D_enum SCORExtensionType;
    D_extern (object "NSString" Unspecified) "SCORExtensionType_toString[9]"].

Definition SCORPartnerConfiguration_h : HeaderFile :=
  mkFile "SCORPartnerConfiguration.h" ["Foundation/Foundation.h"; "SCORClientConfiguration.h"]
    [D_forward ["SCORPartnerConfigurationBuilder"];
    D_interface SCORPartnerConfiguration].

Definition SCORPartnerConfigurationBuilder_h : HeaderFile :=
  mkFile "SCORPartnerConfigurationBuilder.h" ["Foundation/Foundation.h";
      "SCORLiveTransmissionMode.h"; "SCOROfflineCacheMode.h"; "SCORConfigurationDelegate.h";
      "SCORUsagePropertiesAutoUpdateMode.h"; "SCORClientConfigurationBuilder.h"]
    [D_forward ["SCORPartnerConfiguration"];
    D_interface SCORPartnerConfigurationBuilder].

Definition SCORPublisherConfiguration_h : HeaderFile :=
  mkFile "SCORPublisherConfiguration.h" ["Foundation/Foundation.h"; "SCORClientConfiguration.h"]
    [D_forward ["SCORPublisherConfigurationBuilder"];
    D_interface SCORPublisherConfiguration].

Definition SCORPublisherConfigurationBuilder_h : HeaderFile :=
  mkFile "SCORPublisherConfigurationBuilder.h" ["Foundation/Foundation.h";
      "SCORLiveTransmissionMode.h"; "SCOROfflineCacheMode.h"; "SCORConfigurationDelegate.h";
      "SCORUsagePropertiesAutoUpdateMode.h"; "SCORClientConfigurationBuilder.h"]
    [D_forward ["SCORPublisherConfiguration"];
    D_interface SCORPublisherConfigurationBuilder].

Definition SCORSessionState_h : HeaderFile :=
  mkFile "SCORSessionState.h" []
    [D_enum SCORSessionState].

Definition SCORTrackingProperty_h : HeaderFile :=
  mkFile "SCORTrackingProperty.h" []
    [D_enum SCORTrackingProperty].

Definition SCORStreamingConfiguration_h : HeaderFile :=
  mkFile "SCORStreamingConfiguration.h" ["Foundation/Foundation.h"]
    [D_forward ["SCORStreamingConfigurationBuilder"];
    D_interface SCORStreamingConfiguration].

Definition SCORStreamingConfigurationBuilder_h : HeaderFile :=
  mkFile "SCORStreamingConfigurationBuilder.h" ["Foundation/Foundation.h"]
    [D_forward ["SCORStreamingConfiguration"];
    D_interface SCORStreamingConfigurationBuilder].

Definition SCORAdType_h : HeaderFile :=
  mkFile "SCORAdType.h" []
    [D_enum SCORAdType].

Definition SCORContentType_h : HeaderFile :=
  mkFile "SCORContentType.h" []
    [D_enum SCORContentType].

Definition SCORReducedRequirementsStreamingAnalytics_h : HeaderFile :=
  mkFile "SCORReducedRequirementsStreamingAnalytics.h" ["Foundation/Foundation.h";
      "SCORAdType.h"; "SCORContentType.h"]
    [D_interface SCORReducedRequirementsStreamingAnalytics].

Definition SCORStreamingAnalyticsProtocol_h : HeaderFile :=
  mkFile "SCORStreamingAnalyticsProtocol.h" []
    [D_forward ["SCORStreamingPlaybackSession"];
    D_protocol SCORStreamingAnalyticsProtocol].

Definition SCORStreamingState_h : HeaderFile :=
  mkFile "SCORStreamingState.h" ["Foundation/Foundation.h"]
    [D_enum SCORStreamingState].

Definition SCORStreamingDelegate_h : HeaderFile :=
  mkFile "SCORStreamingDelegate.h" ["SCORStreamingState.h"]
    [D_protocol SCORStreamingDelegate].

Definition SCORStreamingAnalytics_h : HeaderFile :=
  mkFile "SCORStreamingAnalytics.h" ["Foundation/Foundation.h";
      "SCORStreamingAnalyticsProtocol.h"; "SCORStreamingState.h"; "SCORStreamingDelegate.h"]
    [D_forward ["SCORStreamingConfiguration"];
    D_interface SCORStreamingAnalytics].

Definition SCORStreamingAsset_h : HeaderFile :=
  mkFile "SCORStreamingAsset.h" ["Foundation/Foundation.h"]
    [D_interface SCORStreamingAsset].

Definition SCORStreamingPlaybackSession_h : HeaderFile :=
  mkFile "SCORStreamingPlaybackSession.h" ["Foundation/Foundation.h"; "SCORStreamingState.h"]
    [D_forward ["SCORStreamingAsset"];
    D_interface SCORStreamingPlaybackSession].

Definition SCORVCE_h : HeaderFile :=
  mkFile "SCORVCE.h" ["Foundation/Foundation.h"]
    [D_forward ["UIView"];
    D_forward ["UIViewController"];
    D_interface SCORVCE].

Definition SCORAnalytics_VCE_h : HeaderFile :=
  mkFile "SCORAnalytics+VCE.h" ["SCORAnalytics.h"]
    [D_forward ["SCORVCE"];
    D_extension SCORAnalytics_VCE].

Definition SCORClientConfiguration_VCE_h : HeaderFile :=
  mkFile "SCORClientConfiguration+VCE.h" ["SCORClientConfiguration.h"]
    [D_extension SCORClientConfiguration_VCE].

Definition SCORClientConfigurationBuilder_VCE_h : HeaderFile :=
  mkFile "SCORClientConfigurationBuilder+VCE.h" ["SCORClientConfigurationBuilder.h"]
    [D_extension SCORClientConfigurationBuilder_VCE].

Definition SCORConfiguration_VCE_h : HeaderFile :=
  mkFile "SCORConfiguration+VCE.h" ["SCORConfiguration.h"]
    [D_extension SCORConfiguration_VCE].

Definition ComScore_h : HeaderFile :=
  mkFile "ComScore.h" ["SCORAnalytics.h"; "SCORApplicationState.h"; "SCORClientConfiguration.h";
      "SCORClientConfigurationBuilder.h"; "SCORConfiguration.h"; "SCORConfigurationDelegate.h";
      "SCORConfigurationType.h"; "SCOREventInfo.h"; "SCORExtensionType.h";
      "SCORLiveTransmissionMode.h"; "SCORPartnerConfiguration.h";
      "SCORPartnerConfigurationBuilder.h"; "SCORPublisherConfiguration.h";
      "SCORPublisherConfigurationBuilder.h"; "SCORSessionState.h"; "SCORTrackingProperty.h";
      "SCORUsagePropertiesAutoUpdateMode.h"; "SCOROfflineCacheMode.h";
      "SCORStreamingConfiguration.h"; "SCORStreamingConfigurationBuilder.h";
      "SCORReducedRequirementsStreamingAnalytics.h"; "SCORStreamingAnalytics.h";
      "SCORStreamingAnalyticsProtocol.h"; "SCORStreamingAsset.h"; "SCORStreamingDelegate.h";
      "SCORStreamingPlaybackSession.h"; "SCORContentType.h"; "SCORAdType.h";
      "SCORStreamingState.h"; "SCORVCE.h"; "SCORAnalytics+VCE.h";
      "SCORClientConfiguration+VCE.h"; "SCORClientConfigurationBuilder+VCE.h";
      "SCORConfiguration+VCE.h"]
    [].

(** All the files of the directory. *)
Definition comscore_files : list HeaderFile := [
  SCORLogLevel_h;
  SCORAnalytics_h;
  SCORApplicationState_h;
  SCORLiveTransmissionMode_h;
  SCOROfflineCacheMode_h;
  SCORUsagePropertiesAutoUpdateMode_h;
  SCORConfigurationType_h;
  SCORConfigurationDelegate_h;
  SCORClientConfiguration_h;
  SCORClientConfigurationBuilder_h;
  SCORConfiguration_h;
  SCOREventInfo_h;
  SCORExtensionType_h;
  SCORPartnerConfiguration_h;
  SCORPartnerConfigurationBuilder_h;
  SCORPublisherConfiguration_h;
  SCORPublisherConfigurationBuilder_h;
  SCORSessionState_h;
  SCORTrackingProperty_h;
  SCORStreamingConfiguration_h;
  SCORStreamingConfigurationBuilder_h;
  SCORAdType_h;
  SCORContentType_h;
  SCORReducedRequirementsStreamingAnalytics_h;
  SCORStreamingAnalyticsProtocol_h;
  SCORStreamingState_h;
  SCORStreamingDelegate_h;
  SCORStreamingAnalytics_h;
  SCORStreamingAsset_h;
  SCORStreamingPlaybackSession_h;
  SCORVCE_h;
  SCORAnalytics_VCE_h;
  SCORClientConfiguration_VCE_h;
  SCORClientConfigurationBuilder_VCE_h;
  SCORConfiguration_VCE_h;
  ComScore_h].
