(* ===== verification/SpringHeader.v ===== *)
(** * SpringHeader: the Kantar Media Spring streams for iOS.

    [Libraries/KMA_SpringStreams.framework/Versions/A/Headers/KMA_SpringStreams.h];
    the manual that follows the declarations in the file is not part of them. *)

From S2P Require Import Prelude ObjCInterface.

Definition KMA_Player_Meta : Interface :=
  mkInterface None "KMA_Player_Meta" "NSObject" ["NSCoding"; "NSCopying"] [
  property InstanceMethod false false Strong (object "NSString" Unspecified) "playername";
  property InstanceMethod false false Strong (object "NSString" Unspecified) "playerversion";
  property InstanceMethod false false Assign (T_name "int") "screenwidth";
  property InstanceMethod false false Assign (T_name "int") "screenheight"].

Definition KMA_StreamAdapter : Protocol :=
  mkProtocol None "KMA_StreamAdapter" [] [
  method InstanceMethod (object "KMA_Player_Meta" Unspecified) "getMeta";
  method InstanceMethod (T_name "int") "getPosition";
  method InstanceMethod (T_name "int") "getDuration";
  method InstanceMethod (T_name "int") "getWidth";
  method InstanceMethod (T_name "int") "getHeight"].

Definition KMA_SpringStreams : Interface :=
  mkInterface None "KMA_SpringStreams" "NSObject" [] [
  property InstanceMethod false false Default (T_name "BOOL") "tracking";
  property InstanceMethod false true Default (T_name "BOOL") "debug";
  property InstanceMethod false false Assign (T_name "NSTimeInterval") "timeout";
  property InstanceMethod false false Default (T_name "BOOL") "offlineMode";
  message ClassMethod (object "KMA_SpringStreams" Unspecified) [arg "getInstance" (object
      "NSString" Unspecified) "site"; arg "a" (object "NSString" Unspecified) "app"];
  message ClassMethod (object "KMA_SpringStreams" Unspecified) [arg "getInstance" (object
      "NSString" Unspecified) "site"; arg "a" (object "NSString" Unspecified) "app"; arg "b"
      (T_name "BOOL") "AIEnabled"];
  method ClassMethod (object "KMA_SpringStreams" Unspecified) "getInstance";
  message InstanceMethod (object "KMA_Stream" Unspecified) [arg "track" (T_ptr "NSObject" []
      ["KMA_StreamAdapter"] Unspecified) "stream"; arg "atts" (object "NSDictionary" Unspecified)
      "atts"];
  method InstanceMethod (T_name "void") "unload";
  method InstanceMethod (object "NSMutableDictionary" Unspecified) "getEncrypedIdentifiers"].

Definition KMA_Stream : Interface :=
  mkInterface None "KMA_Stream" "NSObject" ["NSCopying"] [
  method InstanceMethod (T_name "void") "stop";
  method InstanceMethod (object "NSString" Unspecified) "getUid"].

Definition KMA_MediaPlayerAdapter : Interface :=
  mkInterface None "KMA_MediaPlayerAdapter" "NSObject" ["KMA_StreamAdapter"] [
  message InstanceMethod (object "KMA_MediaPlayerAdapter" Unspecified) [arg "adapter" (object
      "AVPlayerViewController" Unspecified) "player"]].

(** The declarations, in the order of the header. *)
Definition header : Header := [
  D_forward ["KMA_SpringStreams"; "KMA_Stream"];
  D_extern (object "NSString" Unspecified) "KMA_STREAMING_DEBUGINTERFACE_NOTIFICATION";
  D_interface KMA_Player_Meta;
  D_protocol KMA_StreamAdapter;
  D_interface KMA_SpringStreams;
  D_interface KMA_Stream;
  D_when "TARGET_OS_IOS" (D_interface KMA_MediaPlayerAdapter)].
