(* ===== verification/ObjCHelper.v ===== *)
(** * ObjCHelper: running a Swift closure under an Objective-C exception handler.

    [Echo/ObjCHelper.h] and [Echo/ObjCHelper.m].  The one method of the class runs
    a block and turns an exception that the block raises into an [NSError].  Swift
    imports a method with this signature as one that throws: a call that answers
    [NO] throws the error, a call that answers [YES] returns. *)

From S2P Require Import Prelude ObjCInterface.

(** ** The declaration *)
Definition ObjCHelper : Interface :=
  mkInterface None "ObjCHelper" "NSObject" [] [
  message ClassMethod (T_name "BOOL") [
    arg "catchException" (T_block (T_name "void") [] Unspecified) "tryBlock";
    arg "error" (T_ref (object "NSError" Unspecified)) "error"]].

Section helper.
(** The state that the block works on, and the dictionaries of exceptions. *)
Context {W UserInfo : Type}.

Record NSException := mkNSException { name : string; userInfo : option UserInfo }.
Record NSError := mkNSError { domain : string; code : Z; error_userInfo : option UserInfo }.

(** How a block ends; an exception need not be an [NSException]. *)
Inductive BlockEnd := Completed | Raised (e : NSException) | RaisedOther.

(** How the method ends: it returns, its caller gets the exception, or it writes
  through a null pointer. *)
Inductive CallEnd := Returns (b : bool) | Propagates | Crashes.

(** The [error] argument: null, or the variable it points to with its value. *)
Abbreviation ErrorPointer := (option (option NSError)).

(** [catchException:error:].  The handler has no [return]: what the caller reads
  is then [leftover], whatever is in the place of the result. *)
Definition catchException (leftover : bool) (tryBlock : W → BlockEnd * W)
(error : ErrorPointer) (w : W) : CallEnd * ErrorPointer * W :=
match tryBlock w with
| (Completed, w') => (Returns true, error, w')
| (Raised exception, w') =>
    match error with
    | Some _ =>
        (Returns leftover,
         Some (Some (mkNSError (name exception) 0 (userInfo exception))), w')
    | None => (Crashes, None, w')
    end
| (RaisedOther, w') => (Propagates, error, w')
end.

(** The call as Swift makes it: [try ObjCHelper.catchException { ... }] passes a
  variable for the error that holds [nil]. *)
Inductive SwiftEnd := SwiftReturns | SwiftThrows (e : option NSError) | SwiftDies.

Definition try_catchException (leftover : bool) (tryBlock : W → BlockEnd * W) (w : W)
: SwiftEnd * W :=
match catchException leftover tryBlock (Some None) w with
| (Returns true, _, w') => (SwiftReturns, w')
| (Returns false, error, w') =>
    (SwiftThrows (match error with Some e => e | None => None end), w')
| (Propagates, _, w') | (Crashes, _, w') => (SwiftDies, w')
end.

(** What the helper does for Swift. A block that completes makes the call return, with
  the effects of the block. When the block raises an [NSException], the error is built
  from its name and dictionary, but whether Swift sees it depends on the result that
  the handler does not give: the call throws that error if the leftover result is
  [NO], and returns as if nothing had happened if it is [YES]; without an error
  pointer the handler writes through null. Any other exception goes on to the caller. *)
Theorem catchException_outcome leftover tryBlock w w' :
(tryBlock w = (Completed, w') →
 try_catchException leftover tryBlock w = (SwiftReturns, w')) ∧
(∀ exception, tryBlock w = (Raised exception, w') →
 let error := mkNSError (name exception) 0 (userInfo exception) in
 catchException leftover tryBlock (Some None) w = (Returns leftover, Some (Some error), w') ∧
 try_catchException leftover tryBlock w =
   ((if leftover then SwiftReturns else SwiftThrows (Some error)), w')) ∧
(∀ exception, tryBlock w = (Raised exception, w') →
 catchException leftover tryBlock None w = (Crashes, None, w')) ∧
(tryBlock w = (RaisedOther, w') →
 ∀ error, catchException leftover tryBlock error w = (Propagates, error, w')).
Proof.
unfold try_catchException, catchException.
split_and!; intros; match goal with E : tryBlock w = _ |- _ => rewrite E end;
  try split; by destruct leftover.
Qed.
End helper.
