(* ===== verification/Headers.v ===== *)
(** * Headers: what holds of the declarations of the analytics libraries.

    The theorems about the headers that the delegates of the client are compiled
    against: messages resolve, in finitely many steps, to one declaration; the
    declarations of a message agree; the trackers for iOS and tvOS, which the same
    Swift source uses, offer the same messages but for one property; and the
    enumerators can be told apart by their values. *)

From S2P Require Import Prelude ObjCInterface TrackerHeader TrackerArmv7Header TvOSTrackerHeader Swift4TrackerHeader Swift4TvOSTrackerHeader ComScoreHeader SpringHeader TvOSSpringHeader.

(** The headers as each target compiles them.  The slice for armv7 has the
    declarations of [Tracker-Swift.h] only; those beside it come before. *)
Definition tracker_armv7 : Header :=
  take 4 TrackerHeader.header ++ TrackerArmv7Header.header.

Definition tracker_headers : list Header :=
  [ compiled ["TARGET_OS_IOS"] TrackerHeader.header;
    compiled [] TvOSTrackerHeader.header;
    compiled ["TARGET_OS_IOS"] tracker_armv7;
    compiled ["TARGET_OS_IOS"] Swift4TrackerHeader.header;
    compiled [] Swift4TvOSTrackerHeader.header ].

Definition library_headers : list Header :=
  tracker_headers ++
  [ compiled ["TARGET_OS_IOS"] ComScoreHeader.header;
    compiled ["TARGET_OS_IOS"] SpringHeader.header;
    compiled [] TvOSSpringHeader.header ].

(** Nothing is known of the classes of Foundation and UIKit. *)
Definition nothing_known : string → Kind → string → option Method := λ _ _ _, None.

Lemma hierarchies_ok h : h ∈ library_headers → hierarchy_ok h = true.
Proof.
  intros Hin. apply (proj1 (Forall_forall (λ h, hierarchy_ok h = true) library_headers)); [|done].
  repeat apply Forall_cons_2; [vm_compute; reflexivity..|apply Forall_nil_2].
Qed.

(** ** Agreement of declarations *)

(** A message to [c] resolves, if to anything, to a declaration with the types
    of [m]. *)
Definition agrees_at (h : Header) (m : Method) (c : string) : bool :=
  match resolve h nothing_known (enough_fuel h) (m_kind m) c (selector m) with
  | Found _ m' => same_types m m'
  | _ => true
  end.

Definition class_agrees (h : Header) (i : Interface) : bool :=
  forallb (λ m, agrees_at h m (i_name i) && agrees_at h m (i_super i))
          (methods_of (own_members h i)).

Lemma classes_agree h i : h ∈ library_headers → i ∈ interfaces h → class_agrees h i = true.
Proof.
  intros Hin Hi.
  assert (Hall : forallb (λ h, forallb (class_agrees h) (interfaces h)) library_headers = true)
    by (vm_compute; reflexivity).
  rewrite forallb_forall in Hall. apply list_elem_of_In, Hall in Hin.
  rewrite forallb_forall in Hin. by apply Hin, list_elem_of_In.
Qed.

Lemma agrees_at_resolves h m c d m' :
  hierarchy_ok h = true → agrees_at h m c = true →
  Resolves h nothing_known (m_kind m) c (selector m) d m' → same_types m m' = true.
Proof.
  intros Hok Ha HR. unfold agrees_at in Ha.
  rewrite (resolve_complete h nothing_known _ _ _ _ d m') in Ha; [done|done|].
  by apply resolve_settles.
Qed.

(** ** The two trackers *)

(** What an interface or a protocol declares, apart from its name at run time,
    which holds the name of the module. *)
Definition interface_api (i : Interface) := (i_name i, i_super i, i_protocols i, i_members i).
Definition protocol_api (p : Protocol) := (pr_name p, pr_protocols p, pr_members p).

(** Two interfaces that differ at most in that name. *)
Definition same_interface (i1 i2 : Interface) : Prop :=
  i_name i1 = i_name i2 ∧ i_super i1 = i_super i2 ∧ i_protocols i1 = i_protocols i2 ∧
  i_members i1 = i_members i2.

Lemma find_protocol_without (ps1 ps2 : list Protocol) n :
  Forall2 (λ p1 p2, pr_name p1 = pr_name p2 ∧ pr_members p1 = pr_members p2) ps1 ps2 →
  option_map pr_members (find_protocol ps1 n) = option_map pr_members (find_protocol ps2 n).
Proof.
  unfold find_protocol. induction 1 as [|p1 p2 ps1 ps2 [E1 E2] _ IH]; simpl; [done|].
  rewrite E1. destruct (String.eqb (pr_name p2) n); simpl; [by rewrite E2|done].
Qed.

Lemma find_interface_without (l1 l2 : list Interface) c :
  Forall2 same_interface l1 l2 →
  match find_interface l1 c, find_interface l2 c with
  | Some i1, Some i2 => same_interface i1 i2
  | None, None => True
  | _, _ => False
  end.
Proof.
  unfold find_interface. induction 1 as [|i1 i2 l1 l2 Hi _ IH]; simpl; [done|].
  rewrite (proj1 Hi). by destruct (String.eqb (i_name i2) c).
Qed.

Section same_api.
Context (h1 h2 : Header).
Hypothesis Hi : Forall2 same_interface (interfaces h1) (interfaces h2).
Hypothesis Hp : Forall2 (λ p1 p2, pr_name p1 = pr_name p2 ∧ pr_members p1 = pr_members p2)
(protocols h1) (protocols h2).
Hypothesis Hx : extensions h1 = extensions h2.

Lemma own_members_same i1 i2 : same_interface i1 i2 → own_members h1 i1 = own_members h2 i2.
Proof.
intros (E1 & _ & E3 & E4). unfold own_members. rewrite E1, E3, E4, Hx.
assert (E : protocol_members (protocols h1) (i_protocols i2) =
            protocol_members (protocols h2) (i_protocols i2)); [|by rewrite E].
clear E1 E3 E4. unfold protocol_members. induction (i_protocols i2) as [|n l IH]; simpl; [done|].
rewrite IH. pose proof (find_protocol_without _ _ n Hp) as E.
destruct (find_protocol (protocols h1) n), (find_protocol (protocols h2) n); simpl in E;
  congruence.
Qed.

Lemma resolve_same external fuel k c sel :
resolve h1 external fuel k c sel = resolve h2 external fuel k c sel.
Proof.
revert c. induction fuel as [|fuel IH]; intros c; simpl; [done|].
pose proof (find_interface_without _ _ c Hi) as E.
destruct (find_interface (interfaces h1) c) as [i1|], (find_interface (interfaces h2) c) as [i2|];
  try done.
rewrite (own_members_same i1 i2) by done. destruct (find_method k sel _); [done|].
destruct E as (_ & -> & _). apply IH.
Qed.
End same_api.

Lemma same_interfaces (l1 l2 : list Interface) :
  map interface_api l1 = map interface_api l2 → Forall2 same_interface l1 l2.
Proof.
  revert l2. induction l1 as [|i1 l1 IH]; intros [|i2 l2] E; try done.
  injection E. intros. constructor; [by repeat split|by apply IH].
Qed.

Lemma same_protocols (l1 l2 : list Protocol) :
  map protocol_api l1 = map protocol_api l2 →
  Forall2 (λ p1 p2, pr_name p1 = pr_name p2 ∧ pr_members p1 = pr_members p2) l1 l2.
Proof.
  revert l2. induction l1 as [|p1 l1 IH]; intros [|p2 l2] E; try done.
  injection E. intros. constructor; [done|by apply IH].
Qed.

(** A header without the property [name], which an interface may declare. *)
Definition is_property (name : string) (m : Member) : bool :=
  match m with Prop_ p => String.eqb (p_name p) name | _ => false end.

Definition without_property (name : string) (i : Interface) : Interface :=
  mkInterface (i_runtime_name i) (i_name i) (i_super i) (i_protocols i)
    (List.filter (λ m, negb (is_property name m)) (i_members i)).

Definition header_without (name : string) (h : Header) : Header :=
  map (λ d, match d with D_interface i => D_interface (without_property name i) | d => d end) h.

(** The selectors of the accessors of a property called [name]. *)
Definition accessor_selectors (name : string) : list string :=
  [name; "set" +:+ capitalised name +:+ ":"].

Definition debugger_selectors : list string := ["enableDebugger"; "setEnableDebugger:"].

Lemma enableDebugger_accessors sel :
  sel ∈ accessor_selectors "enableDebugger" → sel ∈ debugger_selectors.
Proof. done. Qed.

Section without.
Context (name : string) (h : Header).

Lemma interfaces_without :
interfaces (header_without name h) = map (without_property name) (interfaces h).
Proof. unfold interfaces. induction h as [|[]]; simpl; congruence. Qed.

Lemma extensions_without : extensions (header_without name h) = extensions h.
Proof. unfold extensions. induction h as [|[]]; simpl; congruence. Qed.

Lemma protocols_without : protocols (header_without name h) = protocols h.
Proof. unfold protocols. induction h as [|[]]; simpl; congruence. Qed.

Lemma find_interface_map l c :
find_interface (map (without_property name) l) c =
option_map (without_property name) (find_interface l c).
Proof. unfold find_interface. induction l as [|i l IH]; simpl; [done|by destruct (String.eqb (i_name i) c)]. Qed.

Lemma answers_accessor k sel p m :
m ∈ accessors p → answers k sel m = true → sel ∈ accessor_selectors (p_name p).
Proof.
unfold accessors, answers, accessor_selectors. intros Hm H.
apply andb_true_iff in H as [_ H]. apply String.eqb_eq in H as <-.
assert (m = getter p ∨ m = setter p) as [->| ->].
{ destruct (p_readonly p); [apply list_elem_of_singleton in Hm; auto|].
  apply elem_of_cons in Hm as [->|Hm]; [auto|apply list_elem_of_singleton in Hm; auto]. }
- apply list_elem_of_here.
- apply list_elem_of_further, list_elem_of_singleton.
  unfold selector, setter, setter_label; simpl. by destruct (capitalised (p_name p)).
Qed.

Lemma find_method_app k sel l1 l2 :
find_method k sel (l1 ++ l2) =
match find_method k sel l1 with Some m => Some m | None => find_method k sel l2 end.
Proof. unfold find_method. induction l1 as [|m l1 IH]; simpl; [done|by destruct (answers k sel m)]. Qed.

(** Accessors of the property are all that a class loses. *)
Lemma find_method_without k sel l r :
sel ∉ accessor_selectors name →
find_method k sel (methods_of (List.filter (λ m, negb (is_property name m)) l ++ r)) =
find_method k sel (methods_of (l ++ r)).
Proof.
intros Hsel. unfold methods_of. rewrite !find_method_app.
assert (E : explicit_methods (List.filter (λ m, negb (is_property name m)) l ++ r) =
            explicit_methods (l ++ r)).
{ induction l as [|[m|p|m|c m|c m] l IH]; simpl; [done|by rewrite IH| |done..].
  by destruct (String.eqb (p_name p) name). }
rewrite E. clear E. destruct (find_method k sel (explicit_methods (l ++ r))); [done|].
unfold properties_of. induction l as [|[m|p|m|c m|c m] l IH]; simpl; [done|done| |done..].
destruct (String.eqb_spec (p_name p) name) as [En|_]; simpl;
  rewrite !find_method_app; rewrite IH; [|done].
destruct (find_method k sel (accessors p)) as [m|] eqn:Ef; [|done].
apply find_some in Ef as [Hm Ha]. exfalso. apply Hsel. rewrite <- En.
eapply answers_accessor; [by apply list_elem_of_In|exact Ha].
Qed.

Lemma resolve_without external fuel k c sel :
sel ∉ accessor_selectors name →
resolve (header_without name h) external fuel k c sel = resolve h external fuel k c sel.
Proof.
intros Hsel. revert c. induction fuel as [|fuel IH]; intros c; simpl; [done|].
rewrite interfaces_without, find_interface_map.
destruct (find_interface (interfaces h) c) as [i|]; simpl; [|done].
unfold own_members. rewrite extensions_without, protocols_without. simpl.
rewrite find_method_without by done. by rewrite IH.
Qed.
End without.

(** ** Objects made with [init] *)

Definition init_classes : list string :=
  ["DefaultTrackerDelegate"; "RequiredPropertiesDataObject"; "MvTestingVars";
   "OrderCustomVars"; "ParamOption"; "Tracker"; "TrackerConfigurationKeys"].

#[local] Instance Availability_eq_dec : EqDecision Availability.
Proof. solve_decision. Defined.

(** How an object of the class of [i] can be made: [init] is there to be called and
    the library leaves [new] to [NSObject], or neither may be called. *)
Definition init_checked (h : Header) (i : Interface) : bool :=
  let resolved k sel := resolve h nothing_known (enough_fuel h) k (i_name i) sel in
  existsb (String.eqb (i_name i)) ["Hash"; "Crash"] ||
  match resolved InstanceMethod "init", resolved ClassMethod "new" with
  | Found _ m, NotFound =>
      bool_decide (m_availability m = Available) &&
      existsb (String.eqb (i_name i)) init_classes
  | Found _ m, Found _ m' =>
      bool_decide (m_availability m = Unavailable) &&
      bool_decide (m_availability m' ≠ Available) &&
      negb (existsb (String.eqb (i_name i)) init_classes)
  | _, _ => false
  end.

Lemma tracker_init_checked h i :
  h ∈ tracker_headers → i ∈ interfaces h → init_checked h i = true.
Proof.
  intros Hh Hi.
  assert (H : forallb (λ h, forallb (init_checked h) (interfaces h)) tracker_headers = true)
    by (vm_compute; reflexivity).
  rewrite forallb_forall in H. apply list_elem_of_In, H in Hh.
  rewrite forallb_forall in Hh. by apply Hh, list_elem_of_In.
Qed.

Lemma existsb_eqb c (l : list string) : existsb (String.eqb c) l = true ↔ c ∈ l.
Proof.
  rewrite existsb_exists. setoid_rewrite String.eqb_eq. split.
  - intros (x & Hx & ->). by apply list_elem_of_In.
  - intros Hc. exists c. split; [by apply list_elem_of_In|done].
Qed.

(** What resolves within the header resolves whatever the other classes declare. *)
Lemma resolves_any_external h external k c sel d m :
  Resolves h nothing_known k c sel d m → Resolves h external k c sel d m.
Proof.
  induction 1; [done|by eapply Resolves_own|by eapply Resolves_super].
Qed.

(** ** Enumerations *)
Lemma enums_checked h e : h ∈ library_headers → e ∈ enums h → enum_ok e = true.
Proof.
  intros Hin He.
  assert (Hall : forallb (λ h, forallb enum_ok (enums h)) library_headers = true)
    by (vm_compute; reflexivity).
  rewrite forallb_forall in Hall. apply list_elem_of_In, Hall in Hin.
  rewrite forallb_forall in Hin. by apply Hin, list_elem_of_In.
Qed.

(** ** Properties *)

(** Resolution ends and is right. In a header whose classes are declared once and
    after their superclass, which holds of all the libraries, resolving a message with
    one unit of fuel for each class, and one more, never runs out; it finds exactly
    the declaration that the lookup along the superclasses gives, and more fuel
    changes nothing. *)
Theorem resolve_correct h external k c sel :
  h ∈ library_headers →
  let answer := resolve h external (enough_fuel h) k c sel in
  answer ≠ OutOfFuel ∧
  (∀ d m, answer = Found d m ↔ Resolves h external k c sel d m) ∧
  (∀ fuel, (enough_fuel h ≤ fuel)%nat → resolve h external fuel k c sel = answer).
Proof.
  intros Hin answer. pose proof (resolve_settles h external k c sel (hierarchies_ok h Hin)) as Hs.
  split_and!; [exact Hs| |].
  - intros d m. split; [apply resolve_sound|]. intros HR. by apply resolve_complete.
  - intros fuel Hf. by apply resolve_more_fuel.
Qed.

(** C28. The declarations of a message agree. When a class of one of the libraries
    declares a message, in its interface, an extension, an adopted protocol or as the
    accessor of a property, whatever the message resolves to from that class or from
    its superclass has the same types, up to nullability. So an object can stand for
    one of its superclass, and the getters and setters that are written out match
    their properties. *)
Theorem declarations_agree h i m c d m' :
  h ∈ library_headers → i ∈ interfaces h → m ∈ methods_of (own_members h i) →
  c ∈ [i_name i; i_super i] →
  Resolves h nothing_known (m_kind m) c (selector m) d m' → same_types m m' = true.
Proof.
  intros Hin Hi Hm Hc HR. pose proof (classes_agree h i Hin Hi) as Ha.
  unfold class_agrees in Ha. rewrite forallb_forall in Ha.
  apply list_elem_of_In, Ha, andb_true_iff in Hm as [H1 H2].
  apply elem_of_cons in Hc as [->|Hc]; [|apply list_elem_of_singleton in Hc as ->];
    (eapply agrees_at_resolves; [by apply hierarchies_ok| |exact HR]); done.
Qed.

(** C29. The two trackers offer the same messages, but for one property: from every
    class, every message other than the accessors of [enableDebugger] resolves to the
    same declaration in the header for iOS and in the one for tvOS, whatever
    Foundation and UIKit declare; those two the class [Tracker] has on iOS and nothing
    of the library has on tvOS; and the enumerations are the same. The two slices of
    the header for iOS, for arm64 and armv7, declare the same. So the same Swift
    source compiles to the same messages for both targets, unless it turns the
    debugger on. *)
Theorem trackers_have_same_api external fuel k c sel :
  (sel ∉ debugger_selectors →
    resolve TrackerHeader.header external fuel k c sel =
    resolve TvOSTrackerHeader.header external fuel k c sel) ∧
  (sel ∈ debugger_selectors →
    (∃ m, resolve TrackerHeader.header nothing_known (enough_fuel TrackerHeader.header)
            InstanceMethod "Tracker" sel = Found "Tracker" m) ∧
    resolve TvOSTrackerHeader.header nothing_known (enough_fuel TvOSTrackerHeader.header)
      InstanceMethod "Tracker" sel = NotFound) ∧
  enums TrackerHeader.header = enums TvOSTrackerHeader.header ∧
  tracker_armv7 = TrackerHeader.header.
Proof.
  split_and!; [| |vm_compute; reflexivity..].
  - intros Hsel. rewrite <- (resolve_without "enableDebugger" TrackerHeader.header)
      by (intros H; apply Hsel; by apply enableDebugger_accessors).
    apply resolve_same; [apply same_interfaces|apply same_protocols|]; vm_compute; reflexivity.
  - intros Hsel. apply elem_of_cons in Hsel as [->|Hsel];
      [|apply list_elem_of_singleton in Hsel as ->];
      (split; [eexists|]; vm_compute; reflexivity).
Qed.

(** C33. An object of the tracker libraries is made with [init] or [new] only where
    the library means it. In each of the five headers, for every class that the Swift
    compiler generated: the seven listed classes answer [init] with a declaration that
    is available, and nothing in the library stands between [new] and [NSObject]; for
    all the others [init] resolves, through the superclasses, to a declaration that
    the compiler refuses to call, and [new] to one that it refuses or warns about. *)
Theorem tracker_init_available h i external :
  h ∈ tracker_headers → i ∈ interfaces h → i_name i ∉ ["Hash"; "Crash"] →
  ∃ d m, Resolves h external InstanceMethod (i_name i) "init" d m ∧
    if decide (i_name i ∈ init_classes) then
      m_availability m = Available ∧
      resolve h nothing_known (enough_fuel h) ClassMethod (i_name i) "new" = NotFound
    else
      m_availability m = Unavailable ∧
      ∃ d' m', Resolves h external ClassMethod (i_name i) "new" d' m' ∧
        m_availability m' ≠ Available.
Proof.
  intros Hh Hin Hn. pose proof (tracker_init_checked h i Hh Hin) as H. unfold init_checked in H.
  apply orb_true_iff in H as [H|H]; [by apply existsb_eqb in H|].
  destruct (resolve h nothing_known _ InstanceMethod _ _) as [d m| |] eqn:Ei; [|done..].
  exists d, m. split; [by eapply resolves_any_external, resolve_sound|].
  destruct (resolve h nothing_known _ ClassMethod _ _) as [d' m'| |] eqn:En; [| |done].
  - rewrite !andb_true_iff, !bool_decide_eq_true, negb_true_iff in H. destruct H as [[Hi Hnew] Hc].
    rewrite decide_False by (rewrite <- existsb_eqb; congruence). split; [done|].
    exists d', m'. split; [by eapply resolves_any_external, resolve_sound|done].
  - rewrite andb_true_iff, bool_decide_eq_true, existsb_eqb in H. destruct H as [Hi Hc].
    by rewrite decide_True.
Qed.

(** C34. The enumerators of the libraries can be told apart by their values: the value
    of an enumerator is an [int], and the enumerator with a value is the one that has
    it. *)
Theorem enum_round_trip h e c v :
  h ∈ library_headers → e ∈ enums h →
  (raw_value e c = Some v ↔ case_of_raw e v = Some c) ∧
  (raw_value e c = Some v → - 2 ^ 31 ≤ v < 2 ^ 31).
Proof.
  intros Hin He. pose proof (enums_checked h e Hin He) as Hok.
  rewrite (raw_value_spec e c v Hok), (case_of_raw_spec e c v Hok). split; [done|].
  intros Hv. unfold enum_ok in Hok. apply andb_true_iff in Hok as [_ Hr].
  rewrite forallb_forall in Hr. apply list_elem_of_In, Hr in Hv. simpl in Hv. lia.
Qed.

(** ** Witnesses *)

Lemma resolve_correct_witness :
  resolve (compiled ["TARGET_OS_IOS"] TrackerHeader.header) nothing_known
    (enough_fuel (compiled ["TARGET_OS_IOS"] TrackerHeader.header))
    InstanceMethod "DynamicScreen" "sendView" ≠ OutOfFuel.
Proof.
  apply (resolve_correct (compiled ["TARGET_OS_IOS"] TrackerHeader.header) nothing_known
    InstanceMethod "DynamicScreen" "sendView").
  apply list_elem_of_here.
Defined.

Definition screen_init : Method :=
  mkMethod InstanceMethod (T_instancetype Nonnull) "init" [] Unavailable false.

Lemma declarations_agree_witness : ∃ d m, same_types screen_init m = true ∧
  Resolves (compiled ["TARGET_OS_IOS"] TrackerHeader.header) nothing_known InstanceMethod
    "SelfPromotions" "init" d m.
Proof.
  assert (HR : Resolves (compiled ["TARGET_OS_IOS"] TrackerHeader.header) nothing_known
    InstanceMethod "SelfPromotions" "init" "SelfPromotions" screen_init)
    by (apply (resolve_sound _ _ (enough_fuel (compiled ["TARGET_OS_IOS"] TrackerHeader.header)));
        vm_compute; reflexivity).
  exists "SelfPromotions", screen_init. split; [|exact HR].
  apply (declarations_agree (compiled ["TARGET_OS_IOS"] TrackerHeader.header)
    TrackerHeader.SelfPromotions screen_init "SelfPromotions" "SelfPromotions").
  - apply list_elem_of_here.
  - apply list_elem_of_In.
    apply (find_some (λ i, String.eqb (i_name i) "SelfPromotions")). vm_compute. reflexivity.
  - apply list_elem_of_In.
    apply (find_some (answers InstanceMethod "init")). vm_compute. reflexivity.
  - apply list_elem_of_here.
  - exact HR.
Defined.

Lemma trackers_have_same_api_witness :
  resolve TrackerHeader.header nothing_known 10 InstanceMethod "DynamicScreen" "sendView" =
  resolve TvOSTrackerHeader.header nothing_known 10 InstanceMethod "DynamicScreen" "sendView".
Proof.
  apply (trackers_have_same_api nothing_known 10 InstanceMethod "DynamicScreen" "sendView").
  intros H. apply elem_of_cons in H as [H|H]; [done|]. by apply list_elem_of_singleton in H.
Defined.

Lemma tracker_init_available_witness : ∃ d m,
  Resolves (compiled ["TARGET_OS_IOS"] TrackerHeader.header) nothing_known
    InstanceMethod "SelfPromotions" "init" d m ∧ m_availability m = Unavailable.
Proof.
  destruct (tracker_init_available (compiled ["TARGET_OS_IOS"] TrackerHeader.header)
    TrackerHeader.SelfPromotions nothing_known) as (d & m & HR & H).
  - apply list_elem_of_here.
  - apply list_elem_of_In.
    apply (find_some (λ i, String.eqb (i_name i) "SelfPromotions")). vm_compute. reflexivity.
  - intros H. apply elem_of_cons in H as [H|H]; [done|]. by apply list_elem_of_singleton in H.
  - exists d, m. split; [exact HR|]. change (i_name TrackerHeader.SelfPromotions) with "SelfPromotions" in H.
    rewrite decide_False in H by (apply (bool_decide_unpack _); vm_compute; reflexivity).
    apply H.
Defined.

Lemma enum_round_trip_witness :
  raw_value ComScoreHeader.SCOROfflineCacheMode "SCOROfflineCacheModeLan" = Some 20103 ∧
  case_of_raw ComScoreHeader.SCOROfflineCacheMode 20103 = Some "SCOROfflineCacheModeLan".
Proof.
  assert (Hr : raw_value ComScoreHeader.SCOROfflineCacheMode "SCOROfflineCacheModeLan" = Some 20103)
    by (vm_compute; reflexivity).
  split; [exact Hr|].
  apply (enum_round_trip (compiled ["TARGET_OS_IOS"] ComScoreHeader.header)
    ComScoreHeader.SCOROfflineCacheMode "SCOROfflineCacheModeLan" 20103).
  - do 5 apply list_elem_of_further. apply list_elem_of_here.
  - apply list_elem_of_In, (find_some (λ e, String.eqb (e_name e) "SCOROfflineCacheMode")).
    vm_compute. reflexivity.
  - exact Hr.
Defined.
