(* ===== verification/HeaderScope.v ===== *)
(** * HeaderScope: the library headers name only what is there to be named.

    Every header declares its classes, protocols and enumerations before it uses
    them; and of the files of the ComScore SDK, each can be imported alone, but for
    those that forget to import Foundation. *)

From S2P Require Import Prelude ObjCInterface ObjCScope ObjCImport ComScoreHeader ComScoreFiles Headers.

(** ** The names of the system *)

Definition c_names : list string :=
  ["void"; "int"; "long"; "float"; "double"; "unsigned char"; "enum"; "bool"].

Definition foundation_names : list string :=
  ["NSObject"; "NSString"; "NSNumber"; "NSDate"; "NSURL"; "NSArray"; "NSDictionary";
   "NSMutableDictionary"; "NSCoding"; "NSCopying"; "NSInteger"; "NSTimeInterval"; "BOOL"].

(** The headers import UIKit and AVKit as well. *)
Definition system_names : list string :=
  c_names ++ foundation_names ++ ["AVPlayerViewController"].

(** ** Headers *)

Definition redefines (h : Header) : bool :=
  existsb (λ d, existsb (known system_names) (defines d)) h.

Lemma headers_scope_checked h :
  h ∈ library_headers → scope_check system_names [] [] h = true ∧ redefines h = false.
Proof.
  intros Hin.
  assert (Hall : forallb (λ h, scope_check system_names [] [] h && negb (redefines h))
    library_headers = true) by (vm_compute; reflexivity).
  rewrite forallb_forall in Hall. apply list_elem_of_In, Hall, andb_true_iff in Hin as [? H].
  split; [done|]. by apply negb_true_iff.
Qed.

Lemma redefines_false h d n :
  redefines h = false → d ∈ h → n ∈ defines d → n ∉ system_names.
Proof.
  intros Hr Hd Hn Hs. apply not_true_iff_false in Hr. apply Hr. unfold redefines.
  apply existsb_exists. exists d. split; [by apply list_elem_of_In|].
  apply existsb_exists. exists n. split; [by apply list_elem_of_In|by apply known_spec].
Qed.

(** ** The files of the ComScore SDK *)

Definition foundation_file : string := "Foundation/Foundation.h".

(** Foundation is not in the repository: [decls] are its declarations. *)
Definition with_foundation (decls : Header) : list HeaderFile :=
  mkFile foundation_file [] decls :: comscore_files.

(** The files that use Foundation and import it neither themselves nor through
    others. *)
Definition without_foundation : list string :=
  ["SCORLogLevel.h"; "SCORApplicationState.h"; "SCOROfflineCacheMode.h";
   "SCORUsagePropertiesAutoUpdateMode.h"; "SCORConfigurationType.h"; "SCORExtensionType.h";
   "SCORTrackingProperty.h"; "SCORAdType.h"; "SCORContentType.h";
   "SCORStreamingAnalyticsProtocol.h"].

(** A translation unit starts with Foundation, and the rest is in scope after it; or
    it does not import it, and is in scope only if it needs nothing of it. *)
Definition unit_checked (decls : Header) (f : HeaderFile) : bool :=
  match unit_of (with_foundation decls) (f_name f) with
  | Some (g :: rest) =>
      if String.eqb (f_name g) foundation_file then
        negb (known without_foundation (f_name f)) && unconditional (declarations rest) &&
        scope_check c_names foundation_names foundation_names (declarations rest)
      else
        unconditional (declarations (g :: rest)) &&
        Bool.eqb (scope_check c_names [] [] (declarations (g :: rest)))
          (negb (known without_foundation (f_name f)))
  | _ => false
  end.

Lemma units_checked decls f : f ∈ comscore_files → unit_checked decls f = true.
Proof.
  intros Hin.
  assert (Hall : forallb (unit_checked decls) comscore_files = true) by (vm_compute; reflexivity).
  rewrite forallb_forall in Hall. by apply Hall, list_elem_of_In.
Qed.

(** Every import names a file. *)
Definition imports_checked (decls : Header) (f : HeaderFile) : bool :=
  forallb (λ i, match find_file (with_foundation decls) i with Some _ => true | None => false end)
    (f_imports f).

Lemma import_found decls f i :
  f ∈ comscore_files → i ∈ f_imports f → is_Some (find_file (with_foundation decls) i).
Proof.
  intros Hf Hi.
  assert (Hall : forallb (imports_checked decls) comscore_files = true) by (vm_compute; reflexivity).
  rewrite forallb_forall in Hall. apply list_elem_of_In, Hall in Hf. unfold imports_checked in Hf.
  rewrite forallb_forall in Hf. apply list_elem_of_In, Hf in Hi.
  by destruct (find_file (with_foundation decls) i).
Qed.

Lemma files_distinct decls : NoDup (map f_name (with_foundation decls)).
Proof. apply (bool_decide_unpack _). vm_compute. reflexivity. Qed.

Lemma comscore_file_found decls f :
  f ∈ comscore_files → find_file (with_foundation decls) (f_name f) = Some f.
Proof.
  intros Hf. unfold find_file.
  apply (find_key String.eqb f_name (with_foundation decls) f String.eqb_eq);
    [apply files_distinct|by apply list_elem_of_further].
Qed.

(** [ComScore.h] imports them all, and so makes the header of the SDK. *)
Lemma umbrella_unit decls :
  unit_of (with_foundation decls) "ComScore.h" =
    Some (mkFile foundation_file [] decls :: comscore_files) ∧
  declarations comscore_files = ComScoreHeader.header.
Proof. split; vm_compute; reflexivity. Qed.

Section foundation.
Context (decls : Header).
Hypothesis decls_give :
  ∀ n, n ∈ foundation_names → given defines decls n ∧ given announces decls n.
Hypothesis decls_in_scope : in_scope c_names decls.
Hypothesis decls_unconditional : unconditional decls = true.

Lemma after_foundation h :
  scope_check c_names foundation_names foundation_names h = true → in_scope c_names (decls ++ h).
Proof.
  intros H. apply in_scope_after_app. split; [done|].
  eapply scope_check_ok; [..|exact H]; intros n Hn; by apply decls_give.
Qed.

Lemma unit_in_scope f unit :
  f ∈ comscore_files → unit_of (with_foundation decls) (f_name f) = Some unit →
  (∀ g, g ∈ unit → find_file (with_foundation decls) (f_name g) = Some g) →
  unconditional (declarations unit) = true ∧
  (in_scope c_names (declarations unit) ↔ f_name f ∉ without_foundation).
Proof.
  intros Hf Eu Hfind. pose proof (units_checked decls f Hf) as Hc. unfold unit_checked in Hc.
  rewrite Eu in Hc. destruct unit as [|g rest]; [done|]. rewrite <- known_spec, not_true_iff_false.
  destruct (String.eqb (f_name g) foundation_file) eqn:Eg.
  - apply String.eqb_eq in Eg. pose proof (Hfind g (list_elem_of_here _ _)) as Efg.
    rewrite Eg in Efg. injection Efg as <-. rewrite !andb_true_iff, negb_true_iff in Hc.
    destruct Hc as [[Hk Hu] Hs]. unfold declarations in *. simpl. split.
    + unfold unconditional in *. by rewrite forallb_app, decls_unconditional.
    + split; [done|]. intros _. by apply after_foundation.
  - apply andb_true_iff in Hc as [Hu Hs]. apply Bool.eqb_prop in Hs. split; [done|].
    rewrite <- scope_check_spec, Hs. apply negb_true_iff.
Qed.
End foundation.

(** ** Properties *)

(** C32. Every header of the libraries declares what it uses: a superclass and an
    adopted protocol are defined before, by the header or by the system, any other
    type is at least announced before, and no header defines a name of the system
    again. *)
Theorem declared_before_use h :
  h ∈ library_headers →
  in_scope system_names h ∧ ∀ d n, d ∈ h → n ∈ defines d → n ∉ system_names.
Proof.
  intros Hin. destruct (headers_scope_checked h Hin) as [Hs Hr].
  split; [by apply scope_check_spec|]. intros d n. by apply redefines_false.
Qed.

(** C31. The files of the ComScore SDK, on top of any Foundation that defines its
    names. Every import names a file; importing any file ends, and includes just the
    files that it reaches, each once; what the file and its imports declare is in
    scope, whatever macros are defined, unless the file is one of ten that use
    Foundation without importing it, which cannot be imported on their own; and
    importing [ComScore.h] includes every file. *)
Theorem comscore_files_self_contained decls :
  (∀ n, n ∈ foundation_names → given defines decls n ∧ given announces decls n) →
  in_scope c_names decls → unconditional decls = true →
  let files := with_foundation decls in
  (∀ f, f ∈ comscore_files →
     (∀ i, i ∈ f_imports f → is_Some (find_file files i)) ∧
     ∃ unit, unit_of files (f_name f) = Some unit ∧ NoDup (map f_name unit) ∧
       (∀ x, x ∈ map f_name unit ↔ Reaches files (f_name f) x) ∧
       (in_scope c_names (declarations unit) ↔ f_name f ∉ without_foundation) ∧
       (f_name f ∉ without_foundation → ∀ defs, in_scope c_names (compiled defs (declarations unit)))) ∧
  unit_of files "ComScore.h" = Some (mkFile foundation_file [] decls :: comscore_files) ∧
  declarations comscore_files = ComScoreHeader.header.
Proof.
  intros Hgive Hscope Hun files. split; [|apply umbrella_unit].
  intros f Hf. split; [intros i; by apply import_found|].
  destruct (unit_of_correct files (f_name f) f (comscore_file_found decls f Hf))
    as (unit & Eu & Hnd & Hr & Hfind).
  destruct (unit_in_scope decls Hgive Hscope Hun f unit Hf Eu Hfind) as [Hu Hs].
  exists unit. split_and!; [done..|]. intros Hn defs. by apply compiled_in_scope, Hs.
Qed.

(** ** Witnesses *)
Lemma declared_before_use_witness : in_scope system_names (compiled [] TvOSSpringHeader.header).
Proof.
  apply (declared_before_use (compiled [] TvOSSpringHeader.header)).
  do 7 apply list_elem_of_further. apply list_elem_of_here.
Defined.

(** Protocols that define the names of Foundation, and nothing else. *)
Definition bare_foundation : Header := map (λ n, D_protocol (mkProtocol None n [] [])) foundation_names.

Lemma comscore_files_self_contained_witness :
  unit_of (with_foundation bare_foundation) "ComScore.h" =
    Some (mkFile foundation_file [] bare_foundation :: comscore_files).
Proof.
  apply (comscore_files_self_contained bare_foundation).
  - intros n Hn. split; exists (D_protocol (mkProtocol None n [] []));
      (split; [exact (list_elem_of_fmap_2 _ _ _ Hn)|apply list_elem_of_here]).
  - apply scope_check_spec. vm_compute. reflexivity.
  - vm_compute. reflexivity.
Defined.
