(* ===== verification/Swift4.v ===== *)
(** * Swift4: the tracker libraries for two versions of the compiler.

    The repository keeps each tracker twice, built by Swift 4 and by a later
    compiler ([Libraries/swift4] and [Libraries]).  This file says what a client
    that was written against the older headers meets in the newer ones. *)

From S2P Require Import Prelude ObjCInterface TrackerHeader TvOSTrackerHeader Swift4TrackerHeader Swift4TvOSTrackerHeader Headers.

(** The headers of each tracker, the older first. *)
Definition versions : list (Header * Header) :=
  [ (compiled ["TARGET_OS_IOS"] Swift4TrackerHeader.header,
     compiled ["TARGET_OS_IOS"] TrackerHeader.header);
    (compiled [] Swift4TvOSTrackerHeader.header, compiled [] TvOSTrackerHeader.header) ].

(** ** What changed *)

(** The declarations that the newer headers do not have: class, kind and selector. *)
Definition removals : list (string * Kind * string) :=
  [ ("Gesture", InstanceMethod, "screen");
    ("TrackerConfigurationKeys", ClassMethod, "AutoTracking");
    ("TrackerConfigurationKeys", ClassMethod, "AutoTrackerToken") ].

Definition removed (c : string) (k : Kind) (sel : string) : bool :=
  existsb (λ r, String.eqb r.1.1 c && kind_eqb r.1.2 k && String.eqb r.2 sel) removals.

(** A [new] that was deprecated has become unavailable. *)
Definition upgraded (m : Method) : Method :=
  match m_availability m with
  | Deprecated =>
      if answers ClassMethod "new" m
      then mkMethod (m_kind m) (m_ret m) (m_base m) (m_parts m) Unavailable (m_designated m)
      else m
  | _ => m
  end.

(** The classes of a header with the methods that they declare themselves. *)
Definition class_methods (h : Header) : list (string * string * list Method) :=
  map (λ i, (i_name i, i_super i, methods_of (own_members h i))) (interfaces h).

Definition upgraded_class (c : string * string * list Method) : string * string * list Method :=
  let '(name, super, ms) := c in
  (name, super,
   map upgraded (List.filter (λ m, negb (removed name (m_kind m) (selector m))) ms)).

(** ** The lookup of a method *)

Lemma answers_upgraded k sel m : answers k sel (upgraded m) = answers k sel m.
Proof.
  unfold upgraded. destruct (m_availability m); try done. by destruct (answers ClassMethod "new" m).
Qed.

Lemma answers_true k sel m : answers k sel m = true → m_kind m = k ∧ selector m = sel.
Proof.
  unfold answers. intros [Hk Hs]%andb_true_iff. split; [|by apply String.eqb_eq].
  by destruct (m_kind m), k.
Qed.

Lemma find_method_upgraded c k sel ms :
  find_method k sel
    (map upgraded (List.filter (λ m, negb (removed c (m_kind m) (selector m))) ms)) =
  if removed c k sel then None else option_map upgraded (find_method k sel ms).
Proof.
  unfold find_method. induction ms as [|m ms IH]; simpl; [by destruct (removed c k sel)|].
  destruct (answers k sel m) eqn:Ea.
  - destruct (answers_true _ _ _ Ea) as [-> ->].
    destruct (removed c k sel) eqn:Er; simpl; [exact IH|by rewrite answers_upgraded, Ea].
  - destruct (removed c (m_kind m) (selector m)); simpl; [exact IH|].
    by rewrite answers_upgraded, Ea.
Qed.

(** ** The lookup of a class *)

Definition related (h4 h5 : Header) (i4 i5 : Interface) : Prop :=
  i_name i4 = i_name i5 ∧ i_super i4 = i_super i5 ∧
  ∀ k sel, find_method k sel (methods_of (own_members h5 i5)) =
    if removed (i_name i4) k sel then None
    else option_map upgraded (find_method k sel (methods_of (own_members h4 i4))).

Lemma classes_related h4 h5 l4 l5 :
  map (λ i, upgraded_class (i_name i, i_super i, methods_of (own_members h4 i))) l4 =
  map (λ i, (i_name i, i_super i, methods_of (own_members h5 i))) l5 →
  Forall2 (related h4 h5) l4 l5.
Proof.
  revert l5. induction l4 as [|i4 l4 IH]; intros [|i5 l5] E; try done.
  injection E as En Es Em E. constructor; [|by apply IH].
  split_and!; [done..|]. intros k sel. rewrite <- Em. apply find_method_upgraded.
Qed.

Lemma find_interface_related h4 h5 l4 l5 c :
  Forall2 (related h4 h5) l4 l5 →
  match find_interface l4 c, find_interface l5 c with
  | Some i4, Some i5 => i_name i4 = c ∧ related h4 h5 i4 i5
  | None, None => True
  | _, _ => False
  end.
Proof.
  unfold find_interface. induction 1 as [|i4 i5 l4 l5 Hi _ IH]; simpl; [done|].
  rewrite <- (proj1 Hi). by destruct (String.eqb_spec (i_name i4) c).
Qed.

(** What the newer header answers where the older one gives [r]. *)
Definition compatible (k : Kind) (sel : string) (r4 r5 : Resolution) : Prop :=
  match r4 with
  | Found d m =>
      removed d k sel = true ∨
      ∃ m', r5 = Found d m' ∧ (m' = m ∨ m_availability m = Deprecated ∧ m' = upgraded m)
  | r => r5 = r
  end.

Lemma resolve_compatible h4 h5 external fuel k c sel :
  Forall2 (related h4 h5) (interfaces h4) (interfaces h5) →
  compatible k sel (resolve h4 external fuel k c sel) (resolve h5 external fuel k c sel).
Proof.
  intros Hr. revert c. induction fuel as [|fuel IH]; intros c; simpl; [done|].
  pose proof (find_interface_related h4 h5 _ _ c Hr) as E.
  destruct (find_interface (interfaces h4) c) as [i4|],
    (find_interface (interfaces h5) c) as [i5|]; try done.
  - destruct E as (<- & _ & Es & Em). rewrite Em, <- Es.
    destruct (find_method k sel (methods_of (own_members h4 i4))) as [m|]; simpl.
    + destruct (removed (i_name i4) k sel) eqn:Er; [by left|]. right.
      exists (upgraded m). split; [done|]. unfold upgraded. destruct (m_availability m); auto.
    + destruct (removed (i_name i4) k sel); apply IH.
  - destruct (external c k sel) as [m|]; [|done]. right. eauto.
Qed.

Lemma versions_related h4 h5 :
  (h4, h5) ∈ versions → Forall2 (related h4 h5) (interfaces h4) (interfaces h5).
Proof.
  intros Hin. apply classes_related.
  assert (Hall : Forall (λ v, map upgraded_class (class_methods v.1) = class_methods v.2) versions)
    by (repeat apply Forall_cons_2; [vm_compute; reflexivity..|apply Forall_nil_2]).
  pose proof (proj1 (Forall_forall _ _) Hall (h4, h5) Hin) as E.
  unfold class_methods in E. by rewrite map_map in E.
Qed.

(** ** What was removed *)

Lemma removed_spec c k sel : removed c k sel = true ↔ (c, k, sel) ∈ removals.
Proof.
  unfold removed. rewrite existsb_exists. split.
  - intros ([[c' k'] sel'] & Hr & [[Hc Hk]%andb_true_iff Hs]%andb_true_iff).
    apply String.eqb_eq in Hc, Hs. simpl in *. subst.
    assert (k' = k) as -> by (by destruct k', k). by apply list_elem_of_In.
  - intros Hr. exists (c, k, sel). split; [by apply list_elem_of_In|]. simpl.
    rewrite !String.eqb_refl. by destruct k.
Qed.

(** The older header has the declaration, the newer has none. *)
Definition removal_checked (h4 h5 : Header) (r : string * Kind * string) : bool :=
  let '(c, k, sel) := r in
  match resolve h4 nothing_known (enough_fuel h4) k c sel with
  | Found d _ => String.eqb d c
  | _ => false
  end &&
  match resolve h5 nothing_known (enough_fuel h5) k c sel with NotFound => true | _ => false end.

Lemma removals_checked h4 h5 c k sel :
  (h4, h5) ∈ versions → removed c k sel = true →
  (∃ m, resolve h4 nothing_known (enough_fuel h4) k c sel = Found c m) ∧
  resolve h5 nothing_known (enough_fuel h5) k c sel = NotFound.
Proof.
  intros Hin Hr%removed_spec.
  assert (Hall : forallb (λ v, forallb (removal_checked v.1 v.2) removals) versions = true)
    by (vm_compute; reflexivity).
  rewrite forallb_forall in Hall. apply list_elem_of_In, Hall in Hin.
  rewrite forallb_forall in Hin. apply list_elem_of_In, Hin in Hr.
  unfold removal_checked, fst, snd in Hr.
  apply andb_true_iff in Hr as [H4 H5]. split.
  - destruct (resolve h4 _ _ _ _ _) as [d m| |]; [|done..].
    apply String.eqb_eq in H4 as ->. by exists m.
  - by destruct (resolve h5 _ _ _ _ _).
Qed.

Lemma versions_enums h4 h5 : (h4, h5) ∈ versions → enums h4 = enums h5.
Proof.
  assert (Hall : Forall (λ v, enums v.1 = enums v.2) versions)
    by (repeat apply Forall_cons_2; [vm_compute; reflexivity..|apply Forall_nil_2]).
  intros Hin. exact (proj1 (Forall_forall _ _) Hall (h4, h5) Hin).
Qed.

(** ** Properties *)

(** C30. A client of the trackers that was compiled with Swift 4 finds the same
    messages in the newer headers, for both targets: whatever a message resolved to,
    it resolves to the same declaration of the same class, unless it was [new],
    deprecated before and refused by the compiler now, or one of three declarations
    that were removed; what did not resolve does not resolve now, with the same fuel;
    the removed messages resolve to nothing of the library; and the enumerations are
    the same. *)
Theorem swift4_compatible h4 h5 external fuel k c sel :
  (h4, h5) ∈ versions →
  match resolve h4 external fuel k c sel with
  | Found d m =>
      removed d k sel = true ∨
      ∃ m', resolve h5 external fuel k c sel = Found d m' ∧
        (m' = m ∨ m_availability m = Deprecated ∧ m' = upgraded m)
  | r => resolve h5 external fuel k c sel = r
  end ∧
  (removed c k sel = true →
    (∃ m, resolve h4 nothing_known (enough_fuel h4) k c sel = Found c m) ∧
    resolve h5 nothing_known (enough_fuel h5) k c sel = NotFound) ∧
  enums h4 = enums h5.
Proof.
  intros Hin. split.
  { pose proof (resolve_compatible h4 h5 external fuel k c sel (versions_related h4 h5 Hin)) as Hc.
    unfold compatible in Hc. by destruct (resolve h4 external fuel k c sel). }
  split; [by apply removals_checked|by apply versions_enums].
Qed.

(** ** Witness *)
Lemma swift4_compatible_witness : ∃ m,
  resolve (compiled ["TARGET_OS_IOS"] TrackerHeader.header) nothing_known 10
    InstanceMethod "DynamicScreen" "sendView" = Found "AbstractScreen" m.
Proof.
  destruct (swift4_compatible (compiled ["TARGET_OS_IOS"] Swift4TrackerHeader.header)
    (compiled ["TARGET_OS_IOS"] TrackerHeader.header) nothing_known 10
    InstanceMethod "DynamicScreen" "sendView" (list_elem_of_here _ _)) as [H _].
  assert (Hr : ∃ m, resolve (compiled ["TARGET_OS_IOS"] Swift4TrackerHeader.header)
    nothing_known 10 InstanceMethod "DynamicScreen" "sendView" = Found "AbstractScreen" m)
    by (eexists; vm_compute; reflexivity).
  destruct Hr as [m Hr]. rewrite Hr in H. destruct H as [H|(m' & E & _)]; [done|]. by exists m'.
Defined.
